(** * The LoRaWAN stack controller

    A shallow embedding of [LoRaWANStack] (connectivity/lorawan/source/LoRaWANStack.cpp)
    and of the UTC helper of [LoRaWANInterface] (LoRaWANInterface.cpp).

    - The controller object is a record with one field per data member; member
      functions are functions on that record (explicit state passing).
    - The lower MAC ([LoRaMac], member [_loramac]) is not part of these sources.
      It is kept abstract: a type [M] of MAC states with the operations the
      controller calls (class [LoRaMac.Ops]).  The theorems of section [Facts]
      hold for every MAC; section [Scenarios] runs the closed examples on the
      test double of module [Stub].
    - Everything the controller does to the outside (events queued for the
      application, deferred calls posted to the event queue, calls into the MAC,
      stores to [_ctrl_flags]) is appended to a chronological [_trace]. *)

From Stdlib Require Import ZArith List Bool Lia.
Import ListNotations.
Local Open Scope Z_scope.

(** ** Machine integers and memory *)

Definition wrap (w z : Z) : Z := z mod 2 ^ w.
Definition uint8 (z : Z) : Z := wrap 8 z.
Definition uint16 (z : Z) : Z := wrap 16 z.
Definition uint32 (z : Z) : Z := wrap 32 z.

(** Conversion of a [uint16_t] to the [int16_t] a function returns. *)
Definition to_int16 (z : Z) : Z := if uint16 z <? 32768 then uint16 z else uint16 z - 65536.

Definition byte := Z.

(** [memcpy(dst, base + off, n)] seen from the reader: the [n] bytes found at
    offset [off] of the region [base] designates.  A region shorter than
    [off + n] would be read out of bounds in C; the model then yields the bytes
    that exist. *)
Definition bytes_at (base : list byte) (off n : Z) : list byte :=
  firstn (Z.to_nat n) (skipn (Z.to_nat off) base).

(** ** Constants of LoRaWANStack.cpp *)

Definition INVALID_PORT : Z := 0xFF.
Definition MAX_CONFIRMED_MSG_RETRIES : Z := 255.
Definition COMPLIANCE_TESTING_PORT : Z := 224.

Definition IDLE_FLAG : Z := 0x00000000.
Definition RETRY_EXHAUSTED_FLAG : Z := 0x00000001.
Definition MSG_RECVD_FLAG : Z := 0x00000002.
Definition CONNECTED_FLAG : Z := 0x00000004.
Definition USING_OTAA_FLAG : Z := 0x00000008.
Definition TX_DONE_FLAG : Z := 0x00000010.
Definition CONN_IN_PROGRESS_FLAG : Z := 0x00000020.
Definition REJOIN_IN_PROGRESS : Z := 0x00000040.

Definition MSG_FLAG_MASK : Z := 0x0F.

(** Message flags, as documented in LoRaWANStack.h and LoRaWANInterface.h. *)
Definition MSG_UNCONFIRMED_FLAG : Z := 0x01.
Definition MSG_CONFIRMED_FLAG : Z := 0x02.
Definition MSG_MULTICAST_FLAG : Z := 0x04.
Definition MSG_PROPRIETARY_FLAG : Z := 0x08.

(** Modelled from the spec: the macro [UNIX_GPS_EPOCH_DIFF] that
    LoRaWANInterface.cpp uses is defined outside these sources; its value is
    the UNIX to GPS epoch offset the specification states, 315964800 s. *)
Definition UNIX_GPS_EPOCH_DIFF : Z := 315964800.

(** Modelled from the spec: the enumeration [join_req_type_t] is declared
    outside these sources.  The controller compares its values as numbers; the
    rejoin types 0, 1 and 2 are the values of the RejoinType field of a
    ForceRejoinReq. *)
Definition REJOIN_REQUEST_TYPE0 : Z := 0.
Definition REJOIN_REQUEST_TYPE1 : Z := 1.
Definition REJOIN_REQUEST_TYPE2 : Z := 2.

(** ** Enumerations

    The types of this section and the next are declared in headers outside
    these sources; they have the enumerators and the members the two source
    files name. *)

Inductive device_states_t :=
| DEVICE_STATE_NOT_INITIALIZED
| DEVICE_STATE_IDLE
| DEVICE_STATE_CONNECTING
| DEVICE_STATE_JOINING
| DEVICE_STATE_AWAITING_JOIN_ACCEPT
| DEVICE_STATE_CONNECTED
| DEVICE_STATE_SCHEDULING
| DEVICE_STATE_SENDING
| DEVICE_STATE_AWAITING_ACK
| DEVICE_STATE_RECEIVING
| DEVICE_STATE_STATUS_CHECK
| DEVICE_STATE_SHUTDOWN.

Inductive lorawan_status_t :=
| LORAWAN_STATUS_OK
| LORAWAN_STATUS_BUSY
| LORAWAN_STATUS_WOULD_BLOCK
| LORAWAN_STATUS_SERVICE_UNKNOWN
| LORAWAN_STATUS_PARAMETER_INVALID
| LORAWAN_STATUS_FREQUENCY_INVALID
| LORAWAN_STATUS_DATARATE_INVALID
| LORAWAN_STATUS_FREQ_AND_DR_INVALID
| LORAWAN_STATUS_NO_NETWORK_JOINED
| LORAWAN_STATUS_LENGTH_ERROR
| LORAWAN_STATUS_DEVICE_OFF
| LORAWAN_STATUS_NOT_INITIALIZED
| LORAWAN_STATUS_UNSUPPORTED
| LORAWAN_STATUS_PORT_INVALID
| LORAWAN_STATUS_CONNECT_IN_PROGRESS
| LORAWAN_STATUS_NO_ACTIVE_SESSIONS
| LORAWAN_STATUS_NO_OP
| LORAWAN_STATUS_METADATA_NOT_AVAILABLE
| LORAWAN_STATUS_ALREADY_CONNECTED
| LORAWAN_STATUS_NO_BEACON_FOUND.

Inductive lorawan_event_t :=
| CONNECTED | DISCONNECTED | TX_DONE | TX_TIMEOUT | TX_ERROR | TX_CRYPTO_ERROR
| TX_SCHEDULING_ERROR | RX_DONE | RX_TIMEOUT | RX_ERROR | JOIN_FAILURE
| UPLINK_REQUIRED | AUTOMATIC_UPLINK_ERROR | CLASS_CHANGED
| SERVER_ACCEPTED_CLASS_IN_USE | SERVER_DOES_NOT_SUPPORT_CLASS_IN_USE
| DEVICE_TIME_SYNCHED | PING_SLOT_INFO_SYNCHED | BEACON_FOUND | BEACON_NOT_FOUND
| BEACON_LOCK | BEACON_MISS | SWITCH_CLASS_B_TO_A | CRYPTO_ERROR.

Inductive device_class_t := CLASS_A | CLASS_B | CLASS_C.

(** The server version the MAC reports; the controller only tests for [LW1_1]. *)
Inductive server_type_t := LW1_0_2 | LW1_0_3 | LW1_1.

Inductive rx_slot_t :=
| RX_SLOT_WIN_1
| RX_SLOT_WIN_2
| RX_SLOT_WIN_CLASS_C
| RX_SLOT_WIN_BEACON
| RX_SLOT_WIN_UNICAST_PING_SLOT
| RX_SLOT_WIN_MULTICAST_PING_SLOT.

Inductive mcps_type_t := MCPS_UNCONFIRMED | MCPS_CONFIRMED | MCPS_MULTICAST | MCPS_PROPRIETARY.

(** MLME confirm and indication types the controller dispatches on; every other
    enumerator of [mlme_type_t] takes the same (empty) path as [MLME_JOIN]. *)
Inductive mlme_type_t :=
| MLME_JOIN
| MLME_JOIN_ACCEPT
| MLME_LINK_CHECK
| MLME_RESET
| MLME_REKEY
| MLME_DEVICE_MODE
| MLME_FORCE_REJOIN
| MLME_PING_SLOT_INFO
| MLME_BEACON_ACQUISITION
| MLME_SCHEDULE_UPLINK.

(** Event status values the controller tests for; [LORAMAC_EVENT_INFO_STATUS_ERROR]
    stands for every enumerator that falls into a [default:] branch. *)
Inductive loramac_event_info_status_t :=
| LORAMAC_EVENT_INFO_STATUS_OK
| LORAMAC_EVENT_INFO_STATUS_ERROR
| LORAMAC_EVENT_INFO_STATUS_TX_TIMEOUT
| LORAMAC_EVENT_INFO_STATUS_TX_DR_PAYLOAD_SIZE_ERROR
| LORAMAC_EVENT_INFO_STATUS_CRYPTO_FAIL
| LORAMAC_EVENT_INFO_STATUS_BEACON_NOT_FOUND.

Inductive lorawan_connect_type_t := LORAWAN_CONNECTION_OTAA | LORAWAN_CONNECTION_ABP.

Inductive rx_msg_type := LORAMAC_RX_MLME_CONFIRM | LORAMAC_RX_MCPS_CONFIRM | LORAMAC_RX_MCPS_INDICATION.

(** The two software timers the controller owns. *)
Inductive timer_event_t := forced_timer | rejoin_type0_timer.

Scheme Equality for device_states_t.
Scheme Equality for lorawan_status_t.
Scheme Equality for lorawan_event_t.
Scheme Equality for device_class_t.
Scheme Equality for server_type_t.
Scheme Equality for rx_slot_t.
Scheme Equality for mcps_type_t.
Scheme Equality for mlme_type_t.
Scheme Equality for loramac_event_info_status_t.

(** ** Records exchanged with the MAC and the application *)

Record loramac_mcps_confirm_t := {
  conf_req_type : mcps_type_t;
  conf_status : loramac_event_info_status_t;
  conf_channel : Z;
  conf_data_rate : Z;
  conf_tx_power : Z;
  conf_tx_toa : Z;
  conf_nb_retries : Z;
  conf_ul_frame_counter : Z
}.

(** [ind_buffer] is the memory the pointer [buffer] designates ([None] for NULL);
    it lives in storage the MAC owns. *)
Record loramac_mcps_indication_t := {
  ind_type : mcps_type_t;
  ind_status : loramac_event_info_status_t;
  ind_port : Z;
  ind_buffer : option (list byte);
  ind_buffer_size : Z;
  ind_is_data_recvd : bool;
  ind_is_ack_recvd : bool;
  ind_pending : bool;
  ind_fpending_status : bool;
  ind_dl_frame_counter : Z;
  ind_rx_datarate : Z;
  ind_rssi : Z;
  ind_snr : Z;
  ind_channel : Z;
  ind_rx_toa : Z
}.

Record loramac_mlme_indication_t := {
  indication_type : mlme_type_t;
  mlme_ind_pending : bool
}.

Record loramac_mlme_confirm_t := {
  mlme_type : mlme_type_t;
  mlme_status : loramac_event_info_status_t;
  demod_margin : Z;
  nb_gateways : Z;
  classType : device_class_t;
  rejoin_type : Z;
  datarate : Z;
  period : Z;
  max_retries : Z
}.

Record lorawan_connect_t := { connect_type : option lorawan_connect_type_t }.

Record lorawan_tx_metadata := {
  tx_stale : bool;
  tx_channel : Z;
  tx_data_rate : Z;
  tx_tx_power : Z;
  tx_tx_toa : Z;
  tx_nb_retries : Z
}.

Record lorawan_rx_metadata := {
  rx_stale : bool;
  rx_rx_datarate : Z;
  rx_rssi : Z;
  rx_snr : Z;
  rx_channel : Z;
  rx_rx_toa : Z
}.

Record lorawan_session_t := {
  active : bool;
  downlink_counter : Z;
  uplink_counter : Z
}.

(** [loramac_rx_message_t]: of the union [msg] the controller only uses four
    fields of [msg.mcps_indication]. *)
Record loramac_rx_message_t := {
  receive_ready : bool;
  rx_type : rx_msg_type;
  msg_buffer : option (list byte);
  msg_buffer_size : Z;
  msg_port : Z;
  msg_type : mcps_type_t;
  pending_size : Z;
  prev_read_size : Z
}.

(** Which application callbacks are registered. *)
Record lorawan_app_callbacks_t := {
  events : bool;
  link_check_resp : bool;
  battery_level : bool
}.

(** Value returned through an [int16_t]: a status code or a byte count. *)
Inductive ret16 :=
| Status (st : lorawan_status_t)
| Len (n : Z).

(** ** Build configuration

    Macros of the Mbed OS configuration system and of headers outside these
    sources, taken as parameters. *)
Class BuildConfig := {
  (** [MBED_CONF_LORA_VERSION == LORAWAN_VERSION_1_1] *)
  MBED_CONF_LORA_VERSION_1_1 : bool;
  MBED_CONF_LORA_OVER_THE_AIR_ACTIVATION : bool;
  MBED_CONF_LORA_AUTOMATIC_UPLINK_MESSAGE : bool;
  (** [None] when the macro is not defined *)
  MBED_CONF_LORA_APP_PORT : option Z;
  MBED_CONF_LORA_REJOIN_TYPE1_SEND_PERIOD : Z;
  (** [defined(LORAWAN_COMPLIANCE_TEST)] *)
  LORAWAN_COMPLIANCE_TEST : bool;
  LORAWAN_DEFAULT_QOS : Z;
  (** [sizeof _rx_payload] *)
  LORAMAC_PHY_MAXPAYLOAD : Z;
  (** width in bits of [lorawan_time_t] *)
  lorawan_time_bits : Z
}.

(** ** The interface of the lower MAC *)

(** Calls into the MAC, as they are recorded in the trace: the arguments, and the
    result where the member function returns one. *)
Module MacCall.
Inductive t :=
| initialize (r : lorawan_status_t)
| disconnect
| set_batterylevel_callback
| prepare_join (params : option lorawan_connect_t) (is_otaa : bool) (r : lorawan_status_t)
| join (is_otaa : bool) (r : lorawan_status_t)
| continue_joining_process (r : bool)
| prepare_ongoing_tx (port : Z) (data : option (list byte)) (length flags num_retries r : Z)
| send_ongoing_tx (r : lorawan_status_t)
| continue_sending_process (r : bool)
| clear_tx_pipe (r : lorawan_status_t)
| set_tx_ongoing (ongoing : bool)
| reset_ongoing_tx
| post_process_mcps_req
| post_process_mcps_ind
| post_process_mlme_ind
| on_radio_tx_done (timestamp : Z)
| on_radio_tx_timeout
| on_radio_rx_done (payload : list byte) (size rssi snr timestamp : Z)
| on_radio_rx_timeout (is_timeout : bool)
| setup_link_check_request
| setup_device_time_request
| add_ping_slot_info_req
| setup_reset_indication
| setup_rekey_indication
| setup_device_mode_indication (c : device_class_t)
| set_device_class (c : device_class_t) (r : lorawan_status_t)
| remove_channel_plan (r : lorawan_status_t)
| rejoin (rejoin_type : Z) (is_forced : bool) (datarate : Z)
| timer_init (timer : timer_event_t)
| timer_start (timer : timer_event_t) (timeout : Z)
| timer_stop (timer : timer_event_t)
| set_gps_time (gps_time : Z).
End MacCall.

(** The member functions of [LoRaMac] (and of its [LoRaWANTimeHandler]) the
    controller uses.  Queries read the MAC state; commands return the new one. *)
Module LoRaMac.
Class Ops (M : Type) := {
  get_device_class : M -> device_class_t;
  get_server_type : M -> server_type_t;
  nwk_joined : M -> bool;
  tx_ongoing : M -> bool;
  get_current_slot : M -> rx_slot_t;
  get_mcps_confirmation : M -> loramac_mcps_confirm_t;
  get_mcps_indication : M -> loramac_mcps_indication_t;
  get_mlme_indication : M -> loramac_mlme_indication_t;
  get_current_adr_ack_limit : M -> Z;
  get_prev_QOS_level : M -> Z;
  get_QOS_level : M -> Z;
  (** [get_current_time()], also reached as [get_lora_time()->get_current_time()] *)
  get_current_time : M -> Z;
  get_gps_time : M -> Z;
  (** [get_rejoin_parameters(max_time, max_count)] *)
  get_rejoin_parameters : M -> Z * Z;
  initialize : M -> lorawan_status_t * M;
  disconnect : M -> M;
  set_batterylevel_callback : M -> M;
  prepare_join : option lorawan_connect_t -> bool -> M -> lorawan_status_t * M;
  join : bool -> M -> lorawan_status_t * M;
  continue_joining_process : M -> bool * M;
  prepare_ongoing_tx : Z -> option (list byte) -> Z -> Z -> Z -> M -> Z * M;
  send_ongoing_tx : M -> lorawan_status_t * M;
  continue_sending_process : M -> bool * M;
  clear_tx_pipe : M -> lorawan_status_t * M;
  set_tx_ongoing : bool -> M -> M;
  reset_ongoing_tx : M -> M;
  post_process_mcps_req : M -> M;
  post_process_mcps_ind : M -> M;
  post_process_mlme_ind : M -> M;
  on_radio_tx_done : Z -> M -> M;
  on_radio_tx_timeout : M -> M;
  (** [on_radio_rx_done(payload, size, rssi, snr, timestamp, mlme_confirm_cb)]:
      the new MAC state and the MLME confirms the MAC hands to the callback,
      in order. *)
  on_radio_rx_done : list byte -> Z -> Z -> Z -> Z -> M -> M * list loramac_mlme_confirm_t;
  on_radio_rx_timeout : bool -> M -> M;
  setup_link_check_request : M -> M;
  setup_device_time_request : M -> M;
  add_ping_slot_info_req : M -> M;
  setup_reset_indication : M -> M;
  setup_rekey_indication : M -> M;
  setup_device_mode_indication : device_class_t -> M -> M;
  set_device_class : device_class_t -> M -> lorawan_status_t * M;
  remove_channel_plan : M -> lorawan_status_t * M;
  rejoin : Z -> bool -> Z -> M -> M;
  timer_init : timer_event_t -> M -> M;
  timer_start : timer_event_t -> Z -> M -> M;
  timer_stop : timer_event_t -> M -> M;
  set_gps_time : Z -> M -> M
}.
End LoRaMac.

(** ** What the controller does to the outside *)

(** Member functions posted to the event queue with [_queue->call(this, ...)];
    they run later, as steps of their own. *)
Inductive deferred :=
| post_state_controller (new_state : device_states_t)
| post_process_rejoin (rejoin_type : Z) (is_forced : bool)
| post_process_rejoin_type0
| post_send_automatic_uplink_message (port : Z)
| post_process_transmission
| post_process_transmission_timeout
| post_process_reception (payload : list byte) (size rssi snr : Z)
| post_process_reception_timeout (is_timeout : bool).

Inductive effect :=
(** [_queue->call(_callbacks.events, e)] *)
| Event (e : lorawan_event_t)
(** [_queue->call(_callbacks.link_check_resp, demod_margin, nb_gateways)] *)
| LinkCheckResp (margin gateways : Z)
| Post (d : deferred)
| Call (c : MacCall.t)
(** [_ctrl_flags |= mask], [_ctrl_flags &= ~mask], [_ctrl_flags = v] *)
| FlagsSet (mask : Z)
| FlagsClear (mask : Z)
| FlagsStore (v : Z)
(** an [MBED_ASSERT] whose condition is false *)
| AssertFailed.

Section Controller.
Context {cfg : BuildConfig} {M : Type} {mac_ops : LoRaMac.Ops M}.

(** The data members of [LoRaWANStack] (LoRaWANStack.h), plus the ghost [_trace]. *)
Record LoRaWANStack := {
  _loramac : M;  (* the lower MAC *)
  _device_current_state : device_states_t;
  _callbacks : lorawan_app_callbacks_t;
  _lw_session : lorawan_session_t;
  _rx_msg : loramac_rx_message_t;
  _tx_metadata : lorawan_tx_metadata;
  _rx_metadata : lorawan_rx_metadata;
  _num_retry : Z;  (* uint8_t *)
  _qos_cnt : Z;  (* uint8_t *)
  _ctrl_flags : Z;  (* uint32_t *)
  _app_port : Z;  (* uint8_t *)
  _link_check_requested : bool;
  _reset_ind_requested : bool;
  _rekey_ind_needed : bool;
  _rekey_ind_counter : Z;  (* uint8_t *)
  _device_mode_ind_needed : bool;
  _device_mode_ind_ongoing : bool;
  _new_class_type : device_class_t;  (* uint8_t holding a device_class_t *)
  _automatic_uplink_ongoing : bool;
  _rx_payload_in_use : bool;  (* core_util_atomic_flag *)
  _rx_payload : list byte;  (* uint8_t[LORAMAC_PHY_MAXPAYLOAD] *)
  _queue : bool;  (* whether the EventQueue pointer is set *)
  _tx_timestamp : Z;  (* lorawan_time_t *)
  _rx_timestamp : Z;  (* lorawan_time_t *)
  _rejoin_type1_send_period : Z;  (* uint32_t *)
  _rejoin_type1_stamp : Z;  (* uint32_t *)
  _rejoin_type0_counter : Z;  (* uint32_t *)
  _forced_datarate : Z;  (* uint8_t *)
  _forced_period : Z;  (* uint32_t *)
  _forced_retry_count : Z;  (* uint8_t *)
  _forced_rejoin_type : Z;  (* join_req_type_t *)
  _forced_counter : Z;  (* uint8_t *)
  _ping_slot_info_requested : bool;
  _device_time_requested : bool;
  _last_beacon_rx_time : Z;  (* lorawan_time_t *)
  _trace : list effect  (* ghost: what the controller did to the outside, oldest first *)
}.

(** Field updates. *)
Definition with_loramac (v : M) (s : LoRaWANStack) : LoRaWANStack :=
  {| _loramac := v; _device_current_state := _device_current_state s; _callbacks := _callbacks s;
     _lw_session := _lw_session s; _rx_msg := _rx_msg s; _tx_metadata := _tx_metadata s;
     _rx_metadata := _rx_metadata s; _num_retry := _num_retry s; _qos_cnt := _qos_cnt s;
     _ctrl_flags := _ctrl_flags s; _app_port := _app_port s;
     _link_check_requested := _link_check_requested s;
     _reset_ind_requested := _reset_ind_requested s; _rekey_ind_needed := _rekey_ind_needed s;
     _rekey_ind_counter := _rekey_ind_counter s;
     _device_mode_ind_needed := _device_mode_ind_needed s;
     _device_mode_ind_ongoing := _device_mode_ind_ongoing s; _new_class_type := _new_class_type s;
     _automatic_uplink_ongoing := _automatic_uplink_ongoing s;
     _rx_payload_in_use := _rx_payload_in_use s; _rx_payload := _rx_payload s; _queue := _queue s;
     _tx_timestamp := _tx_timestamp s; _rx_timestamp := _rx_timestamp s;
     _rejoin_type1_send_period := _rejoin_type1_send_period s;
     _rejoin_type1_stamp := _rejoin_type1_stamp s;
     _rejoin_type0_counter := _rejoin_type0_counter s; _forced_datarate := _forced_datarate s;
     _forced_period := _forced_period s; _forced_retry_count := _forced_retry_count s;
     _forced_rejoin_type := _forced_rejoin_type s; _forced_counter := _forced_counter s;
     _ping_slot_info_requested := _ping_slot_info_requested s;
     _device_time_requested := _device_time_requested s;
     _last_beacon_rx_time := _last_beacon_rx_time s; _trace := _trace s |}.
Definition with_device_current_state (v : device_states_t) (s : LoRaWANStack) : LoRaWANStack :=
  {| _loramac := _loramac s; _device_current_state := v; _callbacks := _callbacks s;
     _lw_session := _lw_session s; _rx_msg := _rx_msg s; _tx_metadata := _tx_metadata s;
     _rx_metadata := _rx_metadata s; _num_retry := _num_retry s; _qos_cnt := _qos_cnt s;
     _ctrl_flags := _ctrl_flags s; _app_port := _app_port s;
     _link_check_requested := _link_check_requested s;
     _reset_ind_requested := _reset_ind_requested s; _rekey_ind_needed := _rekey_ind_needed s;
     _rekey_ind_counter := _rekey_ind_counter s;
     _device_mode_ind_needed := _device_mode_ind_needed s;
     _device_mode_ind_ongoing := _device_mode_ind_ongoing s; _new_class_type := _new_class_type s;
     _automatic_uplink_ongoing := _automatic_uplink_ongoing s;
     _rx_payload_in_use := _rx_payload_in_use s; _rx_payload := _rx_payload s; _queue := _queue s;
     _tx_timestamp := _tx_timestamp s; _rx_timestamp := _rx_timestamp s;
     _rejoin_type1_send_period := _rejoin_type1_send_period s;
     _rejoin_type1_stamp := _rejoin_type1_stamp s;
     _rejoin_type0_counter := _rejoin_type0_counter s; _forced_datarate := _forced_datarate s;
     _forced_period := _forced_period s; _forced_retry_count := _forced_retry_count s;
     _forced_rejoin_type := _forced_rejoin_type s; _forced_counter := _forced_counter s;
     _ping_slot_info_requested := _ping_slot_info_requested s;
     _device_time_requested := _device_time_requested s;
     _last_beacon_rx_time := _last_beacon_rx_time s; _trace := _trace s |}.
Definition with_callbacks (v : lorawan_app_callbacks_t) (s : LoRaWANStack) : LoRaWANStack :=
  {| _loramac := _loramac s; _device_current_state := _device_current_state s; _callbacks := v;
     _lw_session := _lw_session s; _rx_msg := _rx_msg s; _tx_metadata := _tx_metadata s;
     _rx_metadata := _rx_metadata s; _num_retry := _num_retry s; _qos_cnt := _qos_cnt s;
     _ctrl_flags := _ctrl_flags s; _app_port := _app_port s;
     _link_check_requested := _link_check_requested s;
     _reset_ind_requested := _reset_ind_requested s; _rekey_ind_needed := _rekey_ind_needed s;
     _rekey_ind_counter := _rekey_ind_counter s;
     _device_mode_ind_needed := _device_mode_ind_needed s;
     _device_mode_ind_ongoing := _device_mode_ind_ongoing s; _new_class_type := _new_class_type s;
     _automatic_uplink_ongoing := _automatic_uplink_ongoing s;
     _rx_payload_in_use := _rx_payload_in_use s; _rx_payload := _rx_payload s; _queue := _queue s;
     _tx_timestamp := _tx_timestamp s; _rx_timestamp := _rx_timestamp s;
     _rejoin_type1_send_period := _rejoin_type1_send_period s;
     _rejoin_type1_stamp := _rejoin_type1_stamp s;
     _rejoin_type0_counter := _rejoin_type0_counter s; _forced_datarate := _forced_datarate s;
     _forced_period := _forced_period s; _forced_retry_count := _forced_retry_count s;
     _forced_rejoin_type := _forced_rejoin_type s; _forced_counter := _forced_counter s;
     _ping_slot_info_requested := _ping_slot_info_requested s;
     _device_time_requested := _device_time_requested s;
     _last_beacon_rx_time := _last_beacon_rx_time s; _trace := _trace s |}.
Definition with_lw_session (v : lorawan_session_t) (s : LoRaWANStack) : LoRaWANStack :=
  {| _loramac := _loramac s; _device_current_state := _device_current_state s;
     _callbacks := _callbacks s; _lw_session := v; _rx_msg := _rx_msg s;
     _tx_metadata := _tx_metadata s; _rx_metadata := _rx_metadata s; _num_retry := _num_retry s;
     _qos_cnt := _qos_cnt s; _ctrl_flags := _ctrl_flags s; _app_port := _app_port s;
     _link_check_requested := _link_check_requested s;
     _reset_ind_requested := _reset_ind_requested s; _rekey_ind_needed := _rekey_ind_needed s;
     _rekey_ind_counter := _rekey_ind_counter s;
     _device_mode_ind_needed := _device_mode_ind_needed s;
     _device_mode_ind_ongoing := _device_mode_ind_ongoing s; _new_class_type := _new_class_type s;
     _automatic_uplink_ongoing := _automatic_uplink_ongoing s;
     _rx_payload_in_use := _rx_payload_in_use s; _rx_payload := _rx_payload s; _queue := _queue s;
     _tx_timestamp := _tx_timestamp s; _rx_timestamp := _rx_timestamp s;
     _rejoin_type1_send_period := _rejoin_type1_send_period s;
     _rejoin_type1_stamp := _rejoin_type1_stamp s;
     _rejoin_type0_counter := _rejoin_type0_counter s; _forced_datarate := _forced_datarate s;
     _forced_period := _forced_period s; _forced_retry_count := _forced_retry_count s;
     _forced_rejoin_type := _forced_rejoin_type s; _forced_counter := _forced_counter s;
     _ping_slot_info_requested := _ping_slot_info_requested s;
     _device_time_requested := _device_time_requested s;
     _last_beacon_rx_time := _last_beacon_rx_time s; _trace := _trace s |}.
Definition with_rx_msg (v : loramac_rx_message_t) (s : LoRaWANStack) : LoRaWANStack :=
  {| _loramac := _loramac s; _device_current_state := _device_current_state s;
     _callbacks := _callbacks s; _lw_session := _lw_session s; _rx_msg := v;
     _tx_metadata := _tx_metadata s; _rx_metadata := _rx_metadata s; _num_retry := _num_retry s;
     _qos_cnt := _qos_cnt s; _ctrl_flags := _ctrl_flags s; _app_port := _app_port s;
     _link_check_requested := _link_check_requested s;
     _reset_ind_requested := _reset_ind_requested s; _rekey_ind_needed := _rekey_ind_needed s;
     _rekey_ind_counter := _rekey_ind_counter s;
     _device_mode_ind_needed := _device_mode_ind_needed s;
     _device_mode_ind_ongoing := _device_mode_ind_ongoing s; _new_class_type := _new_class_type s;
     _automatic_uplink_ongoing := _automatic_uplink_ongoing s;
     _rx_payload_in_use := _rx_payload_in_use s; _rx_payload := _rx_payload s; _queue := _queue s;
     _tx_timestamp := _tx_timestamp s; _rx_timestamp := _rx_timestamp s;
     _rejoin_type1_send_period := _rejoin_type1_send_period s;
     _rejoin_type1_stamp := _rejoin_type1_stamp s;
     _rejoin_type0_counter := _rejoin_type0_counter s; _forced_datarate := _forced_datarate s;
     _forced_period := _forced_period s; _forced_retry_count := _forced_retry_count s;
     _forced_rejoin_type := _forced_rejoin_type s; _forced_counter := _forced_counter s;
     _ping_slot_info_requested := _ping_slot_info_requested s;
     _device_time_requested := _device_time_requested s;
     _last_beacon_rx_time := _last_beacon_rx_time s; _trace := _trace s |}.
Definition with_tx_metadata (v : lorawan_tx_metadata) (s : LoRaWANStack) : LoRaWANStack :=
  {| _loramac := _loramac s; _device_current_state := _device_current_state s;
     _callbacks := _callbacks s; _lw_session := _lw_session s; _rx_msg := _rx_msg s;
     _tx_metadata := v; _rx_metadata := _rx_metadata s; _num_retry := _num_retry s;
     _qos_cnt := _qos_cnt s; _ctrl_flags := _ctrl_flags s; _app_port := _app_port s;
     _link_check_requested := _link_check_requested s;
     _reset_ind_requested := _reset_ind_requested s; _rekey_ind_needed := _rekey_ind_needed s;
     _rekey_ind_counter := _rekey_ind_counter s;
     _device_mode_ind_needed := _device_mode_ind_needed s;
     _device_mode_ind_ongoing := _device_mode_ind_ongoing s; _new_class_type := _new_class_type s;
     _automatic_uplink_ongoing := _automatic_uplink_ongoing s;
     _rx_payload_in_use := _rx_payload_in_use s; _rx_payload := _rx_payload s; _queue := _queue s;
     _tx_timestamp := _tx_timestamp s; _rx_timestamp := _rx_timestamp s;
     _rejoin_type1_send_period := _rejoin_type1_send_period s;
     _rejoin_type1_stamp := _rejoin_type1_stamp s;
     _rejoin_type0_counter := _rejoin_type0_counter s; _forced_datarate := _forced_datarate s;
     _forced_period := _forced_period s; _forced_retry_count := _forced_retry_count s;
     _forced_rejoin_type := _forced_rejoin_type s; _forced_counter := _forced_counter s;
     _ping_slot_info_requested := _ping_slot_info_requested s;
     _device_time_requested := _device_time_requested s;
     _last_beacon_rx_time := _last_beacon_rx_time s; _trace := _trace s |}.
Definition with_rx_metadata (v : lorawan_rx_metadata) (s : LoRaWANStack) : LoRaWANStack :=
  {| _loramac := _loramac s; _device_current_state := _device_current_state s;
     _callbacks := _callbacks s; _lw_session := _lw_session s; _rx_msg := _rx_msg s;
     _tx_metadata := _tx_metadata s; _rx_metadata := v; _num_retry := _num_retry s;
     _qos_cnt := _qos_cnt s; _ctrl_flags := _ctrl_flags s; _app_port := _app_port s;
     _link_check_requested := _link_check_requested s;
     _reset_ind_requested := _reset_ind_requested s; _rekey_ind_needed := _rekey_ind_needed s;
     _rekey_ind_counter := _rekey_ind_counter s;
     _device_mode_ind_needed := _device_mode_ind_needed s;
     _device_mode_ind_ongoing := _device_mode_ind_ongoing s; _new_class_type := _new_class_type s;
     _automatic_uplink_ongoing := _automatic_uplink_ongoing s;
     _rx_payload_in_use := _rx_payload_in_use s; _rx_payload := _rx_payload s; _queue := _queue s;
     _tx_timestamp := _tx_timestamp s; _rx_timestamp := _rx_timestamp s;
     _rejoin_type1_send_period := _rejoin_type1_send_period s;
     _rejoin_type1_stamp := _rejoin_type1_stamp s;
     _rejoin_type0_counter := _rejoin_type0_counter s; _forced_datarate := _forced_datarate s;
     _forced_period := _forced_period s; _forced_retry_count := _forced_retry_count s;
     _forced_rejoin_type := _forced_rejoin_type s; _forced_counter := _forced_counter s;
     _ping_slot_info_requested := _ping_slot_info_requested s;
     _device_time_requested := _device_time_requested s;
     _last_beacon_rx_time := _last_beacon_rx_time s; _trace := _trace s |}.
Definition with_num_retry (v : Z) (s : LoRaWANStack) : LoRaWANStack :=
  {| _loramac := _loramac s; _device_current_state := _device_current_state s;
     _callbacks := _callbacks s; _lw_session := _lw_session s; _rx_msg := _rx_msg s;
     _tx_metadata := _tx_metadata s; _rx_metadata := _rx_metadata s; _num_retry := v;
     _qos_cnt := _qos_cnt s; _ctrl_flags := _ctrl_flags s; _app_port := _app_port s;
     _link_check_requested := _link_check_requested s;
     _reset_ind_requested := _reset_ind_requested s; _rekey_ind_needed := _rekey_ind_needed s;
     _rekey_ind_counter := _rekey_ind_counter s;
     _device_mode_ind_needed := _device_mode_ind_needed s;
     _device_mode_ind_ongoing := _device_mode_ind_ongoing s; _new_class_type := _new_class_type s;
     _automatic_uplink_ongoing := _automatic_uplink_ongoing s;
     _rx_payload_in_use := _rx_payload_in_use s; _rx_payload := _rx_payload s; _queue := _queue s;
     _tx_timestamp := _tx_timestamp s; _rx_timestamp := _rx_timestamp s;
     _rejoin_type1_send_period := _rejoin_type1_send_period s;
     _rejoin_type1_stamp := _rejoin_type1_stamp s;
     _rejoin_type0_counter := _rejoin_type0_counter s; _forced_datarate := _forced_datarate s;
     _forced_period := _forced_period s; _forced_retry_count := _forced_retry_count s;
     _forced_rejoin_type := _forced_rejoin_type s; _forced_counter := _forced_counter s;
     _ping_slot_info_requested := _ping_slot_info_requested s;
     _device_time_requested := _device_time_requested s;
     _last_beacon_rx_time := _last_beacon_rx_time s; _trace := _trace s |}.
Definition with_qos_cnt (v : Z) (s : LoRaWANStack) : LoRaWANStack :=
  {| _loramac := _loramac s; _device_current_state := _device_current_state s;
     _callbacks := _callbacks s; _lw_session := _lw_session s; _rx_msg := _rx_msg s;
     _tx_metadata := _tx_metadata s; _rx_metadata := _rx_metadata s; _num_retry := _num_retry s;
     _qos_cnt := v; _ctrl_flags := _ctrl_flags s; _app_port := _app_port s;
     _link_check_requested := _link_check_requested s;
     _reset_ind_requested := _reset_ind_requested s; _rekey_ind_needed := _rekey_ind_needed s;
     _rekey_ind_counter := _rekey_ind_counter s;
     _device_mode_ind_needed := _device_mode_ind_needed s;
     _device_mode_ind_ongoing := _device_mode_ind_ongoing s; _new_class_type := _new_class_type s;
     _automatic_uplink_ongoing := _automatic_uplink_ongoing s;
     _rx_payload_in_use := _rx_payload_in_use s; _rx_payload := _rx_payload s; _queue := _queue s;
     _tx_timestamp := _tx_timestamp s; _rx_timestamp := _rx_timestamp s;
     _rejoin_type1_send_period := _rejoin_type1_send_period s;
     _rejoin_type1_stamp := _rejoin_type1_stamp s;
     _rejoin_type0_counter := _rejoin_type0_counter s; _forced_datarate := _forced_datarate s;
     _forced_period := _forced_period s; _forced_retry_count := _forced_retry_count s;
     _forced_rejoin_type := _forced_rejoin_type s; _forced_counter := _forced_counter s;
     _ping_slot_info_requested := _ping_slot_info_requested s;
     _device_time_requested := _device_time_requested s;
     _last_beacon_rx_time := _last_beacon_rx_time s; _trace := _trace s |}.
Definition with_ctrl_flags (v : Z) (s : LoRaWANStack) : LoRaWANStack :=
  {| _loramac := _loramac s; _device_current_state := _device_current_state s;
     _callbacks := _callbacks s; _lw_session := _lw_session s; _rx_msg := _rx_msg s;
     _tx_metadata := _tx_metadata s; _rx_metadata := _rx_metadata s; _num_retry := _num_retry s;
     _qos_cnt := _qos_cnt s; _ctrl_flags := v; _app_port := _app_port s;
     _link_check_requested := _link_check_requested s;
     _reset_ind_requested := _reset_ind_requested s; _rekey_ind_needed := _rekey_ind_needed s;
     _rekey_ind_counter := _rekey_ind_counter s;
     _device_mode_ind_needed := _device_mode_ind_needed s;
     _device_mode_ind_ongoing := _device_mode_ind_ongoing s; _new_class_type := _new_class_type s;
     _automatic_uplink_ongoing := _automatic_uplink_ongoing s;
     _rx_payload_in_use := _rx_payload_in_use s; _rx_payload := _rx_payload s; _queue := _queue s;
     _tx_timestamp := _tx_timestamp s; _rx_timestamp := _rx_timestamp s;
     _rejoin_type1_send_period := _rejoin_type1_send_period s;
     _rejoin_type1_stamp := _rejoin_type1_stamp s;
     _rejoin_type0_counter := _rejoin_type0_counter s; _forced_datarate := _forced_datarate s;
     _forced_period := _forced_period s; _forced_retry_count := _forced_retry_count s;
     _forced_rejoin_type := _forced_rejoin_type s; _forced_counter := _forced_counter s;
     _ping_slot_info_requested := _ping_slot_info_requested s;
     _device_time_requested := _device_time_requested s;
     _last_beacon_rx_time := _last_beacon_rx_time s; _trace := _trace s |}.
Definition with_app_port (v : Z) (s : LoRaWANStack) : LoRaWANStack :=
  {| _loramac := _loramac s; _device_current_state := _device_current_state s;
     _callbacks := _callbacks s; _lw_session := _lw_session s; _rx_msg := _rx_msg s;
     _tx_metadata := _tx_metadata s; _rx_metadata := _rx_metadata s; _num_retry := _num_retry s;
     _qos_cnt := _qos_cnt s; _ctrl_flags := _ctrl_flags s; _app_port := v;
     _link_check_requested := _link_check_requested s;
     _reset_ind_requested := _reset_ind_requested s; _rekey_ind_needed := _rekey_ind_needed s;
     _rekey_ind_counter := _rekey_ind_counter s;
     _device_mode_ind_needed := _device_mode_ind_needed s;
     _device_mode_ind_ongoing := _device_mode_ind_ongoing s; _new_class_type := _new_class_type s;
     _automatic_uplink_ongoing := _automatic_uplink_ongoing s;
     _rx_payload_in_use := _rx_payload_in_use s; _rx_payload := _rx_payload s; _queue := _queue s;
     _tx_timestamp := _tx_timestamp s; _rx_timestamp := _rx_timestamp s;
     _rejoin_type1_send_period := _rejoin_type1_send_period s;
     _rejoin_type1_stamp := _rejoin_type1_stamp s;
     _rejoin_type0_counter := _rejoin_type0_counter s; _forced_datarate := _forced_datarate s;
     _forced_period := _forced_period s; _forced_retry_count := _forced_retry_count s;
     _forced_rejoin_type := _forced_rejoin_type s; _forced_counter := _forced_counter s;
     _ping_slot_info_requested := _ping_slot_info_requested s;
     _device_time_requested := _device_time_requested s;
     _last_beacon_rx_time := _last_beacon_rx_time s; _trace := _trace s |}.
Definition with_link_check_requested (v : bool) (s : LoRaWANStack) : LoRaWANStack :=
  {| _loramac := _loramac s; _device_current_state := _device_current_state s;
     _callbacks := _callbacks s; _lw_session := _lw_session s; _rx_msg := _rx_msg s;
     _tx_metadata := _tx_metadata s; _rx_metadata := _rx_metadata s; _num_retry := _num_retry s;
     _qos_cnt := _qos_cnt s; _ctrl_flags := _ctrl_flags s; _app_port := _app_port s;
     _link_check_requested := v; _reset_ind_requested := _reset_ind_requested s;
     _rekey_ind_needed := _rekey_ind_needed s; _rekey_ind_counter := _rekey_ind_counter s;
     _device_mode_ind_needed := _device_mode_ind_needed s;
     _device_mode_ind_ongoing := _device_mode_ind_ongoing s; _new_class_type := _new_class_type s;
     _automatic_uplink_ongoing := _automatic_uplink_ongoing s;
     _rx_payload_in_use := _rx_payload_in_use s; _rx_payload := _rx_payload s; _queue := _queue s;
     _tx_timestamp := _tx_timestamp s; _rx_timestamp := _rx_timestamp s;
     _rejoin_type1_send_period := _rejoin_type1_send_period s;
     _rejoin_type1_stamp := _rejoin_type1_stamp s;
     _rejoin_type0_counter := _rejoin_type0_counter s; _forced_datarate := _forced_datarate s;
     _forced_period := _forced_period s; _forced_retry_count := _forced_retry_count s;
     _forced_rejoin_type := _forced_rejoin_type s; _forced_counter := _forced_counter s;
     _ping_slot_info_requested := _ping_slot_info_requested s;
     _device_time_requested := _device_time_requested s;
     _last_beacon_rx_time := _last_beacon_rx_time s; _trace := _trace s |}.
Definition with_reset_ind_requested (v : bool) (s : LoRaWANStack) : LoRaWANStack :=
  {| _loramac := _loramac s; _device_current_state := _device_current_state s;
     _callbacks := _callbacks s; _lw_session := _lw_session s; _rx_msg := _rx_msg s;
     _tx_metadata := _tx_metadata s; _rx_metadata := _rx_metadata s; _num_retry := _num_retry s;
     _qos_cnt := _qos_cnt s; _ctrl_flags := _ctrl_flags s; _app_port := _app_port s;
     _link_check_requested := _link_check_requested s; _reset_ind_requested := v;
     _rekey_ind_needed := _rekey_ind_needed s; _rekey_ind_counter := _rekey_ind_counter s;
     _device_mode_ind_needed := _device_mode_ind_needed s;
     _device_mode_ind_ongoing := _device_mode_ind_ongoing s; _new_class_type := _new_class_type s;
     _automatic_uplink_ongoing := _automatic_uplink_ongoing s;
     _rx_payload_in_use := _rx_payload_in_use s; _rx_payload := _rx_payload s; _queue := _queue s;
     _tx_timestamp := _tx_timestamp s; _rx_timestamp := _rx_timestamp s;
     _rejoin_type1_send_period := _rejoin_type1_send_period s;
     _rejoin_type1_stamp := _rejoin_type1_stamp s;
     _rejoin_type0_counter := _rejoin_type0_counter s; _forced_datarate := _forced_datarate s;
     _forced_period := _forced_period s; _forced_retry_count := _forced_retry_count s;
     _forced_rejoin_type := _forced_rejoin_type s; _forced_counter := _forced_counter s;
     _ping_slot_info_requested := _ping_slot_info_requested s;
     _device_time_requested := _device_time_requested s;
     _last_beacon_rx_time := _last_beacon_rx_time s; _trace := _trace s |}.
Definition with_rekey_ind_needed (v : bool) (s : LoRaWANStack) : LoRaWANStack :=
  {| _loramac := _loramac s; _device_current_state := _device_current_state s;
     _callbacks := _callbacks s; _lw_session := _lw_session s; _rx_msg := _rx_msg s;
     _tx_metadata := _tx_metadata s; _rx_metadata := _rx_metadata s; _num_retry := _num_retry s;
     _qos_cnt := _qos_cnt s; _ctrl_flags := _ctrl_flags s; _app_port := _app_port s;
     _link_check_requested := _link_check_requested s;
     _reset_ind_requested := _reset_ind_requested s; _rekey_ind_needed := v;
     _rekey_ind_counter := _rekey_ind_counter s;
     _device_mode_ind_needed := _device_mode_ind_needed s;
     _device_mode_ind_ongoing := _device_mode_ind_ongoing s; _new_class_type := _new_class_type s;
     _automatic_uplink_ongoing := _automatic_uplink_ongoing s;
     _rx_payload_in_use := _rx_payload_in_use s; _rx_payload := _rx_payload s; _queue := _queue s;
     _tx_timestamp := _tx_timestamp s; _rx_timestamp := _rx_timestamp s;
     _rejoin_type1_send_period := _rejoin_type1_send_period s;
     _rejoin_type1_stamp := _rejoin_type1_stamp s;
     _rejoin_type0_counter := _rejoin_type0_counter s; _forced_datarate := _forced_datarate s;
     _forced_period := _forced_period s; _forced_retry_count := _forced_retry_count s;
     _forced_rejoin_type := _forced_rejoin_type s; _forced_counter := _forced_counter s;
     _ping_slot_info_requested := _ping_slot_info_requested s;
     _device_time_requested := _device_time_requested s;
     _last_beacon_rx_time := _last_beacon_rx_time s; _trace := _trace s |}.
Definition with_rekey_ind_counter (v : Z) (s : LoRaWANStack) : LoRaWANStack :=
  {| _loramac := _loramac s; _device_current_state := _device_current_state s;
     _callbacks := _callbacks s; _lw_session := _lw_session s; _rx_msg := _rx_msg s;
     _tx_metadata := _tx_metadata s; _rx_metadata := _rx_metadata s; _num_retry := _num_retry s;
     _qos_cnt := _qos_cnt s; _ctrl_flags := _ctrl_flags s; _app_port := _app_port s;
     _link_check_requested := _link_check_requested s;
     _reset_ind_requested := _reset_ind_requested s; _rekey_ind_needed := _rekey_ind_needed s;
     _rekey_ind_counter := v; _device_mode_ind_needed := _device_mode_ind_needed s;
     _device_mode_ind_ongoing := _device_mode_ind_ongoing s; _new_class_type := _new_class_type s;
     _automatic_uplink_ongoing := _automatic_uplink_ongoing s;
     _rx_payload_in_use := _rx_payload_in_use s; _rx_payload := _rx_payload s; _queue := _queue s;
     _tx_timestamp := _tx_timestamp s; _rx_timestamp := _rx_timestamp s;
     _rejoin_type1_send_period := _rejoin_type1_send_period s;
     _rejoin_type1_stamp := _rejoin_type1_stamp s;
     _rejoin_type0_counter := _rejoin_type0_counter s; _forced_datarate := _forced_datarate s;
     _forced_period := _forced_period s; _forced_retry_count := _forced_retry_count s;
     _forced_rejoin_type := _forced_rejoin_type s; _forced_counter := _forced_counter s;
     _ping_slot_info_requested := _ping_slot_info_requested s;
     _device_time_requested := _device_time_requested s;
     _last_beacon_rx_time := _last_beacon_rx_time s; _trace := _trace s |}.
Definition with_device_mode_ind_needed (v : bool) (s : LoRaWANStack) : LoRaWANStack :=
  {| _loramac := _loramac s; _device_current_state := _device_current_state s;
     _callbacks := _callbacks s; _lw_session := _lw_session s; _rx_msg := _rx_msg s;
     _tx_metadata := _tx_metadata s; _rx_metadata := _rx_metadata s; _num_retry := _num_retry s;
     _qos_cnt := _qos_cnt s; _ctrl_flags := _ctrl_flags s; _app_port := _app_port s;
     _link_check_requested := _link_check_requested s;
     _reset_ind_requested := _reset_ind_requested s; _rekey_ind_needed := _rekey_ind_needed s;
     _rekey_ind_counter := _rekey_ind_counter s; _device_mode_ind_needed := v;
     _device_mode_ind_ongoing := _device_mode_ind_ongoing s; _new_class_type := _new_class_type s;
     _automatic_uplink_ongoing := _automatic_uplink_ongoing s;
     _rx_payload_in_use := _rx_payload_in_use s; _rx_payload := _rx_payload s; _queue := _queue s;
     _tx_timestamp := _tx_timestamp s; _rx_timestamp := _rx_timestamp s;
     _rejoin_type1_send_period := _rejoin_type1_send_period s;
     _rejoin_type1_stamp := _rejoin_type1_stamp s;
     _rejoin_type0_counter := _rejoin_type0_counter s; _forced_datarate := _forced_datarate s;
     _forced_period := _forced_period s; _forced_retry_count := _forced_retry_count s;
     _forced_rejoin_type := _forced_rejoin_type s; _forced_counter := _forced_counter s;
     _ping_slot_info_requested := _ping_slot_info_requested s;
     _device_time_requested := _device_time_requested s;
     _last_beacon_rx_time := _last_beacon_rx_time s; _trace := _trace s |}.
Definition with_device_mode_ind_ongoing (v : bool) (s : LoRaWANStack) : LoRaWANStack :=
  {| _loramac := _loramac s; _device_current_state := _device_current_state s;
     _callbacks := _callbacks s; _lw_session := _lw_session s; _rx_msg := _rx_msg s;
     _tx_metadata := _tx_metadata s; _rx_metadata := _rx_metadata s; _num_retry := _num_retry s;
     _qos_cnt := _qos_cnt s; _ctrl_flags := _ctrl_flags s; _app_port := _app_port s;
     _link_check_requested := _link_check_requested s;
     _reset_ind_requested := _reset_ind_requested s; _rekey_ind_needed := _rekey_ind_needed s;
     _rekey_ind_counter := _rekey_ind_counter s;
     _device_mode_ind_needed := _device_mode_ind_needed s; _device_mode_ind_ongoing := v;
     _new_class_type := _new_class_type s;
     _automatic_uplink_ongoing := _automatic_uplink_ongoing s;
     _rx_payload_in_use := _rx_payload_in_use s; _rx_payload := _rx_payload s; _queue := _queue s;
     _tx_timestamp := _tx_timestamp s; _rx_timestamp := _rx_timestamp s;
     _rejoin_type1_send_period := _rejoin_type1_send_period s;
     _rejoin_type1_stamp := _rejoin_type1_stamp s;
     _rejoin_type0_counter := _rejoin_type0_counter s; _forced_datarate := _forced_datarate s;
     _forced_period := _forced_period s; _forced_retry_count := _forced_retry_count s;
     _forced_rejoin_type := _forced_rejoin_type s; _forced_counter := _forced_counter s;
     _ping_slot_info_requested := _ping_slot_info_requested s;
     _device_time_requested := _device_time_requested s;
     _last_beacon_rx_time := _last_beacon_rx_time s; _trace := _trace s |}.
Definition with_new_class_type (v : device_class_t) (s : LoRaWANStack) : LoRaWANStack :=
  {| _loramac := _loramac s; _device_current_state := _device_current_state s;
     _callbacks := _callbacks s; _lw_session := _lw_session s; _rx_msg := _rx_msg s;
     _tx_metadata := _tx_metadata s; _rx_metadata := _rx_metadata s; _num_retry := _num_retry s;
     _qos_cnt := _qos_cnt s; _ctrl_flags := _ctrl_flags s; _app_port := _app_port s;
     _link_check_requested := _link_check_requested s;
     _reset_ind_requested := _reset_ind_requested s; _rekey_ind_needed := _rekey_ind_needed s;
     _rekey_ind_counter := _rekey_ind_counter s;
     _device_mode_ind_needed := _device_mode_ind_needed s;
     _device_mode_ind_ongoing := _device_mode_ind_ongoing s; _new_class_type := v;
     _automatic_uplink_ongoing := _automatic_uplink_ongoing s;
     _rx_payload_in_use := _rx_payload_in_use s; _rx_payload := _rx_payload s; _queue := _queue s;
     _tx_timestamp := _tx_timestamp s; _rx_timestamp := _rx_timestamp s;
     _rejoin_type1_send_period := _rejoin_type1_send_period s;
     _rejoin_type1_stamp := _rejoin_type1_stamp s;
     _rejoin_type0_counter := _rejoin_type0_counter s; _forced_datarate := _forced_datarate s;
     _forced_period := _forced_period s; _forced_retry_count := _forced_retry_count s;
     _forced_rejoin_type := _forced_rejoin_type s; _forced_counter := _forced_counter s;
     _ping_slot_info_requested := _ping_slot_info_requested s;
     _device_time_requested := _device_time_requested s;
     _last_beacon_rx_time := _last_beacon_rx_time s; _trace := _trace s |}.
Definition with_automatic_uplink_ongoing (v : bool) (s : LoRaWANStack) : LoRaWANStack :=
  {| _loramac := _loramac s; _device_current_state := _device_current_state s;
     _callbacks := _callbacks s; _lw_session := _lw_session s; _rx_msg := _rx_msg s;
     _tx_metadata := _tx_metadata s; _rx_metadata := _rx_metadata s; _num_retry := _num_retry s;
     _qos_cnt := _qos_cnt s; _ctrl_flags := _ctrl_flags s; _app_port := _app_port s;
     _link_check_requested := _link_check_requested s;
     _reset_ind_requested := _reset_ind_requested s; _rekey_ind_needed := _rekey_ind_needed s;
     _rekey_ind_counter := _rekey_ind_counter s;
     _device_mode_ind_needed := _device_mode_ind_needed s;
     _device_mode_ind_ongoing := _device_mode_ind_ongoing s; _new_class_type := _new_class_type s;
     _automatic_uplink_ongoing := v; _rx_payload_in_use := _rx_payload_in_use s;
     _rx_payload := _rx_payload s; _queue := _queue s; _tx_timestamp := _tx_timestamp s;
     _rx_timestamp := _rx_timestamp s; _rejoin_type1_send_period := _rejoin_type1_send_period s;
     _rejoin_type1_stamp := _rejoin_type1_stamp s;
     _rejoin_type0_counter := _rejoin_type0_counter s; _forced_datarate := _forced_datarate s;
     _forced_period := _forced_period s; _forced_retry_count := _forced_retry_count s;
     _forced_rejoin_type := _forced_rejoin_type s; _forced_counter := _forced_counter s;
     _ping_slot_info_requested := _ping_slot_info_requested s;
     _device_time_requested := _device_time_requested s;
     _last_beacon_rx_time := _last_beacon_rx_time s; _trace := _trace s |}.
Definition with_rx_payload_in_use (v : bool) (s : LoRaWANStack) : LoRaWANStack :=
  {| _loramac := _loramac s; _device_current_state := _device_current_state s;
     _callbacks := _callbacks s; _lw_session := _lw_session s; _rx_msg := _rx_msg s;
     _tx_metadata := _tx_metadata s; _rx_metadata := _rx_metadata s; _num_retry := _num_retry s;
     _qos_cnt := _qos_cnt s; _ctrl_flags := _ctrl_flags s; _app_port := _app_port s;
     _link_check_requested := _link_check_requested s;
     _reset_ind_requested := _reset_ind_requested s; _rekey_ind_needed := _rekey_ind_needed s;
     _rekey_ind_counter := _rekey_ind_counter s;
     _device_mode_ind_needed := _device_mode_ind_needed s;
     _device_mode_ind_ongoing := _device_mode_ind_ongoing s; _new_class_type := _new_class_type s;
     _automatic_uplink_ongoing := _automatic_uplink_ongoing s; _rx_payload_in_use := v;
     _rx_payload := _rx_payload s; _queue := _queue s; _tx_timestamp := _tx_timestamp s;
     _rx_timestamp := _rx_timestamp s; _rejoin_type1_send_period := _rejoin_type1_send_period s;
     _rejoin_type1_stamp := _rejoin_type1_stamp s;
     _rejoin_type0_counter := _rejoin_type0_counter s; _forced_datarate := _forced_datarate s;
     _forced_period := _forced_period s; _forced_retry_count := _forced_retry_count s;
     _forced_rejoin_type := _forced_rejoin_type s; _forced_counter := _forced_counter s;
     _ping_slot_info_requested := _ping_slot_info_requested s;
     _device_time_requested := _device_time_requested s;
     _last_beacon_rx_time := _last_beacon_rx_time s; _trace := _trace s |}.
Definition with_rx_payload (v : list byte) (s : LoRaWANStack) : LoRaWANStack :=
  {| _loramac := _loramac s; _device_current_state := _device_current_state s;
     _callbacks := _callbacks s; _lw_session := _lw_session s; _rx_msg := _rx_msg s;
     _tx_metadata := _tx_metadata s; _rx_metadata := _rx_metadata s; _num_retry := _num_retry s;
     _qos_cnt := _qos_cnt s; _ctrl_flags := _ctrl_flags s; _app_port := _app_port s;
     _link_check_requested := _link_check_requested s;
     _reset_ind_requested := _reset_ind_requested s; _rekey_ind_needed := _rekey_ind_needed s;
     _rekey_ind_counter := _rekey_ind_counter s;
     _device_mode_ind_needed := _device_mode_ind_needed s;
     _device_mode_ind_ongoing := _device_mode_ind_ongoing s; _new_class_type := _new_class_type s;
     _automatic_uplink_ongoing := _automatic_uplink_ongoing s;
     _rx_payload_in_use := _rx_payload_in_use s; _rx_payload := v; _queue := _queue s;
     _tx_timestamp := _tx_timestamp s; _rx_timestamp := _rx_timestamp s;
     _rejoin_type1_send_period := _rejoin_type1_send_period s;
     _rejoin_type1_stamp := _rejoin_type1_stamp s;
     _rejoin_type0_counter := _rejoin_type0_counter s; _forced_datarate := _forced_datarate s;
     _forced_period := _forced_period s; _forced_retry_count := _forced_retry_count s;
     _forced_rejoin_type := _forced_rejoin_type s; _forced_counter := _forced_counter s;
     _ping_slot_info_requested := _ping_slot_info_requested s;
     _device_time_requested := _device_time_requested s;
     _last_beacon_rx_time := _last_beacon_rx_time s; _trace := _trace s |}.
Definition with_queue (v : bool) (s : LoRaWANStack) : LoRaWANStack :=
  {| _loramac := _loramac s; _device_current_state := _device_current_state s;
     _callbacks := _callbacks s; _lw_session := _lw_session s; _rx_msg := _rx_msg s;
     _tx_metadata := _tx_metadata s; _rx_metadata := _rx_metadata s; _num_retry := _num_retry s;
     _qos_cnt := _qos_cnt s; _ctrl_flags := _ctrl_flags s; _app_port := _app_port s;
     _link_check_requested := _link_check_requested s;
     _reset_ind_requested := _reset_ind_requested s; _rekey_ind_needed := _rekey_ind_needed s;
     _rekey_ind_counter := _rekey_ind_counter s;
     _device_mode_ind_needed := _device_mode_ind_needed s;
     _device_mode_ind_ongoing := _device_mode_ind_ongoing s; _new_class_type := _new_class_type s;
     _automatic_uplink_ongoing := _automatic_uplink_ongoing s;
     _rx_payload_in_use := _rx_payload_in_use s; _rx_payload := _rx_payload s; _queue := v;
     _tx_timestamp := _tx_timestamp s; _rx_timestamp := _rx_timestamp s;
     _rejoin_type1_send_period := _rejoin_type1_send_period s;
     _rejoin_type1_stamp := _rejoin_type1_stamp s;
     _rejoin_type0_counter := _rejoin_type0_counter s; _forced_datarate := _forced_datarate s;
     _forced_period := _forced_period s; _forced_retry_count := _forced_retry_count s;
     _forced_rejoin_type := _forced_rejoin_type s; _forced_counter := _forced_counter s;
     _ping_slot_info_requested := _ping_slot_info_requested s;
     _device_time_requested := _device_time_requested s;
     _last_beacon_rx_time := _last_beacon_rx_time s; _trace := _trace s |}.
Definition with_tx_timestamp (v : Z) (s : LoRaWANStack) : LoRaWANStack :=
  {| _loramac := _loramac s; _device_current_state := _device_current_state s;
     _callbacks := _callbacks s; _lw_session := _lw_session s; _rx_msg := _rx_msg s;
     _tx_metadata := _tx_metadata s; _rx_metadata := _rx_metadata s; _num_retry := _num_retry s;
     _qos_cnt := _qos_cnt s; _ctrl_flags := _ctrl_flags s; _app_port := _app_port s;
     _link_check_requested := _link_check_requested s;
     _reset_ind_requested := _reset_ind_requested s; _rekey_ind_needed := _rekey_ind_needed s;
     _rekey_ind_counter := _rekey_ind_counter s;
     _device_mode_ind_needed := _device_mode_ind_needed s;
     _device_mode_ind_ongoing := _device_mode_ind_ongoing s; _new_class_type := _new_class_type s;
     _automatic_uplink_ongoing := _automatic_uplink_ongoing s;
     _rx_payload_in_use := _rx_payload_in_use s; _rx_payload := _rx_payload s; _queue := _queue s;
     _tx_timestamp := v; _rx_timestamp := _rx_timestamp s;
     _rejoin_type1_send_period := _rejoin_type1_send_period s;
     _rejoin_type1_stamp := _rejoin_type1_stamp s;
     _rejoin_type0_counter := _rejoin_type0_counter s; _forced_datarate := _forced_datarate s;
     _forced_period := _forced_period s; _forced_retry_count := _forced_retry_count s;
     _forced_rejoin_type := _forced_rejoin_type s; _forced_counter := _forced_counter s;
     _ping_slot_info_requested := _ping_slot_info_requested s;
     _device_time_requested := _device_time_requested s;
     _last_beacon_rx_time := _last_beacon_rx_time s; _trace := _trace s |}.
Definition with_rx_timestamp (v : Z) (s : LoRaWANStack) : LoRaWANStack :=
  {| _loramac := _loramac s; _device_current_state := _device_current_state s;
     _callbacks := _callbacks s; _lw_session := _lw_session s; _rx_msg := _rx_msg s;
     _tx_metadata := _tx_metadata s; _rx_metadata := _rx_metadata s; _num_retry := _num_retry s;
     _qos_cnt := _qos_cnt s; _ctrl_flags := _ctrl_flags s; _app_port := _app_port s;
     _link_check_requested := _link_check_requested s;
     _reset_ind_requested := _reset_ind_requested s; _rekey_ind_needed := _rekey_ind_needed s;
     _rekey_ind_counter := _rekey_ind_counter s;
     _device_mode_ind_needed := _device_mode_ind_needed s;
     _device_mode_ind_ongoing := _device_mode_ind_ongoing s; _new_class_type := _new_class_type s;
     _automatic_uplink_ongoing := _automatic_uplink_ongoing s;
     _rx_payload_in_use := _rx_payload_in_use s; _rx_payload := _rx_payload s; _queue := _queue s;
     _tx_timestamp := _tx_timestamp s; _rx_timestamp := v;
     _rejoin_type1_send_period := _rejoin_type1_send_period s;
     _rejoin_type1_stamp := _rejoin_type1_stamp s;
     _rejoin_type0_counter := _rejoin_type0_counter s; _forced_datarate := _forced_datarate s;
     _forced_period := _forced_period s; _forced_retry_count := _forced_retry_count s;
     _forced_rejoin_type := _forced_rejoin_type s; _forced_counter := _forced_counter s;
     _ping_slot_info_requested := _ping_slot_info_requested s;
     _device_time_requested := _device_time_requested s;
     _last_beacon_rx_time := _last_beacon_rx_time s; _trace := _trace s |}.
Definition with_rejoin_type1_send_period (v : Z) (s : LoRaWANStack) : LoRaWANStack :=
  {| _loramac := _loramac s; _device_current_state := _device_current_state s;
     _callbacks := _callbacks s; _lw_session := _lw_session s; _rx_msg := _rx_msg s;
     _tx_metadata := _tx_metadata s; _rx_metadata := _rx_metadata s; _num_retry := _num_retry s;
     _qos_cnt := _qos_cnt s; _ctrl_flags := _ctrl_flags s; _app_port := _app_port s;
     _link_check_requested := _link_check_requested s;
     _reset_ind_requested := _reset_ind_requested s; _rekey_ind_needed := _rekey_ind_needed s;
     _rekey_ind_counter := _rekey_ind_counter s;
     _device_mode_ind_needed := _device_mode_ind_needed s;
     _device_mode_ind_ongoing := _device_mode_ind_ongoing s; _new_class_type := _new_class_type s;
     _automatic_uplink_ongoing := _automatic_uplink_ongoing s;
     _rx_payload_in_use := _rx_payload_in_use s; _rx_payload := _rx_payload s; _queue := _queue s;
     _tx_timestamp := _tx_timestamp s; _rx_timestamp := _rx_timestamp s;
     _rejoin_type1_send_period := v; _rejoin_type1_stamp := _rejoin_type1_stamp s;
     _rejoin_type0_counter := _rejoin_type0_counter s; _forced_datarate := _forced_datarate s;
     _forced_period := _forced_period s; _forced_retry_count := _forced_retry_count s;
     _forced_rejoin_type := _forced_rejoin_type s; _forced_counter := _forced_counter s;
     _ping_slot_info_requested := _ping_slot_info_requested s;
     _device_time_requested := _device_time_requested s;
     _last_beacon_rx_time := _last_beacon_rx_time s; _trace := _trace s |}.
Definition with_rejoin_type1_stamp (v : Z) (s : LoRaWANStack) : LoRaWANStack :=
  {| _loramac := _loramac s; _device_current_state := _device_current_state s;
     _callbacks := _callbacks s; _lw_session := _lw_session s; _rx_msg := _rx_msg s;
     _tx_metadata := _tx_metadata s; _rx_metadata := _rx_metadata s; _num_retry := _num_retry s;
     _qos_cnt := _qos_cnt s; _ctrl_flags := _ctrl_flags s; _app_port := _app_port s;
     _link_check_requested := _link_check_requested s;
     _reset_ind_requested := _reset_ind_requested s; _rekey_ind_needed := _rekey_ind_needed s;
     _rekey_ind_counter := _rekey_ind_counter s;
     _device_mode_ind_needed := _device_mode_ind_needed s;
     _device_mode_ind_ongoing := _device_mode_ind_ongoing s; _new_class_type := _new_class_type s;
     _automatic_uplink_ongoing := _automatic_uplink_ongoing s;
     _rx_payload_in_use := _rx_payload_in_use s; _rx_payload := _rx_payload s; _queue := _queue s;
     _tx_timestamp := _tx_timestamp s; _rx_timestamp := _rx_timestamp s;
     _rejoin_type1_send_period := _rejoin_type1_send_period s; _rejoin_type1_stamp := v;
     _rejoin_type0_counter := _rejoin_type0_counter s; _forced_datarate := _forced_datarate s;
     _forced_period := _forced_period s; _forced_retry_count := _forced_retry_count s;
     _forced_rejoin_type := _forced_rejoin_type s; _forced_counter := _forced_counter s;
     _ping_slot_info_requested := _ping_slot_info_requested s;
     _device_time_requested := _device_time_requested s;
     _last_beacon_rx_time := _last_beacon_rx_time s; _trace := _trace s |}.
Definition with_rejoin_type0_counter (v : Z) (s : LoRaWANStack) : LoRaWANStack :=
  {| _loramac := _loramac s; _device_current_state := _device_current_state s;
     _callbacks := _callbacks s; _lw_session := _lw_session s; _rx_msg := _rx_msg s;
     _tx_metadata := _tx_metadata s; _rx_metadata := _rx_metadata s; _num_retry := _num_retry s;
     _qos_cnt := _qos_cnt s; _ctrl_flags := _ctrl_flags s; _app_port := _app_port s;
     _link_check_requested := _link_check_requested s;
     _reset_ind_requested := _reset_ind_requested s; _rekey_ind_needed := _rekey_ind_needed s;
     _rekey_ind_counter := _rekey_ind_counter s;
     _device_mode_ind_needed := _device_mode_ind_needed s;
     _device_mode_ind_ongoing := _device_mode_ind_ongoing s; _new_class_type := _new_class_type s;
     _automatic_uplink_ongoing := _automatic_uplink_ongoing s;
     _rx_payload_in_use := _rx_payload_in_use s; _rx_payload := _rx_payload s; _queue := _queue s;
     _tx_timestamp := _tx_timestamp s; _rx_timestamp := _rx_timestamp s;
     _rejoin_type1_send_period := _rejoin_type1_send_period s;
     _rejoin_type1_stamp := _rejoin_type1_stamp s; _rejoin_type0_counter := v;
     _forced_datarate := _forced_datarate s; _forced_period := _forced_period s;
     _forced_retry_count := _forced_retry_count s; _forced_rejoin_type := _forced_rejoin_type s;
     _forced_counter := _forced_counter s;
     _ping_slot_info_requested := _ping_slot_info_requested s;
     _device_time_requested := _device_time_requested s;
     _last_beacon_rx_time := _last_beacon_rx_time s; _trace := _trace s |}.
Definition with_forced_datarate (v : Z) (s : LoRaWANStack) : LoRaWANStack :=
  {| _loramac := _loramac s; _device_current_state := _device_current_state s;
     _callbacks := _callbacks s; _lw_session := _lw_session s; _rx_msg := _rx_msg s;
     _tx_metadata := _tx_metadata s; _rx_metadata := _rx_metadata s; _num_retry := _num_retry s;
     _qos_cnt := _qos_cnt s; _ctrl_flags := _ctrl_flags s; _app_port := _app_port s;
     _link_check_requested := _link_check_requested s;
     _reset_ind_requested := _reset_ind_requested s; _rekey_ind_needed := _rekey_ind_needed s;
     _rekey_ind_counter := _rekey_ind_counter s;
     _device_mode_ind_needed := _device_mode_ind_needed s;
     _device_mode_ind_ongoing := _device_mode_ind_ongoing s; _new_class_type := _new_class_type s;
     _automatic_uplink_ongoing := _automatic_uplink_ongoing s;
     _rx_payload_in_use := _rx_payload_in_use s; _rx_payload := _rx_payload s; _queue := _queue s;
     _tx_timestamp := _tx_timestamp s; _rx_timestamp := _rx_timestamp s;
     _rejoin_type1_send_period := _rejoin_type1_send_period s;
     _rejoin_type1_stamp := _rejoin_type1_stamp s;
     _rejoin_type0_counter := _rejoin_type0_counter s; _forced_datarate := v;
     _forced_period := _forced_period s; _forced_retry_count := _forced_retry_count s;
     _forced_rejoin_type := _forced_rejoin_type s; _forced_counter := _forced_counter s;
     _ping_slot_info_requested := _ping_slot_info_requested s;
     _device_time_requested := _device_time_requested s;
     _last_beacon_rx_time := _last_beacon_rx_time s; _trace := _trace s |}.
Definition with_forced_period (v : Z) (s : LoRaWANStack) : LoRaWANStack :=
  {| _loramac := _loramac s; _device_current_state := _device_current_state s;
     _callbacks := _callbacks s; _lw_session := _lw_session s; _rx_msg := _rx_msg s;
     _tx_metadata := _tx_metadata s; _rx_metadata := _rx_metadata s; _num_retry := _num_retry s;
     _qos_cnt := _qos_cnt s; _ctrl_flags := _ctrl_flags s; _app_port := _app_port s;
     _link_check_requested := _link_check_requested s;
     _reset_ind_requested := _reset_ind_requested s; _rekey_ind_needed := _rekey_ind_needed s;
     _rekey_ind_counter := _rekey_ind_counter s;
     _device_mode_ind_needed := _device_mode_ind_needed s;
     _device_mode_ind_ongoing := _device_mode_ind_ongoing s; _new_class_type := _new_class_type s;
     _automatic_uplink_ongoing := _automatic_uplink_ongoing s;
     _rx_payload_in_use := _rx_payload_in_use s; _rx_payload := _rx_payload s; _queue := _queue s;
     _tx_timestamp := _tx_timestamp s; _rx_timestamp := _rx_timestamp s;
     _rejoin_type1_send_period := _rejoin_type1_send_period s;
     _rejoin_type1_stamp := _rejoin_type1_stamp s;
     _rejoin_type0_counter := _rejoin_type0_counter s; _forced_datarate := _forced_datarate s;
     _forced_period := v; _forced_retry_count := _forced_retry_count s;
     _forced_rejoin_type := _forced_rejoin_type s; _forced_counter := _forced_counter s;
     _ping_slot_info_requested := _ping_slot_info_requested s;
     _device_time_requested := _device_time_requested s;
     _last_beacon_rx_time := _last_beacon_rx_time s; _trace := _trace s |}.
Definition with_forced_retry_count (v : Z) (s : LoRaWANStack) : LoRaWANStack :=
  {| _loramac := _loramac s; _device_current_state := _device_current_state s;
     _callbacks := _callbacks s; _lw_session := _lw_session s; _rx_msg := _rx_msg s;
     _tx_metadata := _tx_metadata s; _rx_metadata := _rx_metadata s; _num_retry := _num_retry s;
     _qos_cnt := _qos_cnt s; _ctrl_flags := _ctrl_flags s; _app_port := _app_port s;
     _link_check_requested := _link_check_requested s;
     _reset_ind_requested := _reset_ind_requested s; _rekey_ind_needed := _rekey_ind_needed s;
     _rekey_ind_counter := _rekey_ind_counter s;
     _device_mode_ind_needed := _device_mode_ind_needed s;
     _device_mode_ind_ongoing := _device_mode_ind_ongoing s; _new_class_type := _new_class_type s;
     _automatic_uplink_ongoing := _automatic_uplink_ongoing s;
     _rx_payload_in_use := _rx_payload_in_use s; _rx_payload := _rx_payload s; _queue := _queue s;
     _tx_timestamp := _tx_timestamp s; _rx_timestamp := _rx_timestamp s;
     _rejoin_type1_send_period := _rejoin_type1_send_period s;
     _rejoin_type1_stamp := _rejoin_type1_stamp s;
     _rejoin_type0_counter := _rejoin_type0_counter s; _forced_datarate := _forced_datarate s;
     _forced_period := _forced_period s; _forced_retry_count := v;
     _forced_rejoin_type := _forced_rejoin_type s; _forced_counter := _forced_counter s;
     _ping_slot_info_requested := _ping_slot_info_requested s;
     _device_time_requested := _device_time_requested s;
     _last_beacon_rx_time := _last_beacon_rx_time s; _trace := _trace s |}.
Definition with_forced_rejoin_type (v : Z) (s : LoRaWANStack) : LoRaWANStack :=
  {| _loramac := _loramac s; _device_current_state := _device_current_state s;
     _callbacks := _callbacks s; _lw_session := _lw_session s; _rx_msg := _rx_msg s;
     _tx_metadata := _tx_metadata s; _rx_metadata := _rx_metadata s; _num_retry := _num_retry s;
     _qos_cnt := _qos_cnt s; _ctrl_flags := _ctrl_flags s; _app_port := _app_port s;
     _link_check_requested := _link_check_requested s;
     _reset_ind_requested := _reset_ind_requested s; _rekey_ind_needed := _rekey_ind_needed s;
     _rekey_ind_counter := _rekey_ind_counter s;
     _device_mode_ind_needed := _device_mode_ind_needed s;
     _device_mode_ind_ongoing := _device_mode_ind_ongoing s; _new_class_type := _new_class_type s;
     _automatic_uplink_ongoing := _automatic_uplink_ongoing s;
     _rx_payload_in_use := _rx_payload_in_use s; _rx_payload := _rx_payload s; _queue := _queue s;
     _tx_timestamp := _tx_timestamp s; _rx_timestamp := _rx_timestamp s;
     _rejoin_type1_send_period := _rejoin_type1_send_period s;
     _rejoin_type1_stamp := _rejoin_type1_stamp s;
     _rejoin_type0_counter := _rejoin_type0_counter s; _forced_datarate := _forced_datarate s;
     _forced_period := _forced_period s; _forced_retry_count := _forced_retry_count s;
     _forced_rejoin_type := v; _forced_counter := _forced_counter s;
     _ping_slot_info_requested := _ping_slot_info_requested s;
     _device_time_requested := _device_time_requested s;
     _last_beacon_rx_time := _last_beacon_rx_time s; _trace := _trace s |}.
Definition with_forced_counter (v : Z) (s : LoRaWANStack) : LoRaWANStack :=
  {| _loramac := _loramac s; _device_current_state := _device_current_state s;
     _callbacks := _callbacks s; _lw_session := _lw_session s; _rx_msg := _rx_msg s;
     _tx_metadata := _tx_metadata s; _rx_metadata := _rx_metadata s; _num_retry := _num_retry s;
     _qos_cnt := _qos_cnt s; _ctrl_flags := _ctrl_flags s; _app_port := _app_port s;
     _link_check_requested := _link_check_requested s;
     _reset_ind_requested := _reset_ind_requested s; _rekey_ind_needed := _rekey_ind_needed s;
     _rekey_ind_counter := _rekey_ind_counter s;
     _device_mode_ind_needed := _device_mode_ind_needed s;
     _device_mode_ind_ongoing := _device_mode_ind_ongoing s; _new_class_type := _new_class_type s;
     _automatic_uplink_ongoing := _automatic_uplink_ongoing s;
     _rx_payload_in_use := _rx_payload_in_use s; _rx_payload := _rx_payload s; _queue := _queue s;
     _tx_timestamp := _tx_timestamp s; _rx_timestamp := _rx_timestamp s;
     _rejoin_type1_send_period := _rejoin_type1_send_period s;
     _rejoin_type1_stamp := _rejoin_type1_stamp s;
     _rejoin_type0_counter := _rejoin_type0_counter s; _forced_datarate := _forced_datarate s;
     _forced_period := _forced_period s; _forced_retry_count := _forced_retry_count s;
     _forced_rejoin_type := _forced_rejoin_type s; _forced_counter := v;
     _ping_slot_info_requested := _ping_slot_info_requested s;
     _device_time_requested := _device_time_requested s;
     _last_beacon_rx_time := _last_beacon_rx_time s; _trace := _trace s |}.
Definition with_ping_slot_info_requested (v : bool) (s : LoRaWANStack) : LoRaWANStack :=
  {| _loramac := _loramac s; _device_current_state := _device_current_state s;
     _callbacks := _callbacks s; _lw_session := _lw_session s; _rx_msg := _rx_msg s;
     _tx_metadata := _tx_metadata s; _rx_metadata := _rx_metadata s; _num_retry := _num_retry s;
     _qos_cnt := _qos_cnt s; _ctrl_flags := _ctrl_flags s; _app_port := _app_port s;
     _link_check_requested := _link_check_requested s;
     _reset_ind_requested := _reset_ind_requested s; _rekey_ind_needed := _rekey_ind_needed s;
     _rekey_ind_counter := _rekey_ind_counter s;
     _device_mode_ind_needed := _device_mode_ind_needed s;
     _device_mode_ind_ongoing := _device_mode_ind_ongoing s; _new_class_type := _new_class_type s;
     _automatic_uplink_ongoing := _automatic_uplink_ongoing s;
     _rx_payload_in_use := _rx_payload_in_use s; _rx_payload := _rx_payload s; _queue := _queue s;
     _tx_timestamp := _tx_timestamp s; _rx_timestamp := _rx_timestamp s;
     _rejoin_type1_send_period := _rejoin_type1_send_period s;
     _rejoin_type1_stamp := _rejoin_type1_stamp s;
     _rejoin_type0_counter := _rejoin_type0_counter s; _forced_datarate := _forced_datarate s;
     _forced_period := _forced_period s; _forced_retry_count := _forced_retry_count s;
     _forced_rejoin_type := _forced_rejoin_type s; _forced_counter := _forced_counter s;
     _ping_slot_info_requested := v; _device_time_requested := _device_time_requested s;
     _last_beacon_rx_time := _last_beacon_rx_time s; _trace := _trace s |}.
Definition with_device_time_requested (v : bool) (s : LoRaWANStack) : LoRaWANStack :=
  {| _loramac := _loramac s; _device_current_state := _device_current_state s;
     _callbacks := _callbacks s; _lw_session := _lw_session s; _rx_msg := _rx_msg s;
     _tx_metadata := _tx_metadata s; _rx_metadata := _rx_metadata s; _num_retry := _num_retry s;
     _qos_cnt := _qos_cnt s; _ctrl_flags := _ctrl_flags s; _app_port := _app_port s;
     _link_check_requested := _link_check_requested s;
     _reset_ind_requested := _reset_ind_requested s; _rekey_ind_needed := _rekey_ind_needed s;
     _rekey_ind_counter := _rekey_ind_counter s;
     _device_mode_ind_needed := _device_mode_ind_needed s;
     _device_mode_ind_ongoing := _device_mode_ind_ongoing s; _new_class_type := _new_class_type s;
     _automatic_uplink_ongoing := _automatic_uplink_ongoing s;
     _rx_payload_in_use := _rx_payload_in_use s; _rx_payload := _rx_payload s; _queue := _queue s;
     _tx_timestamp := _tx_timestamp s; _rx_timestamp := _rx_timestamp s;
     _rejoin_type1_send_period := _rejoin_type1_send_period s;
     _rejoin_type1_stamp := _rejoin_type1_stamp s;
     _rejoin_type0_counter := _rejoin_type0_counter s; _forced_datarate := _forced_datarate s;
     _forced_period := _forced_period s; _forced_retry_count := _forced_retry_count s;
     _forced_rejoin_type := _forced_rejoin_type s; _forced_counter := _forced_counter s;
     _ping_slot_info_requested := _ping_slot_info_requested s; _device_time_requested := v;
     _last_beacon_rx_time := _last_beacon_rx_time s; _trace := _trace s |}.
Definition with_last_beacon_rx_time (v : Z) (s : LoRaWANStack) : LoRaWANStack :=
  {| _loramac := _loramac s; _device_current_state := _device_current_state s;
     _callbacks := _callbacks s; _lw_session := _lw_session s; _rx_msg := _rx_msg s;
     _tx_metadata := _tx_metadata s; _rx_metadata := _rx_metadata s; _num_retry := _num_retry s;
     _qos_cnt := _qos_cnt s; _ctrl_flags := _ctrl_flags s; _app_port := _app_port s;
     _link_check_requested := _link_check_requested s;
     _reset_ind_requested := _reset_ind_requested s; _rekey_ind_needed := _rekey_ind_needed s;
     _rekey_ind_counter := _rekey_ind_counter s;
     _device_mode_ind_needed := _device_mode_ind_needed s;
     _device_mode_ind_ongoing := _device_mode_ind_ongoing s; _new_class_type := _new_class_type s;
     _automatic_uplink_ongoing := _automatic_uplink_ongoing s;
     _rx_payload_in_use := _rx_payload_in_use s; _rx_payload := _rx_payload s; _queue := _queue s;
     _tx_timestamp := _tx_timestamp s; _rx_timestamp := _rx_timestamp s;
     _rejoin_type1_send_period := _rejoin_type1_send_period s;
     _rejoin_type1_stamp := _rejoin_type1_stamp s;
     _rejoin_type0_counter := _rejoin_type0_counter s; _forced_datarate := _forced_datarate s;
     _forced_period := _forced_period s; _forced_retry_count := _forced_retry_count s;
     _forced_rejoin_type := _forced_rejoin_type s; _forced_counter := _forced_counter s;
     _ping_slot_info_requested := _ping_slot_info_requested s;
     _device_time_requested := _device_time_requested s; _last_beacon_rx_time := v;
     _trace := _trace s |}.
Definition with_trace (v : list effect) (s : LoRaWANStack) : LoRaWANStack :=
  {| _loramac := _loramac s; _device_current_state := _device_current_state s;
     _callbacks := _callbacks s; _lw_session := _lw_session s; _rx_msg := _rx_msg s;
     _tx_metadata := _tx_metadata s; _rx_metadata := _rx_metadata s; _num_retry := _num_retry s;
     _qos_cnt := _qos_cnt s; _ctrl_flags := _ctrl_flags s; _app_port := _app_port s;
     _link_check_requested := _link_check_requested s;
     _reset_ind_requested := _reset_ind_requested s; _rekey_ind_needed := _rekey_ind_needed s;
     _rekey_ind_counter := _rekey_ind_counter s;
     _device_mode_ind_needed := _device_mode_ind_needed s;
     _device_mode_ind_ongoing := _device_mode_ind_ongoing s; _new_class_type := _new_class_type s;
     _automatic_uplink_ongoing := _automatic_uplink_ongoing s;
     _rx_payload_in_use := _rx_payload_in_use s; _rx_payload := _rx_payload s; _queue := _queue s;
     _tx_timestamp := _tx_timestamp s; _rx_timestamp := _rx_timestamp s;
     _rejoin_type1_send_period := _rejoin_type1_send_period s;
     _rejoin_type1_stamp := _rejoin_type1_stamp s;
     _rejoin_type0_counter := _rejoin_type0_counter s; _forced_datarate := _forced_datarate s;
     _forced_period := _forced_period s; _forced_retry_count := _forced_retry_count s;
     _forced_rejoin_type := _forced_rejoin_type s; _forced_counter := _forced_counter s;
     _ping_slot_info_requested := _ping_slot_info_requested s;
     _device_time_requested := _device_time_requested s;
     _last_beacon_rx_time := _last_beacon_rx_time s; _trace := v |}.

(** ** Primitive steps *)

Definition emit (e : effect) (s : LoRaWANStack) : LoRaWANStack :=
  with_trace (_trace s ++ [e]) s.

(** [~x] on a [uint32_t] *)
Definition uint32_not (x : Z) : Z := Z.lxor 0xFFFFFFFF x.

(** [_ctrl_flags |= mask] *)
Definition flags_set (mask : Z) (s : LoRaWANStack) : LoRaWANStack :=
  emit (FlagsSet mask) (with_ctrl_flags (Z.lor (_ctrl_flags s) mask) s).

(** [_ctrl_flags &= ~mask] *)
Definition flags_clear (mask : Z) (s : LoRaWANStack) : LoRaWANStack :=
  emit (FlagsClear mask) (with_ctrl_flags (Z.land (_ctrl_flags s) (uint32_not mask)) s).

(** [_ctrl_flags = v] *)
Definition flags_store (v : Z) (s : LoRaWANStack) : LoRaWANStack :=
  emit (FlagsStore v) (with_ctrl_flags v s).

(** [_ctrl_flags & mask] read as a condition *)
Definition flag (mask : Z) (s : LoRaWANStack) : bool :=
  negb (Z.land (_ctrl_flags s) mask =? 0).

(** A MAC command without a result, and one with a result. *)
Definition mac_do (c : MacCall.t) (f : M -> M) (s : LoRaWANStack) : LoRaWANStack :=
  emit (Call c) (with_loramac (f (_loramac s)) s).

Definition mac_ask {R : Type} (c : R -> MacCall.t) (f : M -> R * M) (s : LoRaWANStack)
  : R * LoRaWANStack :=
  let r := f (_loramac s) in
  (fst r, emit (Call (c (fst r))) (with_loramac (snd r) s)).

Definition with_state (st : device_states_t) (s : LoRaWANStack) : LoRaWANStack :=
  with_device_current_state st s.

Definition in_state (st : device_states_t) (s : LoRaWANStack) : bool :=
  device_states_t_beq (_device_current_state s) st.

Definition device_class (s : LoRaWANStack) : device_class_t :=
  LoRaMac.get_device_class (_loramac s).

Definition server_is_LW1_1 (s : LoRaWANStack) : bool :=
  server_type_t_beq (LoRaMac.get_server_type (_loramac s)) LW1_1.

Definition status_ok (st : lorawan_status_t) : bool :=
  lorawan_status_t_beq st LORAWAN_STATUS_OK.

(** Arithmetic on [lorawan_time_t] mixed with [uint32_t] operands. *)
Definition time_t (z : Z) : Z := wrap lorawan_time_bits z.
Definition time_arith (z : Z) : Z := wrap (Z.max 32 lorawan_time_bits) z.

(** ** Constructor *)

Definition rx_msg_zero : loramac_rx_message_t :=
  {| receive_ready := false; rx_type := LORAMAC_RX_MLME_CONFIRM; msg_buffer := None;
     msg_buffer_size := 0; msg_port := 0; msg_type := MCPS_UNCONFIRMED;
     pending_size := 0; prev_read_size := 0 |}.

Definition tx_metadata_zero : lorawan_tx_metadata :=
  {| tx_stale := false; tx_channel := 0; tx_data_rate := 0; tx_tx_power := 0;
     tx_tx_toa := 0; tx_nb_retries := 0 |}.

Definition rx_metadata_zero : lorawan_rx_metadata :=
  {| rx_stale := false; rx_rx_datarate := 0; rx_rssi := 0; rx_snr := 0;
     rx_channel := 0; rx_rx_toa := 0 |}.

Definition with_tx_stale (b : bool) (m : lorawan_tx_metadata) : lorawan_tx_metadata :=
  {| tx_stale := b; tx_channel := tx_channel m; tx_data_rate := tx_data_rate m;
     tx_tx_power := tx_tx_power m; tx_tx_toa := tx_tx_toa m; tx_nb_retries := tx_nb_retries m |}.

Definition with_rx_stale (b : bool) (m : lorawan_rx_metadata) : lorawan_rx_metadata :=
  {| rx_stale := b; rx_rx_datarate := rx_rx_datarate m; rx_rssi := rx_rssi m;
     rx_snr := rx_snr m; rx_channel := rx_channel m; rx_rx_toa := rx_rx_toa m |}.

Definition with_active (b : bool) (l : lorawan_session_t) : lorawan_session_t :=
  {| active := b; downlink_counter := downlink_counter l; uplink_counter := uplink_counter l |}.

Definition with_downlink_counter (v : Z) (l : lorawan_session_t) : lorawan_session_t :=
  {| active := active l; downlink_counter := v; uplink_counter := uplink_counter l |}.

Definition with_uplink_counter (v : Z) (l : lorawan_session_t) : lorawan_session_t :=
  {| active := active l; downlink_counter := downlink_counter l; uplink_counter := v |}.

(** [bool LoRaWANStack::is_port_valid(const uint8_t port, bool allow_port_0)] *)
Definition is_port_valid (port : Z) (allow_port_0 : bool) : bool :=
  if port =? 0 then allow_port_0
  else if port =? COMPLIANCE_TESTING_PORT then
    (* #if !defined(LORAWAN_COMPLIANCE_TEST): return false; otherwise control
       leaves the branch and reaches the final [return true] *)
    if LORAWAN_COMPLIANCE_TEST then true else false
  else true.

(** [LoRaWANStack::LoRaWANStack()], for a freshly constructed MAC [m]. *)
Definition LoRaWANStack_new (m : M) : LoRaWANStack :=
  {| _loramac := m;
     _device_current_state := DEVICE_STATE_NOT_INITIALIZED;
     _callbacks := {| events := false; link_check_resp := false; battery_level := false |};
     _lw_session := {| active := false; downlink_counter := 0; uplink_counter := 0 |};
     _rx_msg := rx_msg_zero;
     _tx_metadata := with_tx_stale true tx_metadata_zero;
     _rx_metadata := with_rx_stale true rx_metadata_zero;
     _num_retry := 1;
     _qos_cnt := 1;
     _ctrl_flags := IDLE_FLAG;
     _app_port :=
       match MBED_CONF_LORA_APP_PORT with
       | Some p => if is_port_valid p false then p else INVALID_PORT
       | None => INVALID_PORT
       end;
     _link_check_requested := false;
     _reset_ind_requested := false;
     _rekey_ind_needed := false;
     _rekey_ind_counter := 0;
     _device_mode_ind_needed := false;
     _device_mode_ind_ongoing := false;
     _new_class_type := CLASS_A;
     _automatic_uplink_ongoing := false;
     _rx_payload_in_use := false;
     _rx_payload := [];
     _queue := false;
     _tx_timestamp := 0;
     _rx_timestamp := 0;
     _rejoin_type1_send_period := MBED_CONF_LORA_REJOIN_TYPE1_SEND_PERIOD;
     _rejoin_type1_stamp := 0;
     _rejoin_type0_counter := 0;
     _forced_datarate := 0;
     _forced_period := 0;
     _forced_retry_count := 0;
     _forced_rejoin_type := REJOIN_REQUEST_TYPE0;
     _forced_counter := 0;
     _ping_slot_info_requested := false;
     _device_time_requested := false;
     _last_beacon_rx_time := 0;
     _trace := [] |}.

(** ** Private helpers *)

(** [void LoRaWANStack::send_event_to_application(const lorawan_event_t event) const] *)
Definition send_event_to_application (event : lorawan_event_t) (s : LoRaWANStack)
  : LoRaWANStack :=
  if events (_callbacks s) then emit (Event event) s else s.

(** [void LoRaWANStack::make_tx_metadata_available(void)] *)
Definition make_tx_metadata_available (s : LoRaWANStack) : LoRaWANStack :=
  let c := LoRaMac.get_mcps_confirmation (_loramac s) in
  with_tx_metadata
    {| tx_stale := false; tx_channel := conf_channel c; tx_data_rate := conf_data_rate c;
       tx_tx_power := conf_tx_power c; tx_tx_toa := conf_tx_toa c;
       tx_nb_retries := conf_nb_retries c |} s.

(** [void LoRaWANStack::make_rx_metadata_available(void)] *)
Definition make_rx_metadata_available (s : LoRaWANStack) : LoRaWANStack :=
  let i := LoRaMac.get_mcps_indication (_loramac s) in
  with_rx_metadata
    {| rx_stale := false; rx_rx_datarate := ind_rx_datarate i; rx_rssi := ind_rssi i;
       rx_snr := ind_snr i; rx_channel := ind_channel i; rx_rx_toa := ind_rx_toa i |} s.

(** [lorawan_status_t LoRaWANStack::set_application_port(const uint8_t port, bool allow_port_0)] *)
Definition set_application_port (port : Z) (allow_port_0 : bool) (s : LoRaWANStack)
  : lorawan_status_t * LoRaWANStack :=
  if is_port_valid port allow_port_0 then (LORAWAN_STATUS_OK, with_app_port port s)
  else (LORAWAN_STATUS_PORT_INVALID, s).

(** [void LoRaWANStack::state_machine_run_to_completion()] *)
Definition state_machine_run_to_completion (s : LoRaWANStack) : LoRaWANStack :=
  if device_class_t_beq (device_class s) CLASS_C then with_state DEVICE_STATE_RECEIVING s
  else with_state DEVICE_STATE_IDLE s.

(** [int LoRaWANStack::convert_to_msg_flag(const mcps_type_t type)] *)
Definition convert_to_msg_flag (type : mcps_type_t) : Z :=
  match type with
  | MCPS_UNCONFIRMED => MSG_UNCONFIRMED_FLAG
  | MCPS_CONFIRMED => MSG_CONFIRMED_FLAG
  | MCPS_MULTICAST => MSG_MULTICAST_FLAG
  | MCPS_PROPRIETARY => MSG_PROPRIETARY_FLAG
  end.

Definition set_reset_indication (s : LoRaWANStack) : LoRaWANStack :=
  mac_do MacCall.setup_reset_indication LoRaMac.setup_reset_indication s.

Definition set_rekey_indication (s : LoRaWANStack) : LoRaWANStack :=
  mac_do MacCall.setup_rekey_indication LoRaMac.setup_rekey_indication s.

Definition set_device_mode_indication (s : LoRaWANStack) : LoRaWANStack :=
  mac_do (MacCall.setup_device_mode_indication (_new_class_type s))
         (LoRaMac.setup_device_mode_indication (_new_class_type s)) s.

(** [lorawan_status_t LoRaWANStack::drop_channel_list()] *)
Definition drop_channel_list (s : LoRaWANStack) : lorawan_status_t * LoRaWANStack :=
  if in_state DEVICE_STATE_NOT_INITIALIZED s then (LORAWAN_STATUS_NOT_INITIALIZED, s)
  else mac_ask MacCall.remove_channel_plan LoRaMac.remove_channel_plan s.

(** [void LoRaWANStack::mcps_confirm_handler()] *)
Definition mcps_confirm_handler (s : LoRaWANStack) : LoRaWANStack :=
  let c := LoRaMac.get_mcps_confirmation (_loramac s) in
  match conf_status c with
  | LORAMAC_EVENT_INFO_STATUS_OK =>
      let s := with_lw_session (with_uplink_counter (conf_ul_frame_counter c) (_lw_session s)) s in
      send_event_to_application TX_DONE s
  | LORAMAC_EVENT_INFO_STATUS_TX_TIMEOUT => send_event_to_application TX_TIMEOUT s
  | LORAMAC_EVENT_INFO_STATUS_TX_DR_PAYLOAD_SIZE_ERROR =>
      send_event_to_application TX_SCHEDULING_ERROR s
  | _ => send_event_to_application TX_ERROR s
  end.

(** [void LoRaWANStack::mcps_indication_handler()] *)
Definition mcps_indication_handler (s : LoRaWANStack) : LoRaWANStack :=
  let i := LoRaMac.get_mcps_indication (_loramac s) in
  if negb (loramac_event_info_status_t_beq (ind_status i) LORAMAC_EVENT_INFO_STATUS_OK) then
    send_event_to_application RX_ERROR s
  else
    let s := with_lw_session (with_downlink_counter (ind_dl_frame_counter i) (_lw_session s)) s in
    if (ind_port i =? COMPLIANCE_TESTING_PORT) && negb LORAWAN_COMPLIANCE_TEST then s
    else
      let s :=
        if ind_is_data_recvd i then
          let s :=
            with_rx_msg
              {| receive_ready := true;
                 rx_type := LORAMAC_RX_MCPS_INDICATION;
                 msg_buffer := ind_buffer i;
                 msg_buffer_size := ind_buffer_size i;
                 msg_port := ind_port i;
                 msg_type := ind_type i;
                 pending_size := pending_size (_rx_msg s);
                 prev_read_size := prev_read_size (_rx_msg s) |} s in
          send_event_to_application RX_DONE s
        else s in
      if (negb (device_class_t_beq (device_class s) CLASS_C) && ind_fpending_status i)
         || (device_class_t_beq (device_class s) CLASS_C
             && mcps_type_t_beq (ind_type i) MCPS_CONFIRMED)
      then
        if MBED_CONF_LORA_AUTOMATIC_UPLINK_MESSAGE then
          if negb (_automatic_uplink_ongoing s) then
            emit (Post (post_send_automatic_uplink_message (ind_port i)))
                 (with_automatic_uplink_ongoing true s)
          else s
        else send_event_to_application UPLINK_REQUIRED s
      else s.

(** ** The state controller *)

(** [void LoRaWANStack::process_shutdown_state(lorawan_status_t &op_status)] *)
Definition process_shutdown_state (op_status : lorawan_status_t) (s : LoRaWANStack)
  : lorawan_status_t * LoRaWANStack :=
  let s := snd (drop_channel_list s) in
  let s := mac_do MacCall.disconnect LoRaMac.disconnect s in
  let s := with_lw_session (with_active false (_lw_session s)) s in
  let s := with_state DEVICE_STATE_SHUTDOWN s in
  let s := flags_store 0 s in
  (LORAWAN_STATUS_DEVICE_OFF, send_event_to_application DISCONNECTED s).

(** The block both branches of the status check share:
    [_loramac.set_tx_ongoing(false); _loramac.reset_ongoing_tx();] *)
Definition release_tx (s : LoRaWANStack) : LoRaWANStack :=
  let s := mac_do (MacCall.set_tx_ongoing false) (LoRaMac.set_tx_ongoing false) s in
  mac_do MacCall.reset_ongoing_tx LoRaMac.reset_ongoing_tx s.

(** [void LoRaWANStack::process_status_check_state()] *)
Definition process_status_check_state (s : LoRaWANStack) : LoRaWANStack :=
  if in_state DEVICE_STATE_SENDING s || in_state DEVICE_STATE_AWAITING_ACK s then
    let s := flags_clear TX_DONE_FLAG s in
    let s := release_tx s in
    mcps_confirm_handler s
  else if in_state DEVICE_STATE_RECEIVING s then
    let s :=
      if flag TX_DONE_FLAG s || flag RETRY_EXHAUSTED_FLAG s then
        let s := flags_clear TX_DONE_FLAG s in
        let s := flags_clear RETRY_EXHAUSTED_FLAG s in
        let s := release_tx s in
        if _automatic_uplink_ongoing s then with_automatic_uplink_ongoing false s
        else mcps_confirm_handler s
      else s in
    if flag MSG_RECVD_FLAG s then
      let s := flags_clear MSG_RECVD_FLAG s in
      mcps_indication_handler s
    else s
  else s.

(** [void LoRaWANStack::process_scheduling_state(lorawan_status_t &op_status)] *)
Definition process_scheduling_state (op_status : lorawan_status_t) (s : LoRaWANStack)
  : lorawan_status_t * LoRaWANStack :=
  if negb (in_state DEVICE_STATE_IDLE s)
     && (negb (in_state DEVICE_STATE_RECEIVING s)
         && negb (device_class_t_beq (device_class s) CLASS_C))
  then (LORAWAN_STATUS_BUSY, s)
  else
    let r := mac_ask MacCall.send_ongoing_tx LoRaMac.send_ongoing_tx s in
    if status_ok (fst r) then
      let s := flags_clear TX_DONE_FLAG (snd r) in
      let s := mac_do (MacCall.set_tx_ongoing true) (LoRaMac.set_tx_ongoing true) s in
      (fst r, with_state DEVICE_STATE_SENDING s)
    else r.

(** [void LoRaWANStack::process_joining_state(lorawan_status_t &op_status)] *)
Definition process_joining_state (op_status : lorawan_status_t) (s : LoRaWANStack)
  : lorawan_status_t * LoRaWANStack :=
  if in_state DEVICE_STATE_CONNECTING s then
    let s := with_state DEVICE_STATE_JOINING s in
    mac_ask (MacCall.join true) (LoRaMac.join true) s
  else if in_state DEVICE_STATE_AWAITING_JOIN_ACCEPT s
          && negb (rx_slot_t_beq (LoRaMac.get_current_slot (_loramac s)) RX_SLOT_WIN_1)
  then
    let s := with_state DEVICE_STATE_JOINING s in
    let r := mac_ask MacCall.continue_joining_process LoRaMac.continue_joining_process s in
    if negb (fst r) then
      let s := flags_clear CONN_IN_PROGRESS_FLAG (snd r) in
      let s := send_event_to_application JOIN_FAILURE s in
      (op_status, with_state DEVICE_STATE_IDLE s)
    else (op_status, snd r)
  else (op_status, s).

(** [void LoRaWANStack::process_connected_state()] *)
Definition process_connected_state (s : LoRaWANStack) : LoRaWANStack :=
  let s := flags_set CONNECTED_FLAG s in
  let s := flags_clear CONN_IN_PROGRESS_FLAG s in
  let s := with_lw_session (with_active true (_lw_session s)) s in
  let s := send_event_to_application CONNECTED s in
  with_state DEVICE_STATE_IDLE s.

(** [void LoRaWANStack::process_connecting_state(lorawan_status_t &op_status)] *)
Definition process_connecting_state (op_status : lorawan_status_t) (s : LoRaWANStack)
  : lorawan_status_t * LoRaWANStack :=
  let s :=
    if in_state DEVICE_STATE_IDLE s || in_state DEVICE_STATE_SHUTDOWN s then s
    else emit AssertFailed s in
  let s := with_state DEVICE_STATE_CONNECTING s in
  if flag USING_OTAA_FLAG s then process_joining_state op_status s
  else
    let r := mac_ask (MacCall.join false) (LoRaMac.join false) s in
    (fst r, process_connected_state (snd r)).

(** [void LoRaWANStack::process_uninitialized_state(lorawan_status_t &op_status)] *)
Definition process_uninitialized_state (op_status : lorawan_status_t) (s : LoRaWANStack)
  : lorawan_status_t * LoRaWANStack :=
  let r := mac_ask MacCall.initialize LoRaMac.initialize s in
  let s := if status_ok (fst r) then with_state DEVICE_STATE_IDLE (snd r) else snd r in
  let s :=
    if MBED_CONF_LORA_VERSION_1_1 then
      let s := mac_do (MacCall.timer_init forced_timer) (LoRaMac.timer_init forced_timer) s in
      let s := mac_do (MacCall.timer_init rejoin_type0_timer)
                      (LoRaMac.timer_init rejoin_type0_timer) s in
      with_rejoin_type1_stamp (uint32 (LoRaMac.get_current_time (_loramac s) / 1000)) s
    else s in
  (fst r, s).

(** [void LoRaWANStack::process_idle_state(lorawan_status_t &op_status)] *)
Definition process_idle_state (op_status : lorawan_status_t) (s : LoRaWANStack)
  : lorawan_status_t * LoRaWANStack :=
  if in_state DEVICE_STATE_NOT_INITIALIZED s then
    process_uninitialized_state op_status (with_state DEVICE_STATE_IDLE s)
  else (LORAWAN_STATUS_OK, with_state DEVICE_STATE_IDLE s).

(** [lorawan_status_t LoRaWANStack::state_controller(device_states_t new_state)] *)
Definition state_controller (new_state : device_states_t) (s : LoRaWANStack)
  : lorawan_status_t * LoRaWANStack :=
  let status := LORAWAN_STATUS_OK in
  match new_state with
  | DEVICE_STATE_IDLE => process_idle_state status s
  | DEVICE_STATE_CONNECTING => process_connecting_state status s
  | DEVICE_STATE_JOINING => process_joining_state status s
  | DEVICE_STATE_CONNECTED => (status, process_connected_state s)
  | DEVICE_STATE_SCHEDULING => process_scheduling_state status s
  | DEVICE_STATE_STATUS_CHECK => (status, process_status_check_state s)
  | DEVICE_STATE_SHUTDOWN => process_shutdown_state status s
  | _ => (status, emit AssertFailed s)
  end.

(** ** Rejoin engine *)

(** [void LoRaWANStack::process_rejoin(join_req_type_t rejoin_type, bool is_forced)] *)
Definition process_rejoin (rejoin_type : Z) (is_forced : bool) (s : LoRaWANStack)
  : LoRaWANStack :=
  if server_is_LW1_1 s then
    let s := mac_do (MacCall.rejoin rejoin_type is_forced (_forced_datarate s))
                    (LoRaMac.rejoin rejoin_type is_forced (_forced_datarate s)) s in
    if rejoin_type =? REJOIN_REQUEST_TYPE0 then
      let s := mac_do (MacCall.timer_stop rejoin_type0_timer)
                      (LoRaMac.timer_stop rejoin_type0_timer) s in
      let s := with_rejoin_type0_counter 0 s in
      let max_time := fst (LoRaMac.get_rejoin_parameters (_loramac s)) in
      (* start() takes parameters in ms, max_time is in seconds *)
      mac_do (MacCall.timer_start rejoin_type0_timer (uint32 (max_time * 1000)))
             (LoRaMac.timer_start rejoin_type0_timer (uint32 (max_time * 1000))) s
    else s
  else s.

(** [void LoRaWANStack::reset_forced_rejoin()] *)
Definition reset_forced_rejoin (s : LoRaWANStack) : LoRaWANStack :=
  let s := with_forced_counter 0 s in
  mac_do (MacCall.timer_stop forced_timer) (LoRaMac.timer_stop forced_timer) s.

(** [void LoRaWANStack::forced_timer_expiry()] *)
Definition forced_timer_expiry (s : LoRaWANStack) : LoRaWANStack :=
  if server_is_LW1_1 s then
    if _forced_counter s <? _forced_retry_count s then
      let s := process_rejoin (_forced_rejoin_type s) true s in
      mac_do (MacCall.timer_start forced_timer (_forced_period s))
             (LoRaMac.timer_start forced_timer (_forced_period s)) s
    else reset_forced_rejoin s
  else s.

(** [void LoRaWANStack::process_rejoin_type0()] *)
Definition process_rejoin_type0 (s : LoRaWANStack) : LoRaWANStack :=
  if server_is_LW1_1 s then process_rejoin REJOIN_REQUEST_TYPE0 false s else s.

(** [void LoRaWANStack::poll_rejoin(void)] *)
Definition poll_rejoin (s : LoRaWANStack) : LoRaWANStack :=
  if flag REJOIN_IN_PROGRESS s then s
  else
    let now_s := time_t (LoRaMac.get_current_time (_loramac s) / 1000) in
    if time_arith (now_s - _rejoin_type1_stamp s) >? _rejoin_type1_send_period s then
      let s := flags_set REJOIN_IN_PROGRESS s in
      let s := with_rejoin_type1_stamp (uint32 now_s) s in
      emit (Post (post_process_rejoin REJOIN_REQUEST_TYPE1 false)) s
    else
      let max_count := snd (LoRaMac.get_rejoin_parameters (_loramac s)) in
      let s :=
        if _rejoin_type0_counter s >=? max_count then
          let s := with_rejoin_type0_counter 0 s in
          let s := flags_set REJOIN_IN_PROGRESS s in
          emit (Post post_process_rejoin_type0) s
        else s in
      with_rx_payload_in_use false s.

(** ** MLME handlers *)

(** [void LoRaWANStack::mlme_indication_handler()] *)
Definition mlme_indication_handler (s : LoRaWANStack) : LoRaWANStack :=
  if mlme_type_t_beq (indication_type (LoRaMac.get_mlme_indication (_loramac s)))
                     MLME_SCHEDULE_UPLINK
  then
    if MBED_CONF_LORA_AUTOMATIC_UPLINK_MESSAGE then
      let s := with_automatic_uplink_ongoing true s in
      emit (Post (post_send_automatic_uplink_message 0)) s
    else send_event_to_application UPLINK_REQUIRED s
  else s.

(** [void LoRaWANStack::mlme_confirm_handler(loramac_mlme_confirm_t &mlme_confirm)];
    [rnd] is the value [rand()] returns when the handler calls it. *)
Definition mlme_confirm_handler (rnd : Z) (mlme_confirm : loramac_mlme_confirm_t)
  (s : LoRaWANStack) : LoRaWANStack :=
  match mlme_type mlme_confirm with
  | MLME_LINK_CHECK =>
      if loramac_event_info_status_t_beq (mlme_status mlme_confirm) LORAMAC_EVENT_INFO_STATUS_OK
         && link_check_resp (_callbacks s)
      then emit (LinkCheckResp (demod_margin mlme_confirm) (nb_gateways mlme_confirm)) s
      else s
  | MLME_RESET => with_reset_ind_requested false s
  | MLME_REKEY =>
      let s := with_rekey_ind_needed false s in
      with_rekey_ind_counter 0 s
  | MLME_DEVICE_MODE =>
      let s := with_device_mode_ind_needed false s in
      if device_class_t_beq (device_class s) (classType mlme_confirm) then
        send_event_to_application SERVER_ACCEPTED_CLASS_IN_USE s
      else send_event_to_application SERVER_DOES_NOT_SUPPORT_CLASS_IN_USE s
  | MLME_JOIN_ACCEPT =>
      match mlme_status mlme_confirm with
      | LORAMAC_EVENT_INFO_STATUS_OK =>
          let s :=
            if server_is_LW1_1 s then
              let s := with_rekey_ind_needed true s in
              with_rekey_ind_counter 0 s
            else
              let s := mac_do (MacCall.timer_stop forced_timer)
                              (LoRaMac.timer_stop forced_timer) s in
              mac_do (MacCall.timer_stop rejoin_type0_timer)
                     (LoRaMac.timer_stop rejoin_type0_timer) s in
          snd (state_controller DEVICE_STATE_CONNECTED s)
      | LORAMAC_EVENT_INFO_STATUS_CRYPTO_FAIL =>
          let s := with_state DEVICE_STATE_IDLE s in
          send_event_to_application CRYPTO_ERROR s
      | _ =>
          if server_is_LW1_1 s && flag REJOIN_IN_PROGRESS s then s
          else
            let s := with_state DEVICE_STATE_AWAITING_JOIN_ACCEPT s in
            snd (state_controller DEVICE_STATE_JOINING s)
      end
  | MLME_FORCE_REJOIN =>
      if (rejoin_type mlme_confirm <=? REJOIN_REQUEST_TYPE2) && server_is_LW1_1 s then
        let s := with_forced_datarate (datarate mlme_confirm) s in
        let s :=
          with_forced_period
            (uint32 ((Z.shiftl 1 (period mlme_confirm) * 32 + rnd mod 33) * 1000)) s in
        let s := with_forced_retry_count (max_retries mlme_confirm) s in
        let s :=
          if negb (_forced_retry_count s =? 0) then
            with_forced_retry_count (uint8 (_forced_retry_count s + 1)) s
          else s in
        let s := with_forced_rejoin_type (rejoin_type mlme_confirm) s in
        (* See LW 1.1 chapter 5.13 - RejoinType *)
        let s :=
          if rejoin_type mlme_confirm =? REJOIN_REQUEST_TYPE1 then
            with_forced_rejoin_type REJOIN_REQUEST_TYPE0 s
          else s in
        let s := reset_forced_rejoin s in
        let s := process_rejoin (_forced_rejoin_type s) true s in
        if negb (_forced_retry_count s =? 0) then
          mac_do (MacCall.timer_start forced_timer (_forced_period s))
                 (LoRaMac.timer_start forced_timer (_forced_period s)) s
        else s
      else s
  | MLME_PING_SLOT_INFO =>
      if _ping_slot_info_requested s then
        let s := with_ping_slot_info_requested false s in
        send_event_to_application PING_SLOT_INFO_SYNCHED s
      else s
  | MLME_BEACON_ACQUISITION =>
      if loramac_event_info_status_t_beq (mlme_status mlme_confirm) LORAMAC_EVENT_INFO_STATUS_OK
      then send_event_to_application BEACON_FOUND s
      else send_event_to_application BEACON_NOT_FOUND s
  | _ => s
  end.

(** The MAC hands each MLME confirm of a reception to [mlme_confirm_handler]. *)
Definition run_mlme_confirms (rnd : Z) (cs : list loramac_mlme_confirm_t) (s : LoRaWANStack)
  : LoRaWANStack :=
  fold_left (fun s c => mlme_confirm_handler rnd c s) cs s.

(** ** Transmit pipeline *)

(** The sign test [ret < 0] on a returned [int16_t]; every status but
    [LORAWAN_STATUS_OK] is a negative number. *)
Definition ret16_negative (r : ret16) : bool :=
  match r with
  | Status st => negb (status_ok st)
  | Len n => n <? 0
  end.

(** [int16_t LoRaWANStack::handle_tx(const uint8_t port, const uint8_t *data,
    uint16_t length, uint8_t flags, bool null_allowed, bool allow_port_0)];
    [data] is [None] for a NULL pointer. *)
Definition handle_tx (port : Z) (data : option (list byte)) (length flags : Z)
  (null_allowed allow_port_0 : bool) (s : LoRaWANStack) : ret16 * LoRaWANStack :=
  if in_state DEVICE_STATE_NOT_INITIALIZED s then (Status LORAWAN_STATUS_NOT_INITIALIZED, s)
  else if negb null_allowed && match data with None => true | Some _ => false end then
    (Status LORAWAN_STATUS_PARAMETER_INVALID, s)
  else if in_state DEVICE_STATE_NOT_INITIALIZED s then (Status LORAWAN_STATUS_NOT_INITIALIZED, s)
  else if flag REJOIN_IN_PROGRESS s then (Status LORAWAN_STATUS_BUSY, s)
  else
    (* ResetInd is only used for ABP devices after connect, until ResetConf is received *)
    let s :=
      if _reset_ind_requested s then set_reset_indication s
      else if _rekey_ind_needed s then
        if _rekey_ind_counter s <? LoRaMac.get_current_adr_ack_limit (_loramac s) then
          let s := set_rekey_indication s in
          with_rekey_ind_counter (uint8 (_rekey_ind_counter s + 1)) s
        else
          let s := with_rekey_ind_needed false s in
          let s := send_event_to_application JOIN_FAILURE s in
          with_state DEVICE_STATE_IDLE s
      else s in
    let s := if _device_mode_ind_needed s then set_device_mode_indication s else s in
    if negb (active (_lw_session s)) then (Status LORAWAN_STATUS_NO_ACTIVE_SESSIONS, s)
    else if LoRaMac.tx_ongoing (_loramac s) then (Status LORAWAN_STATUS_WOULD_BLOCK, s)
    else
      let s :=
        if _link_check_requested s then
          mac_do MacCall.setup_link_check_request LoRaMac.setup_link_check_request s
        else s in
      let s :=
        if _device_time_requested s then
          mac_do MacCall.setup_device_time_request LoRaMac.setup_device_time_request s
        else s in
      let s :=
        if _ping_slot_info_requested s then
          mac_do MacCall.add_ping_slot_info_req LoRaMac.add_ping_slot_info_req s
        else s in
      let s := with_qos_cnt 1 s in
      if negb (LoRaMac.nwk_joined (_loramac s)) then (Status LORAWAN_STATUS_NO_NETWORK_JOINED, s)
      else
        let r := set_application_port port allow_port_0 s in
        if negb (status_ok (fst r)) then (Status (fst r), snd r)
        else
          let s := snd r in
          let f := Z.land flags MSG_FLAG_MASK in
          if (f =? MSG_UNCONFIRMED_FLAG) || (f =? MSG_CONFIRMED_FLAG)
             || (f =? MSG_PROPRIETARY_FLAG)
          then
            let r :=
              mac_ask (MacCall.prepare_ongoing_tx port data length flags (_num_retry s))
                      (LoRaMac.prepare_ongoing_tx port data length flags (_num_retry s)) s in
            let len := fst r in
            let r := state_controller DEVICE_STATE_SCHEDULING (snd r) in
            (if status_ok (fst r) then Len len else Status (fst r), snd r)
          else (Status LORAWAN_STATUS_PARAMETER_INVALID, s).

(** [void LoRaWANStack::send_automatic_uplink_message(const uint8_t port)] *)
Definition send_automatic_uplink_message (port : Z) (s : LoRaWANStack) : LoRaWANStack :=
  let r := handle_tx port None 0 MSG_CONFIRMED_FLAG true true s in
  match fst r with
  | Status LORAWAN_STATUS_WOULD_BLOCK => with_automatic_uplink_ongoing false (snd r)
  | ret =>
      if ret16_negative ret then send_event_to_application AUTOMATIC_UPLINK_ERROR (snd r)
      else snd r
  end.

(** [lorawan_status_t LoRaWANStack::stop_sending(void)] *)
Definition stop_sending (s : LoRaWANStack) : lorawan_status_t * LoRaWANStack :=
  if in_state DEVICE_STATE_NOT_INITIALIZED s then (LORAWAN_STATUS_NOT_INITIALIZED, s)
  else
    let r := mac_ask MacCall.clear_tx_pipe LoRaMac.clear_tx_pipe s in
    if status_ok (fst r) then
      let s := flags_clear TX_DONE_FLAG (snd r) in
      let s := mac_do (MacCall.set_tx_ongoing false) (LoRaMac.set_tx_ongoing false) s in
      (LORAWAN_STATUS_OK, with_state DEVICE_STATE_IDLE s)
    else r.

(** [void LoRaWANStack::process_transmission(void)] *)
Definition process_transmission (s : LoRaWANStack) : LoRaWANStack :=
  let s := make_tx_metadata_available s in
  let s :=
    if in_state DEVICE_STATE_JOINING s then with_state DEVICE_STATE_AWAITING_JOIN_ACCEPT s
    else s in
  let s :=
    if in_state DEVICE_STATE_SENDING s
       && mcps_type_t_beq (conf_req_type (LoRaMac.get_mcps_confirmation (_loramac s)))
                          MCPS_CONFIRMED
    then with_state DEVICE_STATE_AWAITING_ACK s
    else s in
  let s := mac_do (MacCall.on_radio_tx_done (_tx_timestamp s))
                  (LoRaMac.on_radio_tx_done (_tx_timestamp s)) s in
  if server_is_LW1_1 s && _device_mode_ind_ongoing s then
    let s := with_device_mode_ind_ongoing false s in
    let s := snd (mac_ask (MacCall.set_device_class (_new_class_type s))
                          (LoRaMac.set_device_class (_new_class_type s)) s) in
    send_event_to_application CLASS_CHANGED s
  else s.

(** [void LoRaWANStack::process_transmission_timeout()] *)
Definition process_transmission_timeout (s : LoRaWANStack) : LoRaWANStack :=
  let s := mac_do MacCall.on_radio_tx_timeout LoRaMac.on_radio_tx_timeout s in
  let s := flags_clear TX_DONE_FLAG s in
  let s :=
    if in_state DEVICE_STATE_JOINING s then
      let s := with_state DEVICE_STATE_IDLE s in
      send_event_to_application TX_TIMEOUT s
    else snd (state_controller DEVICE_STATE_STATUS_CHECK s) in
  state_machine_run_to_completion s.

(** The tail both post-processing functions share:
    [_loramac.post_process_mcps_req(); make_tx_metadata_available();
     state_controller(DEVICE_STATE_STATUS_CHECK);] *)
Definition finish_tx (s : LoRaWANStack) : LoRaWANStack :=
  let s := mac_do MacCall.post_process_mcps_req LoRaMac.post_process_mcps_req s in
  let s := make_tx_metadata_available s in
  snd (state_controller DEVICE_STATE_STATUS_CHECK s).

Definition tx_is_confirmed (s : LoRaWANStack) : bool :=
  mcps_type_t_beq (conf_req_type (LoRaMac.get_mcps_confirmation (_loramac s))) MCPS_CONFIRMED.

(** [void LoRaWANStack::post_process_tx_with_reception()] *)
Definition post_process_tx_with_reception (s : LoRaWANStack) : LoRaWANStack :=
  if tx_is_confirmed s then
    if ind_is_ack_recvd (LoRaMac.get_mcps_indication (_loramac s)) then
      let s := flags_set TX_DONE_FLAG s in
      let s := flags_clear RETRY_EXHAUSTED_FLAG s in
      finish_tx s
    else
      let r := mac_ask MacCall.continue_sending_process LoRaMac.continue_sending_process s in
      let s := snd r in
      if negb (fst r)
         && negb (rx_slot_t_beq (LoRaMac.get_current_slot (_loramac s)) RX_SLOT_WIN_1)
      then
        let s := flags_clear TX_DONE_FLAG s in
        let s := flags_set RETRY_EXHAUSTED_FLAG s in
        finish_tx s
      else s
  else
    let prev_QOS_level := LoRaMac.get_prev_QOS_level (_loramac s) in
    let QOS_level := LoRaMac.get_QOS_level (_loramac s) in
    if (QOS_level >? LORAWAN_DEFAULT_QOS) && (_qos_cnt s <? QOS_level)
       && (prev_QOS_level =? QOS_level)
    then
      let s := flags_clear TX_DONE_FLAG s in
      let s := emit (Post (post_state_controller DEVICE_STATE_SCHEDULING)) s in
      with_qos_cnt (uint8 (_qos_cnt s + 1)) s
    else
      let s := mac_do MacCall.post_process_mcps_req LoRaMac.post_process_mcps_req s in
      let s := flags_set TX_DONE_FLAG s in
      let s := make_tx_metadata_available s in
      snd (state_controller DEVICE_STATE_STATUS_CHECK s).

(** [void LoRaWANStack::post_process_tx_no_reception()] *)
Definition post_process_tx_no_reception (s : LoRaWANStack) : LoRaWANStack :=
  if flag REJOIN_IN_PROGRESS s then
    let s := flags_clear REJOIN_IN_PROGRESS s in
    (* goto exit *)
    state_machine_run_to_completion s
  else if tx_is_confirmed s then
    let r := mac_ask MacCall.continue_sending_process LoRaMac.continue_sending_process s in
    let s := snd r in
    if fst r then
      let s := flags_clear TX_DONE_FLAG s in
      flags_clear RETRY_EXHAUSTED_FLAG s
    else
      let s := flags_clear TX_DONE_FLAG s in
      let s := flags_set RETRY_EXHAUSTED_FLAG s in
      state_machine_run_to_completion (finish_tx s)
  else
    let s := flags_set TX_DONE_FLAG s in
    let prev_QOS_level := LoRaMac.get_prev_QOS_level (_loramac s) in
    let QOS_level := LoRaMac.get_QOS_level (_loramac s) in
    if (QOS_level >? LORAWAN_DEFAULT_QOS) && (prev_QOS_level =? QOS_level)
       && (_qos_cnt s <? QOS_level)
    then
      let s := emit (Post (post_state_controller DEVICE_STATE_SCHEDULING)) s in
      let s := with_qos_cnt (uint8 (_qos_cnt s + 1)) s in
      state_machine_run_to_completion s
    else state_machine_run_to_completion (finish_tx s).

(** [void LoRaWANStack::handle_scheduling_failure(void)] *)
Definition handle_scheduling_failure (s : LoRaWANStack) : LoRaWANStack :=
  state_machine_run_to_completion (snd (state_controller DEVICE_STATE_STATUS_CHECK s)).

(** ** Receive pipeline *)

(** [void LoRaWANStack::process_reception(const uint8_t *const payload,
    uint16_t size, int16_t rssi, int8_t snr)].  The MLME confirms the MAC raises
    inside [on_radio_rx_done] are handled before the controller goes on. *)
Definition process_reception (rnd : Z) (payload : list byte) (size rssi snr : Z)
  (s : LoRaWANStack) : LoRaWANStack :=
  let s := with_state DEVICE_STATE_RECEIVING s in
  let s := flags_clear MSG_RECVD_FLAG s in
  let s := flags_clear TX_DONE_FLAG s in
  let s := flags_clear RETRY_EXHAUSTED_FLAG s in
  let s := with_rejoin_type0_counter (uint32 (_rejoin_type0_counter s + 1)) s in
  let joined := LoRaMac.nwk_joined (_loramac s) in
  let rx_slot := LoRaMac.get_current_slot (_loramac s) in
  let r := mac_ask (fun _ => MacCall.on_radio_rx_done payload size rssi snr (_rx_timestamp s))
                   (fun m => let r := LoRaMac.on_radio_rx_done payload size rssi snr
                                                               (_rx_timestamp s) m in
                             (snd r, fst r)) s in
  let s := run_mlme_confirms rnd (fst r) (snd r) in
  if negb joined then with_rx_payload_in_use false s
  else if flag REJOIN_IN_PROGRESS s then
    let s := flags_clear REJOIN_IN_PROGRESS s in
    with_rx_payload_in_use false s
  else
    let s := make_rx_metadata_available s in
    let s :=
      match rx_slot with
      | RX_SLOT_WIN_1 | RX_SLOT_WIN_2 | RX_SLOT_WIN_CLASS_C =>
          (* Post process transmission in response to the reception *)
          let s := post_process_tx_with_reception s in
          (* handle any pending MCPS indication *)
          let s :=
            if ind_pending (LoRaMac.get_mcps_indication (_loramac s)) then
              let s := mac_do MacCall.post_process_mcps_ind LoRaMac.post_process_mcps_ind s in
              let s := flags_set MSG_RECVD_FLAG s in
              snd (state_controller DEVICE_STATE_STATUS_CHECK s)
            else s in
          (* complete the cycle only if TX_DONE_FLAG is set *)
          let s := if flag TX_DONE_FLAG s then state_machine_run_to_completion s else s in
          (* suppress auto uplink if another auto-uplink is in AWAITING_ACK state *)
          let s :=
            if mlme_ind_pending (LoRaMac.get_mlme_indication (_loramac s))
               && negb (_automatic_uplink_ongoing s)
            then
              let s := mac_do MacCall.post_process_mlme_ind LoRaMac.post_process_mlme_ind s in
              mlme_indication_handler s
            else s in
          if MBED_CONF_LORA_VERSION_1_1 then poll_rejoin s else s
      | RX_SLOT_WIN_BEACON => s
      | RX_SLOT_WIN_UNICAST_PING_SLOT | RX_SLOT_WIN_MULTICAST_PING_SLOT =>
          let s := flags_set MSG_RECVD_FLAG s in
          snd (state_controller DEVICE_STATE_STATUS_CHECK s)
      end in
    with_rx_payload_in_use false s.

(** [void LoRaWANStack::process_reception_timeout(bool is_timeout)] *)
Definition process_reception_timeout (is_timeout : bool) (s : LoRaWANStack) : LoRaWANStack :=
  let s := with_rejoin_type0_counter (uint32 (_rejoin_type0_counter s + 1)) s in
  let rx_slot := LoRaMac.get_current_slot (_loramac s) in
  let s := mac_do (MacCall.on_radio_rx_timeout is_timeout)
                  (LoRaMac.on_radio_rx_timeout is_timeout) s in
  if rx_slot_t_beq rx_slot RX_SLOT_WIN_2 && negb (LoRaMac.nwk_joined (_loramac s)) then
    snd (state_controller DEVICE_STATE_JOINING s)
  else if rx_slot_t_beq rx_slot RX_SLOT_WIN_2 then
    let s := post_process_tx_no_reception s in
    let s := snd (state_controller DEVICE_STATE_STATUS_CHECK s) in
    let s := state_machine_run_to_completion s in
    if MBED_CONF_LORA_VERSION_1_1 then poll_rejoin s else s
  else s.

(** What a call of [handle_rx] hands back: the returned value, the bytes copied
    into the caller's buffer, and the values left in [port] and [flags]. *)
Record rx_result := {
  rx_return : ret16;
  rx_data : list byte;
  rx_port_out : Z;
  rx_flags_out : Z
}.

Definition region (b : option (list byte)) : list byte :=
  match b with Some l => l | None => [] end.

(** [int16_t LoRaWANStack::handle_rx(uint8_t *data, uint16_t length,
    uint8_t &port, int &flags, bool validate_params)];
    [data_is_null] tells whether [data == NULL]. *)
Definition handle_rx (data_is_null : bool) (length port flags : Z) (validate_params : bool)
  (s : LoRaWANStack) : rx_result * LoRaWANStack :=
  let fail st :=
    ({| rx_return := Status st; rx_data := []; rx_port_out := port; rx_flags_out := flags |}, s) in
  let m := _rx_msg s in
  if in_state DEVICE_STATE_NOT_INITIALIZED s then fail LORAWAN_STATUS_NOT_INITIALIZED
  else if negb (active (_lw_session s)) then fail LORAWAN_STATUS_NO_ACTIVE_SESSIONS
  else if negb (receive_ready m) then fail LORAWAN_STATUS_WOULD_BLOCK
  else if data_is_null || (length =? 0) then fail LORAWAN_STATUS_PARAMETER_INVALID
  else
    let received_flags := convert_to_msg_flag (msg_type m) in
    let received_flags :=
      if validate_params then Z.land received_flags MSG_FLAG_MASK else received_flags in
    if validate_params
       && (negb (msg_port m =? port) || (Z.land flags received_flags =? 0))
    then fail LORAWAN_STATUS_WOULD_BLOCK
    else
      let base_ptr := region (msg_buffer m) in
      let base_size := msg_buffer_size m in
      let pending := if pending_size m =? 0 then msg_buffer_size m else pending_size m in
      let prev := if pending_size m =? 0 then 0 else prev_read_size m in
      (* (bytes copied, read_complete, pending_size, prev_read_size) *)
      let '(base_size, data, read_complete, pending, prev) :=
        if (prev =? 0) && (msg_buffer_size m <=? length) then
          (base_size, bytes_at base_ptr 0 base_size, true, pending, prev)
        else if pending >? length then
          (length, bytes_at base_ptr prev length, false,
           uint16 (pending - length), uint16 (prev + length))
        else (pending, bytes_at base_ptr prev pending, true, pending, prev) in
      let m' :=
        if read_complete then
          {| receive_ready := false; rx_type := rx_type m; msg_buffer := None;
             msg_buffer_size := 0; msg_port := msg_port m; msg_type := msg_type m;
             pending_size := 0; prev_read_size := prev |}
        else
          {| receive_ready := receive_ready m; rx_type := rx_type m;
             msg_buffer := msg_buffer m; msg_buffer_size := msg_buffer_size m;
             msg_port := msg_port m; msg_type := msg_type m;
             pending_size := pending; prev_read_size := prev |} in
      ({| rx_return := Len (to_int16 base_size); rx_data := data;
          rx_port_out := msg_port m; rx_flags_out := received_flags |},
       with_rx_msg m' s).

(** ** Interrupt handlers *)

(** [void LoRaWANStack::tx_interrupt_handler(void)] *)
Definition tx_interrupt_handler (s : LoRaWANStack) : LoRaWANStack :=
  let s := with_tx_timestamp (LoRaMac.get_current_time (_loramac s)) s in
  emit (Post post_process_transmission) s.

(** [void LoRaWANStack::rx_interrupt_handler(const uint8_t *payload, uint16_t size,
    int16_t rssi, int8_t snr)] *)
Definition rx_interrupt_handler (payload : list byte) (size rssi snr : Z) (s : LoRaWANStack)
  : LoRaWANStack :=
  if (size >? LORAMAC_PHY_MAXPAYLOAD) || _rx_payload_in_use s then s
  else
    let s := with_rx_payload_in_use true s in
    let s := with_rx_timestamp (LoRaMac.get_current_time (_loramac s)) s in
    let s := with_rx_payload (bytes_at payload 0 size) s in
    emit (Post (post_process_reception (_rx_payload s) size rssi snr)) s.

Definition rx_error_interrupt_handler (s : LoRaWANStack) : LoRaWANStack :=
  emit (Post (post_process_reception_timeout false)) s.

Definition tx_timeout_interrupt_handler (s : LoRaWANStack) : LoRaWANStack :=
  emit (Post post_process_transmission_timeout) s.

Definition rx_timeout_interrupt_handler (s : LoRaWANStack) : LoRaWANStack :=
  emit (Post (post_process_reception_timeout true)) s.

(** ** Public methods *)

(** [lorawan_status_t LoRaWANStack::initialize_mac_layer(EventQueue *queue)] *)
Definition initialize_mac_layer (queue : bool) (s : LoRaWANStack)
  : lorawan_status_t * LoRaWANStack :=
  if negb queue then (LORAWAN_STATUS_PARAMETER_INVALID, s)
  else state_controller DEVICE_STATE_IDLE (with_queue queue s).

(** [lorawan_status_t LoRaWANStack::set_lora_callbacks(const lorawan_app_callbacks_t *callbacks)] *)
Definition set_lora_callbacks (callbacks : option lorawan_app_callbacks_t) (s : LoRaWANStack)
  : lorawan_status_t * LoRaWANStack :=
  if in_state DEVICE_STATE_NOT_INITIALIZED s then (LORAWAN_STATUS_NOT_INITIALIZED, s)
  else
    match callbacks with
    | None => (LORAWAN_STATUS_PARAMETER_INVALID, s)
    | Some cb =>
        if negb (events cb) then (LORAWAN_STATUS_PARAMETER_INVALID, s)
        else
          let s :=
            with_callbacks
              {| events := true;
                 link_check_resp := link_check_resp cb || link_check_resp (_callbacks s);
                 battery_level := battery_level cb || battery_level (_callbacks s) |} s in
          let s :=
            if battery_level cb then
              mac_do MacCall.set_batterylevel_callback LoRaMac.set_batterylevel_callback s
            else s in
          (LORAWAN_STATUS_OK, s)
    end.

(** [lorawan_status_t LoRaWANStack::handle_connect(bool is_otaa)] *)
Definition handle_connect (is_otaa : bool) (s : LoRaWANStack)
  : lorawan_status_t * LoRaWANStack :=
  let s := flags_set CONN_IN_PROGRESS_FLAG s in
  let s :=
    if is_otaa then
      let s := with_lw_session (with_downlink_counter 0 (_lw_session s)) s in
      let s := with_lw_session (with_uplink_counter 0 (_lw_session s)) s in
      flags_set USING_OTAA_FLAG s
    else
      let s :=
        if MBED_CONF_LORA_VERSION_1_1 then with_reset_ind_requested true s else s in
      flags_clear USING_OTAA_FLAG s in
  state_controller DEVICE_STATE_CONNECTING s.

(** [lorawan_status_t LoRaWANStack::connect()] *)
Definition connect (s : LoRaWANStack) : lorawan_status_t * LoRaWANStack :=
  if in_state DEVICE_STATE_NOT_INITIALIZED s then (LORAWAN_STATUS_NOT_INITIALIZED, s)
  else if flag CONN_IN_PROGRESS_FLAG s then (LORAWAN_STATUS_BUSY, s)
  else if flag CONNECTED_FLAG s then (LORAWAN_STATUS_ALREADY_CONNECTED, s)
  else
    let r := mac_ask (MacCall.prepare_join None MBED_CONF_LORA_OVER_THE_AIR_ACTIVATION)
                     (LoRaMac.prepare_join None MBED_CONF_LORA_OVER_THE_AIR_ACTIVATION) s in
    if negb (status_ok (fst r)) then r
    else handle_connect MBED_CONF_LORA_OVER_THE_AIR_ACTIVATION (snd r).

(** [lorawan_status_t LoRaWANStack::connect(const lorawan_connect_t &connect)] *)
Definition connect_with (params : lorawan_connect_t) (s : LoRaWANStack)
  : lorawan_status_t * LoRaWANStack :=
  if in_state DEVICE_STATE_NOT_INITIALIZED s then (LORAWAN_STATUS_NOT_INITIALIZED, s)
  else if flag CONN_IN_PROGRESS_FLAG s then (LORAWAN_STATUS_BUSY, s)
  else if flag CONNECTED_FLAG s then (LORAWAN_STATUS_ALREADY_CONNECTED, s)
  else
    match connect_type params with
    | None => (LORAWAN_STATUS_PARAMETER_INVALID, s)
    | Some ct =>
        let is_otaa :=
          match ct with LORAWAN_CONNECTION_OTAA => true | LORAWAN_CONNECTION_ABP => false end in
        let r := mac_ask (MacCall.prepare_join (Some params) is_otaa)
                         (LoRaMac.prepare_join (Some params) is_otaa) s in
        if negb (status_ok (fst r)) then r else handle_connect is_otaa (snd r)
    end.

(** [lorawan_status_t LoRaWANStack::shutdown()] *)
Definition shutdown (s : LoRaWANStack) : lorawan_status_t * LoRaWANStack :=
  if in_state DEVICE_STATE_NOT_INITIALIZED s then (LORAWAN_STATUS_NOT_INITIALIZED, s)
  else state_controller DEVICE_STATE_SHUTDOWN s.

(** [lorawan_status_t LoRaWANStack::set_device_class(const device_class_t &device_class)] *)
Definition set_device_class (new_class : device_class_t) (s : LoRaWANStack)
  : lorawan_status_t * LoRaWANStack :=
  if in_state DEVICE_STATE_NOT_INITIALIZED s then (LORAWAN_STATUS_NOT_INITIALIZED, s)
  else if negb (device_class_t_beq (device_class s) new_class) then
    (* Only change the class when needed *)
    if server_is_LW1_1 s && negb (device_class_t_beq new_class CLASS_B) then
      let s := with_new_class_type new_class s in
      let s := with_device_mode_ind_needed true s in
      (LORAWAN_STATUS_OK, with_device_mode_ind_ongoing true s)
    else mac_ask (MacCall.set_device_class new_class) (LoRaMac.set_device_class new_class) s
  else (LORAWAN_STATUS_OK, s).

(** [lorawan_status_t LoRaWANStack::acquire_tx_metadata(lorawan_tx_metadata &tx_metadata)];
    the second component is what is written to [tx_metadata], if anything. *)
Definition acquire_tx_metadata (s : LoRaWANStack)
  : lorawan_status_t * option lorawan_tx_metadata * LoRaWANStack :=
  if in_state DEVICE_STATE_NOT_INITIALIZED s then (LORAWAN_STATUS_NOT_INITIALIZED, None, s)
  else if negb (tx_stale (_tx_metadata s)) then
    (LORAWAN_STATUS_OK, Some (_tx_metadata s),
     with_tx_metadata (with_tx_stale true (_tx_metadata s)) s)
  else (LORAWAN_STATUS_METADATA_NOT_AVAILABLE, None, s).

(** [lorawan_status_t LoRaWANStack::acquire_rx_metadata(lorawan_rx_metadata &metadata)] *)
Definition acquire_rx_metadata (s : LoRaWANStack)
  : lorawan_status_t * option lorawan_rx_metadata * LoRaWANStack :=
  if in_state DEVICE_STATE_NOT_INITIALIZED s then (LORAWAN_STATUS_NOT_INITIALIZED, None, s)
  else if negb (rx_stale (_rx_metadata s)) then
    (LORAWAN_STATUS_OK, Some (_rx_metadata s),
     with_rx_metadata (with_rx_stale true (_rx_metadata s)) s)
  else (LORAWAN_STATUS_METADATA_NOT_AVAILABLE, None, s).

(** [lorawan_gps_time_t LoRaWANStack::get_current_gps_time()] *)
Definition get_current_gps_time (s : LoRaWANStack) : Z :=
  LoRaMac.get_gps_time (_loramac s).

(** [void LoRaWANStack::set_current_gps_time(lorawan_gps_time_t gps_time)] *)
Definition set_current_gps_time (gps_time : Z) (s : LoRaWANStack) : LoRaWANStack :=
  mac_do (MacCall.set_gps_time gps_time) (LoRaMac.set_gps_time gps_time) s.

(** ** LoRaWANInterface *)

(** [int16_t LoRaWANInterface::send(uint8_t port, const uint8_t *data,
    uint16_t length, int flags)]; [flags] is narrowed to the [uint8_t] parameter
    of [handle_tx], whose last two parameters take their defaults. *)
Definition send (port : Z) (data : option (list byte)) (length flags : Z) (s : LoRaWANStack)
  : ret16 * LoRaWANStack :=
  handle_tx port data length (uint8 flags) false false s.

(** [int16_t LoRaWANInterface::receive(uint8_t port, uint8_t *data,
    uint16_t length, int flags)]: [port] and [flags] are the caller's copies. *)
Definition receive (port : Z) (data_is_null : bool) (length flags : Z) (s : LoRaWANStack)
  : rx_result * LoRaWANStack :=
  handle_rx data_is_null length port flags true s.

(** [lorawan_status_t LoRaWANInterface::disconnect()] *)
Definition disconnect (s : LoRaWANStack) : lorawan_status_t * LoRaWANStack := shutdown s.

(** [lorawan_status_t LoRaWANInterface::set_system_time_utc(unsigned int tai_utc_diff)].
    [now] is what [time(NULL)] returns; the second component of the result is
    the argument of [set_time], when it is called. *)
Definition set_system_time_utc (tai_utc_diff now : Z) (s : LoRaWANStack)
  : lorawan_status_t * option Z :=
  (* Adjust epoch for 1970 to 1980 (time for Unix epoch to GPS epoch) *)
  let u_time := time_t (now + UNIX_GPS_EPOCH_DIFF) in
  (* Adjust for leap seconds since 1980. TAI is always ahead of GPS by 19 seconds *)
  let u_time := time_t (u_time + uint32 (tai_utc_diff - 19)) in
  let cur_gps_time := get_current_gps_time s in
  if cur_gps_time =? 0 then (LORAWAN_STATUS_SERVICE_UNKNOWN, None)
  else
    (* Convert gps time from millis to seconds *)
    let gps_seconds := uint32 (cur_gps_time / 1000) in
    let gps_millis := uint32 (cur_gps_time mod 1000) in
    let gps_seconds := if gps_millis >=? 500 then uint32 (gps_seconds + 1) else gps_seconds in
    let u_time := time_t (u_time + gps_seconds) in
    (LORAWAN_STATUS_OK, Some u_time).

(** ** Entry points

    The controller runs on one event-queue thread: each application call, each
    dispatched handler and each timer expiry runs to completion, one after the
    other.  [mac_changes f] stands for what happens inside the MAC and the radio
    between two of them (time passes, a frame is decoded, ...). *)
Inductive entry :=
| call_initialize (queue : bool)
| call_add_app_callbacks (callbacks : option lorawan_app_callbacks_t)
| call_connect
| call_disconnect
| call_send (port : Z) (data : option (list byte)) (length flags : Z)
| call_receive (port : Z) (data_is_null : bool) (length flags : Z)
| call_set_device_class (c : device_class_t)
| run_process_transmission
| run_process_reception (rnd : Z) (payload : list byte) (size rssi snr : Z)
| run_process_reception_timeout (is_timeout : bool)
| run_forced_timer_expiry
| mac_changes (f : M -> M).

Definition step (s : LoRaWANStack) (e : entry) : LoRaWANStack :=
  match e with
  | call_initialize queue => snd (initialize_mac_layer queue s)
  | call_add_app_callbacks callbacks => snd (set_lora_callbacks callbacks s)
  | call_connect => snd (connect s)
  | call_disconnect => snd (disconnect s)
  | call_send port data length flags => snd (send port data length flags s)
  | call_receive port data_is_null length flags =>
      snd (receive port data_is_null length flags s)
  | call_set_device_class c => snd (set_device_class c s)
  | run_process_transmission => process_transmission s
  | run_process_reception rnd payload size rssi snr =>
      process_reception rnd payload size rssi snr s
  | run_process_reception_timeout is_timeout => process_reception_timeout is_timeout s
  | run_forced_timer_expiry => forced_timer_expiry s
  | mac_changes f => with_loramac (f (_loramac s)) s
  end.

Definition run (es : list entry) (s : LoRaWANStack) : LoRaWANStack := fold_left step es s.

(** Consecutive calls of [receive] on one port, one per requested length:
    what each call hands back, and the state after the last one. *)
Fixpoint receive_all (port flags : Z) (lengths : list Z) (s : LoRaWANStack)
  : list rx_result * LoRaWANStack :=
  match lengths with
  | [] => ([], s)
  | length :: rest =>
      let r := receive port false length flags s in
      let rs := receive_all port flags rest (snd r) in
      (fst r :: fst rs, snd rs)
  end.

(** The events queued for the application, and the MAC calls, of a trace. *)
Definition events_of (t : list effect) : list lorawan_event_t :=
  flat_map (fun e => match e with Event ev => [ev] | _ => [] end) t.

Definition calls_of (t : list effect) : list MacCall.t :=
  flat_map (fun e => match e with Call c => [c] | _ => [] end) t.

(** ** Requests the application adds to its uplinks *)

(** [lorawan_status_t LoRaWANStack::set_confirmed_msg_retry(uint8_t count)] *)
Definition set_confirmed_msg_retry (count : Z) (s : LoRaWANStack)
  : lorawan_status_t * LoRaWANStack :=
  if in_state DEVICE_STATE_NOT_INITIALIZED s then (LORAWAN_STATUS_NOT_INITIALIZED, s)
  else if count >=? MAX_CONFIRMED_MSG_RETRIES then (LORAWAN_STATUS_PARAMETER_INVALID, s)
  else (LORAWAN_STATUS_OK, with_num_retry count s).

(** [lorawan_status_t LoRaWANStack::set_link_check_request()] *)
Definition set_link_check_request (s : LoRaWANStack) : lorawan_status_t * LoRaWANStack :=
  if in_state DEVICE_STATE_NOT_INITIALIZED s then (LORAWAN_STATUS_NOT_INITIALIZED, s)
  else if negb (link_check_resp (_callbacks s)) then (LORAWAN_STATUS_PARAMETER_INVALID, s)
  else (LORAWAN_STATUS_OK, with_link_check_requested true s).

(** [void LoRaWANStack::remove_link_check_request()] *)
Definition remove_link_check_request (s : LoRaWANStack) : LoRaWANStack :=
  with_link_check_requested false s.

(** [lorawan_status_t LoRaWANStack::set_device_time_request(void)] *)
Definition set_device_time_request (s : LoRaWANStack) : lorawan_status_t * LoRaWANStack :=
  if in_state DEVICE_STATE_NOT_INITIALIZED s then (LORAWAN_STATUS_NOT_INITIALIZED, s)
  else if negb (LoRaMac.nwk_joined (_loramac s)) then (LORAWAN_STATUS_NO_NETWORK_JOINED, s)
  else (LORAWAN_STATUS_OK, with_device_time_requested true s).

(** [void LoRaWANStack::remove_device_time_request(void)] *)
Definition remove_device_time_request (s : LoRaWANStack) : LoRaWANStack :=
  with_device_time_requested false s.

(** [void LoRaWANStack::remove_ping_slot_info_request()] *)
Definition remove_ping_slot_info_request (s : LoRaWANStack) : LoRaWANStack :=
  with_ping_slot_info_requested false s.

(** [void LoRaWANStack::handle_device_time_sync_event(lorawan_gps_time_t gps_time)],
    the callback [handle_tx] hands to [setup_device_time_request].
    [gps_time_bits] is the width of [lorawan_gps_time_t], a type declared
    outside these sources. *)
Definition handle_device_time_sync_event (gps_time_bits gps_time : Z) (s : LoRaWANStack)
  : LoRaWANStack :=
  let s := with_device_time_requested false s in
  (* The time provided by the network server is the time captured at the end of
     the uplink transmission *)
  let uplink_elapsed_time := time_t (LoRaMac.get_current_time (_loramac s) - _tx_timestamp s) in
  let s := set_current_gps_time (wrap gps_time_bits (gps_time + uplink_elapsed_time)) s in
  send_event_to_application DEVICE_TIME_SYNCHED s.

(** [int16_t LoRaWANInterface::receive(uint8_t *data, uint16_t length,
    uint8_t &port, int &flags)]: [port] and [flags] are what the caller's
    variables hold before the call. *)
Definition receive_any (data_is_null : bool) (length port flags : Z) (s : LoRaWANStack)
  : rx_result * LoRaWANStack :=
  handle_rx data_is_null length port flags false s.

(** [lorawan_status_t LoRaWANInterface::cancel_sending(void)] *)
Definition cancel_sending (s : LoRaWANStack) : lorawan_status_t * LoRaWANStack :=
  stop_sending s.

(** ** Beacons *)

(** The values of [loramac_beacon_status_t] that [process_beacon_event]
    handles; the type is declared outside these sources. *)
Inductive loramac_beacon_status_t :=
| BEACON_STATUS_ACQUISITION_FAILED
| BEACON_STATUS_ACQUISITION_SUCCESS
| BEACON_STATUS_LOCK
| BEACON_STATUS_MISS.

(** [void LoRaWANStack::process_beacon_event(loramac_beacon_status_t status,
    const loramac_beacon_t *beacon)].  [beaconless_period] is the macro
    [MBED_CONF_LORA_CLASS_B_BEACONLESS_PERIOD]; [uninitialised] is what the
    local [mlme_confirm] holds before its [type] and [status] are assigned,
    and [rnd] what [rand()] would return in [mlme_confirm_handler]. *)
Definition process_beacon_event (beaconless_period rnd : Z)
  (uninitialised : loramac_mlme_confirm_t) (status : loramac_beacon_status_t)
  (s : LoRaWANStack) : LoRaWANStack :=
  let confirm st :=
    {| mlme_type := MLME_BEACON_ACQUISITION; mlme_status := st;
       demod_margin := demod_margin uninitialised; nb_gateways := nb_gateways uninitialised;
       classType := classType uninitialised; rejoin_type := rejoin_type uninitialised;
       datarate := datarate uninitialised; period := period uninitialised;
       max_retries := max_retries uninitialised |} in
  match status with
  | BEACON_STATUS_ACQUISITION_FAILED =>
      mlme_confirm_handler rnd (confirm LORAMAC_EVENT_INFO_STATUS_BEACON_NOT_FOUND) s
  | BEACON_STATUS_ACQUISITION_SUCCESS =>
      let s := with_last_beacon_rx_time (LoRaMac.get_current_time (_loramac s)) s in
      mlme_confirm_handler rnd (confirm LORAMAC_EVENT_INFO_STATUS_OK) s
  | BEACON_STATUS_LOCK =>
      let s := with_last_beacon_rx_time (LoRaMac.get_current_time (_loramac s)) s in
      send_event_to_application BEACON_LOCK s
  | BEACON_STATUS_MISS =>
      let s := send_event_to_application BEACON_MISS s in
      (* Switch back to class A after beacon-less operation timeout (12.1) *)
      if device_class_t_beq (device_class s) CLASS_B then
        let no_beacon_rx_time :=
          time_t (LoRaMac.get_current_time (_loramac s) - _last_beacon_rx_time s) in
        if no_beacon_rx_time / 1000 >=? beaconless_period then
          let s := snd (mac_ask (MacCall.set_device_class CLASS_A)
                                (LoRaMac.set_device_class CLASS_A) s) in
          send_event_to_application SWITCH_CLASS_B_TO_A s
        else s
      else s
  end.

End Controller.

Arguments LoRaWANStack M : clear implicits.

(** ** A test double of the MAC

    Queries answer from fields a scenario sets beforehand; commands leave the
    answers alone, except that [set_tx_ongoing] and a successful
    [set_device_class] and [set_gps_time] are remembered. *)
Module Stub.

Record t := {
  device_class_value : device_class_t;
  server_type_value : server_type_t;
  joined : bool;
  tx_ongoing_value : bool;
  current_slot : rx_slot_t;
  mcps_confirmation : loramac_mcps_confirm_t;
  mcps_indication : loramac_mcps_indication_t;
  mlme_indication : loramac_mlme_indication_t;
  adr_ack_limit : Z;
  prev_QOS_level : Z;
  QOS_level : Z;
  current_time : Z;
  gps_time : Z;
  rejoin_max_time : Z;
  rejoin_max_count : Z;
  (** what every command with a [lorawan_status_t] result answers *)
  status_value : lorawan_status_t;
  continue_sending : bool;
  continue_joining : bool;
  (** the MLME confirms the next [on_radio_rx_done] raises *)
  rx_confirms : list loramac_mlme_confirm_t
}.

Definition with_device_class (c : device_class_t) (m : t) : t :=
  {| device_class_value := c; server_type_value := server_type_value m; joined := joined m;
     tx_ongoing_value := tx_ongoing_value m; current_slot := current_slot m;
     mcps_confirmation := mcps_confirmation m; mcps_indication := mcps_indication m;
     mlme_indication := mlme_indication m; adr_ack_limit := adr_ack_limit m;
     prev_QOS_level := prev_QOS_level m; QOS_level := QOS_level m;
     current_time := current_time m; gps_time := gps_time m;
     rejoin_max_time := rejoin_max_time m; rejoin_max_count := rejoin_max_count m;
     status_value := status_value m; continue_sending := continue_sending m;
     continue_joining := continue_joining m; rx_confirms := rx_confirms m |}.

Definition with_tx_ongoing (b : bool) (m : t) : t :=
  {| device_class_value := device_class_value m; server_type_value := server_type_value m;
     joined := joined m; tx_ongoing_value := b; current_slot := current_slot m;
     mcps_confirmation := mcps_confirmation m; mcps_indication := mcps_indication m;
     mlme_indication := mlme_indication m; adr_ack_limit := adr_ack_limit m;
     prev_QOS_level := prev_QOS_level m; QOS_level := QOS_level m;
     current_time := current_time m; gps_time := gps_time m;
     rejoin_max_time := rejoin_max_time m; rejoin_max_count := rejoin_max_count m;
     status_value := status_value m; continue_sending := continue_sending m;
     continue_joining := continue_joining m; rx_confirms := rx_confirms m |}.

Definition with_gps_time (g : Z) (m : t) : t :=
  {| device_class_value := device_class_value m; server_type_value := server_type_value m;
     joined := joined m; tx_ongoing_value := tx_ongoing_value m; current_slot := current_slot m;
     mcps_confirmation := mcps_confirmation m; mcps_indication := mcps_indication m;
     mlme_indication := mlme_indication m; adr_ack_limit := adr_ack_limit m;
     prev_QOS_level := prev_QOS_level m; QOS_level := QOS_level m;
     current_time := current_time m; gps_time := g;
     rejoin_max_time := rejoin_max_time m; rejoin_max_count := rejoin_max_count m;
     status_value := status_value m; continue_sending := continue_sending m;
     continue_joining := continue_joining m; rx_confirms := rx_confirms m |}.

(** A frame the MAC has decoded: what the next queries report. *)
Definition with_reception (slot : rx_slot_t) (i : loramac_mcps_indication_t)
  (cs : list loramac_mlme_confirm_t) (m : t) : t :=
  {| device_class_value := device_class_value m; server_type_value := server_type_value m;
     joined := joined m; tx_ongoing_value := tx_ongoing_value m; current_slot := slot;
     mcps_confirmation := mcps_confirmation m; mcps_indication := i;
     mlme_indication := mlme_indication m; adr_ack_limit := adr_ack_limit m;
     prev_QOS_level := prev_QOS_level m; QOS_level := QOS_level m;
     current_time := current_time m; gps_time := gps_time m;
     rejoin_max_time := rejoin_max_time m; rejoin_max_count := rejoin_max_count m;
     status_value := status_value m; continue_sending := continue_sending m;
     continue_joining := continue_joining m; rx_confirms := cs |}.

(** The clock of the MAC reaches [now] (milliseconds). *)
Definition with_current_time (now : Z) (m : t) : t :=
  {| device_class_value := device_class_value m; server_type_value := server_type_value m;
     joined := joined m; tx_ongoing_value := tx_ongoing_value m; current_slot := current_slot m;
     mcps_confirmation := mcps_confirmation m; mcps_indication := mcps_indication m;
     mlme_indication := mlme_indication m; adr_ack_limit := adr_ack_limit m;
     prev_QOS_level := prev_QOS_level m; QOS_level := QOS_level m;
     current_time := now; gps_time := gps_time m;
     rejoin_max_time := rejoin_max_time m; rejoin_max_count := rejoin_max_count m;
     status_value := status_value m; continue_sending := continue_sending m;
     continue_joining := continue_joining m; rx_confirms := rx_confirms m |}.

(** The uplink in flight is a confirmed one, or not. *)
Definition with_req_type (ty : mcps_type_t) (m : t) : t :=
  {| device_class_value := device_class_value m; server_type_value := server_type_value m;
     joined := joined m; tx_ongoing_value := tx_ongoing_value m; current_slot := current_slot m;
     mcps_confirmation :=
       {| conf_req_type := ty; conf_status := conf_status (mcps_confirmation m);
          conf_channel := conf_channel (mcps_confirmation m);
          conf_data_rate := conf_data_rate (mcps_confirmation m);
          conf_tx_power := conf_tx_power (mcps_confirmation m);
          conf_tx_toa := conf_tx_toa (mcps_confirmation m);
          conf_nb_retries := conf_nb_retries (mcps_confirmation m);
          conf_ul_frame_counter := conf_ul_frame_counter (mcps_confirmation m) |};
     mcps_indication := mcps_indication m;
     mlme_indication := mlme_indication m; adr_ack_limit := adr_ack_limit m;
     prev_QOS_level := prev_QOS_level m; QOS_level := QOS_level m;
     current_time := current_time m; gps_time := gps_time m;
     rejoin_max_time := rejoin_max_time m; rejoin_max_count := rejoin_max_count m;
     status_value := status_value m; continue_sending := continue_sending m;
     continue_joining := continue_joining m; rx_confirms := rx_confirms m |}.

#[export] Instance ops : LoRaMac.Ops t := {
  LoRaMac.get_device_class := device_class_value;
  LoRaMac.get_server_type := server_type_value;
  LoRaMac.nwk_joined := joined;
  LoRaMac.tx_ongoing := tx_ongoing_value;
  LoRaMac.get_current_slot := current_slot;
  LoRaMac.get_mcps_confirmation := mcps_confirmation;
  LoRaMac.get_mcps_indication := mcps_indication;
  LoRaMac.get_mlme_indication := mlme_indication;
  LoRaMac.get_current_adr_ack_limit := adr_ack_limit;
  LoRaMac.get_prev_QOS_level := prev_QOS_level;
  LoRaMac.get_QOS_level := QOS_level;
  LoRaMac.get_current_time := current_time;
  LoRaMac.get_gps_time := gps_time;
  LoRaMac.get_rejoin_parameters := fun m => (rejoin_max_time m, rejoin_max_count m);
  LoRaMac.initialize := fun m => (status_value m, m);
  LoRaMac.disconnect := fun m => m;
  LoRaMac.set_batterylevel_callback := fun m => m;
  LoRaMac.prepare_join := fun _ _ m => (status_value m, m);
  LoRaMac.join := fun _ m => (status_value m, m);
  LoRaMac.continue_joining_process := fun m => (continue_joining m, m);
  LoRaMac.prepare_ongoing_tx := fun _ _ length _ _ m => (length, m);
  LoRaMac.send_ongoing_tx := fun m => (status_value m, m);
  LoRaMac.continue_sending_process := fun m => (continue_sending m, m);
  LoRaMac.clear_tx_pipe := fun m => (status_value m, m);
  LoRaMac.set_tx_ongoing := with_tx_ongoing;
  LoRaMac.reset_ongoing_tx := fun m => m;
  LoRaMac.post_process_mcps_req := fun m => m;
  LoRaMac.post_process_mcps_ind := fun m => m;
  LoRaMac.post_process_mlme_ind := fun m => m;
  LoRaMac.on_radio_tx_done := fun _ m => m;
  LoRaMac.on_radio_tx_timeout := fun m => m;
  LoRaMac.on_radio_rx_done := fun _ _ _ _ _ m => (m, rx_confirms m);
  LoRaMac.on_radio_rx_timeout := fun _ m => m;
  LoRaMac.setup_link_check_request := fun m => m;
  LoRaMac.setup_device_time_request := fun m => m;
  LoRaMac.add_ping_slot_info_req := fun m => m;
  LoRaMac.setup_reset_indication := fun m => m;
  LoRaMac.setup_rekey_indication := fun m => m;
  LoRaMac.setup_device_mode_indication := fun _ m => m;
  LoRaMac.set_device_class := fun c m =>
    (status_value m,
     if lorawan_status_t_beq (status_value m) LORAWAN_STATUS_OK then with_device_class c m
     else m);
  LoRaMac.remove_channel_plan := fun m => (status_value m, m);
  LoRaMac.rejoin := fun _ _ _ m => m;
  LoRaMac.timer_init := fun _ m => m;
  LoRaMac.timer_start := fun _ _ m => m;
  LoRaMac.timer_stop := fun _ m => m;
  LoRaMac.set_gps_time := with_gps_time
}.

(** A build: LoRaWAN 1.1, ABP by default, automatic uplinks, no compliance
    testing, 32-bit [lorawan_time_t]. *)
#[export] Instance config : BuildConfig := {
  MBED_CONF_LORA_VERSION_1_1 := true;
  MBED_CONF_LORA_OVER_THE_AIR_ACTIVATION := false;
  MBED_CONF_LORA_AUTOMATIC_UPLINK_MESSAGE := true;
  MBED_CONF_LORA_APP_PORT := Some 15;
  MBED_CONF_LORA_REJOIN_TYPE1_SEND_PERIOD := 1209600;
  LORAWAN_COMPLIANCE_TEST := false;
  LORAWAN_DEFAULT_QOS := 1;
  LORAMAC_PHY_MAXPAYLOAD := 255;
  lorawan_time_bits := 32
}.

Definition no_confirmation : loramac_mcps_confirm_t :=
  {| conf_req_type := MCPS_UNCONFIRMED; conf_status := LORAMAC_EVENT_INFO_STATUS_OK;
     conf_channel := 0; conf_data_rate := 0; conf_tx_power := 0; conf_tx_toa := 0;
     conf_nb_retries := 0; conf_ul_frame_counter := 0 |}.

Definition no_indication : loramac_mcps_indication_t :=
  {| ind_type := MCPS_UNCONFIRMED; ind_status := LORAMAC_EVENT_INFO_STATUS_OK; ind_port := 0;
     ind_buffer := None; ind_buffer_size := 0; ind_is_data_recvd := false;
     ind_is_ack_recvd := false; ind_pending := false; ind_fpending_status := false;
     ind_dl_frame_counter := 0; ind_rx_datarate := 0; ind_rssi := 0; ind_snr := 0;
     ind_channel := 0; ind_rx_toa := 0 |}.

(** An unconfirmed data downlink of [size] bytes on [port]; [memory] is what the
    receive buffer of the MAC holds, the frame first. *)
Definition downlink (port size : Z) (memory : list byte) : loramac_mcps_indication_t :=
  {| ind_type := MCPS_UNCONFIRMED; ind_status := LORAMAC_EVENT_INFO_STATUS_OK;
     ind_port := port; ind_buffer := Some memory; ind_buffer_size := size;
     ind_is_data_recvd := true; ind_is_ack_recvd := false; ind_pending := true;
     ind_fpending_status := false; ind_dl_frame_counter := 1; ind_rx_datarate := 0;
     ind_rssi := 0; ind_snr := 0; ind_channel := 0; ind_rx_toa := 0 |}.

(** A MAC of a class A device on a LoRaWAN 1.1 network, joined, idle. *)
Definition mac0 : t :=
  {| device_class_value := CLASS_A; server_type_value := LW1_1; joined := true;
     tx_ongoing_value := false; current_slot := RX_SLOT_WIN_1;
     mcps_confirmation := no_confirmation; mcps_indication := no_indication;
     mlme_indication := {| indication_type := MLME_JOIN; mlme_ind_pending := false |};
     adr_ack_limit := 64; prev_QOS_level := 1; QOS_level := 1; current_time := 0;
     gps_time := 0; rejoin_max_time := 1024; rejoin_max_count := 16;
     status_value := LORAWAN_STATUS_OK; continue_sending := false;
     continue_joining := false; rx_confirms := [] |}.

Definition app_callbacks : lorawan_app_callbacks_t :=
  {| events := true; link_check_resp := false; battery_level := false |}.

(** The stack after construction, [initialize], [add_app_callbacks] and an ABP
    [connect]. *)
Definition connected : LoRaWANStack t :=
  run [call_initialize true; call_add_app_callbacks (Some app_callbacks); call_connect]
      (LoRaWANStack_new mac0).

(** ** Scenarios *)

(** An unconfirmed uplink of one byte on port 10. *)
Definition uplink : @entry t := call_send 10 (Some [7]) 1 MSG_UNCONFIRMED_FLAG.

(** The uplink, the end of its transmission, and a frame decoded in RX1: a
    downlink of [size] bytes on port 10 found at the start of [memory],
    together with the MLME confirms the frame raises. *)
Definition exchange (size : Z) (memory : list byte) (confirms : list loramac_mlme_confirm_t)
  : list (@entry t) :=
  [uplink; run_process_transmission;
   mac_changes (with_reception RX_SLOT_WIN_1 (downlink 10 size memory) confirms);
   run_process_reception 0 (firstn (Z.to_nat size) memory) size 0 0].

(** A frame with MAC commands only, decoded in RX1. *)
Definition mac_commands (confirms : list loramac_mlme_confirm_t) : list (@entry t) :=
  [mac_changes (with_reception RX_SLOT_WIN_1 no_indication confirms);
   run_process_reception 0 [] 0 0 0].

Definition mlme_confirm (ty : mlme_type_t) : loramac_mlme_confirm_t :=
  {| mlme_type := ty; mlme_status := LORAMAC_EVENT_INFO_STATUS_OK; demod_margin := 0;
     nb_gateways := 0; classType := CLASS_A; rejoin_type := 0; datarate := 0; period := 0;
     max_retries := 0 |}.

(** ForceRejoinReq: type 2, data rate 3, period 0, one retry. *)
Definition force_rejoin_req : loramac_mlme_confirm_t :=
  {| mlme_type := MLME_FORCE_REJOIN; mlme_status := LORAMAC_EVENT_INFO_STATUS_OK;
     demod_margin := 0; nb_gateways := 0; classType := CLASS_A; rejoin_type := 2;
     datarate := 3; period := 0; max_retries := 1 |}.

(** A downlink of 30 bytes, and a later one of 5 bytes that the MAC decodes
    into the same buffer. *)
Definition first_frame : list byte := map Z.of_nat (seq 100 30).
Definition second_frame : list byte := [1; 2; 3; 4; 5].

(** [first_frame] has arrived in answer to an uplink. *)
Definition first_arrived : LoRaWANStack t := run (exchange 30 first_frame []) connected.

(** The application has read the first 10 bytes of it. *)
Definition partly_read : LoRaWANStack t :=
  snd (receive 10 false 10 MSG_UNCONFIRMED_FLAG first_arrived).

(** It sends again before reading the rest, and [second_frame] comes back. *)
Definition second_arrived : LoRaWANStack t :=
  run (exchange 5 (second_frame ++ skipn 5 first_frame) []) partly_read.

(** Class C is requested, and the next uplink has left the radio. *)
Definition class_c_requested : LoRaWANStack t :=
  run [call_set_device_class CLASS_C; uplink; run_process_transmission] connected.

(** The device has been up for longer than the period of the type 1 rejoin
    when a downlink is processed. *)
Definition rejoin_due : LoRaWANStack t :=
  run (mac_changes (with_current_time 1300000000000) :: exchange 3 [1; 2; 3] []) connected.

(** The answer to the rejoin request, a JoinAccept, is received. *)
Definition rejoin_answered : LoRaWANStack t :=
  run (mac_commands [mlme_confirm MLME_JOIN_ACCEPT]) rejoin_due.

Definition reconnected : LoRaWANStack t := run [call_disconnect; call_connect] connected.

(** A downlink carries [force_rejoin_req]. *)
Definition rejoin_forced : LoRaWANStack t := run (exchange 0 [] [force_rejoin_req]) connected.

(** The network has answered a DeviceTimeReq. *)
Definition clock_synchronised : LoRaWANStack t := set_current_gps_time 1234567890500 connected.

Definition uplink_sent : LoRaWANStack t := run [uplink; run_process_transmission] connected.

(** A confirmed uplink has been sent, RX1 stayed empty, and the frame decoded
    in RX2 carries no acknowledgement; the MAC has no retry left. *)
Definition unacknowledged : LoRaWANStack t :=
  run [call_send 10 (Some [7]) 1 MSG_CONFIRMED_FLAG;
       mac_changes (with_req_type MCPS_CONFIRMED);
       run_process_transmission;
       mac_changes (with_reception RX_SLOT_WIN_2 no_indication [])] connected.

(** The network has confirmed the ResetInd of the ABP device: nothing is left
    to add to the uplinks. *)
Definition reset_confirmed : LoRaWANStack t :=
  mlme_confirm_handler 0 (mlme_confirm MLME_RESET) connected.

(** A JoinAccept has come from the LoRaWAN 1.1 server: a RekeyInd is due. *)
Definition rekey_due : LoRaWANStack t :=
  mlme_confirm_handler 0 (mlme_confirm MLME_JOIN_ACCEPT) reset_confirmed.

(** An uplink of the device has left the radio. *)
Definition busy_sending : LoRaWANStack t :=
  run [uplink; run_process_transmission] reset_confirmed.

(** The device has been up for longer than the period of the type 1 rejoin. *)
Definition rejoin_overdue : LoRaWANStack t :=
  run [mac_changes (with_current_time 1300000000)] connected.

(** The MAC asks for [q] transmissions of every unconfirmed uplink, as it did
    for the uplink before. *)
Definition with_qos (q : Z) (m : t) : t :=
  {| device_class_value := device_class_value m; server_type_value := server_type_value m;
     joined := joined m; tx_ongoing_value := tx_ongoing_value m; current_slot := current_slot m;
     mcps_confirmation := mcps_confirmation m; mcps_indication := mcps_indication m;
     mlme_indication := mlme_indication m; adr_ack_limit := adr_ack_limit m;
     prev_QOS_level := q; QOS_level := q;
     current_time := current_time m; gps_time := gps_time m;
     rejoin_max_time := rejoin_max_time m; rejoin_max_count := rejoin_max_count m;
     status_value := status_value m; continue_sending := continue_sending m;
     continue_joining := continue_joining m; rx_confirms := rx_confirms m |}.

(** An unconfirmed uplink that is to be sent three times has left the radio. *)
Definition to_repeat : LoRaWANStack t := run [mac_changes (with_qos 3)] uplink_sent.

(** The device is not joined, and the second receive window is open. *)
Definition not_joined (m : t) : t :=
  {| device_class_value := device_class_value m; server_type_value := server_type_value m;
     joined := false; tx_ongoing_value := tx_ongoing_value m; current_slot := RX_SLOT_WIN_2;
     mcps_confirmation := mcps_confirmation m; mcps_indication := mcps_indication m;
     mlme_indication := mlme_indication m; adr_ack_limit := adr_ack_limit m;
     prev_QOS_level := prev_QOS_level m; QOS_level := QOS_level m;
     current_time := current_time m; gps_time := gps_time m;
     rejoin_max_time := rejoin_max_time m; rejoin_max_count := rejoin_max_count m;
     status_value := status_value m; continue_sending := continue_sending m;
     continue_joining := continue_joining m; rx_confirms := rx_confirms m |}.

(** An over-the-air activation has been asked for, and the join request has
    left the radio. *)
Definition join_pending : LoRaWANStack t :=
  run [run_process_transmission]
      (snd (connect_with {| connect_type := Some LORAWAN_CONNECTION_OTAA |}
              (run [call_initialize true; call_add_app_callbacks (Some app_callbacks)]
                   (LoRaWANStack_new (not_joined mac0))))).

(** A confirmed uplink has left the radio and the first receive window is
    open; the MAC has no retry left. *)
Definition awaiting_ack : LoRaWANStack t :=
  run [call_send 10 (Some [7]) 1 MSG_CONFIRMED_FLAG;
       mac_changes (with_req_type MCPS_CONFIRMED);
       run_process_transmission] connected.

End Stub.

(** ** Vocabulary of the statements *)

(** The whole second nearest to a count of milliseconds (halves go up). *)
Definition round_to_nearest_second (ms : Z) : Z := (ms + 500) / 1000.

(** What a dropped reception must leave alone: the inbound message, the RX
    metadata, and what [s'] says about a rejoin being in progress. *)
Definition rx_untouched {M : Type} (s s' : LoRaWANStack M) : Prop :=
  _rx_msg s' = _rx_msg s
  /\ _rx_metadata s' = _rx_metadata s
  /\ Z.land (_ctrl_flags s') REJOIN_IN_PROGRESS = Z.land (_ctrl_flags s) REJOIN_IN_PROGRESS.

(** [s'] is [s] after some more steps: its trace is the trace of [s] followed by
    effects that all satisfy [P]. *)
Definition trace_grows {M : Type} (P : effect -> Prop) (s s' : LoRaWANStack M) : Prop :=
  exists new, _trace s' = _trace s ++ new /\ Forall P new.

(** The store [_ctrl_flags |= RETRY_EXHAUSTED_FLAG]. *)
Definition sets_retry_exhausted (e : effect) : Prop := e = FlagsSet RETRY_EXHAUSTED_FLAG.

Definition leaves_retry_exhausted (e : effect) : Prop := ~ sets_retry_exhausted e.

(** Every effect but a failed assertion. *)
Definition no_assert_failure (e : effect) : Prop := e <> AssertFailed.

Definition any_effect (e : effect) : Prop := True.

(** The rejoin requests the MAC was asked to send, among the effects of a trace. *)
Definition is_rejoin_attempt (e : effect) : bool :=
  match e with
  | Call (MacCall.rejoin _ _ _) => true
  | _ => false
  end.

Definition rejoin_attempts (t : list effect) : nat := length (filter is_rejoin_attempt t).

(** Sending a rejoin request and starting or stopping a timer do not change
    what the MAC reports as the version of the network server. *)
Definition rejoin_keeps_server_type (M : Type) {mac_ops : LoRaMac.Ops M} : Prop :=
  forall (m : M) rejoin_type is_forced datarate ev ms,
    LoRaMac.get_server_type (LoRaMac.rejoin rejoin_type is_forced datarate m)
      = LoRaMac.get_server_type m
    /\ LoRaMac.get_server_type (LoRaMac.timer_start ev ms m) = LoRaMac.get_server_type m
    /\ LoRaMac.get_server_type (LoRaMac.timer_stop ev m) = LoRaMac.get_server_type m.

(** An inbound message of [size] bytes, held in [memory], of which the first
    [offset] bytes have been read: either nothing yet, with a cursor at rest,
    or a part, which the cursor records. *)
Definition reading (memory : list byte) (size offset : Z) (m : loramac_rx_message_t) : Prop :=
  receive_ready m = true
  /\ msg_buffer m = Some memory
  /\ msg_buffer_size m = size
  /\ ((offset = 0 /\ pending_size m = 0)
      \/ (0 < offset < size /\ pending_size m = size - offset /\ prev_read_size m = offset)).

Definition total (lengths : list Z) : Z := fold_right Z.add 0 lengths.

(** What consecutive reads of a message are to return, [remaining] bytes of
    it being left: as many bytes as asked for while there are more, the rest
    on the read that ends it (a message without bytes is ended by one read of
    nothing), and WOULD_BLOCK from then on. *)
Fixpoint drain_returns (remaining : Z) (ready : bool) (lengths : list Z) : list ret16 :=
  match lengths with
  | [] => []
  | length :: rest =>
      if ready then
        Len (Z.min length remaining)
        :: drain_returns (remaining - Z.min length remaining) (length <? remaining) rest
      else Status LORAWAN_STATUS_WOULD_BLOCK :: drain_returns remaining false rest
  end.

(** No MAC command is waiting to be added to the next uplink. *)
Definition nothing_to_piggyback {M : Type} (s : LoRaWANStack M) : Prop :=
  _reset_ind_requested s = false
  /\ _rekey_ind_needed s = false
  /\ _device_mode_ind_needed s = false
  /\ _link_check_requested s = false
  /\ _device_time_requested s = false
  /\ _ping_slot_info_requested s = false.

(** The message types an uplink may have: exactly one of the unconfirmed,
    confirmed and proprietary flags, under [MSG_FLAG_MASK]. *)
Definition uplink_flags_valid (flags : Z) : bool :=
  (Z.land flags MSG_FLAG_MASK =? MSG_UNCONFIRMED_FLAG)
  || (Z.land flags MSG_FLAG_MASK =? MSG_CONFIRMED_FLAG)
  || (Z.land flags MSG_FLAG_MASK =? MSG_PROPRIETARY_FLAG).

(** The calls by which [handle_tx] stages the requests the application keeps
    standing: LinkCheckReq, DeviceTimeReq and PingSlotInfoReq. *)
Definition is_request_call (e : effect) : bool :=
  match e with
  | Call MacCall.setup_link_check_request
  | Call MacCall.setup_device_time_request
  | Call MacCall.add_ping_slot_info_req => true
  | _ => false
  end.

(** The requests standing in [s], in the order [handle_tx] stages them. *)
Definition standing_requests {M : Type} (s : LoRaWANStack M) : list effect :=
  (if _link_check_requested s then [Call MacCall.setup_link_check_request] else [])
  ++ (if _device_time_requested s then [Call MacCall.setup_device_time_request] else [])
  ++ (if _ping_slot_info_requested s then [Call MacCall.add_ping_slot_info_req] else []).

(** [e] stages a request only if that request is standing in [s]. *)
Definition staged_on_request {M : Type} (s : LoRaWANStack M) (e : effect) : Prop :=
  (e = Call MacCall.setup_link_check_request -> _link_check_requested s = true)
  /\ (e = Call MacCall.setup_device_time_request -> _device_time_requested s = true)
  /\ (e = Call MacCall.add_ping_slot_info_req -> _ping_slot_info_requested s = true).

(** What a logged store does to the value of [_ctrl_flags]. *)
Definition apply_store (f : Z) (e : effect) : Z :=
  match e with
  | FlagsSet mask => Z.lor f mask
  | FlagsClear mask => Z.land f (uint32_not mask)
  | FlagsStore v => v
  | _ => f
  end.

(** The value of [_ctrl_flags] after the stores among [new], in their order. *)
Definition replay_stores (new : list effect) (f : Z) : Z := fold_left apply_store new f.

(** [s'] is [s] after some more steps, and the stores to [_ctrl_flags] among the
    new effects account for its value in [s']. *)
Definition stores_logged {M : Type} (s s' : LoRaWANStack M) : Prop :=
  exists new,
    _trace s' = _trace s ++ new
    /\ _ctrl_flags s' = replay_stores new (_ctrl_flags s).

(** An effect other than a reported event. *)
Definition no_event (e : effect) : Prop :=
  match e with
  | Event _ => False
  | _ => True
  end.

(** * Properties *)

Section Facts.
Context {cfg : BuildConfig} {M : Type} {mac_ops : LoRaMac.Ops M}.

Implicit Types s : LoRaWANStack M.

(** ** Proof steps shared by the lemmas below *)

Ltac unfold_steps :=
  unfold send_event_to_application, set_reset_indication, set_rekey_indication,
    set_device_mode_indication, release_tx, flags_set, flags_clear, flags_store,
    mac_do, mac_ask.

(** Forward reading of a function body: the value bound by the outermost [let]
    gets a name of its own, so that no state expression is ever copied. *)
Ltac name_let :=
  match goal with
  | |- context C [let x := ?e in @?b x] =>
      let v := fresh "st" in
      pose (v := e);
      let g := context C [b v] in
      change g; cbv beta
  end.

(** Open every named intermediate value of the goal. *)
Ltac unfold_locals :=
  repeat match goal with
         | x := _ |- _ => progress unfold x
         end.

(** Reduce field reads of updated states, and nothing else. *)
Ltac simpl_fields :=
  cbn [
    _loramac _device_current_state _callbacks _lw_session _rx_msg _tx_metadata _rx_metadata
    _num_retry _qos_cnt _ctrl_flags _app_port _link_check_requested _reset_ind_requested
    _rekey_ind_needed _rekey_ind_counter _device_mode_ind_needed _device_mode_ind_ongoing
    _new_class_type _automatic_uplink_ongoing _rx_payload_in_use _rx_payload _queue
    _tx_timestamp _rx_timestamp _rejoin_type1_send_period _rejoin_type1_stamp
    _rejoin_type0_counter _forced_datarate _forced_period _forced_retry_count
    _forced_rejoin_type _forced_counter _ping_slot_info_requested _device_time_requested
    _last_beacon_rx_time _trace with_loramac with_device_current_state with_callbacks
    with_lw_session with_rx_msg with_tx_metadata with_rx_metadata with_num_retry with_qos_cnt
    with_ctrl_flags with_app_port with_link_check_requested with_reset_ind_requested
    with_rekey_ind_needed with_rekey_ind_counter with_device_mode_ind_needed
    with_device_mode_ind_ongoing with_new_class_type with_automatic_uplink_ongoing
    with_rx_payload_in_use with_rx_payload with_queue with_tx_timestamp with_rx_timestamp
    with_rejoin_type1_send_period with_rejoin_type1_stamp with_rejoin_type0_counter
    with_forced_datarate with_forced_period with_forced_retry_count with_forced_rejoin_type
    with_forced_counter with_ping_slot_info_requested with_device_time_requested
    with_last_beacon_rx_time with_trace with_state emit fst snd
  ] in *.

(** The same, in the goal only. *)
Ltac simpl_goal_fields :=
  cbn [
    _loramac _device_current_state _callbacks _lw_session _rx_msg _tx_metadata _rx_metadata
    _num_retry _qos_cnt _ctrl_flags _app_port _link_check_requested _reset_ind_requested
    _rekey_ind_needed _rekey_ind_counter _device_mode_ind_needed _device_mode_ind_ongoing
    _new_class_type _automatic_uplink_ongoing _rx_payload_in_use _rx_payload _queue
    _tx_timestamp _rx_timestamp _rejoin_type1_send_period _rejoin_type1_stamp
    _rejoin_type0_counter _forced_datarate _forced_period _forced_retry_count
    _forced_rejoin_type _forced_counter _ping_slot_info_requested _device_time_requested
    _last_beacon_rx_time _trace with_loramac with_device_current_state with_callbacks
    with_lw_session with_rx_msg with_tx_metadata with_rx_metadata with_num_retry with_qos_cnt
    with_ctrl_flags with_app_port with_link_check_requested with_reset_ind_requested
    with_rekey_ind_needed with_rekey_ind_counter with_device_mode_ind_needed
    with_device_mode_ind_ongoing with_new_class_type with_automatic_uplink_ongoing
    with_rx_payload_in_use with_rx_payload with_queue with_tx_timestamp with_rx_timestamp
    with_rejoin_type1_send_period with_rejoin_type1_stamp with_rejoin_type0_counter
    with_forced_datarate with_forced_period with_forced_retry_count with_forced_rejoin_type
    with_forced_counter with_ping_slot_info_requested with_device_time_requested
    with_last_beacon_rx_time with_trace with_state emit fst snd
  ].

(** The state a field update applies to. *)
Ltac updated_state t :=
  lazymatch t with
  | with_loramac _ ?x => x
  | with_device_current_state _ ?x => x
  | with_callbacks _ ?x => x
  | with_lw_session _ ?x => x
  | with_rx_msg _ ?x => x
  | with_tx_metadata _ ?x => x
  | with_rx_metadata _ ?x => x
  | with_num_retry _ ?x => x
  | with_qos_cnt _ ?x => x
  | with_ctrl_flags _ ?x => x
  | with_app_port _ ?x => x
  | with_link_check_requested _ ?x => x
  | with_reset_ind_requested _ ?x => x
  | with_rekey_ind_needed _ ?x => x
  | with_rekey_ind_counter _ ?x => x
  | with_device_mode_ind_needed _ ?x => x
  | with_device_mode_ind_ongoing _ ?x => x
  | with_new_class_type _ ?x => x
  | with_automatic_uplink_ongoing _ ?x => x
  | with_rx_payload_in_use _ ?x => x
  | with_rx_payload _ ?x => x
  | with_queue _ ?x => x
  | with_tx_timestamp _ ?x => x
  | with_rx_timestamp _ ?x => x
  | with_rejoin_type1_send_period _ ?x => x
  | with_rejoin_type1_stamp _ ?x => x
  | with_rejoin_type0_counter _ ?x => x
  | with_forced_datarate _ ?x => x
  | with_forced_period _ ?x => x
  | with_forced_retry_count _ ?x => x
  | with_forced_rejoin_type _ ?x => x
  | with_forced_counter _ ?x => x
  | with_ping_slot_info_requested _ ?x => x
  | with_device_time_requested _ ?x => x
  | with_last_beacon_rx_time _ ?x => x
  | with_trace _ ?x => x
  | with_state _ ?x => x
  end.

Ltac break_if :=
  match goal with
  | |- context [if ?b then _ else _] => destruct b eqn:?
  end.

Ltac break_ifs := repeat (simpl_fields; break_if); simpl_fields.

(** Case analysis on the enumeration a [switch] dispatches on. *)
Ltac break_switch :=
  match goal with
  | |- context [match ?x with _ => _ end] =>
      match type of x with
      | mlme_type_t => destruct x eqn:?
      | loramac_event_info_status_t => destruct x eqn:?
      | rx_slot_t => destruct x eqn:?
      | device_states_t => destruct x eqn:?
      end
  end.

(** ** Device state tests *)

Lemma in_state_true st s : in_state st s = true <-> _device_current_state s = st.
Proof.
  unfold in_state. destruct (_device_current_state s), st; simpl; split; congruence.
Qed.

Lemma in_state_false st s : in_state st s = false <-> _device_current_state s <> st.
Proof.
  rewrite <- in_state_true. destruct (in_state st s); split; congruence.
Qed.

Lemma initialised s :
  _device_current_state s <> DEVICE_STATE_NOT_INITIALIZED ->
  in_state DEVICE_STATE_NOT_INITIALIZED s = false.
Proof. apply in_state_false. Qed.

(** ** Reading with no message pending *)

(** C10. A receive call on an initialised stack with an active session and no
    inbound message pending ([receive_ready] false) returns WOULD_BLOCK whatever
    the buffer arguments are (a NULL pointer and a zero length included), hands
    [port] and [flags] back untouched, copies nothing, and leaves the whole
    controller state as it was. *)
Theorem handle_rx_without_message
  (data_is_null : bool) (length port flags : Z) (validate_params : bool) s :
  _device_current_state s <> DEVICE_STATE_NOT_INITIALIZED ->
  active (_lw_session s) = true ->
  receive_ready (_rx_msg s) = false ->
  handle_rx data_is_null length port flags validate_params s =
    ({| rx_return := Status LORAWAN_STATUS_WOULD_BLOCK; rx_data := [];
        rx_port_out := port; rx_flags_out := flags |}, s).
Proof.
  intros Hinit Hact Hready. unfold handle_rx.
  rewrite (initialised s Hinit), Hact, Hready. reflexivity.
Qed.

(** ** Metadata *)


(** ** UTC helper *)

Lemma wrap_small (w z : Z) : 0 <= z < 2 ^ w -> wrap w z = z.
Proof. intros H. unfold wrap. apply Z.mod_small. exact H. Qed.

Lemma round_to_nearest_second_cases (ms : Z) :
  round_to_nearest_second ms = ms / 1000 + (if 500 <=? ms mod 1000 then 1 else 0).
Proof.
  unfold round_to_nearest_second.
  pose proof (Z.div_mod ms 1000 ltac:(lia)) as Hdm.
  pose proof (Z.mod_pos_bound ms 1000 ltac:(lia)) as Hb.
  destruct (Z.leb_spec 500 (ms mod 1000)).
  - symmetry. apply Z.div_unique with (r := ms mod 1000 - 500); lia.
  - rewrite Z.add_0_r. symmetry. apply Z.div_unique with (r := ms mod 1000 + 500); lia.
Qed.

(** C8. [set_system_time_utc(tai_utc_diff)] returns SERVICE_UNKNOWN and does not
    call [set_time] when the GPS time it reads is zero (unset).  Otherwise, as
    long as the numbers fit their C types (TAI-UTC at least 19, the result
    below 2^32), it sets the system time to
    [315964800 + (tai_utc_diff - 19) + round(gps_ms)] seconds plus the wall clock
    read beforehand, where [round] is the nearest second: [gps_ms / 1000], plus
    one when the remainder is at least 500 ms. *)
Theorem set_system_time_utc_spec (tai_utc_diff now : Z) s :
  32 <= lorawan_time_bits ->
  (get_current_gps_time s = 0 ->
   set_system_time_utc tai_utc_diff now s = (LORAWAN_STATUS_SERVICE_UNKNOWN, None))
  /\ (get_current_gps_time s > 0 ->
      0 <= now ->
      19 <= tai_utc_diff ->
      now + UNIX_GPS_EPOCH_DIFF + (tai_utc_diff - 19)
        + round_to_nearest_second (get_current_gps_time s) < 2 ^ 32 ->
      set_system_time_utc tai_utc_diff now s =
        (LORAWAN_STATUS_OK,
         Some (315964800 + (tai_utc_diff - 19)
               + round_to_nearest_second (get_current_gps_time s) + now))
      /\ round_to_nearest_second (get_current_gps_time s) =
           get_current_gps_time s / 1000
           + (if 500 <=? get_current_gps_time s mod 1000 then 1 else 0)).
Proof.
  intros Hbits. split.
  - intros Hz. unfold set_system_time_utc. rewrite Hz. reflexivity.
  - intros Hg Hnow Htai Hfit.
    split; [|apply round_to_nearest_second_cases].
    unfold set_system_time_utc.
    set (g := get_current_gps_time s) in *.
    destruct (Z.eqb_spec g 0) as [->|_]; [lia|].
    pose proof (round_to_nearest_second_cases g) as Hr.
    pose proof (Z.mod_pos_bound g 1000 ltac:(lia)) as Hm.
    assert (0 <= g / 1000) as Hq by (apply Z.div_pos; lia).
    assert (2 ^ 32 <= 2 ^ lorawan_time_bits) as Hpow
      by (apply Z.pow_le_mono_r; lia).
    unfold UNIX_GPS_EPOCH_DIFF in *.
    assert (round_to_nearest_second g <= g / 1000 + 1) as Hle
      by (rewrite Hr; destruct (500 <=? g mod 1000); lia).
    assert (g / 1000 <= round_to_nearest_second g) as Hge
      by (rewrite Hr; destruct (500 <=? g mod 1000); lia).
    unfold time_t, uint32.
    rewrite (wrap_small 32 (tai_utc_diff - 19)) by lia.
    rewrite (wrap_small lorawan_time_bits (now + 315964800)) by lia.
    rewrite (wrap_small lorawan_time_bits (now + 315964800 + (tai_utc_diff - 19))) by lia.
    rewrite (wrap_small 32 (g / 1000)) by lia.
    rewrite (wrap_small 32 (g mod 1000)) by lia.
    rewrite Hr in *.
    replace (g mod 1000 >=? 500) with (500 <=? g mod 1000)
      by (rewrite Z.geb_leb; reflexivity).
    destruct (Z.leb_spec 500 (g mod 1000)).
    + rewrite (wrap_small 32 (g / 1000 + 1)) by lia.
      rewrite wrap_small by lia. do 2 f_equal. lia.
    + rewrite wrap_small by lia. do 2 f_equal. lia.
Qed.

(** ** Ports *)

Lemma is_port_valid_application (port : Z) :
  LORAWAN_COMPLIANCE_TEST = false ->
  is_port_valid port false = true <-> port <> 0 /\ port <> COMPLIANCE_TESTING_PORT.
Proof.
  intros Hc. unfold is_port_valid. rewrite Hc.
  destruct (Z.eqb_spec port 0); [split; [discriminate|tauto]|].
  destruct (Z.eqb_spec port COMPLIANCE_TESTING_PORT); [split; [discriminate|tauto]|].
  tauto.
Qed.

(** ** Bits of [_ctrl_flags] *)

Lemma testbit_uint32_not (x n : Z) :
  0 <= n -> Z.testbit (uint32_not x) n = xorb (n <? 32) (Z.testbit x n).
Proof.
  intros Hn. unfold uint32_not. rewrite Z.lxor_spec. f_equal.
  change 0xFFFFFFFF with (Z.ones 32).
  destruct (Z.ltb_spec n 32).
  - apply Z.ones_spec_low. lia.
  - apply Z.ones_spec_high. lia.
Qed.

Lemma land_lor_other (f a b : Z) : Z.land a b = 0 -> Z.land (Z.lor f a) b = Z.land f b.
Proof.
  intros H. rewrite Z.land_lor_distr_l, H. apply Z.lor_0_r.
Qed.

Lemma land_lor_same (f a : Z) : Z.land (Z.lor f a) a = a.
Proof.
  rewrite Z.land_lor_distr_l, Z.land_diag. apply Z.bits_inj'. intros n Hn.
  rewrite Z.lor_spec, Z.land_spec. destruct (Z.testbit f n), (Z.testbit a n); reflexivity.
Qed.

Lemma testbit_above_32 (b n : Z) : 0 <= b < 2 ^ 32 -> 32 <= n -> Z.testbit b n = false.
Proof.
  intros Hb Hn. destruct (Z.eq_dec b 0) as [->|Hnz]; [apply Z.bits_0|].
  apply Z.bits_above_log2; [lia|].
  apply Z.lt_le_trans with 32; [|lia].
  apply Z.log2_lt_pow2; lia.
Qed.

Lemma land_clear_other (f a b : Z) :
  0 <= b < 2 ^ 32 -> Z.land a b = 0 -> Z.land (Z.land f (uint32_not a)) b = Z.land f b.
Proof.
  intros Hb H. apply Z.bits_inj'. intros n Hn.
  rewrite !Z.land_spec, testbit_uint32_not by exact Hn.
  pose proof (f_equal (fun z => Z.testbit z n) H) as Hbit. cbv beta in Hbit.
  rewrite Z.land_spec, Z.bits_0 in Hbit.
  destruct (Z.ltb_spec n 32).
  - destruct (Z.testbit f n), (Z.testbit a n), (Z.testbit b n); simpl in *; congruence.
  - rewrite (testbit_above_32 b n) by lia. rewrite !Bool.andb_false_r. reflexivity.
Qed.

Lemma land_clear_same (f a : Z) :
  0 <= a < 2 ^ 32 -> Z.land (Z.land f (uint32_not a)) a = 0.
Proof.
  intros Ha. apply Z.bits_inj'. intros n Hn.
  rewrite !Z.land_spec, testbit_uint32_not, Z.bits_0 by exact Hn.
  destruct (Z.ltb_spec n 32).
  - destruct (Z.testbit f n), (Z.testbit a n); reflexivity.
  - rewrite (testbit_above_32 a n) by lia. rewrite !Bool.andb_false_r. reflexivity.
Qed.

(** The rejoin bit is disjoint from every other control flag. *)
Lemma rejoin_bit_range : 0 <= REJOIN_IN_PROGRESS < 2 ^ 32.
Proof. unfold REJOIN_IN_PROGRESS. lia. Qed.

Lemma flag_flags_set_same mask s : mask <> 0 -> flag mask (flags_set mask s) = true.
Proof.
  intros H. unfold flag, flags_set. simpl_fields. rewrite land_lor_same.
  destruct (Z.eqb_spec mask 0); [contradiction|reflexivity].
Qed.

Lemma flag_flags_clear_same mask s :
  0 <= mask < 2 ^ 32 -> flag mask (flags_clear mask s) = false.
Proof.
  intros H. unfold flag, flags_clear. simpl_fields. rewrite land_clear_same; auto.
Qed.

Lemma flag_flags_set_other a b s :
  Z.land a b = 0 -> flag b (flags_set a s) = flag b s.
Proof. intros H. unfold flag, flags_set. simpl_fields. rewrite land_lor_other; auto. Qed.

Lemma flag_flags_clear_other a b s :
  0 <= b < 2 ^ 32 -> Z.land a b = 0 -> flag b (flags_clear a s) = flag b s.
Proof. intros Hb H. unfold flag, flags_clear. simpl_fields. rewrite land_clear_other; auto. Qed.

(** ** Application ports *)

(** C2 (divergence).  Without compliance testing compiled in, a port given by
    the application ([allow_port_0] false) is refused with PORT_INVALID exactly
    when it is 0 or 224.  Every other value of the [uint8_t] is accepted and
    becomes the application port: 1 to 223, and 225 to 255 as well. *)
Theorem application_port_accepted (port : Z) s :
  LORAWAN_COMPLIANCE_TEST = false ->
  0 <= port <= 255 ->
  (set_application_port port false s = (LORAWAN_STATUS_OK, with_app_port port s)
   <-> 1 <= port <= 223 \/ 225 <= port <= 255)
  /\ (set_application_port port false s = (LORAWAN_STATUS_PORT_INVALID, s)
      <-> port = 0 \/ port = 224).
Proof.
  intros Hc Hp. unfold set_application_port.
  pose proof (is_port_valid_application port Hc) as Hv. unfold COMPLIANCE_TESTING_PORT in Hv.
  destruct (is_port_valid port false).
  - assert (port <> 0 /\ port <> 224) as Hok by (apply Hv; reflexivity).
    split; split; try discriminate; intros; try reflexivity; lia.
  - assert (~ (port <> 0 /\ port <> 224)) as Hno
      by (intros H; apply Hv in H; discriminate H).
    split; split; try discriminate; intros; try reflexivity; lia.
Qed.

(** ** Rejoin in progress *)

Ltac solve_land :=
  repeat first
    [ rewrite land_lor_other by reflexivity
    | rewrite land_clear_other by (first [reflexivity | exact rejoin_bit_range]) ].

Ltac solve_rx_untouched :=
  unfold rx_untouched; simpl_fields;
  (split; [reflexivity|split; [reflexivity|]]); solve_land; reflexivity.

Lemma rx_untouched_refl s : rx_untouched s s.
Proof. unfold rx_untouched. auto. Qed.

Lemma rx_untouched_trans s1 s2 s3 :
  rx_untouched s1 s2 -> rx_untouched s2 s3 -> rx_untouched s1 s3.
Proof.
  unfold rx_untouched. intros (A1 & A2 & A3) (B1 & B2 & B3).
  repeat split; congruence.
Qed.

(** An MLME confirm never touches the inbound message, the RX metadata or the
    rejoin bit. *)
Lemma mlme_confirm_handler_rx_untouched rnd c s :
  rx_untouched s (mlme_confirm_handler rnd c s).
Proof.
  unfold mlme_confirm_handler, state_controller, process_connected_state,
    process_joining_state, process_rejoin, reset_forced_rejoin.
  unfold_steps.
  repeat break_switch; break_ifs; solve_rx_untouched.
Qed.

Lemma run_mlme_confirms_rx_untouched rnd cs s :
  rx_untouched s (run_mlme_confirms rnd cs s).
Proof.
  unfold run_mlme_confirms. revert s.
  induction cs as [|c cs IH]; intros s; simpl.
  - apply rx_untouched_refl.
  - eapply rx_untouched_trans; [apply mlme_confirm_handler_rx_untouched|apply IH].
Qed.

Lemma flag_of_land mask s s' :
  Z.land (_ctrl_flags s') mask = Z.land (_ctrl_flags s) mask -> flag mask s' = flag mask s.
Proof. unfold flag. intros ->. reflexivity. Qed.

Lemma events_of_app (t1 t2 : list effect) :
  events_of (t1 ++ t2) = events_of t1 ++ events_of t2.
Proof. unfold events_of. apply flat_map_app. Qed.

(** With a rejoin in progress, [handle_tx] stops at its third test: it has
    staged nothing and changed nothing. *)
Lemma handle_tx_rejoin_in_progress port data length flags null_allowed allow_port_0 s :
  _device_current_state s <> DEVICE_STATE_NOT_INITIALIZED ->
  flag REJOIN_IN_PROGRESS s = true ->
  handle_tx port data length flags null_allowed allow_port_0 s =
    (Status (if negb null_allowed && match data with None => true | Some _ => false end
             then LORAWAN_STATUS_PARAMETER_INVALID else LORAWAN_STATUS_BUSY), s).
Proof.
  intros Hinit Hflag. unfold handle_tx.
  rewrite (initialised s Hinit), Hflag.
  destruct (negb null_allowed && _); reflexivity.
Qed.

(** A reception with a rejoin in progress on a joined device: after the MAC has
    seen the frame (state [s2], MLME confirms handled) the controller clears the
    rejoin bit, releases the staging buffer and returns. *)
Lemma process_reception_rejoin_in_progress rnd payload size rssi snr s :
  flag REJOIN_IN_PROGRESS s = true ->
  LoRaMac.nwk_joined (_loramac s) = true ->
  exists s2,
    rx_untouched s s2
    /\ (snd (LoRaMac.on_radio_rx_done payload size rssi snr (_rx_timestamp s) (_loramac s))
          = [] ->
        events_of (_trace s2) = events_of (_trace s))
    /\ process_reception rnd payload size rssi snr s =
         with_rx_payload_in_use false (flags_clear REJOIN_IN_PROGRESS s2).
Proof.
  intros Hflag Hjoined. cbv beta delta [process_reception].
  repeat name_let.
  assert (st4 = true) as ->
    by (unfold_locals; unfold_steps; simpl_fields; exact Hjoined).
  assert (rx_untouched s (snd st6)) as H1
    by (unfold_locals; unfold_steps; solve_rx_untouched).
  assert (rx_untouched s st7) as H2.
  { eapply rx_untouched_trans; [exact H1|apply run_mlme_confirms_rx_untouched]. }
  pose proof H2 as (_ & _ & Hbit).
  rewrite (flag_of_land _ _ _ Hbit), Hflag. simpl negb. cbv iota.
  exists st7.
  split; [exact H2|]. split; [|reflexivity].
  intros Hnone.
  assert (fst st6 = []) as Hr
    by (unfold_locals; unfold_steps; simpl_fields; exact Hnone).
  unfold st7. rewrite Hr. unfold run_mlme_confirms. simpl fold_left.
  unfold_locals. unfold_steps. simpl_fields.
  rewrite !events_of_app. simpl. rewrite !app_nil_r. reflexivity.
Qed.

(** On a device that is not joined the reception returns before the rejoin
    bit is looked at. *)
Lemma process_reception_not_joined rnd payload size rssi snr s :
  LoRaMac.nwk_joined (_loramac s) = false ->
  exists s2,
    rx_untouched s s2
    /\ process_reception rnd payload size rssi snr s = with_rx_payload_in_use false s2.
Proof.
  intros Hjoined. cbv beta delta [process_reception].
  repeat name_let.
  assert (st4 = false) as ->
    by (unfold_locals; unfold_steps; simpl_fields; exact Hjoined).
  assert (rx_untouched s (snd st6)) as H1
    by (unfold_locals; unfold_steps; solve_rx_untouched).
  assert (rx_untouched s st7) as H2.
  { eapply rx_untouched_trans; [exact H1|apply run_mlme_confirms_rx_untouched]. }
  cbn [negb]. cbv iota.
  exists st7. split; [exact H2|reflexivity].
Qed.

(** C4 (amended). While RejoinInProgress is set on an initialised stack, an application
    send changes nothing and stages nothing: it returns BUSY, or
    PARAMETER_INVALID when the data pointer is NULL (that test comes first).
    A reception processed while the flag is set and the device is joined clears
    the flag and stops there: the inbound message and the RX metadata stay as
    they were and the staging buffer is released; when the MAC raises no MLME
    confirm for the frame, no event is queued for the application either.  On
    a device that is not joined the reception stops earlier still, and the
    flag stays set. *)
Theorem rejoin_in_progress_gates
  (port : Z) (data : option (list byte)) (length flags rnd : Z)
  (payload : list byte) (size rssi snr : Z) s :
  _device_current_state s <> DEVICE_STATE_NOT_INITIALIZED ->
  flag REJOIN_IN_PROGRESS s = true ->
  send port data length flags s =
    (Status match data with
            | None => LORAWAN_STATUS_PARAMETER_INVALID
            | Some _ => LORAWAN_STATUS_BUSY
            end, s)
  /\ (LoRaMac.nwk_joined (_loramac s) = true ->
      let s' := process_reception rnd payload size rssi snr s in
      flag REJOIN_IN_PROGRESS s' = false
      /\ _rx_msg s' = _rx_msg s
      /\ _rx_metadata s' = _rx_metadata s
      /\ _rx_payload_in_use s' = false
      /\ (snd (LoRaMac.on_radio_rx_done payload size rssi snr (_rx_timestamp s) (_loramac s))
            = [] ->
          events_of (_trace s') = events_of (_trace s)))
  /\ (LoRaMac.nwk_joined (_loramac s) = false ->
      let s' := process_reception rnd payload size rssi snr s in
      flag REJOIN_IN_PROGRESS s' = true
      /\ _rx_msg s' = _rx_msg s
      /\ _rx_metadata s' = _rx_metadata s
      /\ _rx_payload_in_use s' = false).
Proof.
  intros Hinit Hflag. split.
  { unfold send. rewrite handle_tx_rejoin_in_progress by assumption.
    destruct data; reflexivity. }
  split; cycle 1.
  { intros Hjoined s'.
    destruct (process_reception_not_joined rnd payload size rssi snr s Hjoined)
      as (s2 & (Hmsg & Hmeta & Hbit) & Heq).
    subst s'. rewrite Heq. clear Heq.
    split.
    { change (flag REJOIN_IN_PROGRESS s2 = true).
      rewrite (flag_of_land _ _ _ Hbit). exact Hflag. }
    simpl_fields. split; [exact Hmsg|]. split; [exact Hmeta|reflexivity]. }
  intros Hjoined s'.
  destruct (process_reception_rejoin_in_progress rnd payload size rssi snr s Hflag Hjoined)
    as (s2 & (Hmsg & Hmeta & Hbit) & Hev & Heq).
  subst s'. rewrite Heq. clear Heq.
  split.
  { unfold flag. simpl_fields.
    change (flag REJOIN_IN_PROGRESS (flags_clear REJOIN_IN_PROGRESS s2) = false).
    apply flag_flags_clear_same. exact rejoin_bit_range. }
  unfold flags_clear, emit. simpl_fields.
  split; [exact Hmsg|]. split; [exact Hmeta|]. split; [reflexivity|].
  intros Hnone. rewrite events_of_app, (Hev Hnone). simpl. apply app_nil_r.
Qed.

(** ** How the trace grows *)

Lemma grows_refl P s : trace_grows P s s.
Proof. exists []. split; [symmetry; apply app_nil_r|constructor]. Qed.

Lemma grows_trans P s1 s2 s3 :
  trace_grows P s1 s2 -> trace_grows P s2 s3 -> trace_grows P s1 s3.
Proof.
  intros (n1 & E1 & F1) (n2 & E2 & F2). exists (n1 ++ n2). split.
  - rewrite E2, E1. symmetry. apply app_assoc.
  - apply Forall_app. split; assumption.
Qed.

Lemma grows_weaken (P Q : effect -> Prop) s s' :
  (forall e, P e -> Q e) -> trace_grows P s s' -> trace_grows Q s s'.
Proof.
  intros HPQ (n & E & F). exists n. split; [exact E|].
  eapply Forall_impl; [exact HPQ|exact F].
Qed.

Lemma grows_same P s s' : _trace s' = _trace s -> trace_grows P s s'.
Proof. intros E. exists []. split; [rewrite E; symmetry; apply app_nil_r|constructor]. Qed.

Lemma grows_emit P e s : P e -> trace_grows P s (emit e s).
Proof. intros H. exists [e]. split; [reflexivity|repeat constructor; exact H]. Qed.

Lemma grows_flags_set P mask s : P (FlagsSet mask) -> trace_grows P s (flags_set mask s).
Proof. intros H. exists [FlagsSet mask]. split; [reflexivity|repeat constructor; exact H]. Qed.

Lemma grows_flags_clear P mask s :
  P (FlagsClear mask) -> trace_grows P s (flags_clear mask s).
Proof. intros H. exists [FlagsClear mask]. split; [reflexivity|repeat constructor; exact H]. Qed.

Lemma grows_flags_store P v s : P (FlagsStore v) -> trace_grows P s (flags_store v s).
Proof. intros H. exists [FlagsStore v]. split; [reflexivity|repeat constructor; exact H]. Qed.

Lemma grows_mac_do P c f s : P (Call c) -> trace_grows P s (mac_do c f s).
Proof. intros H. exists [Call c]. split; [reflexivity|repeat constructor; exact H]. Qed.

Lemma grows_mac_ask P (R : Type) (c : R -> MacCall.t) (f : M -> R * M) s :
  (forall r, P (Call (c r))) -> trace_grows P s (snd (mac_ask c f s)).
Proof.
  intros H. exists [Call (c (fst (f (_loramac s))))].
  split; [reflexivity|repeat constructor; apply H].
Qed.

Lemma grows_send_event P ev s :
  P (Event ev) -> trace_grows P s (send_event_to_application ev s).
Proof.
  intros H. unfold send_event_to_application.
  destruct (events (_callbacks s)); [apply grows_emit; exact H|apply grows_refl].
Qed.


(** A field update other than of the trace adds nothing to it. *)
Lemma grows_with_loramac P v s : trace_grows P s (with_loramac v s).
Proof. apply grows_same. reflexivity. Qed.
Lemma grows_with_device_current_state P v s : trace_grows P s (with_device_current_state v s).
Proof. apply grows_same. reflexivity. Qed.
Lemma grows_with_callbacks P v s : trace_grows P s (with_callbacks v s).
Proof. apply grows_same. reflexivity. Qed.
Lemma grows_with_lw_session P v s : trace_grows P s (with_lw_session v s).
Proof. apply grows_same. reflexivity. Qed.
Lemma grows_with_rx_msg P v s : trace_grows P s (with_rx_msg v s).
Proof. apply grows_same. reflexivity. Qed.
Lemma grows_with_tx_metadata P v s : trace_grows P s (with_tx_metadata v s).
Proof. apply grows_same. reflexivity. Qed.
Lemma grows_with_rx_metadata P v s : trace_grows P s (with_rx_metadata v s).
Proof. apply grows_same. reflexivity. Qed.
Lemma grows_with_num_retry P v s : trace_grows P s (with_num_retry v s).
Proof. apply grows_same. reflexivity. Qed.
Lemma grows_with_qos_cnt P v s : trace_grows P s (with_qos_cnt v s).
Proof. apply grows_same. reflexivity. Qed.
Lemma grows_with_ctrl_flags P v s : trace_grows P s (with_ctrl_flags v s).
Proof. apply grows_same. reflexivity. Qed.
Lemma grows_with_app_port P v s : trace_grows P s (with_app_port v s).
Proof. apply grows_same. reflexivity. Qed.
Lemma grows_with_link_check_requested P v s : trace_grows P s (with_link_check_requested v s).
Proof. apply grows_same. reflexivity. Qed.
Lemma grows_with_reset_ind_requested P v s : trace_grows P s (with_reset_ind_requested v s).
Proof. apply grows_same. reflexivity. Qed.
Lemma grows_with_rekey_ind_needed P v s : trace_grows P s (with_rekey_ind_needed v s).
Proof. apply grows_same. reflexivity. Qed.
Lemma grows_with_rekey_ind_counter P v s : trace_grows P s (with_rekey_ind_counter v s).
Proof. apply grows_same. reflexivity. Qed.
Lemma grows_with_device_mode_ind_needed P v s : trace_grows P s (with_device_mode_ind_needed v s).
Proof. apply grows_same. reflexivity. Qed.
Lemma grows_with_device_mode_ind_ongoing P v s : trace_grows P s (with_device_mode_ind_ongoing v s).
Proof. apply grows_same. reflexivity. Qed.
Lemma grows_with_new_class_type P v s : trace_grows P s (with_new_class_type v s).
Proof. apply grows_same. reflexivity. Qed.
Lemma grows_with_automatic_uplink_ongoing P v s : trace_grows P s (with_automatic_uplink_ongoing v s).
Proof. apply grows_same. reflexivity. Qed.
Lemma grows_with_rx_payload_in_use P v s : trace_grows P s (with_rx_payload_in_use v s).
Proof. apply grows_same. reflexivity. Qed.
Lemma grows_with_rx_payload P v s : trace_grows P s (with_rx_payload v s).
Proof. apply grows_same. reflexivity. Qed.
Lemma grows_with_queue P v s : trace_grows P s (with_queue v s).
Proof. apply grows_same. reflexivity. Qed.
Lemma grows_with_tx_timestamp P v s : trace_grows P s (with_tx_timestamp v s).
Proof. apply grows_same. reflexivity. Qed.
Lemma grows_with_rx_timestamp P v s : trace_grows P s (with_rx_timestamp v s).
Proof. apply grows_same. reflexivity. Qed.
Lemma grows_with_rejoin_type1_send_period P v s : trace_grows P s (with_rejoin_type1_send_period v s).
Proof. apply grows_same. reflexivity. Qed.
Lemma grows_with_rejoin_type1_stamp P v s : trace_grows P s (with_rejoin_type1_stamp v s).
Proof. apply grows_same. reflexivity. Qed.
Lemma grows_with_rejoin_type0_counter P v s : trace_grows P s (with_rejoin_type0_counter v s).
Proof. apply grows_same. reflexivity. Qed.
Lemma grows_with_forced_datarate P v s : trace_grows P s (with_forced_datarate v s).
Proof. apply grows_same. reflexivity. Qed.
Lemma grows_with_forced_period P v s : trace_grows P s (with_forced_period v s).
Proof. apply grows_same. reflexivity. Qed.
Lemma grows_with_forced_retry_count P v s : trace_grows P s (with_forced_retry_count v s).
Proof. apply grows_same. reflexivity. Qed.
Lemma grows_with_forced_rejoin_type P v s : trace_grows P s (with_forced_rejoin_type v s).
Proof. apply grows_same. reflexivity. Qed.
Lemma grows_with_forced_counter P v s : trace_grows P s (with_forced_counter v s).
Proof. apply grows_same. reflexivity. Qed.
Lemma grows_with_ping_slot_info_requested P v s : trace_grows P s (with_ping_slot_info_requested v s).
Proof. apply grows_same. reflexivity. Qed.
Lemma grows_with_device_time_requested P v s : trace_grows P s (with_device_time_requested v s).
Proof. apply grows_same. reflexivity. Qed.
Lemma grows_with_last_beacon_rx_time P v s : trace_grows P s (with_last_beacon_rx_time v s).
Proof. apply grows_same. reflexivity. Qed.
Lemma grows_with_state P v s : trace_grows P s (with_state v s).
Proof. apply grows_same. reflexivity. Qed.

Create HintDb grows.

#[local] Hint Resolve
  grows_with_loramac
  grows_with_device_current_state
  grows_with_callbacks
  grows_with_lw_session
  grows_with_rx_msg
  grows_with_tx_metadata
  grows_with_rx_metadata
  grows_with_num_retry
  grows_with_qos_cnt
  grows_with_ctrl_flags
  grows_with_app_port
  grows_with_link_check_requested
  grows_with_reset_ind_requested
  grows_with_rekey_ind_needed
  grows_with_rekey_ind_counter
  grows_with_device_mode_ind_needed
  grows_with_device_mode_ind_ongoing
  grows_with_new_class_type
  grows_with_automatic_uplink_ongoing
  grows_with_rx_payload_in_use
  grows_with_rx_payload
  grows_with_queue
  grows_with_tx_timestamp
  grows_with_rx_timestamp
  grows_with_rejoin_type1_send_period
  grows_with_rejoin_type1_stamp
  grows_with_rejoin_type0_counter
  grows_with_forced_datarate
  grows_with_forced_period
  grows_with_forced_retry_count
  grows_with_forced_rejoin_type
  grows_with_forced_counter
  grows_with_ping_slot_info_requested
  grows_with_device_time_requested
  grows_with_last_beacon_rx_time
  grows_with_state
  : grows.

(** One step of [trace_grows P s0 (f x)]: peel [f], leaving [trace_grows P s0 x]. *)
Ltac grows_side :=
  first [ exact I
        | intros; exact I
        | intros; unfold no_assert_failure, leaves_retry_exhausted, sets_retry_exhausted,
            RETRY_EXHAUSTED_FLAG, TX_DONE_FLAG, MSG_RECVD_FLAG, CONNECTED_FLAG,
            USING_OTAA_FLAG, CONN_IN_PROGRESS_FLAG, REJOIN_IN_PROGRESS; congruence ].

Ltac grows_peel lem := eapply grows_trans; [|apply lem; grows_side].

Ltac grows_step :=
  lazymatch goal with
  | |- trace_grows _ ?s ?s => apply grows_refl
  | H : trace_grows _ ?s ?x |- trace_grows _ ?s ?x => exact H
  | |- trace_grows _ _ (if ?b then _ else _) => destruct b
  | |- trace_grows _ _ (match ?x with _ => _ end) => destruct x
  | |- trace_grows _ _ (emit _ _) => grows_peel grows_emit
  | |- trace_grows _ _ (flags_set _ _) => grows_peel grows_flags_set
  | |- trace_grows _ _ (flags_clear _ _) => grows_peel grows_flags_clear
  | |- trace_grows _ _ (flags_store _ _) => grows_peel grows_flags_store
  | |- trace_grows _ _ (mac_do _ _ _) => grows_peel grows_mac_do
  | |- trace_grows _ _ (snd (mac_ask _ _ _)) => grows_peel grows_mac_ask
  | |- trace_grows _ _ (send_event_to_application _ _) => grows_peel grows_send_event
  | |- trace_grows _ _ (let x := _ in _) => name_let
  | |- trace_grows _ _ (snd (if ?b then _ else _)) => destruct b
  | |- trace_grows _ _ (snd (_, _)) => cbn [snd]
  | |- trace_grows _ _ (snd (?g ?x)) =>
      apply (grows_trans _ _ x); [|solve [auto with grows nocore]]
  | |- trace_grows _ _ (snd ?v) => is_var v; unfold v
  | |- trace_grows _ _ ?t =>
      first
        [ is_var t; unfold t
        | lazymatch t with
          | ?f ?x => apply (grows_trans _ _ x); [|solve [auto with grows nocore]]
          end ]
  end.

Ltac grows := repeat grows_step.

Lemma grows_state_machine_run_to_completion P s :
  trace_grows P s (state_machine_run_to_completion s).
Proof. unfold state_machine_run_to_completion, with_state. grows. Qed.

#[local] Hint Resolve grows_state_machine_run_to_completion : grows.

Lemma grows_mcps_confirm_handler s :
  trace_grows leaves_retry_exhausted s (mcps_confirm_handler s).
Proof. cbv beta delta [mcps_confirm_handler]. repeat name_let. grows. Qed.

#[local] Hint Resolve grows_mcps_confirm_handler : grows.

Lemma grows_mcps_indication_handler s :
  trace_grows leaves_retry_exhausted s (mcps_indication_handler s).
Proof. cbv beta delta [mcps_indication_handler]. repeat name_let. grows. Qed.

#[local] Hint Resolve grows_mcps_indication_handler : grows.

Lemma grows_process_status_check_state s :
  trace_grows leaves_retry_exhausted s (process_status_check_state s).
Proof.
  cbv beta delta [process_status_check_state release_tx]. repeat name_let. grows.
Qed.

#[local] Hint Resolve grows_process_status_check_state : grows.

Lemma grows_make_tx_metadata_available P s :
  trace_grows P s (make_tx_metadata_available s).
Proof. unfold make_tx_metadata_available. grows. Qed.

Lemma grows_make_rx_metadata_available P s :
  trace_grows P s (make_rx_metadata_available s).
Proof. unfold make_rx_metadata_available. grows. Qed.

#[local] Hint Resolve grows_make_tx_metadata_available grows_make_rx_metadata_available
  : grows.

Lemma grows_status_check s :
  trace_grows leaves_retry_exhausted s (snd (state_controller DEVICE_STATE_STATUS_CHECK s)).
Proof. apply grows_process_status_check_state. Qed.

#[local] Hint Resolve grows_status_check : grows.

Lemma grows_finish_tx s : trace_grows leaves_retry_exhausted s (finish_tx s).
Proof. cbv beta delta [finish_tx]. repeat name_let. grows. Qed.

#[local] Hint Resolve grows_finish_tx : grows.

Lemma grows_process_joining_state op s :
  trace_grows leaves_retry_exhausted s (snd (process_joining_state op s)).
Proof. cbv beta delta [process_joining_state]. repeat name_let. grows. Qed.

Lemma grows_joining s :
  trace_grows leaves_retry_exhausted s (snd (state_controller DEVICE_STATE_JOINING s)).
Proof. apply grows_process_joining_state. Qed.

#[local] Hint Resolve grows_joining : grows.

Lemma grows_poll_rejoin s : trace_grows leaves_retry_exhausted s (poll_rejoin s).
Proof. cbv beta delta [poll_rejoin]. repeat name_let. grows. Qed.

#[local] Hint Resolve grows_poll_rejoin : grows.

(** ** Stores to the control flags, and the log of them *)

Lemma replay_stores_app (a b : list effect) (f : Z) :
  replay_stores (a ++ b) f = replay_stores b (replay_stores a f).
Proof. unfold replay_stores. apply fold_left_app. Qed.

Lemma logged_refl s : stores_logged s s.
Proof. exists []. split; [symmetry; apply app_nil_r|reflexivity]. Qed.

Lemma logged_trans s1 s2 s3 :
  stores_logged s1 s2 -> stores_logged s2 s3 -> stores_logged s1 s3.
Proof.
  intros (n1 & E1 & F1) (n2 & E2 & F2). exists (n1 ++ n2). split.
  - rewrite E2, E1. symmetry. apply app_assoc.
  - rewrite replay_stores_app, <- F1. exact F2.
Qed.

Lemma logged_same s s' :
  _trace s' = _trace s -> _ctrl_flags s' = _ctrl_flags s -> stores_logged s s'.
Proof.
  intros E F. exists []. split; [rewrite E; symmetry; apply app_nil_r|exact F].
Qed.

(** An effect that is not a store leaves the flags alone. *)
Lemma logged_emit e s : (forall f, apply_store f e = f) -> stores_logged s (emit e s).
Proof.
  intros H. exists [e]. split; [reflexivity|].
  unfold replay_stores. cbn [fold_left]. rewrite H. reflexivity.
Qed.

Lemma logged_flags_set mask s : stores_logged s (flags_set mask s).
Proof. exists [FlagsSet mask]. split; reflexivity. Qed.

Lemma logged_flags_clear mask s : stores_logged s (flags_clear mask s).
Proof. exists [FlagsClear mask]. split; reflexivity. Qed.

Lemma logged_flags_store v s : stores_logged s (flags_store v s).
Proof. exists [FlagsStore v]. split; reflexivity. Qed.

Lemma logged_mac_do c f s : stores_logged s (mac_do c f s).
Proof. exists [Call c]. split; reflexivity. Qed.

Lemma logged_mac_ask (R : Type) (c : R -> MacCall.t) (f : M -> R * M) s :
  stores_logged s (snd (mac_ask c f s)).
Proof. exists [Call (c (fst (f (_loramac s))))]. split; reflexivity. Qed.

Lemma logged_send_event ev s : stores_logged s (send_event_to_application ev s).
Proof.
  unfold send_event_to_application.
  destruct (events (_callbacks s)); [apply logged_emit; reflexivity|apply logged_refl].
Qed.

(** A field update other than of the flags and the trace changes neither. *)
Lemma logged_with_loramac v s : stores_logged s (with_loramac v s).
Proof. apply logged_same; reflexivity. Qed.
Lemma logged_with_device_current_state v s : stores_logged s (with_device_current_state v s).
Proof. apply logged_same; reflexivity. Qed.
Lemma logged_with_callbacks v s : stores_logged s (with_callbacks v s).
Proof. apply logged_same; reflexivity. Qed.
Lemma logged_with_lw_session v s : stores_logged s (with_lw_session v s).
Proof. apply logged_same; reflexivity. Qed.
Lemma logged_with_rx_msg v s : stores_logged s (with_rx_msg v s).
Proof. apply logged_same; reflexivity. Qed.
Lemma logged_with_tx_metadata v s : stores_logged s (with_tx_metadata v s).
Proof. apply logged_same; reflexivity. Qed.
Lemma logged_with_rx_metadata v s : stores_logged s (with_rx_metadata v s).
Proof. apply logged_same; reflexivity. Qed.
Lemma logged_with_num_retry v s : stores_logged s (with_num_retry v s).
Proof. apply logged_same; reflexivity. Qed.
Lemma logged_with_qos_cnt v s : stores_logged s (with_qos_cnt v s).
Proof. apply logged_same; reflexivity. Qed.
Lemma logged_with_app_port v s : stores_logged s (with_app_port v s).
Proof. apply logged_same; reflexivity. Qed.
Lemma logged_with_link_check_requested v s : stores_logged s (with_link_check_requested v s).
Proof. apply logged_same; reflexivity. Qed.
Lemma logged_with_reset_ind_requested v s : stores_logged s (with_reset_ind_requested v s).
Proof. apply logged_same; reflexivity. Qed.
Lemma logged_with_rekey_ind_needed v s : stores_logged s (with_rekey_ind_needed v s).
Proof. apply logged_same; reflexivity. Qed.
Lemma logged_with_rekey_ind_counter v s : stores_logged s (with_rekey_ind_counter v s).
Proof. apply logged_same; reflexivity. Qed.
Lemma logged_with_device_mode_ind_needed v s : stores_logged s (with_device_mode_ind_needed v s).
Proof. apply logged_same; reflexivity. Qed.
Lemma logged_with_device_mode_ind_ongoing v s : stores_logged s (with_device_mode_ind_ongoing v s).
Proof. apply logged_same; reflexivity. Qed.
Lemma logged_with_new_class_type v s : stores_logged s (with_new_class_type v s).
Proof. apply logged_same; reflexivity. Qed.
Lemma logged_with_automatic_uplink_ongoing v s : stores_logged s (with_automatic_uplink_ongoing v s).
Proof. apply logged_same; reflexivity. Qed.
Lemma logged_with_rx_payload_in_use v s : stores_logged s (with_rx_payload_in_use v s).
Proof. apply logged_same; reflexivity. Qed.
Lemma logged_with_rx_payload v s : stores_logged s (with_rx_payload v s).
Proof. apply logged_same; reflexivity. Qed.
Lemma logged_with_queue v s : stores_logged s (with_queue v s).
Proof. apply logged_same; reflexivity. Qed.
Lemma logged_with_tx_timestamp v s : stores_logged s (with_tx_timestamp v s).
Proof. apply logged_same; reflexivity. Qed.
Lemma logged_with_rx_timestamp v s : stores_logged s (with_rx_timestamp v s).
Proof. apply logged_same; reflexivity. Qed.
Lemma logged_with_rejoin_type1_send_period v s : stores_logged s (with_rejoin_type1_send_period v s).
Proof. apply logged_same; reflexivity. Qed.
Lemma logged_with_rejoin_type1_stamp v s : stores_logged s (with_rejoin_type1_stamp v s).
Proof. apply logged_same; reflexivity. Qed.
Lemma logged_with_rejoin_type0_counter v s : stores_logged s (with_rejoin_type0_counter v s).
Proof. apply logged_same; reflexivity. Qed.
Lemma logged_with_forced_datarate v s : stores_logged s (with_forced_datarate v s).
Proof. apply logged_same; reflexivity. Qed.
Lemma logged_with_forced_period v s : stores_logged s (with_forced_period v s).
Proof. apply logged_same; reflexivity. Qed.
Lemma logged_with_forced_retry_count v s : stores_logged s (with_forced_retry_count v s).
Proof. apply logged_same; reflexivity. Qed.
Lemma logged_with_forced_rejoin_type v s : stores_logged s (with_forced_rejoin_type v s).
Proof. apply logged_same; reflexivity. Qed.
Lemma logged_with_forced_counter v s : stores_logged s (with_forced_counter v s).
Proof. apply logged_same; reflexivity. Qed.
Lemma logged_with_ping_slot_info_requested v s : stores_logged s (with_ping_slot_info_requested v s).
Proof. apply logged_same; reflexivity. Qed.
Lemma logged_with_device_time_requested v s : stores_logged s (with_device_time_requested v s).
Proof. apply logged_same; reflexivity. Qed.
Lemma logged_with_last_beacon_rx_time v s : stores_logged s (with_last_beacon_rx_time v s).
Proof. apply logged_same; reflexivity. Qed.
Lemma logged_with_state v s : stores_logged s (with_state v s).
Proof. apply logged_same; reflexivity. Qed.

Create HintDb logged.

#[local] Hint Resolve
  logged_with_loramac
  logged_with_device_current_state
  logged_with_callbacks
  logged_with_lw_session
  logged_with_rx_msg
  logged_with_tx_metadata
  logged_with_rx_metadata
  logged_with_num_retry
  logged_with_qos_cnt
  logged_with_app_port
  logged_with_link_check_requested
  logged_with_reset_ind_requested
  logged_with_rekey_ind_needed
  logged_with_rekey_ind_counter
  logged_with_device_mode_ind_needed
  logged_with_device_mode_ind_ongoing
  logged_with_new_class_type
  logged_with_automatic_uplink_ongoing
  logged_with_rx_payload_in_use
  logged_with_rx_payload
  logged_with_queue
  logged_with_tx_timestamp
  logged_with_rx_timestamp
  logged_with_rejoin_type1_send_period
  logged_with_rejoin_type1_stamp
  logged_with_rejoin_type0_counter
  logged_with_forced_datarate
  logged_with_forced_period
  logged_with_forced_retry_count
  logged_with_forced_rejoin_type
  logged_with_forced_counter
  logged_with_ping_slot_info_requested
  logged_with_device_time_requested
  logged_with_last_beacon_rx_time
  logged_with_state
  : logged.

(** One step of [stores_logged s0 (f x)]: peel [f], leaving
    [stores_logged s0 x]. *)
Ltac logged_peel lem := eapply logged_trans; [|apply lem; intros; reflexivity].

Ltac logged_step :=
  lazymatch goal with
  | |- stores_logged ?s ?s => apply logged_refl
  | H : stores_logged ?s ?x |- stores_logged ?s ?x => exact H
  | |- stores_logged _ (if ?b then _ else _) => destruct b
  | |- stores_logged _ (match ?x with _ => _ end) => destruct x
  | |- stores_logged _ (emit _ _) => logged_peel logged_emit
  | |- stores_logged _ (flags_set _ _) => logged_peel logged_flags_set
  | |- stores_logged _ (flags_clear _ _) => logged_peel logged_flags_clear
  | |- stores_logged _ (flags_store _ _) => logged_peel logged_flags_store
  | |- stores_logged _ (mac_do _ _ _) => logged_peel logged_mac_do
  | |- stores_logged _ (snd (mac_ask _ _ _)) => logged_peel logged_mac_ask
  | |- stores_logged _ (send_event_to_application _ _) => logged_peel logged_send_event
  | |- stores_logged _ (let x := _ in _) => name_let
  | |- stores_logged _ (snd (if ?b then _ else _)) => destruct b
  | |- stores_logged _ (snd (_, _)) => cbn [snd]
  | |- stores_logged _ (snd (?g ?x)) =>
      apply (logged_trans _ x); [|solve [auto with logged nocore]]
  | |- stores_logged _ (snd ?v) => is_var v; unfold v
  | |- stores_logged _ ?t =>
      first
        [ is_var t; unfold t
        | lazymatch t with
          | ?f ?x => apply (logged_trans _ x); [|solve [auto with logged nocore]]
          end ]
  end.

Ltac logged := repeat logged_step.

Lemma logged_state_machine_run_to_completion s :
  stores_logged s (state_machine_run_to_completion s).
Proof. unfold state_machine_run_to_completion, with_state. logged. Qed.

#[local] Hint Resolve logged_state_machine_run_to_completion : logged.

Lemma logged_mcps_confirm_handler s : stores_logged s (mcps_confirm_handler s).
Proof. cbv beta delta [mcps_confirm_handler]. repeat name_let. logged. Qed.

#[local] Hint Resolve logged_mcps_confirm_handler : logged.

Lemma logged_mcps_indication_handler s : stores_logged s (mcps_indication_handler s).
Proof. cbv beta delta [mcps_indication_handler]. repeat name_let. logged. Qed.

#[local] Hint Resolve logged_mcps_indication_handler : logged.

Lemma logged_process_status_check_state s : stores_logged s (process_status_check_state s).
Proof.
  cbv beta delta [process_status_check_state release_tx]. repeat name_let. logged.
Qed.

#[local] Hint Resolve logged_process_status_check_state : logged.

Lemma logged_make_tx_metadata_available s : stores_logged s (make_tx_metadata_available s).
Proof. unfold make_tx_metadata_available. logged. Qed.

#[local] Hint Resolve logged_make_tx_metadata_available : logged.

Lemma logged_status_check s :
  stores_logged s (snd (state_controller DEVICE_STATE_STATUS_CHECK s)).
Proof. apply logged_process_status_check_state. Qed.

#[local] Hint Resolve logged_status_check : logged.

Lemma logged_finish_tx s : stores_logged s (finish_tx s).
Proof. cbv beta delta [finish_tx]. repeat name_let. logged. Qed.

#[local] Hint Resolve logged_finish_tx : logged.

Lemma logged_process_joining_state op s :
  stores_logged s (snd (process_joining_state op s)).
Proof. cbv beta delta [process_joining_state]. repeat name_let. logged. Qed.

Lemma logged_joining s :
  stores_logged s (snd (state_controller DEVICE_STATE_JOINING s)).
Proof. apply logged_process_joining_state. Qed.

#[local] Hint Resolve logged_joining : logged.

Lemma logged_poll_rejoin s : stores_logged s (poll_rejoin s).
Proof. cbv beta delta [poll_rejoin]. repeat name_let. logged. Qed.

#[local] Hint Resolve logged_poll_rejoin : logged.

Lemma logged_post_process_tx_with_reception s :
  stores_logged s (post_process_tx_with_reception s).
Proof. cbv beta delta [post_process_tx_with_reception]. repeat name_let. logged. Qed.

Lemma logged_post_process_tx_no_reception s :
  stores_logged s (post_process_tx_no_reception s).
Proof. cbv beta delta [post_process_tx_no_reception]. repeat name_let. logged. Qed.

#[local] Hint Resolve logged_post_process_tx_no_reception : logged.

Lemma logged_process_reception_timeout is_timeout s :
  stores_logged s (process_reception_timeout is_timeout s).
Proof.
  cbv beta delta [process_reception_timeout]. repeat name_let.
  destruct MBED_CONF_LORA_VERSION_1_1; logged.
Qed.

(** The new effects of a step are determined by its two traces. *)
Lemma logged_flags s s' (new : list effect) :
  stores_logged s s' ->
  _trace s' = _trace s ++ new ->
  _ctrl_flags s' = replay_stores new (_ctrl_flags s).
Proof.
  intros (n & E & F) E'. rewrite E in E'. apply app_inv_head in E'. subst n. exact F.
Qed.

(** ** Confirmed uplinks: when the retries are declared exhausted *)

Lemma leaves_not_exists (new : list effect) :
  Forall leaves_retry_exhausted new -> ~ Exists sets_retry_exhausted new.
Proof.
  intros F E. apply Exists_exists in E. destruct E as (e & Hin & He).
  rewrite Forall_forall in F. exact (F e Hin He).
Qed.

Lemma rx_slot_is_not (a b : rx_slot_t) : negb (rx_slot_t_beq a b) = true <-> a <> b.
Proof. destruct a, b; simpl; split; congruence. Qed.

Lemma rx_slot_is (a b : rx_slot_t) : rx_slot_t_beq a b = true <-> a = b.
Proof. destruct a, b; simpl; split; congruence. Qed.

(** A reception without the acknowledgement of a confirmed uplink. *)
Lemma post_process_tx_with_reception_retry s :
  tx_is_confirmed s = true ->
  exists new,
    _trace (post_process_tx_with_reception s) = _trace s ++ new
    /\ (Exists sets_retry_exhausted new <->
        ind_is_ack_recvd (LoRaMac.get_mcps_indication (_loramac s)) = false
        /\ fst (LoRaMac.continue_sending_process (_loramac s)) = false
        /\ LoRaMac.get_current_slot (snd (LoRaMac.continue_sending_process (_loramac s)))
           <> RX_SLOT_WIN_1).
Proof.
  intros Hc. cbv beta delta [post_process_tx_with_reception]. rewrite Hc.
  destruct (ind_is_ack_recvd _) eqn:Hack.
  - repeat name_let.
    assert (trace_grows leaves_retry_exhausted s (finish_tx st0)) as (new & E & F) by grows.
    exists new. split; [exact E|]. split.
    + intros H. exfalso. exact (leaves_not_exists new F H).
    + intros (H & _). discriminate H.
  - repeat name_let.
    assert (fst st = fst (LoRaMac.continue_sending_process (_loramac s))) as Hf
      by reflexivity.
    assert (_loramac st0 = snd (LoRaMac.continue_sending_process (_loramac s))) as Hm
      by reflexivity.
    assert (_trace st0 = _trace s ++ [Call (MacCall.continue_sending_process (fst st))])
      as Ht0 by reflexivity.
    rewrite Hm, Hf. rewrite Hf in Ht0.
    destruct (fst (LoRaMac.continue_sending_process (_loramac s))) eqn:Hcsp; simpl negb.
    + cbv beta iota delta [andb]. exists [Call (MacCall.continue_sending_process true)].
      split; [exact Ht0|]. split.
      * intros H. inversion H as [? ? H1|? ? H1]; [discriminate H1|inversion H1].
      * intros (_ & H & _). discriminate H.
    + cbv beta iota delta [andb].
      destruct (negb (rx_slot_t_beq _ RX_SLOT_WIN_1)) eqn:Hslot.
      * assert (trace_grows leaves_retry_exhausted st2 (finish_tx st2))
          as (new & E & F) by grows.
        assert (_trace st2 =
                _trace st0 ++ [FlagsClear TX_DONE_FLAG; FlagsSet RETRY_EXHAUSTED_FLAG]) as Ht2.
        { unfold st2, st1, flags_set, flags_clear, emit. simpl_goal_fields.
          rewrite <- app_assoc. reflexivity. }
        exists ([Call (MacCall.continue_sending_process false)]
                ++ [FlagsClear TX_DONE_FLAG; FlagsSet RETRY_EXHAUSTED_FLAG] ++ new).
        split.
        { rewrite E, Ht2, Ht0. rewrite <- !app_assoc. reflexivity. }
        split.
        { intros _. split; [reflexivity|]. split; [reflexivity|].
          apply rx_slot_is_not. exact Hslot. }
        { intros _. apply Exists_cons_tl. apply Exists_cons_tl. apply Exists_cons_hd.
          reflexivity. }
      * exists [Call (MacCall.continue_sending_process false)].
        split; [exact Ht0|]. split.
        { intros H. inversion H as [? ? H1|? ? H1]; [discriminate H1|inversion H1]. }
        { intros (_ & _ & H). apply rx_slot_is_not in H. congruence. }
Qed.

(** No reception at all.  The function has no slot test of its own: its caller
    [process_reception_timeout] runs it in slot RX2 only. *)
Lemma post_process_tx_no_reception_retry s :
  exists new,
    _trace (post_process_tx_no_reception s) = _trace s ++ new
    /\ (Exists sets_retry_exhausted new <->
        flag REJOIN_IN_PROGRESS s = false
        /\ tx_is_confirmed s = true
        /\ fst (LoRaMac.continue_sending_process (_loramac s)) = false).
Proof.
  cbv beta delta [post_process_tx_no_reception].
  destruct (flag REJOIN_IN_PROGRESS s) eqn:Hrejoin.
  { repeat name_let.
    assert (trace_grows leaves_retry_exhausted s (state_machine_run_to_completion st))
      as (new & E & F) by grows.
    exists new. split; [exact E|]. split.
    - intros H. exfalso. exact (leaves_not_exists new F H).
    - intros (H & _). discriminate H. }
  destruct (tx_is_confirmed s) eqn:Hc.
  2:{ repeat name_let.
      match goal with
      | |- exists new, _trace ?r = _ /\ _ =>
          assert (trace_grows leaves_retry_exhausted s r) as (new & E & F) by grows
      end.
      exists new. split; [exact E|]. split.
      - intros H. exfalso. exact (leaves_not_exists new F H).
      - intros (_ & H & _). discriminate H. }
  repeat name_let.
  assert (fst st = fst (LoRaMac.continue_sending_process (_loramac s))) as Hf
    by reflexivity.
  assert (_trace st0 = _trace s ++ [Call (MacCall.continue_sending_process (fst st))])
    as Ht0 by reflexivity.
  rewrite Hf. rewrite Hf in Ht0.
  destruct (fst (LoRaMac.continue_sending_process (_loramac s))) eqn:Hcsp.
  - match goal with
    | |- exists new, _trace ?r = _ /\ _ =>
        assert (trace_grows leaves_retry_exhausted st0 r) as (new & E & F) by grows
    end.
    exists ([Call (MacCall.continue_sending_process true)] ++ new). split.
    { rewrite E, Ht0, <- app_assoc. reflexivity. }
    split.
    + intros H. exfalso. inversion H as [? ? H1|? ? H1]; [discriminate H1|].
      exact (leaves_not_exists new F H1).
    + intros (_ & _ & H). discriminate H.
  - match goal with
    | |- exists new, _trace (state_machine_run_to_completion (finish_tx ?x)) = _ /\ _ =>
        assert (trace_grows leaves_retry_exhausted x
                  (state_machine_run_to_completion (finish_tx x)))
          as (new & E & F) by grows;
        assert (_trace x =
                _trace st0 ++ [FlagsClear TX_DONE_FLAG; FlagsSet RETRY_EXHAUSTED_FLAG])
          as Ht4
          by (unfold_locals; unfold flags_set, flags_clear, emit; simpl_goal_fields;
              rewrite <- app_assoc; reflexivity)
    end.
    exists ([Call (MacCall.continue_sending_process false)]
            ++ [FlagsClear TX_DONE_FLAG; FlagsSet RETRY_EXHAUSTED_FLAG] ++ new).
    split.
    { rewrite E, Ht4, Ht0. rewrite <- !app_assoc. reflexivity. }
    split.
    + intros _. repeat split.
    + intros _. apply Exists_cons_tl. apply Exists_cons_tl. apply Exists_cons_hd.
      reflexivity.
Qed.

Lemma exists_app_leaves (a new b : list effect) :
  Forall leaves_retry_exhausted a ->
  Forall leaves_retry_exhausted b ->
  Exists sets_retry_exhausted (a ++ new ++ b) <-> Exists sets_retry_exhausted new.
Proof.
  intros Fa Fb. rewrite !Exists_app. split.
  - intros [H|[H|H]]; [destruct (leaves_not_exists a Fa H)|exact H
                       |destruct (leaves_not_exists b Fb H)].
  - intros H. right. left. exact H.
Qed.

(** A receive window that closes with nothing received (or with a CRC error). *)
Lemma process_reception_timeout_retry is_timeout s :
  exists new,
    _trace (process_reception_timeout is_timeout s) = _trace s ++ new
    /\ (Exists sets_retry_exhausted new <->
        LoRaMac.get_current_slot (_loramac s) = RX_SLOT_WIN_2
        /\ LoRaMac.nwk_joined (LoRaMac.on_radio_rx_timeout is_timeout (_loramac s)) = true
        /\ flag REJOIN_IN_PROGRESS s = false
        /\ conf_req_type
             (LoRaMac.get_mcps_confirmation
                (LoRaMac.on_radio_rx_timeout is_timeout (_loramac s))) = MCPS_CONFIRMED
        /\ fst (LoRaMac.continue_sending_process
                  (LoRaMac.on_radio_rx_timeout is_timeout (_loramac s))) = false).
Proof.
  cbv beta delta [process_reception_timeout]. repeat name_let.
  assert (st0 = LoRaMac.get_current_slot (_loramac s)) as Hslot by reflexivity.
  assert (_loramac st1 = LoRaMac.on_radio_rx_timeout is_timeout (_loramac s)) as Hm
    by reflexivity.
  assert (_ctrl_flags st1 = _ctrl_flags s) as Hflags by reflexivity.
  assert (_trace st1 = _trace s ++ [Call (MacCall.on_radio_rx_timeout is_timeout)]) as Ht1
    by reflexivity.
  rewrite Hm. rewrite <- Hslot. clearbody st0.
  destruct (rx_slot_t_beq st0 RX_SLOT_WIN_2) eqn:Hrx2.
  2:{ exists [Call (MacCall.on_radio_rx_timeout is_timeout)]. split; [|split].
      - cbv beta iota delta [andb]. exact Ht1.
      - intros H. inversion H as [? ? H1|? ? H1]; [discriminate H1|inversion H1].
      - intros (H & _). apply rx_slot_is in H. congruence. }
  apply rx_slot_is in Hrx2. subst st0.
  destruct (LoRaMac.nwk_joined (LoRaMac.on_radio_rx_timeout is_timeout (_loramac s)))
    eqn:Hjoined; cbv beta iota delta [andb negb].
  2:{ assert (trace_grows leaves_retry_exhausted s
                (snd (state_controller DEVICE_STATE_JOINING st1)))
        as (new & E & F) by grows.
      exists new. split; [exact E|]. split.
      - intros H. exfalso. exact (leaves_not_exists new F H).
      - intros (_ & H & _). discriminate H. }
  destruct (post_process_tx_no_reception_retry st1) as (new & E & Hiff).
  fold st2 in E.
  match goal with
  | |- exists n, _trace ?r = _ /\ _ =>
      assert (trace_grows leaves_retry_exhausted st2 r) as (rest & Er & Fr)
  end.
  { destruct MBED_CONF_LORA_VERSION_1_1; clearbody st2; grows. }
  exists ([Call (MacCall.on_radio_rx_timeout is_timeout)] ++ new ++ rest).
  split.
  { rewrite Er, E, Ht1. rewrite <- !app_assoc. reflexivity. }
  rewrite exists_app_leaves; [|repeat constructor; grows_side|exact Fr].
  rewrite Hiff. unfold tx_is_confirmed, flag. rewrite Hm, Hflags.
  split.
  - intros (H1 & H2 & H3). repeat split; try assumption.
    destruct (conf_req_type _); try discriminate H2. reflexivity.
  - intros (_ & _ & H1 & H2 & H3). repeat split; try assumption.
    rewrite H2. reflexivity.
Qed.


(** ** Shutdown, and what follows *)

Lemma status_ok_true st : status_ok st = true <-> st = LORAWAN_STATUS_OK.
Proof. destruct st; simpl; split; congruence. Qed.

Lemma flag_of_zero mask s : _ctrl_flags s = 0 -> flag mask s = false.
Proof. intros H. unfold flag. rewrite H. reflexivity. Qed.

(** Effects that are not events leave the reported events as they are. *)
Lemma events_of_grows s s' :
  trace_grows no_event s s' -> events_of (_trace s') = events_of (_trace s).
Proof.
  intros (new & E & F). rewrite E, events_of_app.
  assert (events_of new = []) as Hnew.
  { clear E. induction F as [|e l He _ IH]; [reflexivity|].
    change (e :: l) with ([e] ++ l). rewrite events_of_app, IH.
    destruct e; try reflexivity. destruct He. }
  rewrite Hnew. apply app_nil_r.
Qed.

(** What [shutdown] leaves behind on an initialised stack. *)
Lemma shutdown_result s :
  _device_current_state s <> DEVICE_STATE_NOT_INITIALIZED ->
  exists s',
    shutdown s = (LORAWAN_STATUS_DEVICE_OFF, s')
    /\ _ctrl_flags s' = 0
    /\ active (_lw_session s') = false
    /\ _device_current_state s' = DEVICE_STATE_SHUTDOWN
    /\ (events (_callbacks s) = true -> exists t, _trace s' = t ++ [Event DISCONNECTED])
    /\ _callbacks s' = _callbacks s
    /\ events_of (_trace s') =
         events_of (_trace s) ++ (if events (_callbacks s) then [DISCONNECTED] else []).
Proof.
  intros Hinit. pose proof (initialised s Hinit) as Hi.
  cbv beta delta [shutdown]. rewrite Hi.
  cbv beta iota delta [state_controller process_shutdown_state drop_channel_list].
  rewrite Hi. repeat name_let.
  exists (send_event_to_application DISCONNECTED st4). split; [reflexivity|].
  assert (_callbacks st4 = _callbacks s) as Hcb by reflexivity.
  assert (events_of (_trace st4) = events_of (_trace s)) as Hev.
  { apply events_of_grows. grows. }
  assert (_ctrl_flags st4 = 0) as Hf by reflexivity.
  assert (active (_lw_session st4) = false) as Ha by reflexivity.
  assert (_device_current_state st4 = DEVICE_STATE_SHUTDOWN) as Hs by reflexivity.
  clearbody st4.
  cbv beta iota delta [send_event_to_application]. rewrite Hcb.
  destruct (events (_callbacks s)).
  - unfold emit. simpl_goal_fields. rewrite events_of_app, Hev.
    split; [exact Hf|]. split; [exact Ha|]. split; [exact Hs|].
    split; [intros _; eexists; reflexivity|].
    split; [exact Hcb|reflexivity].
  - rewrite Hev, app_nil_r.
    split; [exact Hf|]. split; [exact Ha|]. split; [exact Hs|].
    split; [intros H; discriminate H|].
    split; [exact Hcb|reflexivity].
Qed.

Lemma flag_with_state mask st s : flag mask (with_state st s) = flag mask s.
Proof. reflexivity. Qed.

Lemma grows_process_connected_state s :
  trace_grows no_assert_failure s (process_connected_state s).
Proof. cbv beta delta [process_connected_state]. repeat name_let. grows. Qed.

Lemma process_connected_state_result s :
  _device_current_state (process_connected_state s) = DEVICE_STATE_IDLE
  /\ active (_lw_session (process_connected_state s)) = true
  /\ flag CONNECTED_FLAG (process_connected_state s) = true.
Proof.
  unfold process_connected_state, send_event_to_application.
  set (s1 := flags_clear CONN_IN_PROGRESS_FLAG (flags_set CONNECTED_FLAG s)).
  assert (flag CONNECTED_FLAG s1 = true) as Hflag.
  { unfold s1. rewrite flag_flags_clear_other by (first [reflexivity | cbv; split; congruence]).
    apply flag_flags_set_same. discriminate. }
  destruct (events _); (split; [reflexivity|split; [reflexivity|exact Hflag]]).
Qed.

(** What [process_connected_state] does. *)
Lemma process_connected_state_effects s :
  let s' := process_connected_state s in
  _device_current_state s' = DEVICE_STATE_IDLE
  /\ active (_lw_session s') = true
  /\ flag CONNECTED_FLAG s' = true
  /\ flag CONN_IN_PROGRESS_FLAG s' = false
  /\ _loramac s' = _loramac s
  /\ _rekey_ind_needed s' = _rekey_ind_needed s
  /\ _rekey_ind_counter s' = _rekey_ind_counter s
  /\ _reset_ind_requested s' = _reset_ind_requested s
  /\ _trace s' =
       _trace s ++ [FlagsSet CONNECTED_FLAG; FlagsClear CONN_IN_PROGRESS_FLAG]
       ++ (if events (_callbacks s) then [Event CONNECTED] else []).
Proof.
  intros s'. destruct (process_connected_state_result s) as (Hs & Ha & Hf).
  split; [exact Hs|]. split; [exact Ha|]. split; [exact Hf|].
  subst s'. unfold process_connected_state, send_event_to_application.
  set (s1 := flags_set CONNECTED_FLAG s).
  assert (flag CONN_IN_PROGRESS_FLAG (flags_clear CONN_IN_PROGRESS_FLAG s1) = false) as Hc
    by (apply flag_flags_clear_same; cbv; split; congruence).
  unfold s1 in *. clear s1.
  unfold flags_clear, flags_set, emit in *. simpl_fields.
  destruct (events (_callbacks s)); simpl_fields;
    (split; [exact Hc|]); repeat split; rewrite <- ?app_assoc; reflexivity.
Qed.

Lemma process_connecting_state_result op s :
  in_state DEVICE_STATE_IDLE s || in_state DEVICE_STATE_SHUTDOWN s = true ->
  process_connecting_state op s =
    if flag USING_OTAA_FLAG s then
      mac_ask (MacCall.join true) (LoRaMac.join true)
              (with_state DEVICE_STATE_JOINING (with_state DEVICE_STATE_CONNECTING s))
    else
      (fst (mac_ask (MacCall.join false) (LoRaMac.join false)
                    (with_state DEVICE_STATE_CONNECTING s)),
       process_connected_state
         (snd (mac_ask (MacCall.join false) (LoRaMac.join false)
                       (with_state DEVICE_STATE_CONNECTING s)))).
Proof.
  intros Hidle. cbv beta iota delta [process_connecting_state].
  rewrite Hidle. cbv beta iota zeta. rewrite flag_with_state.
  destruct (flag USING_OTAA_FLAG s); reflexivity.
Qed.

(** [connect] is accepted in state Shutdown. *)
Lemma connect_from_shutdown s :
  _device_current_state s = DEVICE_STATE_SHUTDOWN ->
  _ctrl_flags s = 0 ->
  fst (LoRaMac.prepare_join None MBED_CONF_LORA_OVER_THE_AIR_ACTIVATION (_loramac s))
    = LORAWAN_STATUS_OK ->
  trace_grows no_assert_failure s (snd (connect s))
  /\ if MBED_CONF_LORA_OVER_THE_AIR_ACTIVATION then
       _device_current_state (snd (connect s)) = DEVICE_STATE_JOINING
       /\ flag CONN_IN_PROGRESS_FLAG (snd (connect s)) = true
       /\ events_of (_trace (snd (connect s))) = events_of (_trace s)
     else
       _device_current_state (snd (connect s)) = DEVICE_STATE_IDLE
       /\ active (_lw_session (snd (connect s))) = true
       /\ flag CONNECTED_FLAG (snd (connect s)) = true
       /\ events_of (_trace (snd (connect s))) =
            events_of (_trace s) ++ (if events (_callbacks s) then [CONNECTED] else []).
Proof.
  intros Hstate Hflags Hprep.
  assert (in_state DEVICE_STATE_NOT_INITIALIZED s = false) as Hi
    by (apply in_state_false; congruence).
  set (r := connect s).
  assert (exists s1,
            trace_grows no_assert_failure s s1
            /\ trace_grows no_event s s1
            /\ _callbacks s1 = _callbacks s
            /\ _device_current_state s1 = DEVICE_STATE_SHUTDOWN
            /\ flag CONN_IN_PROGRESS_FLAG s1 = true
            /\ flag USING_OTAA_FLAG s1 = MBED_CONF_LORA_OVER_THE_AIR_ACTIVATION
            /\ r = state_controller DEVICE_STATE_CONNECTING s1)
    as (s1 & G1 & N1 & B1 & S1 & C1 & O1 & E1).
  { subst r. cbv beta delta [connect]. rewrite Hi, !(flag_of_zero _ s Hflags).
    repeat name_let.
    assert (fst st = LORAWAN_STATUS_OK) as Hst by exact Hprep.
    rewrite Hst. cbv beta iota delta [status_ok lorawan_status_t_beq negb].
    cbv beta delta [handle_connect]. repeat name_let.
    assert (flag CONN_IN_PROGRESS_FLAG st0 = true) as Hc
      by (apply flag_flags_set_same; discriminate).
    match goal with
    | |- exists s1, _ /\ _ /\ _ /\ _ /\ _ /\ _ /\ state_controller _ ?x = _ => exists x
    end.
    split; [|split; [|split; [|split; [|split; [|split; [|reflexivity]]]]]];
      unfold_locals; fold st; fold st0.
    - destruct MBED_CONF_LORA_OVER_THE_AIR_ACTIVATION, MBED_CONF_LORA_VERSION_1_1; grows.
    - destruct MBED_CONF_LORA_OVER_THE_AIR_ACTIVATION, MBED_CONF_LORA_VERSION_1_1; grows.
    - destruct MBED_CONF_LORA_OVER_THE_AIR_ACTIVATION, MBED_CONF_LORA_VERSION_1_1;
        reflexivity.
    - destruct MBED_CONF_LORA_OVER_THE_AIR_ACTIVATION, MBED_CONF_LORA_VERSION_1_1;
        exact Hstate.
    - destruct MBED_CONF_LORA_OVER_THE_AIR_ACTIVATION.
      + rewrite flag_flags_set_other by reflexivity. exact Hc.
      + rewrite flag_flags_clear_other by (first [reflexivity | cbv; split; congruence]).
        destruct MBED_CONF_LORA_VERSION_1_1; exact Hc.
    - destruct MBED_CONF_LORA_OVER_THE_AIR_ACTIVATION.
      + apply flag_flags_set_same. discriminate.
      + apply flag_flags_clear_same. cbv. split; congruence. }
  rewrite E1. clear E1 r.
  apply events_of_grows in N1.
  change (state_controller DEVICE_STATE_CONNECTING s1)
    with (process_connecting_state LORAWAN_STATUS_OK s1).
  rewrite process_connecting_state_result
    by (apply Bool.orb_true_iff; right; apply in_state_true; exact S1).
  rewrite O1.
  destruct MBED_CONF_LORA_OVER_THE_AIR_ACTIVATION.
  - split; [grows|]. split; [reflexivity|]. split; [exact C1|].
    unfold mac_ask, emit. simpl_goal_fields. rewrite events_of_app, N1.
    apply app_nil_r.
  - cbn [fst snd].
    set (s2 := snd (mac_ask (MacCall.join false) (LoRaMac.join false)
                      (with_state DEVICE_STATE_CONNECTING s1))).
    assert (trace_grows no_assert_failure s s2) as G2 by (unfold s2; grows).
    assert (events_of (_trace s2) = events_of (_trace s)) as N2.
    { unfold s2, mac_ask, emit. simpl_goal_fields. rewrite events_of_app, N1.
      apply app_nil_r. }
    assert (_callbacks s2 = _callbacks s) as B2 by exact B1.
    clearbody s2.
    destruct (process_connected_state_effects s2)
      as (Hs & Ha & Hf & _ & _ & _ & _ & _ & Ht).
    split; [eapply grows_trans; [exact G2|apply grows_process_connected_state]|].
    split; [exact Hs|]. split; [exact Ha|]. split; [exact Hf|].
    rewrite Ht, B2, !events_of_app, N2.
    destruct (events (_callbacks s)); cbn [events_of flat_map app];
      rewrite ?app_nil_r; reflexivity.
Qed.

(** C6 (amended). After a shutdown (disconnect) of an initialised stack the call has
    returned DEVICE_OFF, all control flags are zero, the session is inactive, the
    state is Shutdown and DISCONNECTED is the one event reported, the last
    thing queued (when the application registered an event callback).  From
    there no re-initialisation is needed: a [connect()] the MAC accepts passes
    the state assertion and brings the stack back, to Idle with an active
    session and the Connected flag for ABP, CONNECTED being the one event
    reported; to Joining with a connection in progress for OTAA, with no event
    reported. *)
Theorem shutdown_then_connect s :
  _device_current_state s <> DEVICE_STATE_NOT_INITIALIZED ->
  exists s',
    disconnect s = (LORAWAN_STATUS_DEVICE_OFF, s')
    /\ _ctrl_flags s' = 0
    /\ active (_lw_session s') = false
    /\ _device_current_state s' = DEVICE_STATE_SHUTDOWN
    /\ (events (_callbacks s) = true -> exists t, _trace s' = t ++ [Event DISCONNECTED])
    /\ events_of (_trace s') =
         events_of (_trace s) ++ (if events (_callbacks s) then [DISCONNECTED] else [])
    /\ (fst (LoRaMac.prepare_join None MBED_CONF_LORA_OVER_THE_AIR_ACTIVATION (_loramac s'))
          = LORAWAN_STATUS_OK ->
        trace_grows no_assert_failure s' (snd (connect s'))
        /\ if MBED_CONF_LORA_OVER_THE_AIR_ACTIVATION then
             _device_current_state (snd (connect s')) = DEVICE_STATE_JOINING
             /\ flag CONN_IN_PROGRESS_FLAG (snd (connect s')) = true
             /\ events_of (_trace (snd (connect s'))) = events_of (_trace s')
           else
             _device_current_state (snd (connect s')) = DEVICE_STATE_IDLE
             /\ active (_lw_session (snd (connect s'))) = true
             /\ flag CONNECTED_FLAG (snd (connect s')) = true
             /\ events_of (_trace (snd (connect s'))) =
                  events_of (_trace s')
                  ++ (if events (_callbacks s) then [CONNECTED] else [])).
Proof.
  intros Hinit.
  destruct (shutdown_result s Hinit) as (s' & E & Hf & Ha & Hs & Hev & Hcb & Hevs).
  exists s'. unfold disconnect.
  split; [exact E|]. split; [exact Hf|]. split; [exact Ha|]. split; [exact Hs|].
  split; [exact Hev|]. split; [exact Hevs|].
  intros Hprep. rewrite <- Hcb. apply connect_from_shutdown; assumption.
Qed.

(** ** Class switching on a LoRaWAN 1.1 network *)

Lemma device_class_differs (a b : device_class_t) :
  negb (device_class_t_beq a b) = true <-> a <> b.
Proof. destruct a, b; simpl; split; congruence. Qed.

Lemma device_class_same (a b : device_class_t) :
  device_class_t_beq a b = true <-> a = b.
Proof. destruct a, b; simpl; split; congruence. Qed.

Lemma server_is_LW1_1_true s :
  server_is_LW1_1 s = true <-> LoRaMac.get_server_type (_loramac s) = LW1_1.
Proof.
  unfold server_is_LW1_1. destruct (LoRaMac.get_server_type _); simpl; split; congruence.
Qed.

(** The request only records what is asked for. *)
Lemma set_device_class_LW1_1 c s :
  _device_current_state s <> DEVICE_STATE_NOT_INITIALIZED ->
  LoRaMac.get_server_type (_loramac s) = LW1_1 ->
  c <> CLASS_B ->
  device_class s <> c ->
  set_device_class c s =
    (LORAWAN_STATUS_OK,
     with_device_mode_ind_ongoing true
       (with_device_mode_ind_needed true (with_new_class_type c s))).
Proof.
  intros Hinit Hsrv HB Hc. unfold set_device_class.
  rewrite (initialised s Hinit).
  apply device_class_differs in Hc. rewrite Hc.
  apply device_class_differs in HB.
  apply server_is_LW1_1_true in Hsrv. rewrite Hsrv, HB. reflexivity.
Qed.

(** The switch itself happens when a transmission completes. *)
Lemma process_transmission_switches_class s :
  LoRaMac.get_server_type
    (LoRaMac.on_radio_tx_done (_tx_timestamp s) (_loramac s)) = LW1_1 ->
  _device_mode_ind_ongoing s = true ->
  let m := LoRaMac.on_radio_tx_done (_tx_timestamp s) (_loramac s) in
  let r := LoRaMac.set_device_class (_new_class_type s) m in
  exists s',
    process_transmission s = s'
    /\ _loramac s' = snd r
    /\ _device_mode_ind_ongoing s' = false
    /\ _device_mode_ind_needed s' = _device_mode_ind_needed s
    /\ _trace s' =
         _trace s
         ++ [Call (MacCall.on_radio_tx_done (_tx_timestamp s));
             Call (MacCall.set_device_class (_new_class_type s) (fst r))]
         ++ (if events (_callbacks s) then [Event CLASS_CHANGED] else []).
Proof.
  intros Hsrv Hongoing m r.
  cbv beta delta [process_transmission]. repeat name_let.
  assert (_tx_timestamp st1 = _tx_timestamp s) as Hts
    by (unfold_locals; repeat break_if; reflexivity).
  assert (_loramac st2 = m) as Hm.
  { unfold st2, mac_do. simpl_goal_fields. rewrite Hts.
    unfold_locals; repeat break_if; reflexivity. }
  assert (_device_mode_ind_ongoing st2 = true) as Ho
    by (unfold_locals; repeat break_if; exact Hongoing).
  assert (server_is_LW1_1 st2 = true) as Hs
    by (apply server_is_LW1_1_true; rewrite Hm; exact Hsrv).
  rewrite Hs, Ho. cbv beta iota delta [andb].
  assert (_new_class_type st3 = _new_class_type s) as Hn
    by (unfold_locals; repeat break_if; reflexivity).
  assert (_trace st2 = _trace s ++ [Call (MacCall.on_radio_tx_done (_tx_timestamp s))])
    as Ht.
  { unfold st2, mac_do, emit. simpl_goal_fields. rewrite Hts.
    unfold_locals; repeat break_if; reflexivity. }
  assert (events (_callbacks st4) = events (_callbacks s)) as He
    by (unfold_locals; unfold mac_ask, emit; simpl_goal_fields;
        repeat break_if; reflexivity).
  assert (_loramac st4 = snd r) as Hm4.
  { unfold st4, mac_ask, emit. simpl_goal_fields. rewrite Hn.
    change (_loramac st3) with (_loramac st2). rewrite Hm. reflexivity. }
  assert (_trace st4 =
          _trace st2 ++ [Call (MacCall.set_device_class (_new_class_type s) (fst r))])
    as Ht4.
  { unfold st4, mac_ask, emit. simpl_goal_fields. rewrite Hn.
    change (_loramac st3) with (_loramac st2). rewrite Hm. reflexivity. }
  assert (_device_mode_ind_needed st4 = _device_mode_ind_needed s) as Hneed
    by (unfold_locals; unfold mac_ask, emit; simpl_goal_fields;
        repeat break_if; reflexivity).
  exists (send_event_to_application CLASS_CHANGED st4). split; [reflexivity|].
  unfold send_event_to_application. rewrite He.
  destruct (events (_callbacks s)).
  - unfold emit. simpl_goal_fields.
    split; [exact Hm4|]. split; [reflexivity|]. split; [exact Hneed|].
    rewrite Ht4, Ht, <- !app_assoc. reflexivity.
  - split; [exact Hm4|]. split; [reflexivity|]. split; [exact Hneed|].
    rewrite Ht4, Ht, <- !app_assoc. reflexivity.
Qed.

(** DeviceModeConf only ends the piggybacking and reports what the server said. *)
Lemma mlme_confirm_device_mode rnd c s :
  mlme_type c = MLME_DEVICE_MODE ->
  exists s',
    mlme_confirm_handler rnd c s = s'
    /\ _loramac s' = _loramac s
    /\ _device_mode_ind_needed s' = false
    /\ _trace s' =
         _trace s
         ++ (if events (_callbacks s) then
               [Event (if device_class_t_beq (device_class s) (classType c)
                       then SERVER_ACCEPTED_CLASS_IN_USE
                       else SERVER_DOES_NOT_SUPPORT_CLASS_IN_USE)]
             else []).
Proof.
  intros Hty. cbv beta delta [mlme_confirm_handler]. rewrite Hty. cbv beta iota.
  repeat name_let. eexists. split; [reflexivity|].
  change (device_class st) with (device_class s).
  unfold send_event_to_application.
  change (events (_callbacks st)) with (events (_callbacks s)).
  destruct (device_class_t_beq (device_class s) (classType c)), (events (_callbacks s));
    repeat split; try reflexivity; symmetry; apply app_nil_r.
Qed.

Lemma grows_process_scheduling_state op s :
  trace_grows any_effect s (snd (process_scheduling_state op s)).
Proof. cbv beta delta [process_scheduling_state]. repeat name_let. grows. Qed.

Lemma grows_scheduling s :
  trace_grows any_effect s (snd (state_controller DEVICE_STATE_SCHEDULING s)).
Proof. apply grows_process_scheduling_state. Qed.

Lemma grows_set_application_port port allow_port_0 s :
  trace_grows any_effect s (snd (set_application_port port allow_port_0 s)).
Proof. unfold set_application_port. grows. Qed.

#[local] Hint Resolve grows_scheduling grows_set_application_port : grows.

(** While DeviceModeInd is needed, every uplink that gets past the first tests
    of [handle_tx] stages it. *)
Lemma handle_tx_piggybacks_device_mode port data length flags null_allowed allow_port_0 s :
  _device_current_state s <> DEVICE_STATE_NOT_INITIALIZED ->
  (null_allowed = true \/ data <> None) ->
  flag REJOIN_IN_PROGRESS s = false ->
  _device_mode_ind_needed s = true ->
  exists pre post,
    _trace (snd (handle_tx port data length flags null_allowed allow_port_0 s)) =
      _trace s ++ pre
      ++ [Call (MacCall.setup_device_mode_indication (_new_class_type s))] ++ post.
Proof.
  intros Hinit Hdata Hrejoin Hneeded.
  cbv beta delta [handle_tx]. rewrite (initialised s Hinit), Hrejoin.
  assert (negb null_allowed && match data with None => true | Some _ => false end = false)
    as ->.
  { destruct Hdata as [->|Hd]; [reflexivity|].
    destruct data; [apply Bool.andb_false_r|congruence]. }
  cbv beta iota. repeat name_let.
  assert (Hst : trace_grows any_effect s st).
  { unfold st. cbv beta delta [set_reset_indication set_rekey_indication]. grows. }
  assert (Hn : _device_mode_ind_needed st = true
               /\ _new_class_type st = _new_class_type s).
  { unfold st. unfold_steps.
    destruct (_reset_ind_requested s), (_rekey_ind_needed s),
      (_rekey_ind_counter s <? LoRaMac.get_current_adr_ack_limit (_loramac s));
      simpl_goal_fields; try destruct (events (_callbacks s)); simpl_goal_fields; auto. }
  destruct Hn as [Hn Hc].
  assert (H0 : _trace st0 =
               _trace st
               ++ [Call (MacCall.setup_device_mode_indication (_new_class_type s))]).
  { unfold st0. rewrite Hn. unfold set_device_mode_indication. rewrite Hc. reflexivity. }
  destruct Hst as (pre & Epre & _).
  clearbody st0. clearbody st.
  match goal with
  | |- exists pre post, _trace ?r = _ => assert (Hpost : trace_grows any_effect st0 r)
  end.
  { grows. }
  destruct Hpost as (post & Epost & _).
  exists pre, post. rewrite Epost, H0, Epre. rewrite <- !app_assoc. reflexivity.
Qed.

(** C3 (amended).  On a LoRaWAN 1.1 network, [set_device_class] to a class
    other than B that differs from the current one only records the request:
    it returns OK, makes no MAC call and sets [_new_class_type],
    [_device_mode_ind_needed] and [_device_mode_ind_ongoing].  From then on
    - every uplink that passes the first tests of [handle_tx] stages a
      DeviceModeInd for the requested class, for as long as
      [_device_mode_ind_needed] holds;
    - the class is switched and CLASS_CHANGED is queued by
      [process_transmission], when the radio reports that a transmission is
      done: the MAC is told [set_device_class] with the requested class, and
      [_device_mode_ind_needed] is left as it was, so no DeviceModeConf has
      been seen yet;
    - the DeviceModeConf, when it comes, makes no MAC call at all: it clears
      [_device_mode_ind_needed] and reports SERVER_ACCEPTED_CLASS_IN_USE or
      SERVER_DOES_NOT_SUPPORT_CLASS_IN_USE. *)
Theorem class_switch_at_tx_done (c : device_class_t) s :
  _device_current_state s <> DEVICE_STATE_NOT_INITIALIZED ->
  LoRaMac.get_server_type (_loramac s) = LW1_1 ->
  c <> CLASS_B ->
  device_class s <> c ->
  exists s1,
    set_device_class c s = (LORAWAN_STATUS_OK, s1)
    /\ _loramac s1 = _loramac s
    /\ _trace s1 = _trace s
    /\ _new_class_type s1 = c
    /\ _device_mode_ind_needed s1 = true
    /\ _device_mode_ind_ongoing s1 = true
    /\ (forall port data length flags s2,
          _device_current_state s2 <> DEVICE_STATE_NOT_INITIALIZED ->
          data <> None ->
          flag REJOIN_IN_PROGRESS s2 = false ->
          _device_mode_ind_needed s2 = true ->
          _new_class_type s2 = c ->
          exists pre post,
            _trace (snd (send port data length flags s2)) =
              _trace s2 ++ pre
              ++ [Call (MacCall.setup_device_mode_indication c)] ++ post)
    /\ (forall s2,
          LoRaMac.get_server_type
            (LoRaMac.on_radio_tx_done (_tx_timestamp s2) (_loramac s2)) = LW1_1 ->
          _device_mode_ind_ongoing s2 = true ->
          _new_class_type s2 = c ->
          let r := LoRaMac.set_device_class c
                     (LoRaMac.on_radio_tx_done (_tx_timestamp s2) (_loramac s2)) in
          exists s3,
            process_transmission s2 = s3
            /\ _loramac s3 = snd r
            /\ _device_mode_ind_ongoing s3 = false
            /\ _device_mode_ind_needed s3 = _device_mode_ind_needed s2
            /\ _trace s3 =
                 _trace s2
                 ++ [Call (MacCall.on_radio_tx_done (_tx_timestamp s2));
                     Call (MacCall.set_device_class c (fst r))]
                 ++ (if events (_callbacks s2) then [Event CLASS_CHANGED] else []))
    /\ (forall rnd conf s2,
          mlme_type conf = MLME_DEVICE_MODE ->
          exists s3,
            mlme_confirm_handler rnd conf s2 = s3
            /\ _loramac s3 = _loramac s2
            /\ _device_mode_ind_needed s3 = false
            /\ _trace s3 =
                 _trace s2
                 ++ (if events (_callbacks s2) then
                       [Event (if device_class_t_beq (device_class s2) (classType conf)
                               then SERVER_ACCEPTED_CLASS_IN_USE
                               else SERVER_DOES_NOT_SUPPORT_CLASS_IN_USE)]
                     else [])).
Proof.
  intros Hinit Hsrv HB Hc.
  eexists. split; [apply set_device_class_LW1_1; assumption|].
  do 5 (split; [reflexivity|]).
  split; [|split].
  - intros port data length flags s2 Hi Hd Hr Hn <-.
    apply handle_tx_piggybacks_device_mode; auto.
  - intros s2 Hs Ho <-. apply process_transmission_switches_class; assumption.
  - intros rnd conf s2 Hty. apply mlme_confirm_device_mode. exact Hty.
Qed.

(** ** Forced rejoin *)

Lemma rejoin_attempts_app (a b : list effect) :
  rejoin_attempts (a ++ b) = (rejoin_attempts a + rejoin_attempts b)%nat.
Proof. unfold rejoin_attempts. rewrite filter_app. apply length_app. Qed.

Lemma rejoin_attempts_rejoin rejoin_type is_forced datarate :
  rejoin_attempts [Call (MacCall.rejoin rejoin_type is_forced datarate)] = 1%nat.
Proof. reflexivity. Qed.

Lemma rejoin_attempts_timer_start ev ms :
  rejoin_attempts [Call (MacCall.timer_start ev ms)] = 0%nat.
Proof. reflexivity. Qed.

Lemma rejoin_attempts_timer_stop ev :
  rejoin_attempts [Call (MacCall.timer_stop ev)] = 0%nat.
Proof. reflexivity. Qed.

Lemma server_type_after_rejoin (m : M) rejoin_type is_forced datarate :
  rejoin_keeps_server_type M ->
  LoRaMac.get_server_type (LoRaMac.rejoin rejoin_type is_forced datarate m)
    = LoRaMac.get_server_type m.
Proof. intros H. apply (H m rejoin_type is_forced datarate forced_timer 0). Qed.

Lemma server_type_after_timer_start (m : M) ev ms :
  rejoin_keeps_server_type M ->
  LoRaMac.get_server_type (LoRaMac.timer_start ev ms m) = LoRaMac.get_server_type m.
Proof. intros H. apply (H m 0 false 0 ev ms). Qed.

Lemma server_type_after_timer_stop (m : M) ev :
  rejoin_keeps_server_type M ->
  LoRaMac.get_server_type (LoRaMac.timer_stop ev m) = LoRaMac.get_server_type m.
Proof. intros H. apply (H m 0 false 0 ev 0). Qed.

(** With retries left, an expiry of the forced-rejoin timer sends one more
    request, arms the timer again and counts nothing. *)
Lemma forced_timer_expiry_rearms s :
  rejoin_keeps_server_type M ->
  LoRaMac.get_server_type (_loramac s) = LW1_1 ->
  _forced_counter s < _forced_retry_count s ->
  exists s',
    forced_timer_expiry s = s'
    /\ LoRaMac.get_server_type (_loramac s') = LW1_1
    /\ _forced_counter s' = _forced_counter s
    /\ _forced_retry_count s' = _forced_retry_count s
    /\ rejoin_attempts (_trace s') = S (rejoin_attempts (_trace s)).
Proof.
  intros Hkeep Hsrv Hlt.
  cbv beta delta [forced_timer_expiry process_rejoin].
  apply server_is_LW1_1_true in Hsrv. rewrite Hsrv.
  apply Z.ltb_lt in Hlt. rewrite Hlt. cbv beta iota.
  apply server_is_LW1_1_true in Hsrv.
  repeat name_let. eexists. split; [reflexivity|].
  unfold st, mac_do, emit.
  destruct (_forced_rejoin_type s =? REJOIN_REQUEST_TYPE0);
    cbv zeta; simpl_goal_fields;
    (split; [rewrite ?server_type_after_timer_start, ?server_type_after_timer_stop,
               ?server_type_after_rejoin by exact Hkeep; exact Hsrv|]);
    (split; [reflexivity|]); (split; [reflexivity|]);
    rewrite !rejoin_attempts_app, rejoin_attempts_rejoin, ?rejoin_attempts_timer_start,
      ?rejoin_attempts_timer_stop; lia.
Qed.

(** As long as nothing else happens, the forced-rejoin timer never runs out of
    retries: every expiry sends a request. *)
Lemma forced_timer_expiries_rearm (n : nat) s :
  rejoin_keeps_server_type M ->
  LoRaMac.get_server_type (_loramac s) = LW1_1 ->
  _forced_counter s < _forced_retry_count s ->
  rejoin_attempts (_trace (run (repeat run_forced_timer_expiry n) s))
    = (rejoin_attempts (_trace s) + n)%nat.
Proof.
  intros Hkeep. revert s. induction n as [|n IH]; intros s Hsrv Hlt.
  - simpl. lia.
  - change (run (repeat run_forced_timer_expiry (S n)) s)
      with (run (repeat run_forced_timer_expiry n) (forced_timer_expiry s)).
    destruct (forced_timer_expiry_rearms s Hkeep Hsrv Hlt)
      as (s' & -> & Hsrv' & Hc & Hr & Ht).
    rewrite IH, Ht; [lia|exact Hsrv'|rewrite Hc, Hr; exact Hlt].
Qed.

(** A rejoin request on a LoRaWAN 1.1 network: one call of the MAC, and for
    type 0 the restart of the type 0 timer. *)
Lemma process_rejoin_LW1_1 ty forced s :
  rejoin_keeps_server_type M ->
  LoRaMac.get_server_type (_loramac s) = LW1_1 ->
  exists s',
    process_rejoin ty forced s = s'
    /\ LoRaMac.get_server_type (_loramac s') = LW1_1
    /\ _forced_datarate s' = _forced_datarate s
    /\ _forced_period s' = _forced_period s
    /\ _forced_retry_count s' = _forced_retry_count s
    /\ _forced_rejoin_type s' = _forced_rejoin_type s
    /\ _forced_counter s' = _forced_counter s
    /\ exists rest,
         _trace s' = _trace s ++ Call (MacCall.rejoin ty forced (_forced_datarate s)) :: rest
         /\ rejoin_attempts rest = 0%nat.
Proof.
  intros Hkeep Hsrv. cbv beta delta [process_rejoin].
  apply server_is_LW1_1_true in Hsrv. rewrite Hsrv. cbv beta iota.
  apply server_is_LW1_1_true in Hsrv.
  eexists. split; [reflexivity|].
  unfold mac_do, emit.
  destruct (ty =? REJOIN_REQUEST_TYPE0); cbv zeta; simpl_goal_fields;
    (split; [rewrite ?server_type_after_timer_start, ?server_type_after_timer_stop,
               ?server_type_after_rejoin by exact Hkeep; exact Hsrv|]);
    do 5 (split; [reflexivity|]).
  - eexists. split; [rewrite <- !app_assoc; reflexivity|reflexivity].
  - exists []. split; reflexivity.
Qed.

(** X2.  What a ForceRejoinReq of type 0, 1 or 2 sets up on a LoRaWAN 1.1
    network: the data rate, the spacing of the attempts
    [((2^period) * 32 + j) * 1000] ms with a jitter [j] between 0 and 32, the
    number of retries plus one (none when there is no retry), the type (0 for
    a request of type 1), a counter at zero, and one attempt at once, followed
    by the start of the timer when retries were asked for. *)
Theorem mlme_confirm_force_rejoin rnd conf s :
  rejoin_keeps_server_type M ->
  mlme_type conf = MLME_FORCE_REJOIN ->
  rejoin_type conf <= REJOIN_REQUEST_TYPE2 ->
  LoRaMac.get_server_type (_loramac s) = LW1_1 ->
  0 <= rnd ->
  0 <= period conf <= 7 ->
  let ty := if rejoin_type conf =? REJOIN_REQUEST_TYPE1 then REJOIN_REQUEST_TYPE0
            else rejoin_type conf in
  exists s',
    mlme_confirm_handler rnd conf s = s'
    /\ LoRaMac.get_server_type (_loramac s') = LW1_1
    /\ _forced_datarate s' = datarate conf
    /\ (exists j, 0 <= j <= 32 /\ _forced_period s' = (2 ^ period conf * 32 + j) * 1000)
    /\ _forced_retry_count s' =
         (if max_retries conf =? 0 then 0 else uint8 (max_retries conf + 1))
    /\ _forced_rejoin_type s' = ty
    /\ _forced_counter s' = 0
    /\ rejoin_attempts (_trace s') = S (rejoin_attempts (_trace s))
    /\ (exists pre post,
          _trace s' =
            _trace s ++ pre ++ [Call (MacCall.rejoin ty true (datarate conf))] ++ post)
    /\ (_forced_retry_count s' <> 0 ->
        exists before,
          _trace s' =
            before ++ [Call (MacCall.timer_start forced_timer (_forced_period s'))]).
Proof.
  intros Hkeep Hty Hle Hsrv Hrnd Hp ty.
  cbv beta delta [mlme_confirm_handler]. rewrite Hty. cbv beta iota.
  apply Z.leb_le in Hle. apply server_is_LW1_1_true in Hsrv. rewrite Hle, Hsrv.
  apply server_is_LW1_1_true in Hsrv.
  cbv beta iota delta [andb].
  repeat name_let.
  assert (Hperiod : exists j, 0 <= j <= 32
            /\ uint32 ((Z.shiftl 1 (period conf) * 32 + rnd mod 33) * 1000)
               = (2 ^ period conf * 32 + j) * 1000).
  { exists (rnd mod 33). pose proof (Z.mod_pos_bound rnd 33 ltac:(lia)) as Hj.
    split; [lia|]. rewrite Z.shiftl_1_l. apply wrap_small.
    assert (1 <= 2 ^ period conf <= 2 ^ 7)
      by (split; [apply (Z.pow_le_mono_r 2 0); lia|apply Z.pow_le_mono_r; lia]).
    change (2 ^ 7) with 128 in *. change (2 ^ 32) with 4294967296. nia. }
  assert (Hf4 : _loramac st4 = _loramac s
                /\ _trace st4 = _trace s
                /\ _forced_datarate st4 = datarate conf
                /\ _forced_period st4
                   = uint32 ((Z.shiftl 1 (period conf) * 32 + rnd mod 33) * 1000)
                /\ _forced_retry_count st4
                   = (if max_retries conf =? 0 then 0 else uint8 (max_retries conf + 1))
                /\ _forced_rejoin_type st4 = ty).
  { unfold ty, st4, st3, st2, st1, st0, st. simpl_goal_fields.
    destruct (max_retries conf =? 0) eqn:Hmax, (rejoin_type conf =? REJOIN_REQUEST_TYPE1);
      cbn [negb]; simpl_goal_fields; repeat split;
      try reflexivity; apply Z.eqb_eq; exact Hmax. }
  destruct Hf4 as (Hm4 & Ht4 & Hd4 & Hp4 & Hr4 & Hy4).
  clearbody st4. clear st st0 st1 st2 st3.
  assert (Hsrv5 : LoRaMac.get_server_type (_loramac st5) = LW1_1).
  { unfold st5, reset_forced_rejoin, mac_do, emit. cbv zeta. simpl_goal_fields.
    rewrite server_type_after_timer_stop by exact Hkeep. rewrite Hm4. exact Hsrv. }
  assert (Hf5 : _trace st5 = _trace s ++ [Call (MacCall.timer_stop forced_timer)]
                /\ _forced_datarate st5 = _forced_datarate st4
                /\ _forced_period st5 = _forced_period st4
                /\ _forced_retry_count st5 = _forced_retry_count st4
                /\ _forced_rejoin_type st5 = _forced_rejoin_type st4
                /\ _forced_counter st5 = 0).
  { unfold st5, reset_forced_rejoin, mac_do, emit. cbv zeta. simpl_goal_fields.
    rewrite Ht4. repeat split. }
  destruct Hf5 as (Ht5 & Hd5 & Hp5 & Hr5 & Hy5 & Hc5).
  clearbody st5.
  destruct (process_rejoin_LW1_1 (_forced_rejoin_type st5) true st5 Hkeep Hsrv5)
    as (s6 & E6 & Hsrv6 & Hd6 & Hp6 & Hr6 & Hy6 & Hc6 & rest & Ht6 & Hrest).
  unfold st6. rewrite E6. clear st6 E6.
  rewrite Hr6, Hr5, Hr4.
  destruct Hperiod as (j & Hj & Hperiod).
  set (count := if max_retries conf =? 0 then 0 else uint8 (max_retries conf + 1)) in *.
  assert (Hcommon :
    rejoin_attempts (_trace s6) = S (rejoin_attempts (_trace s))
    /\ _trace s6 =
         _trace s ++ [Call (MacCall.timer_stop forced_timer)]
         ++ [Call (MacCall.rejoin ty true (datarate conf))] ++ rest).
  { split.
    - rewrite Ht6, Ht5, !rejoin_attempts_app.
      change (Call ?c :: rest) with ([Call c] ++ rest).
      rewrite rejoin_attempts_app, rejoin_attempts_rejoin, rejoin_attempts_timer_stop, Hrest.
      lia.
    - rewrite Ht6, Ht5, Hy5, Hy4, Hd5, Hd4, <- !app_assoc. reflexivity. }
  destruct Hcommon as (Hn6 & Htr6).
  destruct (count =? 0) eqn:Hcount; cbn [negb]; cbv iota.
  - exists s6. split; [reflexivity|]. split; [exact Hsrv6|].
    split; [congruence|]. split; [exists j; split; [exact Hj|congruence]|].
    split; [congruence|]. split; [congruence|]. split; [congruence|].
    split; [exact Hn6|]. split.
    + exists [Call (MacCall.timer_stop forced_timer)], rest. exact Htr6.
    + intros Hne. apply Z.eqb_eq in Hcount. congruence.
  - eexists. split; [reflexivity|].
    unfold mac_do, emit. simpl_goal_fields.
    split; [rewrite server_type_after_timer_start by exact Hkeep; exact Hsrv6|].
    split; [congruence|]. split; [exists j; split; [exact Hj|congruence]|].
    split; [congruence|]. split; [congruence|]. split; [congruence|].
    split; [|split].
    + rewrite rejoin_attempts_app, rejoin_attempts_timer_start, Hn6. lia.
    + exists [Call (MacCall.timer_stop forced_timer)],
        (rest ++ [Call (MacCall.timer_start forced_timer (_forced_period s6))]).
      rewrite Htr6, <- !app_assoc. reflexivity.
    + intros _. eexists. reflexivity.
Qed.

(** ** Reading a downlink piece by piece *)

Lemma bytes_at_app (base : list byte) (off k j : Z) :
  0 <= off -> 0 <= k -> 0 <= j ->
  bytes_at base off k ++ bytes_at base (off + k) j = bytes_at base off (k + j).
Proof.
  intros Ho Hk Hj. unfold bytes_at.
  replace (Z.to_nat (off + k)) with (Z.to_nat k + Z.to_nat off)%nat by lia.
  replace (Z.to_nat (k + j)) with (Z.to_nat k + Z.to_nat j)%nat by lia.
  rewrite <- skipn_skipn.
  generalize (skipn (Z.to_nat off) base) as l.
  generalize (Z.to_nat k) as n. generalize (Z.to_nat j) as i. clear.
  intros i n. induction n as [|n IH]; intros l.
  - reflexivity.
  - destruct l as [|b l]; simpl.
    + rewrite firstn_nil. reflexivity.
    + f_equal. apply IH.
Qed.

Lemma to_int16_small (z : Z) : 0 <= z < 32768 -> to_int16 z = z.
Proof.
  intros H. unfold to_int16, uint16. rewrite wrap_small by (change (2 ^ 16) with 65536; lia).
  destruct (Z.ltb_spec z 32768); [reflexivity|lia].
Qed.

Lemma uint16_small (z : Z) : 0 <= z <= 65535 -> uint16 z = z.
Proof. intros H. apply wrap_small. change (2 ^ 16) with 65536. lia. Qed.

(** One call of [receive] on a message being read. *)
Lemma receive_step port flags len memory size offset s :
  _device_current_state s <> DEVICE_STATE_NOT_INITIALIZED ->
  active (_lw_session s) = true ->
  reading memory size offset (_rx_msg s) ->
  0 <= size < 32768 ->
  msg_port (_rx_msg s) = port ->
  Z.land flags (Z.land (convert_to_msg_flag (msg_type (_rx_msg s))) MSG_FLAG_MASK) <> 0 ->
  0 < len <= 65535 ->
  let k := Z.min len (size - offset) in
  exists s',
    receive port false len flags s =
      ({| rx_return := Len k; rx_data := bytes_at memory offset k; rx_port_out := port;
          rx_flags_out := Z.land (convert_to_msg_flag (msg_type (_rx_msg s))) MSG_FLAG_MASK |},
       s')
    /\ _device_current_state s' = _device_current_state s
    /\ _lw_session s' = _lw_session s
    /\ msg_port (_rx_msg s') = msg_port (_rx_msg s)
    /\ msg_type (_rx_msg s') = msg_type (_rx_msg s)
    /\ (offset + k < size -> reading memory size (offset + k) (_rx_msg s'))
    /\ (size <= offset + k -> receive_ready (_rx_msg s') = false).
Proof.
  intros Hinit Hactive (Hready & Hbuf & Hsize & Hcursor) HN Hport Hflags Hlen k.
  unfold receive, handle_rx.
  rewrite (initialised s Hinit), Hactive, Hready.
  assert ((len =? 0) = false) as -> by (apply Z.eqb_neq; lia).
  rewrite Hport, Z.eqb_refl.
  apply Z.eqb_neq in Hflags. rewrite Hflags.
  cbn [negb orb andb].
  rewrite Hbuf, Hsize. cbn [region].
  destruct Hcursor as [(Hoff & Hpending)|(Hoff & Hpending & Hprev)].
  - (* nothing read yet *)
    rewrite Hpending, Z.eqb_refl. cbv iota. rewrite Z.eqb_refl. cbn [andb]. subst offset.
    destruct (Z.leb_spec size len) as [Hfits|Hlong].
    + (* the whole message fits *)
      cbv beta iota. eexists. split.
      { rewrite to_int16_small by lia. unfold k.
        rewrite Z.sub_0_r, Z.min_r by lia. reflexivity. }
      simpl_goal_fields. cbn [receive_ready msg_port msg_type].
      do 4 (split; [reflexivity|]).
      split; [intros Hmore; unfold k in Hmore; lia|reflexivity].
    + assert ((size >? len) = true) as -> by (apply Z.gtb_lt; lia).
      cbv beta iota. eexists. split.
      { rewrite to_int16_small by lia. unfold k.
        rewrite Z.sub_0_r, Z.min_l by lia. reflexivity. }
      simpl_goal_fields.
      cbn [receive_ready msg_port msg_type msg_buffer msg_buffer_size pending_size
           prev_read_size].
      assert (k = len) as Hk by (unfold k; lia).
      do 4 (split; [reflexivity|]).
      split; [|intros Hdone; lia].
      intros _. unfold reading.
      cbn [receive_ready msg_buffer msg_buffer_size pending_size prev_read_size].
      do 3 (split; [reflexivity|]).
      right. rewrite !uint16_small by lia. lia.
  - (* a part has been read *)
    rewrite Hpending, Hprev.
    assert ((size - offset =? 0) = false) as -> by (apply Z.eqb_neq; lia).
    cbv iota.
    assert ((offset =? 0) = false) as -> by (apply Z.eqb_neq; lia).
    cbn [andb].
    destruct (Z.gtb_spec (size - offset) len) as [Hlong|Hrest].
    + cbv beta iota. eexists. split.
      { rewrite to_int16_small by lia. unfold k. rewrite Z.min_l by lia. reflexivity. }
      simpl_goal_fields.
      cbn [receive_ready msg_port msg_type msg_buffer msg_buffer_size pending_size
           prev_read_size].
      assert (k = len) as Hk by (unfold k; lia).
      do 4 (split; [reflexivity|]).
      split; [|intros Hdone; lia].
      intros _. unfold reading.
      cbn [receive_ready msg_buffer msg_buffer_size pending_size prev_read_size].
      do 3 (split; [reflexivity|]).
      right. rewrite !uint16_small by lia. lia.
    + cbv beta iota. eexists. split.
      { rewrite to_int16_small by lia. unfold k. rewrite Z.min_r by lia. reflexivity. }
      simpl_goal_fields. cbn [receive_ready msg_port msg_type].
      do 4 (split; [reflexivity|]).
      split; [intros Hmore; unfold k in Hmore; lia|reflexivity].
Qed.

Lemma receive_not_ready port data_is_null len flags s :
  _device_current_state s <> DEVICE_STATE_NOT_INITIALIZED ->
  active (_lw_session s) = true ->
  receive_ready (_rx_msg s) = false ->
  receive port data_is_null len flags s =
    ({| rx_return := Status LORAWAN_STATUS_WOULD_BLOCK; rx_data := [];
        rx_port_out := port; rx_flags_out := flags |}, s).
Proof.
  intros Hinit Hact Hready. unfold receive, handle_rx.
  rewrite (initialised s Hinit), Hact, Hready. reflexivity.
Qed.

Lemma receive_all_not_ready port flags lens remaining s :
  _device_current_state s <> DEVICE_STATE_NOT_INITIALIZED ->
  active (_lw_session s) = true ->
  receive_ready (_rx_msg s) = false ->
  concat (map rx_data (fst (receive_all port flags lens s))) = []
  /\ map rx_return (fst (receive_all port flags lens s)) = drain_returns remaining false lens
  /\ snd (receive_all port flags lens s) = s.
Proof.
  intros Hinit Hact Hready. induction lens as [|len rest IH].
  - repeat split.
  - cbn [receive_all drain_returns]. rewrite receive_not_ready by assumption.
    cbn [fst snd map concat rx_data rx_return app].
    destruct IH as (IH1 & IH2 & IH3). rewrite IH1, IH2, IH3. repeat split.
Qed.

Lemma total_nonneg (lens : list Z) :
  Forall (fun len => 0 < len <= 65535) lens -> 0 <= total lens.
Proof.
  induction 1 as [|len rest Hlen _ IH]; [reflexivity|].
  change (total (len :: rest)) with (len + total rest). lia.
Qed.

(** Consecutive calls of [receive] on a message being read. *)
Lemma receive_all_reading port flags lens : forall memory size offset s,
  _device_current_state s <> DEVICE_STATE_NOT_INITIALIZED ->
  active (_lw_session s) = true ->
  reading memory size offset (_rx_msg s) ->
  0 <= size < 32768 ->
  0 <= offset <= size ->
  msg_port (_rx_msg s) = port ->
  Z.land flags (Z.land (convert_to_msg_flag (msg_type (_rx_msg s))) MSG_FLAG_MASK) <> 0 ->
  Forall (fun len => 0 < len <= 65535) lens ->
  let r := receive_all port flags lens s in
  concat (map rx_data (fst r)) = bytes_at memory offset (Z.min (total lens) (size - offset))
  /\ map rx_return (fst r) = drain_returns (size - offset) true lens
  /\ _device_current_state (snd r) = _device_current_state s
  /\ _lw_session (snd r) = _lw_session s
  /\ (total lens < size - offset -> reading memory size (offset + total lens) (_rx_msg (snd r)))
  /\ (lens <> [] -> size - offset <= total lens -> receive_ready (_rx_msg (snd r)) = false).
Proof.
  induction lens as [|len rest IH]; intros memory size offset s Hinit Hact Hread HN Hoff Hport
    Hflags Hlens r.
  - subst r. cbn [receive_all fst snd map concat drain_returns total fold_right].
    split; [unfold bytes_at; rewrite Z.min_l by lia; reflexivity|].
    do 3 (split; [reflexivity|]).
    split; [intros _; rewrite Z.add_0_r; exact Hread|intros H; contradiction].
  - apply Forall_cons_iff in Hlens as [Hlen Hrest].
    pose proof (total_nonneg rest Hrest) as Htot.
    change (total (len :: rest)) with (len + total rest).
    destruct (receive_step port flags len memory size offset s Hinit Hact Hread HN
                Hport Hflags Hlen)
      as (s1 & E & Hst & Hse & Hp1 & Hty1 & Hmore & Hdone).
    subst r. cbn [receive_all drain_returns]. rewrite E.
    cbn [fst snd map concat rx_data rx_return].
    rewrite <- Hst in Hinit. rewrite <- Hse in Hact.
    destruct (Z.ltb_spec len (size - offset)) as [Hlt|Hge].
    + (* more to read after this call *)
      rewrite Z.min_l in * by lia.
      specialize (Hmore ltac:(lia)).
      rewrite <- Hty1 in Hflags.
      rewrite <- Hp1 in Hport.
      destruct (IH memory size (offset + len) s1 Hinit Hact Hmore HN ltac:(lia) Hport Hflags
                  Hrest) as (IHd & IHr & IHs & IHse & IHmore & IHdone).
      split.
      { rewrite IHd, bytes_at_app by lia. f_equal. lia. }
      split.
      { rewrite IHr. do 2 f_equal. lia. }
      split; [rewrite IHs; exact Hst|]. split; [rewrite IHse; exact Hse|].
      split.
      { intros H. rewrite Z.add_assoc. apply IHmore. lia. }
      { intros _ H. apply IHdone; [|lia].
        intros ->. change (total []) with 0 in H. lia. }
    + (* this call ends the message *)
      rewrite Z.min_r in * by lia.
      specialize (Hdone ltac:(lia)).
      destruct (receive_all_not_ready port flags rest (size - offset - (size - offset)) s1
                  Hinit Hact Hdone) as (Ed & Er & Es).
      rewrite Ed, Er, Es, app_nil_r.
      split; [rewrite Z.min_r by lia; reflexivity|].
      split; [reflexivity|]. split; [exact Hst|]. split; [exact Hse|].
      split; [intros H; lia|intros _ _; exact Hdone].
Qed.

Lemma total_pos (lens : list Z) :
  Forall (fun len => 0 < len <= 65535) lens -> lens <> [] -> 0 < total lens.
Proof.
  intros Hlens Hne. destruct lens as [|len rest]; [contradiction|].
  apply Forall_cons_iff in Hlens as [Hlen Hrest].
  pose proof (total_nonneg rest Hrest).
  change (total (len :: rest)) with (len + total rest). lia.
Qed.

(** X1.  A downlink stored while the read cursor is at rest ([pending_size] zero)
    is drained by any sequence of reads on its port with matching flags and
    buffers of non-zero length: the reads return the bytes of the message in
    order from offset 0, as many as asked for until the read that ends it,
    the cursor records how many have been returned, [receive_ready] falls on
    the read that returns the last byte, and later reads return WOULD_BLOCK. *)
Theorem handle_rx_drains_downlink port flags (lens : list Z) (memory : list byte) s :
  _device_current_state s <> DEVICE_STATE_NOT_INITIALIZED ->
  active (_lw_session s) = true ->
  receive_ready (_rx_msg s) = true ->
  pending_size (_rx_msg s) = 0 ->
  msg_buffer (_rx_msg s) = Some memory ->
  0 <= msg_buffer_size (_rx_msg s) < 32768 ->
  msg_port (_rx_msg s) = port ->
  Z.land flags (Z.land (convert_to_msg_flag (msg_type (_rx_msg s))) MSG_FLAG_MASK) <> 0 ->
  Forall (fun len => 0 < len <= 65535) lens ->
  lens <> [] ->
  let size := msg_buffer_size (_rx_msg s) in
  let r := receive_all port flags lens s in
  concat (map rx_data (fst r)) = bytes_at memory 0 (Z.min (total lens) size)
  /\ map rx_return (fst r) = drain_returns size true lens
  /\ (receive_ready (_rx_msg (snd r)) = true <-> total lens < size)
  /\ (total lens < size ->
      prev_read_size (_rx_msg (snd r)) = total lens
      /\ pending_size (_rx_msg (snd r)) = size - total lens)
  /\ (size <= total lens ->
      forall data_is_null len flags',
        receive port data_is_null len flags' (snd r) =
          ({| rx_return := Status LORAWAN_STATUS_WOULD_BLOCK; rx_data := [];
              rx_port_out := port; rx_flags_out := flags' |}, snd r)).
Proof.
  intros Hinit Hact Hready Hpending Hbuf HN Hport Hflags Hlens Hne size r.
  assert (reading memory size 0 (_rx_msg s)) as Hread.
  { split; [exact Hready|]. split; [exact Hbuf|]. split; [reflexivity|].
    left. split; [reflexivity|exact Hpending]. }
  pose proof (total_pos lens Hlens Hne) as Hpos.
  destruct (receive_all_reading port flags lens memory size 0 s Hinit Hact Hread HN
              ltac:(lia) Hport Hflags Hlens)
    as (Hd & Hr & Hst & Hse & Hmore & Hdone).
  fold r in Hd, Hr, Hst, Hse, Hmore, Hdone.
  rewrite Z.sub_0_r in *. rewrite Z.add_0_l in Hmore.
  split; [exact Hd|]. split; [exact Hr|].
  split; [|split].
  - split.
    + intros Htrue. destruct (Z.lt_ge_cases (total lens) size) as [Hlt|Hge]; [exact Hlt|].
      rewrite (Hdone Hne Hge) in Htrue. discriminate Htrue.
    + intros Hlt. apply (Hmore Hlt).
  - intros Hlt. destruct (Hmore Hlt) as (_ & _ & _ & [(H0 & _)|(_ & Hp & Hprev)]); [lia|].
    split; assumption.
  - intros Hge data_is_null len flags'. apply receive_not_ready.
    + rewrite Hst. exact Hinit.
    + rewrite Hse. exact Hact.
    + exact (Hdone Hne Hge).
Qed.

(** ** Entry points before [initialize] *)

(** X3.  Before the stack is initialised every entry point of the interface
    that tests for it returns NOT_INITIALIZED and changes nothing: connect,
    disconnect, send, receive, set_device_class, the two metadata reads,
    add_app_callbacks, cancel_sending and remove_channel_plan. *)
Theorem entry_points_need_initialize s :
  _device_current_state s = DEVICE_STATE_NOT_INITIALIZED ->
  connect s = (LORAWAN_STATUS_NOT_INITIALIZED, s)
  /\ (forall params, connect_with params s = (LORAWAN_STATUS_NOT_INITIALIZED, s))
  /\ disconnect s = (LORAWAN_STATUS_NOT_INITIALIZED, s)
  /\ (forall port data length flags,
        send port data length flags s = (Status LORAWAN_STATUS_NOT_INITIALIZED, s))
  /\ (forall port data_is_null length flags,
        receive port data_is_null length flags s =
          ({| rx_return := Status LORAWAN_STATUS_NOT_INITIALIZED; rx_data := [];
              rx_port_out := port; rx_flags_out := flags |}, s))
  /\ (forall c, set_device_class c s = (LORAWAN_STATUS_NOT_INITIALIZED, s))
  /\ acquire_tx_metadata s = (LORAWAN_STATUS_NOT_INITIALIZED, None, s)
  /\ acquire_rx_metadata s = (LORAWAN_STATUS_NOT_INITIALIZED, None, s)
  /\ (forall callbacks, set_lora_callbacks callbacks s = (LORAWAN_STATUS_NOT_INITIALIZED, s))
  /\ stop_sending s = (LORAWAN_STATUS_NOT_INITIALIZED, s)
  /\ drop_channel_list s = (LORAWAN_STATUS_NOT_INITIALIZED, s).
Proof.
  intros Hstate. apply in_state_true in Hstate as Hi.
  unfold connect, connect_with, disconnect, shutdown, send, handle_tx, receive, handle_rx,
    set_device_class, acquire_tx_metadata, acquire_rx_metadata, set_lora_callbacks,
    stop_sending, drop_channel_list.
  rewrite Hi. repeat split.
Qed.

(** ** Connecting twice *)

(** X4.  On an initialised stack [connect] answers BUSY while a connection is
    in progress, and otherwise ALREADY_CONNECTED when the stack is connected;
    in both cases nothing is changed and the MAC is not called. *)
Theorem connect_twice s :
  _device_current_state s <> DEVICE_STATE_NOT_INITIALIZED ->
  (flag CONN_IN_PROGRESS_FLAG s = true -> connect s = (LORAWAN_STATUS_BUSY, s))
  /\ (flag CONN_IN_PROGRESS_FLAG s = false ->
      flag CONNECTED_FLAG s = true ->
      connect s = (LORAWAN_STATUS_ALREADY_CONNECTED, s)).
Proof.
  intros Hinit. unfold connect. rewrite (initialised s Hinit).
  split.
  - intros ->. reflexivity.
  - intros -> ->. reflexivity.
Qed.

(** ** The end of a transmission, as the application sees it *)

(** X5.  [mcps_confirm_handler] turns the status of the MCPS confirmation into
    one event: TX_DONE for OK (the uplink counter of the session is then the
    one of the confirmation), TX_TIMEOUT for a radio timeout,
    TX_SCHEDULING_ERROR for a payload too long for the data rate, TX_ERROR
    for everything else.  Nothing else is done, and nothing at all when no
    event callback is registered (the counter apart). *)
Theorem mcps_confirm_handler_event s :
  let c := LoRaMac.get_mcps_confirmation (_loramac s) in
  let event :=
    match conf_status c with
    | LORAMAC_EVENT_INFO_STATUS_OK => TX_DONE
    | LORAMAC_EVENT_INFO_STATUS_TX_TIMEOUT => TX_TIMEOUT
    | LORAMAC_EVENT_INFO_STATUS_TX_DR_PAYLOAD_SIZE_ERROR => TX_SCHEDULING_ERROR
    | _ => TX_ERROR
    end in
  _trace (mcps_confirm_handler s) =
    _trace s ++ (if events (_callbacks s) then [Event event] else [])
  /\ _loramac (mcps_confirm_handler s) = _loramac s
  /\ _ctrl_flags (mcps_confirm_handler s) = _ctrl_flags s
  /\ _device_current_state (mcps_confirm_handler s) = _device_current_state s
  /\ uplink_counter (_lw_session (mcps_confirm_handler s)) =
       match conf_status c with
       | LORAMAC_EVENT_INFO_STATUS_OK => conf_ul_frame_counter c
       | _ => uplink_counter (_lw_session s)
       end.
Proof.
  intros c event. subst c event.
  unfold mcps_confirm_handler, send_event_to_application.
  destruct (conf_status (LoRaMac.get_mcps_confirmation (_loramac s)));
    simpl_goal_fields; destruct (events (_callbacks s));
    simpl_goal_fields; cbn [uplink_counter with_uplink_counter];
    repeat split; symmetry; apply app_nil_r.
Qed.

(** ** Sending *)

(** A [let] that gives a second name to a variable is dropped. *)
Ltac inline_let :=
  name_let;
  match goal with
  | x := ?e |- _ => is_var e; cbv delta [x]; clear x
  end.

(** [handle_tx] on a stack with nothing to piggyback, up to the test of the
    session. *)
Lemma handle_tx_nothing_to_piggyback port data length flags null_allowed allow_port_0 s :
  _device_current_state s <> DEVICE_STATE_NOT_INITIALIZED ->
  (null_allowed = true \/ data <> None) ->
  flag REJOIN_IN_PROGRESS s = false ->
  nothing_to_piggyback s ->
  handle_tx port data length flags null_allowed allow_port_0 s =
    if negb (active (_lw_session s)) then (Status LORAWAN_STATUS_NO_ACTIVE_SESSIONS, s)
    else if LoRaMac.tx_ongoing (_loramac s) then (Status LORAWAN_STATUS_WOULD_BLOCK, s)
    else if negb (LoRaMac.nwk_joined (_loramac s)) then
      (Status LORAWAN_STATUS_NO_NETWORK_JOINED, with_qos_cnt 1 s)
    else if negb (is_port_valid port allow_port_0) then
      (Status LORAWAN_STATUS_PORT_INVALID, with_qos_cnt 1 s)
    else if negb (uplink_flags_valid flags) then
      (Status LORAWAN_STATUS_PARAMETER_INVALID, with_app_port port (with_qos_cnt 1 s))
    else
      let s1 := with_app_port port (with_qos_cnt 1 s) in
      let r := mac_ask (MacCall.prepare_ongoing_tx port data length flags (_num_retry s))
                       (LoRaMac.prepare_ongoing_tx port data length flags (_num_retry s)) s1 in
      let r' := state_controller DEVICE_STATE_SCHEDULING (snd r) in
      (if status_ok (fst r') then Len (fst r) else Status (fst r'), snd r').
Proof.
  intros Hinit Hdata Hrejoin (Hreset & Hrekey & Hmode & Hlink & Htime & Hping).
  cbv beta delta [handle_tx]. rewrite (initialised s Hinit), Hrejoin.
  assert (negb null_allowed && match data with None => true | Some _ => false end = false)
    as ->.
  { destruct Hdata as [->|Hd]; [reflexivity|].
    destruct data; [apply Bool.andb_false_r|congruence]. }
  match goal with |- _ = ?rhs => set (expected := rhs) end.
  rewrite Hreset, Hrekey. cbv beta iota. inline_let.
  rewrite Hmode. cbv beta iota. inline_let.
  rewrite Hlink. cbv beta iota. inline_let.
  rewrite Htime. cbv beta iota. inline_let.
  rewrite Hping. cbv beta iota. inline_let.
  name_let.
  change (LoRaMac.nwk_joined (_loramac st)) with (LoRaMac.nwk_joined (_loramac s)).
  unfold set_application_port. subst expected.
  destruct (active (_lw_session s)); [|reflexivity].
  destruct (LoRaMac.tx_ongoing (_loramac s)); [reflexivity|].
  destruct (LoRaMac.nwk_joined (_loramac s)); [|reflexivity].
  destruct (is_port_valid port allow_port_0); [|reflexivity].
  cbn [negb fst snd status_ok lorawan_status_t_beq]. cbv beta iota.
  unfold uplink_flags_valid. cbv beta iota zeta.
  destruct ((Z.land flags MSG_FLAG_MASK =? MSG_UNCONFIRMED_FLAG)
            || (Z.land flags MSG_FLAG_MASK =? MSG_CONFIRMED_FLAG)
            || (Z.land flags MSG_FLAG_MASK =? MSG_PROPRIETARY_FLAG)); reflexivity.
Qed.

(** X6.  The refusals of an application send, in the order the code tests
    them, on an initialised stack with no rejoin in progress and nothing to
    piggyback: no active session, a transmission ongoing in the MAC, network
    not joined, port not valid, message flags not valid.  The first two leave
    the stack as it was; from the third on [_qos_cnt] has been reset to 1, and
    a send refused for its flags has already stored the port as the
    application port.  The MAC is never called. *)
Theorem send_refused port data length flags s :
  _device_current_state s <> DEVICE_STATE_NOT_INITIALIZED ->
  data <> None ->
  flag REJOIN_IN_PROGRESS s = false ->
  nothing_to_piggyback s ->
  (active (_lw_session s) = false ->
   send port data length flags s = (Status LORAWAN_STATUS_NO_ACTIVE_SESSIONS, s))
  /\ (active (_lw_session s) = true ->
      LoRaMac.tx_ongoing (_loramac s) = true ->
      send port data length flags s = (Status LORAWAN_STATUS_WOULD_BLOCK, s))
  /\ (active (_lw_session s) = true ->
      LoRaMac.tx_ongoing (_loramac s) = false ->
      LoRaMac.nwk_joined (_loramac s) = false ->
      send port data length flags s
        = (Status LORAWAN_STATUS_NO_NETWORK_JOINED, with_qos_cnt 1 s))
  /\ (active (_lw_session s) = true ->
      LoRaMac.tx_ongoing (_loramac s) = false ->
      LoRaMac.nwk_joined (_loramac s) = true ->
      is_port_valid port false = false ->
      send port data length flags s
        = (Status LORAWAN_STATUS_PORT_INVALID, with_qos_cnt 1 s))
  /\ (active (_lw_session s) = true ->
      LoRaMac.tx_ongoing (_loramac s) = false ->
      LoRaMac.nwk_joined (_loramac s) = true ->
      is_port_valid port false = true ->
      uplink_flags_valid (uint8 flags) = false ->
      send port data length flags s
        = (Status LORAWAN_STATUS_PARAMETER_INVALID,
           with_app_port port (with_qos_cnt 1 s))).
Proof.
  intros Hinit Hdata Hrejoin Hquiet. unfold send.
  rewrite (handle_tx_nothing_to_piggyback port data length (uint8 flags) false false s
             Hinit (or_intror Hdata) Hrejoin Hquiet).
  repeat split.
  - intros ->. reflexivity.
  - intros -> ->. reflexivity.
  - intros -> -> ->. reflexivity.
  - intros -> -> -> ->. reflexivity.
  - intros -> -> -> -> ->. reflexivity.
Qed.

(** What [process_scheduling_state] does with a prepared transmission. *)
Lemma process_scheduling_state_result op s :
  let sent := LoRaMac.send_ongoing_tx (_loramac s) in
  (in_state DEVICE_STATE_IDLE s = false ->
   in_state DEVICE_STATE_RECEIVING s = false ->
   device_class s <> CLASS_C ->
   process_scheduling_state op s = (LORAWAN_STATUS_BUSY, s))
  /\ (in_state DEVICE_STATE_IDLE s = true \/ in_state DEVICE_STATE_RECEIVING s = true
      \/ device_class s = CLASS_C ->
      (fst sent = LORAWAN_STATUS_OK ->
       exists s',
         process_scheduling_state op s = (LORAWAN_STATUS_OK, s')
         /\ _device_current_state s' = DEVICE_STATE_SENDING
         /\ _loramac s' = LoRaMac.set_tx_ongoing true (snd sent)
         /\ flag TX_DONE_FLAG s' = false
         /\ _app_port s' = _app_port s
         /\ _qos_cnt s' = _qos_cnt s
         /\ _trace s' =
              _trace s ++ [Call (MacCall.send_ongoing_tx LORAWAN_STATUS_OK);
                           FlagsClear TX_DONE_FLAG;
                           Call (MacCall.set_tx_ongoing true)])
      /\ (fst sent <> LORAWAN_STATUS_OK ->
          exists s',
            process_scheduling_state op s = (fst sent, s')
            /\ _device_current_state s' = _device_current_state s
            /\ _loramac s' = snd sent
            /\ _ctrl_flags s' = _ctrl_flags s
            /\ _trace s' = _trace s ++ [Call (MacCall.send_ongoing_tx (fst sent))])).
Proof.
  intros sent. split.
  - intros Hidle Hrecv Hclass. unfold process_scheduling_state.
    rewrite Hidle, Hrecv. apply device_class_differs in Hclass. rewrite Hclass. reflexivity.
  - intros Hfree.
    assert (negb (in_state DEVICE_STATE_IDLE s)
            && (negb (in_state DEVICE_STATE_RECEIVING s)
                && negb (device_class_t_beq (device_class s) CLASS_C)) = false) as Hcond.
    { destruct Hfree as [->|[->|Hc]]; [reflexivity|apply Bool.andb_false_r|].
      apply device_class_same in Hc. rewrite Hc.
      rewrite !Bool.andb_false_r. reflexivity. }
    cbv beta delta [process_scheduling_state]. rewrite Hcond. cbv beta iota.
    split.
    + intros Hok. name_let. change (fst st) with (fst sent). rewrite Hok. cbn [status_ok lorawan_status_t_beq]. cbv beta iota.
      eexists. split; [reflexivity|].
      split; [reflexivity|]. split; [reflexivity|].
      split.
      { change (flag TX_DONE_FLAG (flags_clear TX_DONE_FLAG (snd st)) = false).
        apply flag_flags_clear_same. unfold TX_DONE_FLAG. lia. }
      split; [reflexivity|]. split; [reflexivity|].
      unfold st, mac_do, mac_ask, flags_clear, emit. simpl_goal_fields.
      change (fst (LoRaMac.send_ongoing_tx (_loramac s))) with (fst sent).
      rewrite Hok, <- !app_assoc. reflexivity.
    + intros Hbad. name_let. change (fst st) with (fst sent).
      assert (status_ok (fst sent) = false) as ->.
      { destruct (status_ok (fst sent)) eqn:E; [|reflexivity].
        apply status_ok_true in E. contradiction. }
      exists (snd st). split; [reflexivity|].
      repeat split.
Qed.

(** X7.  An application send that passes every test (initialised, data given,
    no rejoin in progress, nothing to piggyback, session active, no
    transmission ongoing, joined, port and flags valid) hands the message to
    the MAC with the retry count [_num_retry].  Then
    - in a state other than Idle and Receiving, on a device that is not of
      class C, it returns BUSY, the prepared message staying in the MAC;
    - otherwise it asks the MAC to send: on OK it returns the length the MAC
      took, the state is Sending, the MAC is told that a transmission is
      ongoing and TX_DONE_FLAG is clear; on any other status it returns that
      status and the state stays as it was. *)
Theorem send_scheduled port data length flags s :
  _device_current_state s <> DEVICE_STATE_NOT_INITIALIZED ->
  data <> None ->
  flag REJOIN_IN_PROGRESS s = false ->
  nothing_to_piggyback s ->
  active (_lw_session s) = true ->
  LoRaMac.tx_ongoing (_loramac s) = false ->
  LoRaMac.nwk_joined (_loramac s) = true ->
  is_port_valid port false = true ->
  uplink_flags_valid (uint8 flags) = true ->
  let prepared :=
    LoRaMac.prepare_ongoing_tx port data length (uint8 flags) (_num_retry s) (_loramac s) in
  let sent := LoRaMac.send_ongoing_tx (snd prepared) in
  let call :=
    Call (MacCall.prepare_ongoing_tx port data length (uint8 flags) (_num_retry s)
            (fst prepared)) in
  (_device_current_state s <> DEVICE_STATE_IDLE ->
   _device_current_state s <> DEVICE_STATE_RECEIVING ->
   LoRaMac.get_device_class (snd prepared) <> CLASS_C ->
   exists s',
     send port data length flags s = (Status LORAWAN_STATUS_BUSY, s')
     /\ _loramac s' = snd prepared
     /\ _device_current_state s' = _device_current_state s
     /\ _trace s' = _trace s ++ [call])
  /\ (_device_current_state s = DEVICE_STATE_IDLE
      \/ _device_current_state s = DEVICE_STATE_RECEIVING
      \/ LoRaMac.get_device_class (snd prepared) = CLASS_C ->
      (fst sent = LORAWAN_STATUS_OK ->
       exists s',
         send port data length flags s = (Len (fst prepared), s')
         /\ _device_current_state s' = DEVICE_STATE_SENDING
         /\ _loramac s' = LoRaMac.set_tx_ongoing true (snd sent)
         /\ flag TX_DONE_FLAG s' = false
         /\ _app_port s' = port
         /\ _qos_cnt s' = 1
         /\ _trace s' =
              _trace s ++ [call; Call (MacCall.send_ongoing_tx LORAWAN_STATUS_OK);
                           FlagsClear TX_DONE_FLAG; Call (MacCall.set_tx_ongoing true)])
      /\ (fst sent <> LORAWAN_STATUS_OK ->
          exists s',
            send port data length flags s = (Status (fst sent), s')
            /\ _device_current_state s' = _device_current_state s
            /\ _loramac s' = snd sent
            /\ _trace s' = _trace s ++ [call; Call (MacCall.send_ongoing_tx (fst sent))])).
Proof.
  intros Hinit Hdata Hrejoin Hquiet Hactive Htx Hjoined Hport Hflags prepared sent call.
  pose (st0 := mac_ask
                 (MacCall.prepare_ongoing_tx port data length (uint8 flags) (_num_retry s))
                 (LoRaMac.prepare_ongoing_tx port data length (uint8 flags) (_num_retry s))
                 (with_app_port port (with_qos_cnt 1 s))).
  assert (send port data length flags s =
          (if status_ok (fst (process_scheduling_state LORAWAN_STATUS_OK (snd st0)))
           then Len (fst prepared)
           else Status (fst (process_scheduling_state LORAWAN_STATUS_OK (snd st0))),
           snd (process_scheduling_state LORAWAN_STATUS_OK (snd st0)))) as Hsend.
  { unfold send.
    rewrite (handle_tx_nothing_to_piggyback port data length (uint8 flags) false false s
               Hinit (or_intror Hdata) Hrejoin Hquiet).
    rewrite Hactive, Htx, Hjoined, Hport, Hflags. reflexivity. }
  rewrite Hsend. clear Hsend.
  assert (_loramac (snd st0) = snd prepared) as Hmac by reflexivity.
  assert (_device_current_state (snd st0) = _device_current_state s) as Hstate
    by reflexivity.
  assert (_trace (snd st0) = _trace s ++ [call]) as Htrace by reflexivity.
  assert (_app_port (snd st0) = port) as Happ by reflexivity.
  assert (_qos_cnt (snd st0) = 1) as Hqos by reflexivity.
  destruct (process_scheduling_state_result LORAWAN_STATUS_OK (snd st0)) as [Hbusy Hfree].
  clearbody st0.
  unfold device_class in Hbusy, Hfree. rewrite Hmac in Hbusy, Hfree.
  split.
  - intros Hidle Hrecv Hclass.
    apply in_state_false in Hidle, Hrecv.
    unfold in_state in Hidle, Hrecv, Hbusy. rewrite Hstate in Hbusy.
    rewrite (Hbusy Hidle Hrecv Hclass). cbn [fst snd status_ok lorawan_status_t_beq].
    exists (snd st0). repeat split; assumption.
  - intros Hcan.
    assert (in_state DEVICE_STATE_IDLE (snd st0) = true
            \/ in_state DEVICE_STATE_RECEIVING (snd st0) = true
            \/ LoRaMac.get_device_class (snd prepared) = CLASS_C) as Hcan'.
    { unfold in_state. rewrite Hstate.
      destruct Hcan as [H|[H|H]]; [left|right; left|right; right; exact H];
        apply in_state_true in H; exact H. }
    destruct (Hfree Hcan') as [Hok Hbad]. split.
    + intros Hsent. destruct (Hok Hsent) as (s' & E & Hs & Hm & Hf & Hp & Hq & Ht).
      rewrite E. cbn [fst snd status_ok lorawan_status_t_beq].
      exists s'. split; [reflexivity|]. split; [exact Hs|]. split; [exact Hm|].
      split; [exact Hf|]. split; [congruence|]. split; [congruence|].
      rewrite Ht, Htrace, <- app_assoc. reflexivity.
    + intros Hsent. destruct (Hbad Hsent) as (s' & E & Hs & Hm & _ & Ht).
      rewrite E. cbn [fst snd]. fold sent.
      assert (status_ok (fst sent) = false) as ->.
      { destruct (status_ok (fst sent)) eqn:Eok; [|reflexivity].
        apply status_ok_true in Eok. contradiction. }
      exists s'. split; [reflexivity|]. split; [congruence|]. split; [exact Hm|].
      rewrite Ht, Htrace, <- app_assoc. reflexivity.
Qed.

(** ** Receiving *)

(** X8.  The refusals of a receive on a port, in the order the code tests
    them, on an initialised stack: no active session; no message pending
    (WOULD_BLOCK); with a message pending, a NULL buffer or a zero length
    (PARAMETER_INVALID); then a port other than the one of the message, or
    flags that do not include its type (WOULD_BLOCK).  Each refusal copies
    nothing, hands [port] and [flags] back as given and leaves the stack as
    it was: the message stays pending. *)
Theorem receive_refused port data_is_null length flags s :
  _device_current_state s <> DEVICE_STATE_NOT_INITIALIZED ->
  let refused st :=
    receive port data_is_null length flags s =
      ({| rx_return := Status st; rx_data := []; rx_port_out := port;
          rx_flags_out := flags |}, s) in
  (active (_lw_session s) = false -> refused LORAWAN_STATUS_NO_ACTIVE_SESSIONS)
  /\ (active (_lw_session s) = true ->
      receive_ready (_rx_msg s) = false -> refused LORAWAN_STATUS_WOULD_BLOCK)
  /\ (active (_lw_session s) = true ->
      receive_ready (_rx_msg s) = true ->
      data_is_null = true \/ length = 0 -> refused LORAWAN_STATUS_PARAMETER_INVALID)
  /\ (active (_lw_session s) = true ->
      receive_ready (_rx_msg s) = true ->
      data_is_null = false ->
      length <> 0 ->
      msg_port (_rx_msg s) <> port
      \/ Z.land flags (Z.land (convert_to_msg_flag (msg_type (_rx_msg s))) MSG_FLAG_MASK) = 0 ->
      refused LORAWAN_STATUS_WOULD_BLOCK).
Proof.
  intros Hinit refused. subst refused. cbv beta.
  unfold receive, handle_rx. rewrite (initialised s Hinit).
  split; [intros ->; reflexivity|].
  split; [intros -> ->; reflexivity|].
  split.
  - intros -> -> [-> | ->]; [reflexivity|].
    rewrite Bool.orb_true_r. reflexivity.
  - intros -> -> -> Hlen Hwrong.
    apply Z.eqb_neq in Hlen. rewrite Hlen.
    cbn [negb orb andb].
    assert (negb (msg_port (_rx_msg s) =? port)
            || (Z.land flags
                  (Z.land (convert_to_msg_flag (msg_type (_rx_msg s))) MSG_FLAG_MASK) =? 0)
            = true) as ->; [|reflexivity].
    destruct Hwrong as [Hp|Hf].
    + apply Z.eqb_neq in Hp. rewrite Hp. reflexivity.
    + rewrite Hf. apply Bool.orb_true_r.
Qed.

(** X9.  A receive on any port does not compare the port and the flags: a
    pending message that has not been read from and fits the buffer is copied
    whole, from offset 0, whatever [port] and [flags] hold; they are set to
    the port of the message and to the flag of its type, and the message is
    consumed ([receive_ready] cleared, buffer pointer and size reset). *)
Theorem receive_any_whole_message data_port flags length (memory : list byte) s :
  _device_current_state s <> DEVICE_STATE_NOT_INITIALIZED ->
  active (_lw_session s) = true ->
  receive_ready (_rx_msg s) = true ->
  pending_size (_rx_msg s) = 0 ->
  msg_buffer (_rx_msg s) = Some memory ->
  0 <= msg_buffer_size (_rx_msg s) < 32768 ->
  0 < length ->
  msg_buffer_size (_rx_msg s) <= length ->
  exists s',
    receive_any false length data_port flags s =
      ({| rx_return := Len (msg_buffer_size (_rx_msg s));
          rx_data := bytes_at memory 0 (msg_buffer_size (_rx_msg s));
          rx_port_out := msg_port (_rx_msg s);
          rx_flags_out := convert_to_msg_flag (msg_type (_rx_msg s)) |}, s')
    /\ receive_ready (_rx_msg s') = false
    /\ msg_buffer (_rx_msg s') = None
    /\ msg_buffer_size (_rx_msg s') = 0
    /\ pending_size (_rx_msg s') = 0
    /\ _trace s' = _trace s
    /\ _device_current_state s' = _device_current_state s.
Proof.
  intros Hinit Hactive Hready Hpending Hbuf Hsize Hlen Hfits.
  unfold receive_any, handle_rx.
  rewrite (initialised s Hinit), Hactive, Hready.
  assert ((length =? 0) = false) as -> by (apply Z.eqb_neq; lia).
  cbn [negb orb andb].
  rewrite Hpending, Hbuf, Z.eqb_refl. cbv iota. rewrite Z.eqb_refl. cbn [andb region].
  assert ((msg_buffer_size (_rx_msg s) <=? length) = true) as -> by (apply Z.leb_le; lia).
  cbv beta iota. rewrite to_int16_small by lia.
  eexists. split; [reflexivity|].
  simpl_goal_fields.
  cbn [receive_ready msg_buffer msg_buffer_size pending_size].
  repeat split.
Qed.

(** ** The staging buffer of received frames *)

(** Whatever it does, [process_reception] ends by releasing the staging buffer. *)
Lemma process_reception_releases rnd payload size rssi snr s :
  _rx_payload_in_use (process_reception rnd payload size rssi snr s) = false.
Proof.
  cbv beta delta [process_reception]. repeat name_let.
  destruct (negb st4); [reflexivity|].
  destruct (flag REJOIN_IN_PROGRESS st7); reflexivity.
Qed.

(** X10.  [_rx_payload_in_use] guards the one staging buffer [_rx_payload].
    The receive interrupt drops a frame, doing nothing at all, when the frame
    is longer than the buffer or the buffer is in use; otherwise it takes the
    buffer, copies the frame, records the time, and posts
    [process_reception] on the copy, so that a second frame arriving before
    that has run is dropped.  [process_reception] always releases the
    buffer. *)
Theorem rx_staging_buffer rnd (payload payload' : list byte) size size' rssi rssi' snr snr' s :
  (size > LORAMAC_PHY_MAXPAYLOAD \/ _rx_payload_in_use s = true ->
   rx_interrupt_handler payload size rssi snr s = s)
  /\ (size <= LORAMAC_PHY_MAXPAYLOAD ->
      _rx_payload_in_use s = false ->
      let s' := rx_interrupt_handler payload size rssi snr s in
      _rx_payload_in_use s' = true
      /\ _rx_timestamp s' = LoRaMac.get_current_time (_loramac s)
      /\ _loramac s' = _loramac s
      /\ _trace s' =
           _trace s ++ [Post (post_process_reception (bytes_at payload 0 size) size rssi snr)]
      /\ rx_interrupt_handler payload' size' rssi' snr' s' = s'
      /\ _rx_payload_in_use (process_reception rnd (_rx_payload s') size rssi snr s') = false)
  /\ _rx_payload_in_use (process_reception rnd payload size rssi snr s) = false.
Proof.
  split; [|split].
  - intros Hdrop. unfold rx_interrupt_handler.
    destruct Hdrop as [Hbig| ->].
    + apply Z.gtb_gt in Hbig. rewrite Hbig. reflexivity.
    + rewrite Bool.orb_true_r. reflexivity.
  - intros Hfits Hfree s'.
    assert ((size >? LORAMAC_PHY_MAXPAYLOAD) = false) as Hle.
    { destruct (Z.gtb_spec size LORAMAC_PHY_MAXPAYLOAD); [lia|reflexivity]. }
    assert (s' = emit (Post (post_process_reception (bytes_at payload 0 size) size rssi snr))
                   (with_rx_payload (bytes_at payload 0 size)
                      (with_rx_timestamp (LoRaMac.get_current_time (_loramac s))
                         (with_rx_payload_in_use true s)))) as Hs'.
    { subst s'. unfold rx_interrupt_handler. rewrite Hle, Hfree. reflexivity. }
    do 4 (split; [rewrite Hs'; reflexivity|]).
    split.
    + unfold rx_interrupt_handler.
      assert (_rx_payload_in_use s' = true) as -> by (rewrite Hs'; reflexivity).
      rewrite Bool.orb_true_r. reflexivity.
    + apply process_reception_releases.
  - apply process_reception_releases.
Qed.

(** ** Initialisation and callbacks *)

(** X11.  [initialize] without an event queue is refused with
    PARAMETER_INVALID and changes nothing.  With a queue, on a stack that is
    not initialised, it returns what the initialisation of the MAC returns
    and the state is Idle whatever that is: the stack counts as initialised
    even when the MAC failed.  On a build for LoRaWAN 1.1 the two rejoin
    timers are initialised after the MAC.  On a stack that is initialised
    already, [initialize] returns OK and sets the state to Idle, whatever the
    state was, without calling the MAC. *)
Theorem initialize_mac_layer_cases s :
  initialize_mac_layer false s = (LORAWAN_STATUS_PARAMETER_INVALID, s)
  /\ (_device_current_state s = DEVICE_STATE_NOT_INITIALIZED ->
      exists s',
        initialize_mac_layer true s = (fst (LoRaMac.initialize (_loramac s)), s')
        /\ _device_current_state s' = DEVICE_STATE_IDLE
        /\ _queue s' = true
        /\ _ctrl_flags s' = _ctrl_flags s
        /\ _trace s' =
             _trace s
             ++ Call (MacCall.initialize (fst (LoRaMac.initialize (_loramac s))))
                :: (if MBED_CONF_LORA_VERSION_1_1
                    then [Call (MacCall.timer_init forced_timer);
                          Call (MacCall.timer_init rejoin_type0_timer)]
                    else []))
  /\ (_device_current_state s <> DEVICE_STATE_NOT_INITIALIZED ->
      initialize_mac_layer true s =
        (LORAWAN_STATUS_OK, with_state DEVICE_STATE_IDLE (with_queue true s))).
Proof.
  split; [reflexivity|]. split.
  - intros Hstate.
    unfold initialize_mac_layer, state_controller, process_idle_state.
    cbn [negb]. cbv beta iota.
    assert (in_state DEVICE_STATE_NOT_INITIALIZED (with_queue true s) = true) as ->
      by (apply in_state_true; exact Hstate).
    cbv beta delta [process_uninitialized_state]. repeat name_let.
    eexists. split; [reflexivity|].
    unfold st1, st0, st, mac_ask, mac_do, emit.
    destruct (status_ok _), MBED_CONF_LORA_VERSION_1_1; simpl_goal_fields;
      repeat split; rewrite <- ?app_assoc; reflexivity.
  - intros Hinit.
    unfold initialize_mac_layer, state_controller, process_idle_state.
    cbn [negb]. cbv beta iota.
    assert (in_state DEVICE_STATE_NOT_INITIALIZED (with_queue true s) = false) as ->
      by (apply in_state_false; exact Hinit).
    reflexivity.
Qed.

(** X12.  [add_app_callbacks] on an initialised stack refuses a NULL
    structure and a structure without an event callback with
    PARAMETER_INVALID, changing nothing.  Otherwise it returns OK: events are
    delivered from then on; a link check or battery level callback given now
    is registered, one registered earlier stays registered when the new
    structure has none; the MAC is told of the battery level callback exactly
    when one is given. *)
Theorem set_lora_callbacks_cases (cb : lorawan_app_callbacks_t) s :
  _device_current_state s <> DEVICE_STATE_NOT_INITIALIZED ->
  set_lora_callbacks None s = (LORAWAN_STATUS_PARAMETER_INVALID, s)
  /\ (events cb = false ->
      set_lora_callbacks (Some cb) s = (LORAWAN_STATUS_PARAMETER_INVALID, s))
  /\ (events cb = true ->
      exists s',
        set_lora_callbacks (Some cb) s = (LORAWAN_STATUS_OK, s')
        /\ events (_callbacks s') = true
        /\ link_check_resp (_callbacks s')
           = link_check_resp cb || link_check_resp (_callbacks s)
        /\ battery_level (_callbacks s')
           = battery_level cb || battery_level (_callbacks s)
        /\ _device_current_state s' = _device_current_state s
        /\ _trace s' =
             _trace s
             ++ (if battery_level cb then [Call MacCall.set_batterylevel_callback] else [])
        /\ forall ev, _trace (send_event_to_application ev s') = _trace s' ++ [Event ev]).
Proof.
  intros Hinit. unfold set_lora_callbacks. rewrite (initialised s Hinit).
  split; [reflexivity|]. split.
  - intros ->. reflexivity.
  - intros ->. cbn [negb]. cbv beta iota zeta.
    eexists. split; [reflexivity|].
    unfold send_event_to_application, mac_do, emit.
    destruct (battery_level cb); simpl_goal_fields; cbn [events link_check_resp battery_level];
      repeat split; rewrite ?app_nil_r; reflexivity.
Qed.

(** ** Cancelling a transmission *)

(** X13.  [cancel_sending] on an initialised stack asks the MAC to clear its
    transmit pipe.  When the MAC answers OK, TX_DONE_FLAG is cleared, the MAC
    is told that no transmission is ongoing and the state is Idle (also on a
    class C device); on any other answer that answer is returned and neither
    the state nor the flags change. *)
Theorem stop_sending_cases s :
  _device_current_state s <> DEVICE_STATE_NOT_INITIALIZED ->
  let cleared := LoRaMac.clear_tx_pipe (_loramac s) in
  (fst cleared = LORAWAN_STATUS_OK ->
   exists s',
     cancel_sending s = (LORAWAN_STATUS_OK, s')
     /\ _device_current_state s' = DEVICE_STATE_IDLE
     /\ flag TX_DONE_FLAG s' = false
     /\ _loramac s' = LoRaMac.set_tx_ongoing false (snd cleared)
     /\ _trace s' =
          _trace s ++ [Call (MacCall.clear_tx_pipe LORAWAN_STATUS_OK);
                       FlagsClear TX_DONE_FLAG; Call (MacCall.set_tx_ongoing false)])
  /\ (fst cleared <> LORAWAN_STATUS_OK ->
      exists s',
        cancel_sending s = (fst cleared, s')
        /\ _device_current_state s' = _device_current_state s
        /\ _ctrl_flags s' = _ctrl_flags s
        /\ _loramac s' = snd cleared
        /\ _trace s' = _trace s ++ [Call (MacCall.clear_tx_pipe (fst cleared))]).
Proof.
  intros Hinit cleared. unfold cancel_sending.
  cbv beta delta [stop_sending]. rewrite (initialised s Hinit). cbv beta iota.
  split.
  - intros Hok. name_let. change (fst st) with (fst cleared). rewrite Hok.
    cbv beta iota delta [status_ok lorawan_status_t_beq]. repeat name_let.
    eexists. split; [reflexivity|]. split; [reflexivity|].
    split.
    { change (flag TX_DONE_FLAG st0 = false). unfold st0.
      apply flag_flags_clear_same. unfold TX_DONE_FLAG. lia. }
    split; [reflexivity|].
    unfold st1, st0, st, mac_do, mac_ask, flags_clear, emit. simpl_goal_fields.
    change (fst (LoRaMac.clear_tx_pipe (_loramac s))) with (fst cleared).
    rewrite Hok, <- !app_assoc. reflexivity.
  - intros Hbad. name_let. change (fst st) with (fst cleared).
    assert (status_ok (fst cleared) = false) as ->.
    { destruct (status_ok (fst cleared)) eqn:E; [|reflexivity].
      apply status_ok_true in E. contradiction. }
    exists (snd st). split; [reflexivity|]. repeat split.
Qed.

(** ** Joining *)

Lemma calls_of_app (t1 t2 : list effect) :
  calls_of (t1 ++ t2) = calls_of t1 ++ calls_of t2.
Proof. unfold calls_of. apply flat_map_app. Qed.

Lemma status_ok_false st : status_ok st = false <-> st <> LORAWAN_STATUS_OK.
Proof.
  rewrite <- status_ok_true. destruct (status_ok st); split; congruence.
Qed.

(** X14.  What the answer to a join request does.
    - A JoinAccept that is in order ends the join: CONNECTED_FLAG is set,
      CONN_IN_PROGRESS_FLAG is clear, the session is active, the state is
      Idle and CONNECTED is the one event emitted.  When the server is a
      LoRaWAN 1.1 server a RekeyInd becomes due (with a fresh counter) and the
      MAC is not called; otherwise the two rejoin timers are stopped.
    - One that fails the cryptographic check ends with CRYPTO_ERROR and the
      state Idle, and nothing else: CONN_IN_PROGRESS_FLAG stays as it is, so
      that after a join started by [connect] a further [connect] is refused
      with BUSY.
    - Any other failure is ignored when the server is a LoRaWAN 1.1 server
      and a rejoin is in progress. *)
Theorem join_accept_outcomes rnd conf s :
  mlme_type conf = MLME_JOIN_ACCEPT ->
  let s' := mlme_confirm_handler rnd conf s in
  (mlme_status conf = LORAMAC_EVENT_INFO_STATUS_OK ->
   _device_current_state s' = DEVICE_STATE_IDLE
   /\ active (_lw_session s') = true
   /\ flag CONNECTED_FLAG s' = true
   /\ flag CONN_IN_PROGRESS_FLAG s' = false
   /\ events_of (_trace s') =
        events_of (_trace s) ++ (if events (_callbacks s) then [CONNECTED] else [])
   /\ (LoRaMac.get_server_type (_loramac s) = LW1_1 ->
       _rekey_ind_needed s' = true
       /\ _rekey_ind_counter s' = 0
       /\ calls_of (_trace s') = calls_of (_trace s))
   /\ (LoRaMac.get_server_type (_loramac s) <> LW1_1 ->
       _rekey_ind_needed s' = _rekey_ind_needed s
       /\ calls_of (_trace s') =
            calls_of (_trace s) ++ [MacCall.timer_stop forced_timer;
                                    MacCall.timer_stop rejoin_type0_timer]))
  /\ (mlme_status conf = LORAMAC_EVENT_INFO_STATUS_CRYPTO_FAIL ->
      _device_current_state s' = DEVICE_STATE_IDLE
      /\ _ctrl_flags s' = _ctrl_flags s
      /\ _lw_session s' = _lw_session s
      /\ _loramac s' = _loramac s
      /\ _trace s' = _trace s ++ (if events (_callbacks s) then [Event CRYPTO_ERROR] else [])
      /\ (flag CONN_IN_PROGRESS_FLAG s = true -> connect s' = (LORAWAN_STATUS_BUSY, s')))
  /\ (mlme_status conf <> LORAMAC_EVENT_INFO_STATUS_OK ->
      mlme_status conf <> LORAMAC_EVENT_INFO_STATUS_CRYPTO_FAIL ->
      LoRaMac.get_server_type (_loramac s) = LW1_1 ->
      flag REJOIN_IN_PROGRESS s = true ->
      s' = s).
Proof.
  intros Hty s'. subst s'. split; [|split].
  - intros Hst.
    pose (st := if server_is_LW1_1 s
                then with_rekey_ind_counter 0 (with_rekey_ind_needed true s)
                else mac_do (MacCall.timer_stop rejoin_type0_timer)
                            (LoRaMac.timer_stop rejoin_type0_timer)
                            (mac_do (MacCall.timer_stop forced_timer)
                                    (LoRaMac.timer_stop forced_timer) s)).
    assert (mlme_confirm_handler rnd conf s = process_connected_state st) as ->
      by (cbv beta delta [mlme_confirm_handler]; rewrite Hty, Hst; reflexivity).
    destruct (process_connected_state_effects st)
      as (Hs & Ha & Hf & Hc & Hm & Hrk & Hrc & _ & Ht).
    split; [exact Hs|]. split; [exact Ha|]. split; [exact Hf|]. split; [exact Hc|].
    rewrite Hrk, Hrc, Ht, !events_of_app, !calls_of_app.
    assert (events (_callbacks st) = events (_callbacks s)) as ->
      by (unfold st, mac_do, emit; destruct (server_is_LW1_1 s); reflexivity).
    split; [|split].
    + assert (events_of (_trace st) = events_of (_trace s)) as ->.
      { unfold st, mac_do, emit. destruct (server_is_LW1_1 s); simpl_goal_fields;
          [reflexivity|].
        rewrite !events_of_app. cbn [events_of flat_map app]. rewrite !app_nil_r.
        reflexivity. }
      destruct (events (_callbacks s)); cbn [events_of flat_map app];
        rewrite ?app_nil_r; reflexivity.
    + intros Hsrv. apply server_is_LW1_1_true in Hsrv. unfold st. rewrite Hsrv.
      cbv beta iota zeta. simpl_goal_fields.
      split; [reflexivity|]. split; [reflexivity|].
      destruct (events (_callbacks s)); cbn [calls_of flat_map app];
        rewrite ?app_nil_r; reflexivity.
    + intros Hsrv.
      assert (server_is_LW1_1 s = false) as Hno.
      { destruct (server_is_LW1_1 s) eqn:E; [|reflexivity].
        apply server_is_LW1_1_true in E. contradiction. }
      unfold st. rewrite Hno. cbv beta iota zeta. unfold mac_do, emit. simpl_goal_fields.
      split; [reflexivity|].
      rewrite !calls_of_app.
      destruct (events (_callbacks s)); cbn [calls_of flat_map app];
        rewrite ?app_nil_r; rewrite <- ?app_assoc; reflexivity.
  - intros Hst. cbv beta delta [mlme_confirm_handler]. rewrite Hty, Hst. cbv beta iota zeta.
    unfold send_event_to_application, emit. simpl_goal_fields.
    destruct (events (_callbacks s)); simpl_goal_fields;
      (do 5 (split; [rewrite ?app_nil_r; reflexivity|]));
      intros Hflag; unfold connect;
      (rewrite (proj2 (in_state_false _ _)) by (simpl_goal_fields; discriminate));
      (match goal with
       | |- context [flag CONN_IN_PROGRESS_FLAG ?x] =>
           change (flag CONN_IN_PROGRESS_FLAG x) with (flag CONN_IN_PROGRESS_FLAG s)
       end); rewrite Hflag; reflexivity.
  - intros Hok Hcrypto Hsrv Hflag. cbv beta delta [mlme_confirm_handler]. rewrite Hty.
    apply server_is_LW1_1_true in Hsrv.
    destruct (mlme_status conf); try contradiction; cbv beta iota;
      rewrite Hsrv, Hflag; reflexivity.
Qed.

(** ** RekeyInd *)

(** One step of [f (g x) = v], for a field [f] that [g] leaves alone: peel
    [g], leaving [f x = v]. *)
Ltac keeps_step :=
  lazymatch goal with
  | |- ?f ?s = ?f ?s => reflexivity
  | |- _ (if ?b then _ else _) = _ => destruct b
  | |- _ (match ?x with _ => _ end) = _ => destruct x
  | |- _ (let x := _ in _) = _ => name_let
  | |- _ (snd (let x := _ in _)) = _ => name_let
  | |- _ (snd (if ?b then _ else _)) = _ => destruct b
  | |- _ (snd (_, _)) = _ => cbn [snd]
  | |- ?f (send_event_to_application ?e ?x) = _ =>
      let H := fresh in
      assert (H : forall y, f (send_event_to_application e y) = f y)
        by (intros y; unfold send_event_to_application, emit;
            destruct (events (_callbacks y)); reflexivity);
      rewrite (H x); clear H
  | |- ?f (snd (mac_ask ?c ?g ?x)) = _ =>
      let H := fresh in
      assert (H : forall y, f (snd (mac_ask c g y)) = f y) by (intro; reflexivity);
      rewrite (H x); clear H
  | |- _ (snd ?v) = _ => is_var v; cbv delta [v]
  | |- ?f ?t = _ =>
      first
        [ is_var t; cbv delta [t]
        | lazymatch t with
          | ?g ?x =>
              let H := fresh in
              assert (H : forall y, f (g y) = f y) by (intro; reflexivity);
              rewrite (H x); clear H
          end ]
  end.

Ltac keeps := repeat keeps_step.

(** The condition under which [handle_tx] refuses a NULL buffer. *)
Lemma null_refused_false (null_allowed : bool) (data : option (list byte)) :
  null_allowed = true \/ data <> None ->
  negb null_allowed && match data with None => true | Some _ => false end = false.
Proof.
  intros [->|Hd]; [reflexivity|].
  destruct data; [apply Bool.andb_false_r|congruence].
Qed.

(** Giving a RekeyInd up: the stack after the three assignments of [handle_tx]. *)
Lemma rekey_given_up_fields s :
  let given_up :=
    with_state DEVICE_STATE_IDLE
      (send_event_to_application JOIN_FAILURE (with_rekey_ind_needed false s)) in
  in_state DEVICE_STATE_NOT_INITIALIZED given_up = false
  /\ flag REJOIN_IN_PROGRESS given_up = flag REJOIN_IN_PROGRESS s
  /\ _reset_ind_requested given_up = _reset_ind_requested s
  /\ _rekey_ind_needed given_up = false.
Proof.
  intros given_up. subst given_up. unfold send_event_to_application, emit.
  destruct (events (_callbacks (with_rekey_ind_needed false s))); repeat split.
Qed.

(** Once ADR_ACK_LIMIT RekeyInd have been counted, [handle_tx] gives the
    RekeyInd up and goes on as if none had been due. *)
Lemma handle_tx_rekey_given_up port data length flags null_allowed allow_port_0 s :
  _device_current_state s <> DEVICE_STATE_NOT_INITIALIZED ->
  (null_allowed = true \/ data <> None) ->
  flag REJOIN_IN_PROGRESS s = false ->
  _reset_ind_requested s = false ->
  _rekey_ind_needed s = true ->
  LoRaMac.get_current_adr_ack_limit (_loramac s) <= _rekey_ind_counter s ->
  handle_tx port data length flags null_allowed allow_port_0 s =
  handle_tx port data length flags null_allowed allow_port_0
    (with_state DEVICE_STATE_IDLE
       (send_event_to_application JOIN_FAILURE (with_rekey_ind_needed false s))).
Proof.
  intros Hinit Hdata Hrejoin Hreset Hrekey Hge. apply Z.ltb_ge in Hge.
  destruct (rekey_given_up_fields s) as (Hi & Hf & Hr & Hn).
  rewrite Hrejoin in Hf. rewrite Hreset in Hr.
  set (given_up := with_state DEVICE_STATE_IDLE
                     (send_event_to_application JOIN_FAILURE
                        (with_rekey_ind_needed false s))) in *.
  cbv beta delta [handle_tx].
  rewrite Hi, Hf, Hr, Hn.
  rewrite (initialised s Hinit), Hrejoin, (null_refused_false _ _ Hdata), Hreset, Hrekey, Hge.
  reflexivity.
Qed.

(** With neither a ResetInd nor a RekeyInd due, [handle_tx] leaves
    [_rekey_ind_needed] as it is. *)
Lemma handle_tx_no_rekey port data length flags null_allowed allow_port_0 s :
  _reset_ind_requested s = false ->
  _rekey_ind_needed s = false ->
  _rekey_ind_needed (snd (handle_tx port data length flags null_allowed allow_port_0 s))
    = false.
Proof.
  intros Hr Hn.
  cbv beta iota delta [handle_tx state_controller process_scheduling_state
                         set_application_port].
  rewrite Hr, Hn. keeps; exact Hn.
Qed.

(** X15.  The budget of the RekeyInd.  While a RekeyInd is due (and no
    ResetInd is), an uplink that passes the first tests of [handle_tx]
    - stages a RekeyInd in the MAC and counts it, as long as fewer than
      ADR_ACK_LIMIT have been counted, whether the uplink is then sent or
      refused;
    - once ADR_ACK_LIMIT have been counted, gives the RekeyInd up, reports
      JOIN_FAILURE and sets the state to Idle, and then goes on with the
      uplink as if none had been due. *)
Theorem rekey_indication_budget port data length flags null_allowed allow_port_0 s :
  _device_current_state s <> DEVICE_STATE_NOT_INITIALIZED ->
  (null_allowed = true \/ data <> None) ->
  flag REJOIN_IN_PROGRESS s = false ->
  _reset_ind_requested s = false ->
  _rekey_ind_needed s = true ->
  let limit := LoRaMac.get_current_adr_ack_limit (_loramac s) in
  let r := handle_tx port data length flags null_allowed allow_port_0 s in
  (_rekey_ind_counter s < limit ->
   _rekey_ind_needed (snd r) = true
   /\ _rekey_ind_counter (snd r) = uint8 (_rekey_ind_counter s + 1)
   /\ exists post,
        _trace (snd r) = _trace s ++ [Call MacCall.setup_rekey_indication] ++ post)
  /\ (limit <= _rekey_ind_counter s ->
      _rekey_ind_needed (snd r) = false
      /\ r = handle_tx port data length flags null_allowed allow_port_0
               (with_state DEVICE_STATE_IDLE
                  (send_event_to_application JOIN_FAILURE
                     (with_rekey_ind_needed false s)))).
Proof.
  intros Hinit Hdata Hrejoin Hreset Hrekey limit r.
  split.
  - intros Hlt. apply Z.ltb_lt in Hlt.
    assert (r = handle_tx port data length flags null_allowed allow_port_0 s) as Er
      by reflexivity.
    clearbody r. revert Er. cbv beta delta [handle_tx].
    rewrite (initialised s Hinit), Hrejoin, (null_refused_false _ _ Hdata), Hreset, Hrekey.
    fold limit. rewrite Hlt. cbv beta iota.
    name_let.
    assert (_rekey_ind_needed st = true) as Hn by (rewrite <- Hrekey; reflexivity).
    assert (_rekey_ind_counter st = uint8 (_rekey_ind_counter s + 1)) as Hc by reflexivity.
    assert (_trace st = _trace s ++ [Call MacCall.setup_rekey_indication]) as Ht
      by reflexivity.
    clearbody st.
    match goal with
    | |- r = ?res -> _ => set (result := res)
    end.
    intros ->.
    assert (_rekey_ind_needed (snd result) = _rekey_ind_needed st) as En.
    { cbv delta [result].
      cbv beta iota delta [state_controller process_scheduling_state set_application_port].
      keeps. }
    assert (_rekey_ind_counter (snd result) = _rekey_ind_counter st) as Ec.
    { cbv delta [result].
      cbv beta iota delta [state_controller process_scheduling_state set_application_port].
      keeps. }
    assert (trace_grows any_effect st (snd result)) as (post & Epost & _).
    { cbv beta delta [result set_device_mode_indication]. repeat name_let. grows. }
    split; [congruence|]. split; [congruence|].
    exists post. rewrite Epost, Ht, <- app_assoc. reflexivity.
  - intros Hge.
    pose proof (handle_tx_rekey_given_up port data length flags null_allowed allow_port_0 s
                  Hinit Hdata Hrejoin Hreset Hrekey Hge) as Hup.
    split; [|exact Hup].
    subst r. rewrite Hup.
    destruct (rekey_given_up_fields s) as (_ & _ & Hr & Hn). rewrite Hreset in Hr.
    apply handle_tx_no_rekey; assumption.
Qed.

(** ** Join requests that get no answer *)

(** X16.  A join request that gets no answer.  When the second receive window
    closes with nothing received (a timeout or a frame with a CRC error)
    while the device is not joined, the reception is counted, the MAC is told,
    and in the state Awaiting-join-accept the MAC is asked to go on joining:
    - when it can, the state is Joining again and nothing is reported;
    - when it cannot, CONN_IN_PROGRESS_FLAG is cleared, JOIN_FAILURE is the
      one event, and the state is Idle.
    In any state other than Connecting and Awaiting-join-accept nothing more
    is done. *)
Theorem join_request_unanswered is_timeout s :
  LoRaMac.get_current_slot (_loramac s) = RX_SLOT_WIN_2 ->
  let mac := LoRaMac.on_radio_rx_timeout is_timeout (_loramac s) in
  let again := LoRaMac.continue_joining_process mac in
  let told := [Call (MacCall.on_radio_rx_timeout is_timeout)] in
  LoRaMac.nwk_joined mac = false ->
  let s' := process_reception_timeout is_timeout s in
  _rejoin_type0_counter s' = uint32 (_rejoin_type0_counter s + 1)
  /\ (_device_current_state s = DEVICE_STATE_AWAITING_JOIN_ACCEPT ->
      LoRaMac.get_current_slot mac <> RX_SLOT_WIN_1 ->
      (fst again = true ->
       _device_current_state s' = DEVICE_STATE_JOINING
       /\ _ctrl_flags s' = _ctrl_flags s
       /\ _loramac s' = snd again
       /\ _trace s' = _trace s ++ told ++ [Call (MacCall.continue_joining_process true)])
      /\ (fst again = false ->
          _device_current_state s' = DEVICE_STATE_IDLE
          /\ flag CONN_IN_PROGRESS_FLAG s' = false
          /\ _loramac s' = snd again
          /\ events_of (_trace s') =
               events_of (_trace s) ++ (if events (_callbacks s) then [JOIN_FAILURE] else [])
          /\ calls_of (_trace s') =
               calls_of (_trace s)
               ++ [MacCall.on_radio_rx_timeout is_timeout;
                   MacCall.continue_joining_process false]))
  /\ (_device_current_state s <> DEVICE_STATE_CONNECTING ->
      _device_current_state s <> DEVICE_STATE_AWAITING_JOIN_ACCEPT ->
      _device_current_state s' = _device_current_state s
      /\ _ctrl_flags s' = _ctrl_flags s
      /\ _loramac s' = mac
      /\ _trace s' = _trace s ++ told).
Proof.
  intros Hslot mac again told Hjoined s'.
  pose (st := mac_do (MacCall.on_radio_rx_timeout is_timeout)
                     (LoRaMac.on_radio_rx_timeout is_timeout)
                     (with_rejoin_type0_counter (uint32 (_rejoin_type0_counter s + 1)) s)).
  assert (s' = snd (process_joining_state LORAWAN_STATUS_OK st)) as Es.
  { subst s'. cbv beta delta [process_reception_timeout]. cbv beta zeta.
    simpl_goal_fields. rewrite Hslot.
    change (LoRaMac.nwk_joined _) with (LoRaMac.nwk_joined mac). rewrite Hjoined.
    reflexivity. }
  assert (_loramac st = mac) as Hmac by reflexivity.
  assert (_device_current_state st = _device_current_state s) as Hstate by reflexivity.
  assert (_ctrl_flags st = _ctrl_flags s) as Hflags by reflexivity.
  assert (_callbacks st = _callbacks s) as Hcb by reflexivity.
  assert (_trace st = _trace s ++ told) as Htrace by reflexivity.
  assert (_rejoin_type0_counter st = uint32 (_rejoin_type0_counter s + 1)) as Hcount
    by reflexivity.
  clearbody st. clearbody s'. subst s'.
  split; [|split].
  - rewrite <- Hcount. cbv beta delta [process_joining_state]. keeps.
  - intros Hawait Hnot1.
    assert (in_state DEVICE_STATE_CONNECTING st = false) as Hc
      by (apply in_state_false; rewrite Hstate, Hawait; discriminate).
    assert (in_state DEVICE_STATE_AWAITING_JOIN_ACCEPT st = true) as Ha
      by (apply in_state_true; rewrite Hstate; exact Hawait).
    apply rx_slot_is_not in Hnot1.
    unfold process_joining_state. rewrite Hc, Ha, Hmac, Hnot1.
    cbn [andb]. cbv beta iota zeta.
    unfold mac_ask, send_event_to_application, flags_clear, emit. simpl_goal_fields.
    rewrite Hmac. fold again. split.
    + intros Hcan. rewrite Hcan. cbn [negb]. cbv beta iota. simpl_goal_fields.
      rewrite Htrace, <- app_assoc. repeat split. exact Hflags.
    + intros Hcan. rewrite Hcan. cbn [negb]. cbv beta iota.
      rewrite Hcb, Hflags, Htrace.
      assert (flag CONN_IN_PROGRESS_FLAG (flags_clear CONN_IN_PROGRESS_FLAG s) = false)
        as Hclear by (apply flag_flags_clear_same; cbv; split; congruence).
      unfold flag, flags_clear, emit in Hclear. simpl_fields.
      destruct (events (_callbacks s)); unfold flag; simpl_goal_fields;
        (split; [reflexivity|]); (split; [exact Hclear|]); (split; [reflexivity|]);
        rewrite !events_of_app, !calls_of_app;
        (split; cbn [events_of calls_of flat_map app]; rewrite ?app_nil_r;
         rewrite <- ?app_assoc; reflexivity).
  - intros Hnc Hna.
    apply in_state_false in Hnc, Hna.
    unfold in_state in Hnc, Hna. rewrite <- Hstate in Hnc, Hna.
    unfold process_joining_state, in_state. rewrite Hnc, Hna. cbn [andb snd].
    repeat split; assumption.
Qed.

(** ** Requests that stay standing *)

Ltac grows_side ::=
  first [ exact I
        | intros; exact I
        | intros; reflexivity
        | intros; unfold no_assert_failure, leaves_retry_exhausted, sets_retry_exhausted,
            RETRY_EXHAUSTED_FLAG, TX_DONE_FLAG, MSG_RECVD_FLAG, CONNECTED_FLAG,
            USING_OTAA_FLAG, CONN_IN_PROGRESS_FLAG, REJOIN_IN_PROGRESS; congruence
        | intros; unfold staged_on_request; repeat split; intros; discriminate ].

(** The three tests by which [handle_tx] stages the standing requests. *)
Lemma standing_requests_staged s :
  let s1 :=
    if _link_check_requested s then
      mac_do MacCall.setup_link_check_request LoRaMac.setup_link_check_request s
    else s in
  let s2 :=
    if _device_time_requested s1 then
      mac_do MacCall.setup_device_time_request LoRaMac.setup_device_time_request s1
    else s1 in
  let s3 :=
    if _ping_slot_info_requested s2 then
      mac_do MacCall.add_ping_slot_info_req LoRaMac.add_ping_slot_info_req s2
    else s2 in
  _trace s3 = _trace s ++ standing_requests s.
Proof.
  cbv zeta. unfold standing_requests, mac_do, emit.
  destruct (_link_check_requested s), (_device_time_requested s) eqn:Et,
    (_ping_slot_info_requested s) eqn:Ep;
    simpl_goal_fields; rewrite ?Et; simpl_goal_fields; rewrite ?Ep; simpl_goal_fields;
    rewrite <- ?app_assoc, ?app_nil_r; reflexivity.
Qed.

Lemma standing_requests_on_request s : Forall (staged_on_request s) (standing_requests s).
Proof.
  unfold standing_requests.
  destruct (_link_check_requested s) eqn:El, (_device_time_requested s) eqn:Et,
    (_ping_slot_info_requested s) eqn:Ep; cbn [app];
    repeat constructor; intros; first [discriminate | assumption].
Qed.

Lemma grows_app P s s' (new : list effect) :
  _trace s' = _trace s ++ new -> Forall P new -> trace_grows P s s'.
Proof. intros E H. exists new. split; assumption. Qed.

(** X17.  The requests the application keeps standing (LinkCheckReq,
    DeviceTimeReq, PingSlotInfoReq) and the uplinks.
    - Whatever [handle_tx] is called with, it stages one of these requests in
      the MAC only if the request is standing.
    - An uplink that passes the first tests of [handle_tx], with no ResetInd,
      RekeyInd or DeviceModeInd due, an active session and no transmission
      ongoing, stages every standing request, once, in that order, before
      anything else.
    - Hence no uplink stages a LinkCheckReq after [remove_link_check_request],
      nor a DeviceTimeReq after [remove_device_time_request] or after the
      answer has been handled by [handle_device_time_sync_event]. *)
Theorem standing_requests_piggybacked port data length flags null_allowed allow_port_0 s :
  let send_on st := snd (handle_tx port data length flags null_allowed allow_port_0 st) in
  trace_grows (staged_on_request s) s (send_on s)
  /\ (_device_current_state s <> DEVICE_STATE_NOT_INITIALIZED ->
      (null_allowed = true \/ data <> None) ->
      flag REJOIN_IN_PROGRESS s = false ->
      _reset_ind_requested s = false ->
      _rekey_ind_needed s = false ->
      _device_mode_ind_needed s = false ->
      active (_lw_session s) = true ->
      LoRaMac.tx_ongoing (_loramac s) = false ->
      exists post,
        _trace (send_on s) = _trace s ++ standing_requests s ++ post
        /\ Forall (fun e => is_request_call e = false) post)
  /\ (let s' := remove_link_check_request s in
      trace_grows (fun e => e <> Call MacCall.setup_link_check_request) s' (send_on s'))
  /\ (let s' := remove_device_time_request s in
      trace_grows (fun e => e <> Call MacCall.setup_device_time_request) s' (send_on s'))
  /\ (forall gps_time_bits gps_time,
        let s' := handle_device_time_sync_event gps_time_bits gps_time s in
        trace_grows (fun e => e <> Call MacCall.setup_device_time_request) s' (send_on s')).
Proof.
  intros send_on.
  assert (forall st, trace_grows (staged_on_request st) st (send_on st)) as Hany.
  { clear s. intros s. subst send_on. cbv beta.
    cbv beta iota delta [handle_tx state_controller process_scheduling_state
                           set_application_port].
    repeat match goal with
           | |- trace_grows _ _ (snd (if ?b then _ else _)) =>
               destruct b; [cbn [snd]; apply grows_refl|]
           end.
    name_let.
    assert (trace_grows (staged_on_request s) s st) as Hst
      by (unfold st; cbv beta delta [set_reset_indication set_rekey_indication]; grows).
    assert (_link_check_requested st = _link_check_requested s) as Hl
      by (unfold st; keeps).
    assert (_device_time_requested st = _device_time_requested s) as Ht
      by (unfold st; keeps).
    assert (_ping_slot_info_requested st = _ping_slot_info_requested s) as Hp
      by (unfold st; keeps).
    clearbody st. name_let.
    assert (trace_grows (staged_on_request s) s st0) as Hst0
      by (unfold st0; cbv beta delta [set_device_mode_indication]; grows).
    assert (_link_check_requested st0 = _link_check_requested st) as Hl0
      by (unfold st0; keeps).
    assert (_device_time_requested st0 = _device_time_requested st) as Ht0
      by (unfold st0; keeps).
    assert (_ping_slot_info_requested st0 = _ping_slot_info_requested st) as Hp0
      by (unfold st0; keeps).
    rewrite Hl in Hl0. rewrite Ht in Ht0. rewrite Hp in Hp0.
    clearbody st0. clear Hl Ht Hp Hst st.
    repeat match goal with
           | |- trace_grows _ _ (snd (if ?b then _ else _)) =>
               destruct b; [cbn [snd]; exact Hst0|]
           end.
    do 3 name_let.
    assert (_trace st2 = _trace st0 ++ standing_requests st0) as H3
      by exact (standing_requests_staged st0).
    assert (trace_grows (staged_on_request s) s st2) as Hst2.
    { eapply grows_trans; [exact Hst0|].
      apply (grows_app _ _ _ _ H3).
      unfold standing_requests. rewrite Hl0, Ht0, Hp0.
      apply standing_requests_on_request. }
    clearbody st2. clear H3 st1 st.
    repeat name_let. grows. }
  split; [apply Hany|]. split; [|split; [|split]].
  - intros Hinit Hdata Hrejoin Hreset Hrekey Hmode Hactive Htx.
    pose (s1 := if _link_check_requested s then
                  mac_do MacCall.setup_link_check_request
                         LoRaMac.setup_link_check_request s
                else s).
    pose (s2 := if _device_time_requested s1 then
                  mac_do MacCall.setup_device_time_request
                         LoRaMac.setup_device_time_request s1
                else s1).
    pose (s3 := if _ping_slot_info_requested s2 then
                  mac_do MacCall.add_ping_slot_info_req LoRaMac.add_ping_slot_info_req s2
                else s2).
    assert (_trace s3 = _trace s ++ standing_requests s) as H3
      by exact (standing_requests_staged s).
    assert (trace_grows (fun e => is_request_call e = false) s3 (send_on s))
      as (post & Epost & Hpost).
    { subst send_on. cbv beta.
      cbv beta iota delta [handle_tx state_controller process_scheduling_state
                             set_application_port].
      rewrite (initialised s Hinit), Hrejoin, (null_refused_false _ _ Hdata).
      rewrite Hreset, Hrekey. cbv beta iota. inline_let.
      rewrite Hmode. cbv beta iota. inline_let.
      rewrite Hactive, Htx. cbv beta iota delta [negb].
      do 3 name_let.
      change s3 with st1. clear H3. clearbody st1. clear st0 st s3 s2 s1.
      repeat name_let. grows. }
    exists post. split; [|exact Hpost].
    rewrite Epost, H3, <- app_assoc. reflexivity.
  - intros s'. eapply grows_weaken; [|apply Hany].
    intros e (Hl & _ & _) ->. specialize (Hl eq_refl). discriminate Hl.
  - intros s'. eapply grows_weaken; [|apply Hany].
    intros e (_ & Ht & _) ->. specialize (Ht eq_refl). discriminate Ht.
  - intros gps_time_bits gps_time s'. eapply grows_weaken; [|apply Hany].
    intros e (_ & Ht & _) ->. specialize (Ht eq_refl).
    assert (_device_time_requested s' = false) as Hf.
    { subst s'. cbv beta delta [handle_device_time_sync_event set_current_gps_time].
      transitivity (_device_time_requested (with_device_time_requested false s));
        [keeps|reflexivity]. }
    congruence.
Qed.

(** ** Beacons *)

(** X18.  What a beacon event does.  The fields of the local [mlme_confirm]
    that are never assigned, and [rand()], have no influence on the result.
    One event is reported: BEACON_NOT_FOUND, BEACON_FOUND, BEACON_LOCK or
    BEACON_MISS.  An acquired and a locked beacon set [_last_beacon_rx_time] to
    the time of the MAC; a missed one leaves it alone and, on a class B device
    that has seen no beacon for [beaconless_period] seconds or more, asks the
    MAC for class A and reports SWITCH_CLASS_B_TO_A as well.  No other event
    makes a call to the MAC. *)
Theorem beacon_event_outcomes beaconless_period rnd uninitialised status s :
  let s' := process_beacon_event beaconless_period rnd uninitialised status s in
  let now := LoRaMac.get_current_time (_loramac s) in
  let fallback :=
    match status with
    | BEACON_STATUS_MISS =>
        device_class_t_beq (device_class s) CLASS_B
        && (time_t (now - _last_beacon_rx_time s) / 1000 >=? beaconless_period)
    | _ => false
    end in
  (forall rnd' uninitialised',
     process_beacon_event beaconless_period rnd' uninitialised' status s = s')
  /\ events_of (_trace s') =
       events_of (_trace s)
       ++ (if events (_callbacks s) then
             match status with
             | BEACON_STATUS_ACQUISITION_FAILED => [BEACON_NOT_FOUND]
             | BEACON_STATUS_ACQUISITION_SUCCESS => [BEACON_FOUND]
             | BEACON_STATUS_LOCK => [BEACON_LOCK]
             | BEACON_STATUS_MISS =>
                 BEACON_MISS :: (if fallback then [SWITCH_CLASS_B_TO_A] else [])
             end
           else [])
  /\ _last_beacon_rx_time s' =
       match status with
       | BEACON_STATUS_ACQUISITION_SUCCESS | BEACON_STATUS_LOCK => now
       | _ => _last_beacon_rx_time s
       end
  /\ calls_of (_trace s') =
       calls_of (_trace s)
       ++ (if fallback then
             [MacCall.set_device_class CLASS_A
                (fst (LoRaMac.set_device_class CLASS_A (_loramac s)))]
           else [])
  /\ (fallback = false -> _loramac s' = _loramac s)
  /\ (fallback = true ->
      _loramac s' = snd (LoRaMac.set_device_class CLASS_A (_loramac s))).
Proof.
  intros s' now fallback.
  split; [intros rnd' uninitialised'; subst s'; destruct status; reflexivity|].
  subst s' fallback. unfold process_beacon_event.
  destruct status; cbv beta iota zeta delta [mlme_confirm_handler mlme_type mlme_status];
    cbn [loramac_event_info_status_t_beq];
    unfold send_event_to_application, mac_ask, device_class, emit; simpl_goal_fields.
  1-3: destruct (events (_callbacks s)); simpl_goal_fields;
    rewrite ?events_of_app, ?calls_of_app; cbn [events_of calls_of flat_map app];
    rewrite ?app_nil_r; repeat split; intros; first [reflexivity|discriminate].
  destruct (events (_callbacks s)) eqn:Ecb; simpl_goal_fields;
    fold now;
    destruct (device_class_t_beq (LoRaMac.get_device_class (_loramac s)) CLASS_B);
    cbn [andb];
    try destruct (time_t (now - _last_beacon_rx_time s) / 1000 >=? beaconless_period);
    simpl_goal_fields; rewrite ?Ecb; simpl_goal_fields;
    rewrite ?events_of_app, ?calls_of_app; cbn [events_of calls_of flat_map app];
    rewrite ?app_nil_r, <- ?app_assoc; repeat split; intros;
    first [reflexivity|discriminate].
Qed.

(** ** Downlinks *)

(** X19.  Which downlinks reach the application.  With the indication of the
    MAC at hand, [mcps_indication_handler]
    - reports RX_ERROR and nothing else when the status is not OK;
    - otherwise stores the downlink counter, and then gives up silently when
      the port is the compliance testing port and the build has no
      compliance test;
    - otherwise, when data came, stages the message (buffer, size, port and
      type, with [receive_ready] set; [pending_size] and [prev_read_size] are
      left as they were) and reports RX_DONE;
    - and then asks for an uplink when the frame has the pending bit set (on
      a device not of class C) or was a confirmed one (class C): an automatic
      uplink is posted for the port of the downlink unless one is ongoing, or,
      on a build without automatic uplinks, UPLINK_REQUIRED is reported.
    The MAC is neither called nor changed. *)
Theorem downlink_delivery s :
  let i := LoRaMac.get_mcps_indication (_loramac s) in
  let s' := mcps_indication_handler s in
  let report e := if events (_callbacks s) then [Event e] else [] in
  let ok := loramac_event_info_status_t_beq (ind_status i) LORAMAC_EVENT_INFO_STATUS_OK in
  let accepted :=
    ok && negb ((ind_port i =? COMPLIANCE_TESTING_PORT) && negb LORAWAN_COMPLIANCE_TEST) in
  let delivered := accepted && ind_is_data_recvd i in
  let class_c := device_class_t_beq (device_class s) CLASS_C in
  let uplink_due :=
    accepted && ((negb class_c && ind_fpending_status i)
                 || (class_c && mcps_type_t_beq (ind_type i) MCPS_CONFIRMED)) in
  _loramac s' = _loramac s
  /\ _lw_session s' =
       (if ok then with_downlink_counter (ind_dl_frame_counter i) (_lw_session s)
        else _lw_session s)
  /\ _rx_msg s' =
       (if delivered then
          {| receive_ready := true;
             rx_type := LORAMAC_RX_MCPS_INDICATION;
             msg_buffer := ind_buffer i;
             msg_buffer_size := ind_buffer_size i;
             msg_port := ind_port i;
             msg_type := ind_type i;
             pending_size := pending_size (_rx_msg s);
             prev_read_size := prev_read_size (_rx_msg s) |}
        else _rx_msg s)
  /\ _automatic_uplink_ongoing s' =
       (if uplink_due && MBED_CONF_LORA_AUTOMATIC_UPLINK_MESSAGE then true
        else _automatic_uplink_ongoing s)
  /\ _trace s' =
       _trace s
       ++ (if ok then [] else report RX_ERROR)
       ++ (if delivered then report RX_DONE else [])
       ++ (if uplink_due then
             if MBED_CONF_LORA_AUTOMATIC_UPLINK_MESSAGE then
               if _automatic_uplink_ongoing s then []
               else [Post (post_send_automatic_uplink_message (ind_port i))]
             else report UPLINK_REQUIRED
           else []).
Proof.
  intros i s' report ok accepted delivered class_c uplink_due.
  subst s' accepted delivered uplink_due class_c report.
  cbv beta delta [mcps_indication_handler]. cbv beta zeta.
  fold i. fold ok. clearbody ok. clearbody i.
  unfold send_event_to_application, device_class, emit. simpl_goal_fields.
  destruct ok; cbn [negb andb]; cbv beta iota;
    [|destruct (events (_callbacks s)); simpl_goal_fields; rewrite ?app_nil_r;
      repeat split].
  destruct ((ind_port i =? COMPLIANCE_TESTING_PORT) && negb LORAWAN_COMPLIANCE_TEST);
    cbn [negb andb]; cbv beta iota; simpl_goal_fields;
    [rewrite ?app_nil_r; repeat split|].
  destruct (ind_is_data_recvd i); simpl_goal_fields;
    destruct (events (_callbacks s)) eqn:Ecb; simpl_goal_fields;
    destruct (device_class_t_beq (LoRaMac.get_device_class (_loramac s)) CLASS_C);
    cbn [negb andb orb]; cbv beta iota;
    try destruct (ind_fpending_status i);
    try destruct (mcps_type_t_beq (ind_type i) MCPS_CONFIRMED);
    cbn [negb andb orb]; cbv beta iota; simpl_goal_fields;
    destruct MBED_CONF_LORA_AUTOMATIC_UPLINK_MESSAGE;
    cbn [negb andb orb]; cbv beta iota; simpl_goal_fields;
    try (destruct (_automatic_uplink_ongoing s) eqn:Eup;
         cbn [negb]; cbv beta iota; simpl_goal_fields);
    rewrite ?Ecb; simpl_goal_fields;
    rewrite ?app_nil_r, <- ?app_assoc; repeat split; try reflexivity; try assumption.
Qed.

(** ** Rejoin requests and uplinks *)

(** X20.  Rejoin requests and uplinks.  On an initialised stack with no rejoin
    in progress, [poll_rejoin] schedules at most one rejoin request: of type 1
    when its period has elapsed, else of type 0 when enough receptions have
    been counted.  It then sets REJOIN_IN_PROGRESS, and until the flag is
    cleared a further [poll_rejoin] does nothing and every application send is
    refused with BUSY.  The flag is cleared, and nothing else is done, by
    [post_process_tx_no_reception] when the receive windows of the request
    have closed. *)
Theorem rejoin_blocks_uplinks port data length flags s :
  _device_current_state s <> DEVICE_STATE_NOT_INITIALIZED ->
  data <> None ->
  flag REJOIN_IN_PROGRESS s = false ->
  let now_s := time_t (LoRaMac.get_current_time (_loramac s) / 1000) in
  let type1_due :=
    time_arith (now_s - _rejoin_type1_stamp s) >? _rejoin_type1_send_period s in
  let type0_due :=
    _rejoin_type0_counter s >=? snd (LoRaMac.get_rejoin_parameters (_loramac s)) in
  let s1 := poll_rejoin s in
  _trace s1 =
    _trace s
    ++ (if type1_due then
          [FlagsSet REJOIN_IN_PROGRESS; Post (post_process_rejoin REJOIN_REQUEST_TYPE1 false)]
        else if type0_due then
          [FlagsSet REJOIN_IN_PROGRESS; Post post_process_rejoin_type0]
        else [])
  /\ _loramac s1 = _loramac s
  /\ flag REJOIN_IN_PROGRESS s1 = type1_due || type0_due
  /\ (type1_due || type0_due = true ->
      poll_rejoin s1 = s1
      /\ send port data length flags s1 = (Status LORAWAN_STATUS_BUSY, s1)
      /\ let s2 := post_process_tx_no_reception s1 in
         flag REJOIN_IN_PROGRESS s2 = false
         /\ _loramac s2 = _loramac s1
         /\ _trace s2 = _trace s1 ++ [FlagsClear REJOIN_IN_PROGRESS]).
Proof.
  intros Hinit Hdata Hrejoin now_s type1_due type0_due s1.
  assert (forall t, flag REJOIN_IN_PROGRESS (flags_set REJOIN_IN_PROGRESS t) = true) as Hset
    by (intros t; apply flag_flags_set_same; discriminate).
  assert (_device_current_state s1 = _device_current_state s) as Hstate.
  { subst s1. cbv beta delta [poll_rejoin]. keeps. }
  assert (_trace s1 =
            _trace s
            ++ (if type1_due then
                  [FlagsSet REJOIN_IN_PROGRESS;
                   Post (post_process_rejoin REJOIN_REQUEST_TYPE1 false)]
                else if type0_due then
                  [FlagsSet REJOIN_IN_PROGRESS; Post post_process_rejoin_type0]
                else [])
          /\ _loramac s1 = _loramac s
          /\ flag REJOIN_IN_PROGRESS s1 = type1_due || type0_due) as (Ht & Hm & Hf).
  { subst s1. unfold poll_rejoin. rewrite Hrejoin. cbv beta iota zeta. fold now_s.
    fold type1_due. destruct type1_due.
    - specialize (Hset s). unfold flag, flags_set, emit in *. simpl_goal_fields.
      simpl_fields. rewrite <- app_assoc. repeat split. exact Hset.
    - fold type0_due. destruct type0_due.
      + specialize (Hset (with_rejoin_type0_counter 0 s)).
        unfold flag, flags_set, emit in *. simpl_goal_fields. simpl_fields.
        rewrite <- app_assoc. repeat split. exact Hset.
      + unfold flag in *. simpl_goal_fields. rewrite app_nil_r. repeat split.
        exact Hrejoin. }
  split; [exact Ht|]. split; [exact Hm|]. split; [exact Hf|].
  intros Hdue. rewrite Hdue in Hf. clear Ht Hm Hset.
  assert (_device_current_state s1 <> DEVICE_STATE_NOT_INITIALIZED) as Hinit1
    by (rewrite Hstate; exact Hinit).
  clearbody s1.
  split; [unfold poll_rejoin; rewrite Hf; reflexivity|].
  split.
  { unfold send. rewrite handle_tx_rejoin_in_progress by assumption.
    destruct data; [reflexivity|contradiction]. }
  cbv zeta. unfold post_process_tx_no_reception. rewrite Hf. cbv beta iota zeta.
  unfold state_machine_run_to_completion, device_class.
  assert (flag REJOIN_IN_PROGRESS (flags_clear REJOIN_IN_PROGRESS s1) = false) as Hclear
    by (apply flag_flags_clear_same; cbv; split; congruence).
  destruct (device_class_t_beq _ CLASS_C); rewrite flag_with_state;
    (split; [exact Hclear|]); split; reflexivity.
Qed.

(** ** Repeated transmissions *)

(** X21.  Repetitions of an unconfirmed uplink.  When the MAC reports a QOS
    level above the default that it also reported for the previous uplink,
    and fewer transmissions than that have been counted, the end of an
    unconfirmed uplink queues one more transmission and counts it; the MAC is
    not told that the uplink is over and no event is reported.  This holds
    - at the end of the receive windows with nothing received (no rejoin being
      in progress): TX_DONE_FLAG is set and the state machine runs to
      completion;
    - after a reception: TX_DONE_FLAG is cleared and the state stays. *)
Theorem unconfirmed_uplink_repeated s :
  tx_is_confirmed s = false ->
  LoRaMac.get_QOS_level (_loramac s) > LORAWAN_DEFAULT_QOS ->
  LoRaMac.get_prev_QOS_level (_loramac s) = LoRaMac.get_QOS_level (_loramac s) ->
  _qos_cnt s < LoRaMac.get_QOS_level (_loramac s) ->
  let again := Post (post_state_controller DEVICE_STATE_SCHEDULING) in
  (flag REJOIN_IN_PROGRESS s = false ->
   let s' := post_process_tx_no_reception s in
   _qos_cnt s' = uint8 (_qos_cnt s + 1)
   /\ _loramac s' = _loramac s
   /\ _device_current_state s' =
        (if device_class_t_beq (device_class s) CLASS_C then DEVICE_STATE_RECEIVING
         else DEVICE_STATE_IDLE)
   /\ flag TX_DONE_FLAG s' = true
   /\ _trace s' = _trace s ++ [FlagsSet TX_DONE_FLAG; again])
  /\ (let s' := post_process_tx_with_reception s in
      _qos_cnt s' = uint8 (_qos_cnt s + 1)
      /\ _loramac s' = _loramac s
      /\ _device_current_state s' = _device_current_state s
      /\ flag TX_DONE_FLAG s' = false
      /\ _trace s' = _trace s ++ [FlagsClear TX_DONE_FLAG; again]).
Proof.
  intros Hunconfirmed Hq Hprev Hcnt again.
  apply Z.gt_lt, Z.ltb_lt in Hq. apply Z.ltb_lt in Hcnt. apply Z.eqb_eq in Hprev.
  assert (flag TX_DONE_FLAG (flags_set TX_DONE_FLAG s) = true) as Hset
    by (apply flag_flags_set_same; discriminate).
  assert (flag TX_DONE_FLAG (flags_clear TX_DONE_FLAG s) = false) as Hclear
    by (apply flag_flags_clear_same; cbv; split; congruence).
  split.
  - intros Hrejoin s'. subst s'. unfold post_process_tx_no_reception.
    rewrite Hrejoin, Hunconfirmed. cbv beta iota zeta.
    unfold flags_set, emit in *. simpl_goal_fields.
    rewrite Z.gtb_ltb.
    rewrite Hq, Hprev, Hcnt. cbn [andb]. cbv beta iota.
    unfold state_machine_run_to_completion, device_class. simpl_goal_fields.
    destruct (device_class_t_beq _ CLASS_C); unfold flag in *; simpl_goal_fields;
      simpl_fields; rewrite <- app_assoc; repeat split; exact Hset.
  - intros s'. subst s'. unfold post_process_tx_with_reception.
    rewrite Hunconfirmed. cbv beta iota zeta.
    rewrite Z.gtb_ltb.
    rewrite Hq, Hprev, Hcnt. cbn [andb]. cbv beta iota.
    unfold flags_clear, emit, flag in *. simpl_goal_fields. simpl_fields.
    rewrite <- app_assoc. repeat split. exact Hclear.
Qed.

(** ** Automatic uplinks *)

(** X22.  What becomes of an automatic uplink, the empty confirmed message
    the stack sends on its own account.  On an initialised stack:
    - with a rejoin in progress, or with no active session, it is not sent
      and AUTOMATIC_UPLINK_ERROR is reported; [_automatic_uplink_ongoing]
      stays as it is;
    - with a transmission ongoing in the MAC it is dropped silently and
      [_automatic_uplink_ongoing] is cleared;
    - on a joined device it is accepted on every port, port 0 included, but
      the compliance testing port of a build without compliance test; in the
      state Idle, when the MAC takes the message, the state becomes Sending
      and nothing is reported. *)
Theorem automatic_uplink_outcomes port s :
  _device_current_state s <> DEVICE_STATE_NOT_INITIALIZED ->
  let s' := send_automatic_uplink_message port s in
  let failed st := send_event_to_application AUTOMATIC_UPLINK_ERROR st in
  (flag REJOIN_IN_PROGRESS s = true -> s' = failed s)
  /\ (flag REJOIN_IN_PROGRESS s = false ->
      nothing_to_piggyback s ->
      (active (_lw_session s) = false -> s' = failed s)
      /\ (active (_lw_session s) = true ->
          (LoRaMac.tx_ongoing (_loramac s) = true ->
           s' = with_automatic_uplink_ongoing false s)
          /\ (LoRaMac.tx_ongoing (_loramac s) = false ->
              LoRaMac.nwk_joined (_loramac s) = true ->
              (port = COMPLIANCE_TESTING_PORT ->
               LORAWAN_COMPLIANCE_TEST = false ->
               s' = failed (with_qos_cnt 1 s))
              /\ (port <> COMPLIANCE_TESTING_PORT ->
                  _device_current_state s = DEVICE_STATE_IDLE ->
                  let prepared :=
                    LoRaMac.prepare_ongoing_tx port None 0 MSG_CONFIRMED_FLAG
                      (_num_retry s) (_loramac s) in
                  0 <= fst prepared ->
                  fst (LoRaMac.send_ongoing_tx (snd prepared)) = LORAWAN_STATUS_OK ->
                  _device_current_state s' = DEVICE_STATE_SENDING
                  /\ _app_port s' = port
                  /\ _automatic_uplink_ongoing s' = _automatic_uplink_ongoing s
                  /\ _trace s' =
                       _trace s
                       ++ [Call (MacCall.prepare_ongoing_tx port None 0 MSG_CONFIRMED_FLAG
                                   (_num_retry s) (fst prepared));
                           Call (MacCall.send_ongoing_tx LORAWAN_STATUS_OK);
                           FlagsClear TX_DONE_FLAG;
                           Call (MacCall.set_tx_ongoing true)])))).
Proof.
  intros Hinit s' failed.
  split.
  - intros Hrejoin. subst s'. unfold send_automatic_uplink_message.
    rewrite handle_tx_rejoin_in_progress by assumption. reflexivity.
  - intros Hrejoin Hquiet.
    assert (s' =
            let r := handle_tx port None 0 MSG_CONFIRMED_FLAG true true s in
            match fst r with
            | Status LORAWAN_STATUS_WOULD_BLOCK => with_automatic_uplink_ongoing false (snd r)
            | ret =>
                if ret16_negative ret then failed (snd r) else snd r
            end) as Es by reflexivity.
    rewrite (handle_tx_nothing_to_piggyback port None 0 MSG_CONFIRMED_FLAG true true s
               Hinit (or_introl eq_refl) Hrejoin Hquiet) in Es.
    clearbody s'.
    split; [intros Ha; rewrite Ha in Es; exact Es|].
    intros Ha. rewrite Ha in Es.
    split; [intros Ht; rewrite Ht in Es; exact Es|].
    intros Ht Hj. rewrite Ht, Hj in Es.
    split.
    + intros Hp Hbuild. subst port. unfold is_port_valid in Es. rewrite Hbuild in Es.
      exact Es.
    + intros Hport Hidle prepared Hlen Hsent. subst s'.
      assert (is_port_valid port true = true) as ->.
      { unfold is_port_valid. apply Z.eqb_neq in Hport. rewrite Hport.
        destruct (port =? 0); reflexivity. }
      assert (uplink_flags_valid MSG_CONFIRMED_FLAG = true) as -> by reflexivity.
      cbn [negb]. cbv beta iota zeta.
      pose (st0 := mac_ask
                     (MacCall.prepare_ongoing_tx port None 0 MSG_CONFIRMED_FLAG (_num_retry s))
                     (LoRaMac.prepare_ongoing_tx port None 0 MSG_CONFIRMED_FLAG (_num_retry s))
                     (with_app_port port (with_qos_cnt 1 s))).
      change (state_controller DEVICE_STATE_SCHEDULING _)
        with (process_scheduling_state LORAWAN_STATUS_OK (snd st0)).
      change (fst (mac_ask _ _ _)) with (fst prepared).
      assert (_loramac (snd st0) = snd prepared) as Hmac by reflexivity.
      assert (_trace (snd st0) =
                _trace s ++ [Call (MacCall.prepare_ongoing_tx port None 0 MSG_CONFIRMED_FLAG
                                     (_num_retry s) (fst prepared))]) as Htrace
        by reflexivity.
      assert (_app_port (snd st0) = port) as Happ by reflexivity.
      assert (_automatic_uplink_ongoing (snd st0) = _automatic_uplink_ongoing s) as Hauto
        by reflexivity.
      assert (in_state DEVICE_STATE_IDLE (snd st0) = true) as Hst
        by (apply in_state_true; exact Hidle).
      destruct (process_scheduling_state_result LORAWAN_STATUS_OK (snd st0)) as [_ Hfree].
      clearbody st0. rewrite Hmac in Hfree.
      destruct (Hfree (or_introl Hst)) as [Hok _].
      destruct (Hok Hsent) as (s1 & E & Hs & _ & _ & Hp & _ & Htr).
      rewrite E. cbn [fst snd status_ok lorawan_status_t_beq]. cbv beta iota.
      assert (ret16_negative (Len (fst prepared)) = false) as Hneg
        by (apply Z.ltb_ge; exact Hlen).
      cbv beta iota. rewrite Hneg.
      split; [exact Hs|]. split; [congruence|].
      split.
      { rewrite <- Hauto. clear - E.
        unfold process_scheduling_state in E.
        destruct (negb _ && _); [inversion E; reflexivity|].
        cbv beta zeta in E. destruct (status_ok _); inversion E; reflexivity. }
      rewrite Htr, Htrace, <- app_assoc. reflexivity.
Qed.

End Facts.

(** * The properties on the test double *)

Section Scenarios.

#[local] Existing Instance Stub.ops.
#[local] Existing Instance Stub.config.

(** ** Reading a downlink piece by piece *)

(** C1 (divergence).  [mcps_indication_handler] replaces the buffer, the size
    and [receive_ready] of the inbound message, and leaves the read cursor
    ([pending_size], [prev_read_size]) as it is.  After the application has
    read 10 of the 30 bytes of a downlink, a new downlink of 5 bytes is stored
    with 20 bytes pending from offset 10: the next [receive] returns 10 bytes
    taken from offset 10 of the buffer, none of them part of the new frame,
    and [receive_ready] stays set. *)
Theorem read_cursor_survives_new_downlink :
  let s := Stub.second_arrived in
  let r := receive 10 false 10 MSG_UNCONFIRMED_FLAG s in
  rx_data (fst (receive 10 false 10 MSG_UNCONFIRMED_FLAG Stub.first_arrived))
    = firstn 10 Stub.first_frame
  /\ msg_buffer (_rx_msg s) = Some (Stub.second_frame ++ skipn 5 Stub.first_frame)
  /\ msg_buffer_size (_rx_msg s) = 5
  /\ receive_ready (_rx_msg s) = true
  /\ pending_size (_rx_msg s) = 20
  /\ prev_read_size (_rx_msg s) = 10
  /\ rx_return (fst r) = Len 10
  /\ rx_data (fst r) = firstn 10 (skipn 10 Stub.first_frame)
  /\ receive_ready (_rx_msg (snd r)) = true.
Proof. vm_compute. repeat split. Qed.

Lemma handle_rx_drains_downlink_witness :
  pending_size (_rx_msg Stub.first_arrived) = 0
  /\ concat (map rx_data
               (fst (receive_all 10 MSG_UNCONFIRMED_FLAG [10; 7; 100] Stub.first_arrived)))
     = Stub.first_frame
  /\ map rx_return (fst (receive_all 10 MSG_UNCONFIRMED_FLAG [10; 7; 100] Stub.first_arrived))
     = [Len 10; Len 7; Len 13].
Proof.
  assert (_device_current_state Stub.first_arrived <> DEVICE_STATE_NOT_INITIALIZED) as Hinit
    by (vm_compute; discriminate).
  assert (pending_size (_rx_msg Stub.first_arrived) = 0) as Hpending
    by (vm_compute; reflexivity).
  assert (0 <= msg_buffer_size (_rx_msg Stub.first_arrived) < 32768) as Hsize
    by (vm_compute; split; [discriminate|reflexivity]).
  assert (Z.land MSG_UNCONFIRMED_FLAG
            (Z.land (convert_to_msg_flag (msg_type (_rx_msg Stub.first_arrived)))
                    MSG_FLAG_MASK) <> 0) as Hflags
    by (vm_compute; discriminate).
  assert (Forall (fun len => 0 < len <= 65535) [10; 7; 100]) as Hlens
    by (repeat constructor; discriminate).
  assert ([10; 7; 100] <> []) as Hne by discriminate.
  assert (active (_lw_session Stub.first_arrived) = true) as Hactive
    by (vm_compute; reflexivity).
  assert (receive_ready (_rx_msg Stub.first_arrived) = true) as Hready
    by (vm_compute; reflexivity).
  assert (msg_buffer (_rx_msg Stub.first_arrived) = Some Stub.first_frame) as Hbuffer
    by (vm_compute; reflexivity).
  assert (msg_port (_rx_msg Stub.first_arrived) = 10) as Hport
    by (vm_compute; reflexivity).
  destruct (handle_rx_drains_downlink 10 MSG_UNCONFIRMED_FLAG [10; 7; 100] Stub.first_frame
              Stub.first_arrived Hinit Hactive Hready Hpending Hbuffer Hsize Hport Hflags
              Hlens Hne) as (Hdata & Hreturns & _).
  split; [exact Hpending|]. split; [exact Hdata|exact Hreturns].
Defined.

(** ** Ports *)

Lemma application_port_accepted_witness :
  LORAWAN_COMPLIANCE_TEST = false
  /\ set_application_port 225 false Stub.connected
     = (LORAWAN_STATUS_OK, with_app_port 225 Stub.connected)
  /\ fst (send 225 (Some [7]) 1 MSG_UNCONFIRMED_FLAG Stub.connected) = Len 1.
Proof.
  assert (LORAWAN_COMPLIANCE_TEST = false) as Hbuild by reflexivity.
  split; [exact Hbuild|]. split; [|vm_compute; reflexivity].
  apply (proj1 (application_port_accepted 225 Stub.connected Hbuild ltac:(lia))).
  right. lia.
Defined.

(** ** Class switching *)

Lemma class_switch_at_tx_done_witness :
  exists s1,
    set_device_class CLASS_C Stub.connected = (LORAWAN_STATUS_OK, s1)
    /\ _loramac s1 = _loramac Stub.connected
    /\ _new_class_type s1 = CLASS_C
    /\ _device_mode_ind_needed s1 = true
    /\ _device_mode_ind_ongoing s1 = true.
Proof.
  assert (_device_current_state Stub.connected <> DEVICE_STATE_NOT_INITIALIZED) as Hinit
    by (vm_compute; discriminate).
  assert (device_class Stub.connected <> CLASS_C) as Hclass by (vm_compute; discriminate).
  assert (CLASS_C <> CLASS_B) as HB by discriminate.
  assert (LoRaMac.get_server_type (_loramac Stub.connected) = LW1_1) as Hserver
    by (vm_compute; reflexivity).
  destruct (class_switch_at_tx_done CLASS_C Stub.connected Hinit Hserver HB Hclass)
    as (s1 & E & Hm & _ & Hn & Hneed & Hongoing & _).
  exists s1. repeat split; assumption.
Defined.

(** The class is C and CLASS_CHANGED is queued as soon as the uplink that
    carries the DeviceModeInd has left the radio: nothing has been received
    since the request, and [_device_mode_ind_needed] still holds. *)
Lemma class_changed_before_device_mode_conf :
  device_class Stub.connected = CLASS_A
  /\ device_class Stub.class_c_requested = CLASS_C
  /\ events_of (_trace Stub.class_c_requested)
     = events_of (_trace Stub.connected) ++ [CLASS_CHANGED]
  /\ calls_of (_trace Stub.class_c_requested)
     = calls_of (_trace Stub.connected)
       ++ [MacCall.setup_reset_indication;
           MacCall.setup_device_mode_indication CLASS_C;
           MacCall.prepare_ongoing_tx 10 (Some [7]) 1 1 1 1;
           MacCall.send_ongoing_tx LORAWAN_STATUS_OK;
           MacCall.set_tx_ongoing true;
           MacCall.on_radio_tx_done 0;
           MacCall.set_device_class CLASS_C LORAWAN_STATUS_OK]
  /\ _device_mode_ind_needed Stub.class_c_requested = true.
Proof. vm_compute. repeat split. Qed.

(** ** Rejoin in progress *)

Lemma rejoin_in_progress_gates_witness :
  flag REJOIN_IN_PROGRESS Stub.rejoin_due = true
  /\ send 10 (Some [1]) 1 MSG_UNCONFIRMED_FLAG Stub.rejoin_due
     = (Status LORAWAN_STATUS_BUSY, Stub.rejoin_due)
  /\ flag REJOIN_IN_PROGRESS (process_reception 0 [] 0 0 0 Stub.rejoin_due) = false.
Proof.
  assert (_device_current_state Stub.rejoin_due <> DEVICE_STATE_NOT_INITIALIZED) as Hinit
    by (vm_compute; discriminate).
  assert (flag REJOIN_IN_PROGRESS Stub.rejoin_due = true) as Hflag
    by (vm_compute; reflexivity).
  pose proof (rejoin_in_progress_gates 10 (Some [1]) 1 MSG_UNCONFIRMED_FLAG 0 [] 0 0 0
                Stub.rejoin_due Hinit Hflag) as (Hsend & Hrecv & _).
  assert (LoRaMac.nwk_joined (_loramac Stub.rejoin_due) = true) as Hjoined
    by (vm_compute; reflexivity).
  split; [exact Hflag|]. split; [exact Hsend|].
  exact (proj1 (Hrecv Hjoined)).
Defined.

(** With the flag set, a send with a NULL data pointer returns
    PARAMETER_INVALID, and the reception of the JoinAccept that answers the
    rejoin request queues CONNECTED for the application. *)
Lemma rejoin_in_progress_counterexample :
  flag REJOIN_IN_PROGRESS Stub.rejoin_due = true
  /\ fst (send 10 None 0 MSG_UNCONFIRMED_FLAG Stub.rejoin_due)
     = Status LORAWAN_STATUS_PARAMETER_INVALID
  /\ events_of (_trace Stub.rejoin_answered)
     = events_of (_trace Stub.rejoin_due) ++ [CONNECTED].
Proof. vm_compute. repeat split. Qed.

(** ** Retries *)


(** In slot RX1, with no retry left for a confirmed uplink,
    [post_process_tx_no_reception] sets RETRY_EXHAUSTED_FLAG all the same,
    whereas [process_reception_timeout] does not run it. *)
Lemma retry_exhausted_in_rx1 :
  LoRaMac.get_current_slot (_loramac Stub.awaiting_ack) = RX_SLOT_WIN_1
  /\ tx_is_confirmed Stub.awaiting_ack = true
  /\ fst (LoRaMac.continue_sending_process (_loramac Stub.awaiting_ack)) = false
  /\ _ctrl_flags Stub.awaiting_ack = CONNECTED_FLAG
  /\ _ctrl_flags (post_process_tx_no_reception Stub.awaiting_ack)
       = Z.lor CONNECTED_FLAG RETRY_EXHAUSTED_FLAG
  /\ flag RETRY_EXHAUSTED_FLAG (post_process_tx_no_reception Stub.awaiting_ack) = true
  /\ _ctrl_flags (process_reception_timeout true Stub.awaiting_ack) = CONNECTED_FLAG.
Proof. vm_compute. repeat split. Qed.

(** ** Shutdown *)

Lemma shutdown_then_connect_witness :
  exists s',
    disconnect Stub.connected = (LORAWAN_STATUS_DEVICE_OFF, s')
    /\ _ctrl_flags s' = 0
    /\ active (_lw_session s') = false
    /\ _device_current_state s' = DEVICE_STATE_SHUTDOWN
    /\ events_of (_trace s') = events_of (_trace Stub.connected) ++ [DISCONNECTED]
    /\ _device_current_state (snd (connect s')) = DEVICE_STATE_IDLE
    /\ active (_lw_session (snd (connect s'))) = true
    /\ events_of (_trace (snd (connect s')))
         = events_of (_trace Stub.connected) ++ [DISCONNECTED; CONNECTED].
Proof.
  assert (_device_current_state Stub.connected <> DEVICE_STATE_NOT_INITIALIZED) as Hinit
    by (vm_compute; discriminate).
  destruct (shutdown_then_connect Stub.connected Hinit)
    as (s' & E & Hflags & Hactive & Hstate & _ & Hevents & Hconnect).
  exists s'. split; [exact E|]. split; [exact Hflags|]. split; [exact Hactive|].
  split; [exact Hstate|].
  assert (events (_callbacks Stub.connected) = true) as Hcb by (vm_compute; reflexivity).
  rewrite Hcb in Hevents, Hconnect.
  split; [exact Hevents|].
  assert (s' = snd (disconnect Stub.connected)) as Hs' by (rewrite E; reflexivity).
  assert (fst (LoRaMac.prepare_join None MBED_CONF_LORA_OVER_THE_AIR_ACTIVATION (_loramac s'))
          = LORAWAN_STATUS_OK) as Hprep by (rewrite Hs'; vm_compute; reflexivity).
  destruct (Hconnect Hprep) as (_ & Hidle & Hact & _ & Hev).
  split; [exact Hidle|]. split; [exact Hact|].
  rewrite Hev, Hevents, <- app_assoc. reflexivity.
Defined.

(** No re-initialisation is needed after a shutdown: [connect] is accepted,
    and the stack sends again. *)
Lemma reconnect_without_initialize :
  fst (disconnect Stub.connected) = LORAWAN_STATUS_DEVICE_OFF
  /\ _device_current_state (snd (disconnect Stub.connected)) = DEVICE_STATE_SHUTDOWN
  /\ fst (connect (snd (disconnect Stub.connected))) = LORAWAN_STATUS_OK
  /\ _device_current_state Stub.reconnected = DEVICE_STATE_IDLE
  /\ active (_lw_session Stub.reconnected) = true
  /\ calls_of (_trace Stub.reconnected)
     = calls_of (_trace Stub.connected)
       ++ [MacCall.remove_channel_plan LORAWAN_STATUS_OK;
           MacCall.disconnect;
           MacCall.prepare_join None false LORAWAN_STATUS_OK;
           MacCall.join false LORAWAN_STATUS_OK]
  /\ events_of (_trace Stub.reconnected)
     = events_of (_trace Stub.connected) ++ [DISCONNECTED; CONNECTED]
  /\ fst (send 10 (Some [7]) 1 MSG_UNCONFIRMED_FLAG Stub.reconnected) = Len 1.
Proof. vm_compute. repeat split. Qed.

(** ** Forced rejoin *)

(** C7 (divergence).  [_forced_counter] is compared with [_forced_retry_count]
    and never incremented.  After a ForceRejoinReq with one retry
    ([_forced_retry_count] is 2) every expiry of the forced-rejoin timer sends
    a rejoin request and arms the timer again: after [n] expiries the MAC has
    been asked for [n + 1] rejoin requests. *)
Theorem forced_rejoin_attempts_unbounded (n : nat) :
  max_retries Stub.force_rejoin_req = 1
  /\ _forced_retry_count Stub.rejoin_forced = 2
  /\ _forced_counter Stub.rejoin_forced = 0
  /\ rejoin_attempts (_trace Stub.rejoin_forced) = 1%nat
  /\ rejoin_attempts
       (_trace (run (repeat run_forced_timer_expiry n) Stub.rejoin_forced)) = S n.
Proof.
  do 4 (split; [vm_compute; reflexivity|]).
  rewrite (forced_timer_expiries_rearm n Stub.rejoin_forced).
  - vm_compute. reflexivity.
  - intros m rejoin_type is_forced datarate ev ms. repeat split.
  - vm_compute. reflexivity.
  - vm_compute. reflexivity.
Qed.

Lemma mlme_confirm_force_rejoin_witness :
  exists s' j,
    mlme_confirm_handler 7 Stub.force_rejoin_req Stub.connected = s'
    /\ 0 <= j <= 32
    /\ _forced_period s' = (32 + j) * 1000
    /\ _forced_retry_count s' = 2
    /\ _forced_rejoin_type s' = 2.
Proof.
  assert (rejoin_keeps_server_type Stub.t) as Hkeep by (intros m ty f d ev ms; repeat split).
  assert (LoRaMac.get_server_type (_loramac Stub.connected) = LW1_1) as Hserver
    by (vm_compute; reflexivity).
  assert (rejoin_type Stub.force_rejoin_req <= REJOIN_REQUEST_TYPE2) as Hty
    by (vm_compute; discriminate).
  assert (0 <= period Stub.force_rejoin_req <= 7) as Hperiod
    by (vm_compute; split; discriminate).
  destruct (mlme_confirm_force_rejoin 7 Stub.force_rejoin_req Stub.connected Hkeep eq_refl
              Hty Hserver ltac:(lia) Hperiod)
    as (s' & E & _ & _ & (j & Hj & Hp) & Hcount & Htype & _).
  exists s', j. split; [exact E|]. split; [exact Hj|]. split; [exact Hp|].
  split; [exact Hcount|exact Htype].
Defined.

(** ** System time *)

Lemma set_system_time_utc_spec_witness :
  get_current_gps_time Stub.clock_synchronised = 1234567890500
  /\ set_system_time_utc 37 0 Stub.clock_synchronised
     = (LORAWAN_STATUS_OK, Some 1550532709).
Proof.
  split; [vm_compute; reflexivity|].
  assert (32 <= lorawan_time_bits) as Hbits by (vm_compute; discriminate).
  assert (get_current_gps_time Stub.clock_synchronised > 0) as Hgps
    by (vm_compute; reflexivity).
  assert (now_fits : 0 + UNIX_GPS_EPOCH_DIFF + (37 - 19)
            + round_to_nearest_second (get_current_gps_time Stub.clock_synchronised)
            < 2 ^ 32) by (vm_compute; reflexivity).
  exact (proj1 (proj2 (set_system_time_utc_spec 37 0 Stub.clock_synchronised Hbits)
                  Hgps ltac:(lia) ltac:(lia) now_fits)).
Defined.

(** ** Metadata *)


(** ** Entry points *)

Lemma entry_points_need_initialize_witness :
  connect (LoRaWANStack_new Stub.mac0)
    = (LORAWAN_STATUS_NOT_INITIALIZED, LoRaWANStack_new Stub.mac0)
  /\ acquire_tx_metadata (LoRaWANStack_new Stub.mac0)
     = (LORAWAN_STATUS_NOT_INITIALIZED, None, LoRaWANStack_new Stub.mac0).
Proof.
  destruct (entry_points_need_initialize (LoRaWANStack_new Stub.mac0) eq_refl)
    as (Hconnect & _ & _ & _ & _ & _ & Hmetadata & _).
  split; [exact Hconnect|exact Hmetadata].
Defined.

Lemma connect_twice_witness :
  flag CONNECTED_FLAG Stub.connected = true
  /\ connect Stub.connected = (LORAWAN_STATUS_ALREADY_CONNECTED, Stub.connected).
Proof.
  assert (_device_current_state Stub.connected <> DEVICE_STATE_NOT_INITIALIZED) as Hinit
    by (vm_compute; discriminate).
  assert (flag CONN_IN_PROGRESS_FLAG Stub.connected = false) as Hprogress
    by (vm_compute; reflexivity).
  assert (flag CONNECTED_FLAG Stub.connected = true) as Hconnected
    by (vm_compute; reflexivity).
  split; [exact Hconnected|].
  exact (proj2 (connect_twice Stub.connected Hinit) Hprogress Hconnected).
Defined.

(** ** Reading with no message pending *)

Lemma handle_rx_without_message_witness :
  receive_ready (_rx_msg Stub.connected) = false
  /\ receive 10 true 0 MSG_UNCONFIRMED_FLAG Stub.connected
     = ({| rx_return := Status LORAWAN_STATUS_WOULD_BLOCK; rx_data := [];
           rx_port_out := 10; rx_flags_out := MSG_UNCONFIRMED_FLAG |}, Stub.connected).
Proof.
  split; [vm_compute; reflexivity|].
  apply (handle_rx_without_message true 0 10 MSG_UNCONFIRMED_FLAG true Stub.connected).
  - vm_compute. discriminate.
  - vm_compute. reflexivity.
  - vm_compute. reflexivity.
Defined.

End Scenarios.
